(* ===== verification/_CoqProject ===== *)
-Q . S2P
Prelude.v
GoTime.v
Float64.v
Sha256.v
GoStrings.v
Rfc3339.v
Base64.v
Json.v
Api.v
Platform.v
Recon.v
Sim.v
ServiceAccount.v
Kubeconfig.v
TokenTiming.v
TokenRenewal.v
Metrics.v
Connection.v
ClusterChecks.v
License.v
Startup.v
AutoPause.v
AutoPauseRuns.v
SimCron.v
ScheduleLoop.v
Reconciler.v
Calls.v
AutoPauseSpec.v
ReconcilerSpec.v
WellFormed.v
System.v
TokenRuns.v
StatusSpec.v
Rounds.v
RoundSpec.v
Outage.v
WindowRuns.v
PushRuns.v
TokenRounds.v
AgentRuns.v
Isolation.v
Settle.v
