(* ===== verification/Prelude.v ===== *)
(** * sveltoscluster-manager: a verification development

    The program is a Kubernetes controller. For every SveltosCluster it checks
    that the managed cluster can be reached (or, for a cluster managed in pull
    mode, that the agent in it still reports), runs the readiness and liveness
    checks of its Spec, renews the token of its kubeconfig, pauses and unpauses
    it according to its active window, relays the Sveltos license to its agent,
    exports metrics and events, and releases it when it is deleted. A second,
    small controller keeps the Status of the SveltosLicense.

    This file is the root of the library: the conventions every other file
    uses. This comment describes all of them.

    ** The shape of the model

    The model is a shallow embedding: one definition per Go function, under the
    name it has in the source, with the guards in the order the source has them.

    - An error is a value: its message, and the kind that [IsNotFound] and its
      like can see. [result A] is a Go pair [(A, error)]; [option error] is a
      function that returns an error only.
    - Effects are a state monad [St S A := S -> A * S] (below). What lies
      outside of the process is a world [W] that is an argument of everything;
      [Recon W] (Recon.v) adds what a reconciliation shares by pointer: the
      SveltosCluster of the scope, the metrics, the calls made to the event
      recorder. The Go helpers all mutate this one object, so a change made
      before an early return stays, as it does in the source.
      [outside] runs a call to the world inside a reconciliation.
    - Third-party code is an interface: one type class per dependency in
      Platform.v (cron, the clock, client-go, the controller-runtime client,
      finalizers, yaml, semver, CEL, Lua, libsveltos), in Recon.v ([Gauge]) and in
      Startup.v ([Runtime]). The definitions use the operations; a theorem that
      needs documented behaviour of one says so, as a hypothesis or as a class of
      laws ([FinalizerLaws], [GaugeLaws]). Sim.v and SimCron.v are small instances
      of all of them, on which the witnesses compute.
    - The Go language and its standard library are modelled, not assumed:
      64-bit integers wrap around, durations are int64 nanoseconds, float64 is
      rounded, and [time], [strings], [strconv], [fmt], [encoding/base64],
      [encoding/json] and [crypto/sha256] are executable definitions.

    ** The files

    Foundations:
    - Prelude.v: errors, the state monad, record update, list lemmas.
    - GoTime.v: [wrap64], [Duration], [Time], [Time_Sub] with its saturation,
      [Before], [After], [Truncate].
    - Float64.v: finite doubles as multiples of [2 ^ -1074], with rounding to
      nearest, and [Duration.Seconds].
    - Sha256.v, GoStrings.v, Rfc3339.v, Base64.v, Json.v: the library
      packages; each carries its round trip ([Split_Join], [Parse_Format],
      [DecodeString_EncodeToString], [Unmarshal_object_text]).
    - Api.v: the structs of the API. Platform.v: the interfaces.
      Recon.v: the state. Sim.v, SimCron.v: the concrete instances.

    Components, all of controllers/ unless another directory is named:
    - AutoPause.v: [handleAutomaticPauseUnPause], [getNextScheduleTime] and the
      window's hash (sveltoscluster_controller.go). AutoPauseRuns.v: series of
      calls. AutoPauseSpec.v: the properties. ScheduleLoop.v: the counting loop of
      [getNextScheduleTime] as it runs, a step at a time.
    - ServiceAccount.v: [ParseServiceAccountUsername], [whoami],
      [getServiceAccountDetails].
    - Kubeconfig.v: [getKubeconfigFromToken] with its template,
      [getKubeconfigKey], [getPullModeManagementClusterEndpoint].
    - TokenTiming.v: [shouldRenewTokenRequest], [getTokenExpiration],
      [getEffectiveTokenDurationInSecond], [adjustTokenRequestRenewalOption].
    - TokenRenewal.v: [handleTokenRequestRenewal] (push mode),
      [handlePullModeTokenRequestRenewal], the end of the pull-mode tracking. The
      body of the Go loop over the contexts is [renewContext], the loop
      [renewContexts].
    - Metrics.v (metrics.go), Connection.v ([updateConnectionStatus] and
      events.go), ClusterChecks.v (cluster_checks.go).
    - License.v: [updateLicenseAnnotations] and the SveltosLicense controller
      (sveltoslicense_controller.go).
    - Reconciler.v: [Reconcile], [reconcileDelete], [reconcileNormal],
      [reconcilePullModeCluster], the scope (pkg/scope/), the predicates
      (sveltoscluster_predicate.go). [renew_if_due], [record_version],
      [check_cluster], [check_heartbeat] and [update_finalizer] are stretches of
      those functions under names of their own. ReconcilerSpec.v and StatusSpec.v:
      the properties of one reconciliation.
    - Startup.v: [main], its flags and diagnostics options (cmd/main.go),
      [InitScheme], the two [SetupWithManager].

    Reconciliations over time, and the API server:
    - Calls.v: what the calls to the world do to it, lifted to every function between
      reading and persisting the cluster ([reads_along], [calls_along],
      [moves_normal]).
    - WellFormed.v: the invariant of a Status, and that every function keeps it.
    - System.v: the stored object, changed by [Reconcile] and by others, as a
      transition system ([sys_step]), and what holds in its reachable states.
    - Rounds.v: an API server that answers ([serves]), and reconciliations in a row.
      RoundSpec.v: the release of a deleted cluster and the relay of the license, from
      stored object to stored object. WindowRuns.v and Outage.v: what a series of
      reconciliations makes of the window and of the connection. Settle.v: that one
      reconciliation does not cause the next.
    - TokenRuns.v and PushRuns.v: the token through a reconciliation of a pull-mode and
      of a push-mode cluster. TokenRounds.v: whole reconciliations, from what one stores
      to what the next one reads, and series of them in push mode. AgentRuns.v: the same
      in pull mode, where the agent fetches a kubeconfig some time after it was
      committed.
    - Isolation.v: that the reconciliations of one cluster report of no other.

    ** The components together

    [Reconcile] reads the cluster and returns early when it is gone, when the
    shard is another reconciler's, or when the patch helper cannot be had.
    Otherwise it makes a scope, runs [reconcileDelete] or [reconcileNormal] on it,
    and its deferred [Close] patches the cluster. [reconcileNormal] sets the
    finalizer, runs the pull-mode or the push-mode branch, and last (a deferred
    call) the active window, at the time read when the call was deferred. A push-mode
    reconciliation gets a configuration and the cluster's version, renews the token
    when it is due, runs the checks ([check_cluster]), and last turns
    Status.FailureMessage into the connection status, events and metrics. A
    pull-mode one relays the license, renews the kubeconfig when it is due, and
    judges the agent by its last heartbeat.

    ** What the theorems show

    - The active window (AutoPauseSpec.v, WindowRuns.v). [stored_paused_outside_window]
      refines the program to its specification, "the stored cluster is paused exactly
      outside of the window", over any series of reconciliations that read it from the
      API server and persist it; [getNextScheduleTime_next_activation] and the lemmas
      [stored_window_decides_paused] and [changed_window_is_recomputed] give single
      steps. [schedule_loop_terminates] shows that no
      schedule can make the counting loop hang, and that the loop and its recursive
      model agree. Three theorems state where code and meaning part: a window first
      seen open, a cluster with more than 100 missed activations, and two windows with
      the same concatenation.
    - The API server (System.v, RoundSpec.v, Outage.v, Settle.v).
      [stored_status_well_formed] and [held_until_grace_period] are invariants of the
      states that reconciliations and the changes of others can reach in any order, with
      calls that return anything, patches that fail half-way, and changes of the object
      at any call of a reconciliation. With a server that answers and nobody else at
      work on the object, [deleted_cluster_is_released] and [agent_gets_license] say what
      one reconciliation stores, [unreachable_cluster_goes_down] what a series of
      failures makes of the stored connection status, and [reconciliation_settles] that
      a reconciliation with nothing due leaves the stored Spec, so that the predicate on
      updates does not call for another.
    - Tokens (TokenTiming.v, TokenRenewal.v, TokenRuns.v, PushRuns.v, TokenRounds.v,
      AgentRuns.v). [pull_token_never_expires] and [push_token_never_expires] are the
      guarantee end to end: over any series of reconciliations of a pull-mode cluster
      that read it from the API server and persist it, in an environment that answers
      ([answering]), the token its agent holds does not expire, although the agent
      ([agent]) fetches what was committed for it only some minutes later, and only from
      its own bundle; and the same of a push-mode cluster ([push_answering]) and the token
      in its Secret. Both need an option that leaves a margin ([has_margin]). They rest on
      [in_time], an invariant of the interval and
      the recorded renewal through the RFC 3339 text in the Status, the wrap-around
      of durations and the rounding of float64, as [renewal_due_before_expiration]
      does. [renewal_threshold] gives the exact instant, [pull_renewal_outcome] and
      [push_renewal_backed] say what a recorded renewal guarantees: in push mode, that the
      very token that was requested is in the cluster's Secret;
      [token_expiration_roundtrip], [kubeconfig_complete] and
      [ParseServiceAccountUsername_spec] cover the formats. Three theorems state
      deviations: short tokens, renewals that fail half-way, silent failures; two
      lemmas others, [adjustment_may_lengthen_interval] and
      [context_without_namespace_blocks].
    - Connection (Connection.v). Over any history of outcomes the failure counter
      is the number of failures at its end, the cluster is down from the threshold
      on, and events alternate.
    - Metrics (Metrics.v), checks (ClusterChecks.v), licenses (License.v): functional
      behaviour on every branch, when a license is looked at again ([license_requeue]), and that
      the relay's look for differences before it writes changes nothing
      ([relay_as_unconditional]). [reconciliations_are_isolated] (Isolation.v): rows and
      events of a cluster come from its own reconciliations only.
    - The whole reconciler (ReconcilerSpec.v, StatusSpec.v): frame
      ([reconcile_leaves_to_others]), the Status on every branch of the push mode
      ([push_status]) and of the heartbeat ([heartbeat_decides]), the finalizer,
      persistence, agreement of metrics and Status.
    - Startup (Startup.v): [main] returns exactly when everything was set up with the
      flags and the namespace it was given and the manager ended without error.

    Theorems with hypotheses are followed by a [_witness] that applies them to a
    concrete input.

    ** Bounds and fuel

    - [countMissedStarts] has fuel 100: the limit of the source's own loop, which
      [loop_step] writes out without fuel; it ends within 101 steps.
    - [stored_status_well_formed] bounds the number of steps by [2 ^ 63], and
      [unreachable_cluster_goes_down] the failures: beyond that the int64 counter wraps
      around.
    - [digits_go] prints 20 digits: enough for a 64-bit integer.
    - [SplitN] is called by [Split] with the length of the string plus two: more
      pieces than a string has.
    - [parse_value] has fuel 10000: the nesting depth at which Go's decoder itself
      gives up. Inside a value, strings and lists of items have the length of the
      text plus one, and every step consumes a character.
    - Theorems on renewal times bound durations by [2 ^ 62] nanoseconds (146 years);
      what happens beyond is in the definitions (they wrap), not in those theorems.

    ** Not modelled

    - Logging, and the [init] registration of the metrics.
    - The code behind the interfaces: libsveltos, client-go, controller-runtime,
      prometheus, cel-go, gopher-lua. In particular the work queue: reconciliations
      of one cluster are serialised by controller-runtime, so a reconciliation is
      one run of [Reconcile]. The API server is an assumption where it appears:
      [api_server] (System.v) says that [Get] reads the object, that [Patch] writes what
      became of the copy, field by field, wholly or, when it fails, in part, and that no
      other call writes the object. At any of these calls others may have changed it
      ([edited]: of the Status they write only Ready, the version, the failure message and
      the agent's report); [others] says what they may do between reconciliations. That the object
      is deleted for good and made anew under the same name while a reconciliation runs,
      and that the server may refuse a Patch because of such a change, is left out.
      [serves] (Rounds.v) is narrower: calls succeed, and nobody else changes the object
      during a reconciliation. Of the agent (sveltos-applier) only [agent] (AgentRuns.v) is
      assumed: that it fetches what was committed for it within a given time.
    - The test environment (internal/test/helpers/) and build tools (hack/tools/).
    - Bytes above 127 in [%q], and replacement of invalid UTF-8 by the JSON decoder;
      neither can make one ASCII text into another. Infinities and NaN: the
      program's arithmetic cannot produce them.
    - The messages of the errors of [getTokenExpiration] that wrap those of the
      decoders: no caller compares them. *)

From Stdlib Require Export ZArith Lia.
From Stdlib Require Ascii String.
Export (notations) Ascii.
From stdpp Require Export base tactics option list gmap strings countable.
From stdpp Require Import options.

#[global] Open Scope Z_scope.
#[global] Arguments String.append : simpl nomatch.

(** ** Errors as values

    A Go [error] is its message and what the [IsNotFound]-style predicates of
    the callers can see of it; [fmt.Errorf] with [%w] keeps the latter. *)

Inductive error_kind :=
  | ErrNotFound
  | ErrNoMatch
  | ErrOther.

Record error := mkError {
  Error : string;
  error_class : error_kind
}.

#[export] Instance error_kind_eq_dec : EqDecision error_kind.
Proof. solve_decision. Defined.
#[export] Instance error_eq_dec : EqDecision error.
Proof. solve_decision. Defined.

Definition errors_New (msg : string) : error := mkError msg ErrOther.

(** [fmt.Errorf(prefix + "%w", err)] *)
Definition Errorf_w (prefix : string) (err : error) : error :=
  mkError (prefix +:+ Error err) (error_class err).

Definition apierrors_IsNotFound (err : error) : bool :=
  bool_decide (error_class err = ErrNotFound).

Definition meta_IsNoMatchError (err : error) : bool :=
  bool_decide (error_class err = ErrNoMatch).

Inductive result (A : Type) : Type :=
  | Ok (a : A)
  | Err (e : error).
Arguments Ok {A} a.
Arguments Err {A} e.

#[export] Instance result_eq_dec {A} `{EqDecision A} : EqDecision (result A).
Proof. solve_decision. Defined.

Definition is_Ok {A} (r : result A) : bool :=
  match r with Ok _ => true | Err _ => false end.

(** A Go slice or map value: [None] is [nil]. Ranging over [nil] is ranging
    over the empty slice. *)
Definition Slice (A : Type) : Type := option (list A).

Definition elems {A} (s : Slice A) : list A := default [] s.

(** ** State-passing code

    [St S A] is code that reads and changes a state [S] and returns an [A];
    [x ← m; k] sequences it. *)

Definition St (S A : Type) : Type := S → A * S.

#[export] Instance St_ret S : MRet (St S) := λ A a s, (a, s).
#[export] Instance St_bind S : MBind (St S) :=
  λ A B f m s, let '(a, s') := m s in f a s'.

Definition modify {S} (f : S → S) : St S () := λ s, ((), f s).
Definition gets {S A} (f : S → A) : St S A := λ s, (f s, s).

(** ** Record update

    [r <| f := v |>] changes the field [f] of the record [r]; paths are
    written [r <| f ; g := v |>]. A record type declares how it is rebuilt
    from its fields ([Eta]) and the update of each field is derived. *)

Class Eta (R : Type) := eta : R → R.

Class Update {R A} (proj : R → A) := update : (A → A) → R → R.
Arguments update {R A} proj {_} _ _.
#[global] Hint Mode Update ! ! ! : typeclass_instances.

Ltac derive_update :=
  lazymatch goal with
  | |- @Update ?R ?A ?p =>
    let e := constr:(_ : Eta R) in
    let upd := constr:(fun (the_change : A → A) (the_record : R) =>
      ltac:(
        let body := eval red in (e the_record) in
        let body := eval cbv beta in body in
        lazymatch eval pattern (p the_record) in body with
        | ?h _ => let t := eval cbv beta in (h (the_change (p the_record))) in exact t
        end)) in
    exact upd
  end.

#[export] Hint Extern 1 (Update _) => derive_update : typeclass_instances.

Declare Scope record_scope.
Delimit Scope record_scope with record.
#[global] Open Scope record_scope.

#[warnings="-postfix-notation-not-level-1"]
Notation "r <| f := v |>" := (update f (λ _, v) r)
  (at level 12, f at level 9, left associativity,
   format "r  <| f  :=  v |>") : record_scope.
#[warnings="-postfix-notation-not-level-1"]
Notation "r <| f ; g := v |>" := (update f (update g (λ _, v)) r)
  (at level 12, f at level 9, g at level 9, left associativity,
   format "r  <| f ;  g  :=  v |>") : record_scope.
