(* ===== verification/GoTime.v ===== *)
(** * Go integers, [time.Duration] and [time.Time]

    The part of the Go language and of package [time] the program computes
    with: 64-bit wrap-around, durations in nanoseconds, instants as
    nanoseconds since the Unix epoch. *)

From S2P Require Import Prelude.

(** ** int64 *)

Definition int64_min : Z := - 2 ^ 63.
Definition int64_max : Z := 2 ^ 63 - 1.

(** Two's complement wrap-around of an exact result. *)
Definition wrap64 (z : Z) : Z := (z + 2 ^ 63) mod 2 ^ 64 - 2 ^ 63.

Definition in_int64 (z : Z) : Prop := int64_min ≤ z ≤ int64_max.

Lemma wrap64_id z : in_int64 z → wrap64 z = z.
Proof. unfold in_int64, wrap64, int64_min, int64_max. intros H. rewrite Z.mod_small; lia. Qed.

(** ** time.Duration: nanoseconds in an int64 *)

Definition Duration : Type := Z.

Definition Second : Duration := 10 ^ 9.
Definition Millisecond : Duration := 10 ^ 6.
Definition Minute : Duration := 60 * 10 ^ 9.
Definition Hour : Duration := 3600 * 10 ^ 9.

Definition dur_sub (a b : Duration) : Duration := wrap64 (a - b).
Definition dur_mul (a b : Duration) : Duration := wrap64 (a * b).

(** ** time.Time

    Only the instant matters to this program: locations change how a time
    prints, and monotonic readings play no role in comparisons with the
    wall-clock times that come from the API server. *)

Definition Time : Type := Z.

(** January 1, year 1, 00:00:00 UTC. *)
Definition zero_Time : Time := -62135596800 * 10 ^ 9.

Definition IsZero (t : Time) : bool := t =? zero_Time.

(** [metav1.Time.IsZero] on a pointer, where [nil] is zero too. *)
Definition IsZero_ptr (t : option Time) : bool :=
  match t with None => true | Some t => IsZero t end.

Definition Before (t u : Time) : bool := t <? u.
Definition After (t u : Time) : bool := u <? t.

Definition Time_Add (t : Time) (d : Duration) : Time := t + d.

(** [t.Sub(u)] saturates at the bounds of a Duration. *)
Definition Time_Sub (t u : Time) : Duration :=
  Z.max int64_min (Z.min int64_max (t - u)).

(** [time.Unix(sec, 0)] and [t.Unix()]. *)
Definition Time_of_Unix (sec : Z) : Time := sec * 10 ^ 9.
Definition Time_Unix (t : Time) : Z := t / 10 ^ 9.

Lemma Time_Sub_exact t u : in_int64 (t - u) → Time_Sub t u = t - u.
Proof. unfold Time_Sub, in_int64. lia. Qed.

Lemma Before_true t u : Before t u = true ↔ t < u.
Proof. apply Z.ltb_lt. Qed.
Lemma Before_false t u : Before t u = false ↔ u ≤ t.
Proof. apply Z.ltb_ge. Qed.
Lemma After_true t u : After t u = true ↔ u < t.
Proof. apply Z.ltb_lt. Qed.
Lemma After_false t u : After t u = false ↔ t ≤ u.
Proof. apply Z.ltb_ge. Qed.

(** [time_cases] replaces boolean comparisons of times in the hypotheses by
    inequalities on which [lia] works. *)
Ltac time_cases :=
  repeat match goal with
  | H : Before _ _ = true |- _ => apply Before_true in H
  | H : Before _ _ = false |- _ => apply Before_false in H
  | H : After _ _ = true |- _ => apply After_true in H
  | H : After _ _ = false |- _ => apply After_false in H
  end.

(** [time_goal] decides a comparison of times in the goal from inequalities. *)
Ltac time_goal :=
  repeat match goal with
  | |- context [Before ?a ?b] =>
    first [ rewrite (proj2 (Before_true a b)) by lia
          | rewrite (proj2 (Before_false a b)) by lia ]
  | |- context [After ?a ?b] =>
    first [ rewrite (proj2 (After_true a b)) by lia
          | rewrite (proj2 (After_false a b)) by lia ]
  end.
