(* ===== verification/Float64.v ===== *)
(** * float64

    Go's [float64], for the durations the program measures in seconds. Every
    finite double is an integer multiple of [2 ^ -1074]; [float64] is that
    integer, and an operation is the exact result rounded to 53 significant
    bits, to nearest, ties to even (subnormal numbers included). Infinities,
    NaN and the sign of zero do not occur: the program adds, subtracts,
    divides by [1e9] and compares values below [2 ^ 64]. *)

From S2P Require Import Prelude GoTime.

Definition float64 : Type := Z.

(** The number 1. *)
Definition one : float64 := 2 ^ 1074.

(** The integer nearest to [n / d], for [0 < d]. *)
Definition nearest (n d : Z) : Z :=
  let q := n / d in
  let r := n mod d in
  if 2 * r <? d then q
  else if d <? 2 * r then q + 1
  else if Z.even q then q else q + 1.

(** The spacing of doubles around a number whose integer part is [q]. *)
Definition spacing (q : Z) : Z := 2 ^ Z.max 0 (Z.log2 (Z.abs q) - 52).

(** [n / d] rounded to a double, for [0 < d]. *)
Definition fl (n d : Z) : float64 :=
  let g := spacing (Z.quot n d) in g * nearest n (d * g).

Definition float64_of_int (z : Z) : float64 := fl (z * one) 1.
Definition float64_add (x y : float64) : float64 := fl (x + y) 1.
Definition float64_sub (x y : float64) : float64 := fl (x - y) 1.
Definition float64_div (x y : float64) : float64 := fl (x * one * Z.sgn y) (Z.abs y).
Definition float64_gt (x y : float64) : bool := y <? x.

(** [int64(x)]: truncation. The language leaves a value out of range to the
    implementation; this is what amd64 gives. *)
Definition int64_of_float64 (x : float64) : Z :=
  let t := Z.quot x one in
  if (int64_min <=? t) && (t <=? int64_max) then t else int64_min.

(** [d.Seconds()] *)
Definition Seconds (d : Duration) : float64 :=
  float64_add (float64_of_int (Z.quot d Second))
              (float64_div (float64_of_int (Z.rem d Second)) (float64_of_int (10 ^ 9))).

(** ** Rounding stays between integers *)

Lemma one_pos : 0 < one.
Proof. unfold one. lia. Qed.

#[global] Opaque one.

Lemma nearest_bounds n d a b :
  0 < d → a * d ≤ n ≤ b * d → a ≤ nearest n d ≤ b.
Proof.
  intros Hd [Ha Hb]. unfold nearest.
  pose proof (Z.div_mod n d ltac:(lia)) as Hn. pose proof (Z.mod_pos_bound n d Hd).
  assert (a ≤ n / d) by (apply Z.div_le_lower_bound; lia).
  assert (n / d ≤ b) by (apply Z.div_le_upper_bound; lia).
  assert (n mod d ≠ 0 → n / d + 1 ≤ b) by nia.
  repeat case_match; lia.
Qed.

(** Below [2 ^ 53] the spacing divides 1. *)
Lemma spacing_divides_one q :
  Z.abs q < 2 ^ 53 * one → 0 < spacing q ∧ ∃ k, one = k * spacing q.
Proof.
  intros Hq. unfold spacing. set (e := Z.max 0 (Z.log2 (Z.abs q) - 52)).
  assert (Hlog : Z.log2 (Z.abs q) ≤ 1126).
  { destruct (decide (q = 0)) as [->|]; [vm_compute; congruence|].
    enough (Z.log2 (Z.abs q) < 1127) by lia. apply Z.log2_lt_pow2; [lia|].
    change (2 ^ 1127) with (2 ^ (53 + 1074)). rewrite Z.pow_add_r by lia. exact Hq. }
  split; [apply Z.pow_pos_nonneg; lia|]. exists (2 ^ (1074 - e)). rewrite <-Z.pow_add_r by lia.
  replace (1074 - e + e) with 1074 by lia. reflexivity.
Qed.

Lemma fl_bounds n d a b :
  0 < d → a * one * d ≤ n ≤ b * one * d → Z.abs (Z.quot n d) < 2 ^ 53 * one →
  a * one ≤ fl n d ≤ b * one.
Proof.
  intros Hd [Ha Hb] Hq. unfold fl.
  destruct (spacing_divides_one _ Hq) as [Hg [k Hk]].
  set (g := spacing (Z.quot n d)) in *.
  assert (Hab : a * k ≤ nearest n (d * g) ≤ b * k).
  { apply nearest_bounds; [nia|]. rewrite Hk in Ha, Hb. split; lia. }
  rewrite Hk. nia.
Qed.

Lemma quot_bound n d m : 0 < d → - (m * d) < n < m * d → Z.abs (Z.quot n d) < m.
Proof.
  intros Hd Hn. rewrite <-Z.quot_abs by lia. rewrite (Z.abs_eq d) by lia.
  apply Z.quot_lt_upper_bound; lia.
Qed.

(** An integer of at most 53 bits is a double. *)
Lemma fl_exact v d : 0 < d → Z.abs v < 2 ^ 53 → fl (v * one * d) d = v * one.
Proof.
  intros Hd Hv. pose proof one_pos.
  enough (v * one ≤ fl (v * one * d) d ≤ v * one) by lia.
  apply fl_bounds; [done|lia|]. rewrite Z.quot_mul, Z.abs_mul, (Z.abs_eq one) by lia. nia.
Qed.

Lemma float64_of_int_exact v : Z.abs v < 2 ^ 53 → float64_of_int v = v * one.
Proof.
  intros Hv. unfold float64_of_int. replace (v * one) with (v * one * 1) at 1 by lia.
  by apply fl_exact.
Qed.

Lemma float64_add_exact a b :
  Z.abs (a + b) < 2 ^ 53 → float64_add (a * one) (b * one) = (a + b) * one.
Proof.
  intros Hv. unfold float64_add. rewrite <-(fl_exact (a + b) 1) by lia. f_equal. lia.
Qed.

Lemma float64_sub_exact a b :
  Z.abs (a - b) < 2 ^ 53 → float64_sub (a * one) (b * one) = (a - b) * one.
Proof.
  intros Hv. unfold float64_sub. rewrite <-(fl_exact (a - b) 1) by lia. f_equal. lia.
Qed.

(** ** Seconds *)

(** Durations of this many seconds are far beyond those of an int64 of
    nanoseconds. *)
Definition seconds_max : Z := 2 ^ 52.

Lemma Seconds_bounds d s :
  0 ≤ d → s = d / Second → s < seconds_max → s * one ≤ Seconds d ≤ (s + 1) * one.
Proof.
  intros Hd -> Hmax. pose proof one_pos. unfold seconds_max in Hmax. unfold Seconds.
  rewrite Z.quot_div_nonneg, Z.rem_mod_nonneg by (unfold Second; lia).
  pose proof (Z.mod_pos_bound d Second ltac:(unfold Second; lia)) as Hr.
  pose proof (Z.div_pos d Second Hd ltac:(unfold Second; lia)) as Hq.
  set (q := d / Second) in *. set (r := d mod Second) in *. unfold Second in Hr.
  rewrite (float64_of_int_exact q), (float64_of_int_exact r),
    (float64_of_int_exact (10 ^ 9)) by lia.
  assert (Hfrac : 0 * one ≤ float64_div (r * one) (10 ^ 9 * one) ≤ 1 * one).
  { unfold float64_div. rewrite Z.sgn_pos, Z.abs_eq by lia.
    apply fl_bounds; [lia|nia|]. apply quot_bound; nia. }
  set (f := float64_div _ _) in *. unfold float64_add.
  apply fl_bounds; [lia|lia|]. apply quot_bound; nia.
Qed.

Lemma Seconds_whole k : Z.abs k < 2 ^ 53 → Seconds (k * Second) = k * one.
Proof.
  intros Hk. pose proof one_pos. unfold Seconds.
  rewrite Z.quot_mul, Z.rem_mul by (unfold Second; lia).
  rewrite !float64_of_int_exact by lia.
  assert (Hz : float64_div (0 * one) (10 ^ 9 * one) = 0 * one).
  { unfold float64_div. rewrite Z.sgn_pos, Z.abs_eq by lia.
    replace (0 * one * one * 1) with (0 * one * (10 ^ 9 * one)) by lia.
    apply fl_exact; lia. }
  rewrite Hz, float64_add_exact by lia. f_equal. lia.
Qed.

Lemma int64_of_float64_exact z : in_int64 z → int64_of_float64 (z * one) = z.
Proof.
  intros Hz. pose proof one_pos. unfold in_int64 in Hz. unfold int64_of_float64.
  rewrite Z.quot_mul by lia.
  rewrite (proj2 (Z.leb_le _ _)), (proj2 (Z.leb_le _ _)) by lia. done.
Qed.

(** Truncation of a value between two integers. *)
Lemma int64_of_float64_bounds x a b :
  0 ≤ a → b ≤ int64_max → a * one ≤ x ≤ b * one → a ≤ int64_of_float64 x ≤ b.
Proof.
  intros Ha Hb Hx. pose proof one_pos. unfold int64_of_float64.
  rewrite Z.quot_div_nonneg by nia.
  assert (a ≤ x / one) by (apply Z.div_le_lower_bound; lia).
  assert (x / one ≤ b) by (apply Z.div_le_upper_bound; lia).
  unfold int64_min in *.
  rewrite (proj2 (Z.leb_le _ _)), (proj2 (Z.leb_le _ _)) by lia. cbn. lia.
Qed.

Lemma float64_add_bounds x c a b :
  a * one ≤ x ≤ b * one → - 2 ^ 52 < a + c → b + c < 2 ^ 52 →
  (a + c) * one ≤ float64_add x (c * one) ≤ (b + c) * one.
Proof.
  intros Hx Ha Hb. pose proof one_pos. unfold float64_add.
  apply fl_bounds; [lia|lia|]. apply quot_bound; nia.
Qed.

Lemma float64_sub_bounds x c a b :
  a * one ≤ x ≤ b * one → - 2 ^ 52 < a - c → b - c < 2 ^ 52 →
  (a - c) * one ≤ float64_sub x (c * one) ≤ (b - c) * one.
Proof.
  intros Hx Ha Hb. pose proof one_pos. unfold float64_sub.
  apply fl_bounds; [lia|lia|]. apply quot_bound; nia.
Qed.

Lemma Seconds_nonpos d : in_int64 d → d ≤ 0 → Seconds d ≤ 0 * one.
Proof.
  intros Hin Hd. pose proof one_pos. unfold in_int64, int64_min, int64_max in Hin.
  unfold Seconds.
  assert (Hq : - 2 ^ 52 < Z.quot d Second ≤ 0 ∧ - 10 ^ 9 < Z.rem d Second ≤ 0)
    by (unfold Second; Z.to_euclidean_division_equations; lia).
  set (q := Z.quot d Second) in *. set (r := Z.rem d Second) in *.
  rewrite (float64_of_int_exact q), (float64_of_int_exact r),
    (float64_of_int_exact (10 ^ 9)) by lia.
  assert (Hfrac : -1 * one ≤ float64_div (r * one) (10 ^ 9 * one) ≤ 0 * one).
  { unfold float64_div. rewrite Z.sgn_pos, Z.abs_eq by lia.
    apply fl_bounds; [lia|nia|]. apply quot_bound; nia. }
  set (f := float64_div _ _) in *. unfold float64_add.
  enough ((q - 1) * one ≤ fl (q * one + f) 1 ≤ 0 * one) by lia.
  apply fl_bounds; [lia|lia|]. apply quot_bound; nia.
Qed.

(** Comparing seconds decides between durations a second apart. *)
Lemma Seconds_gt_true e k :
  0 ≤ k → in_int64 e → (k + 1) * Second ≤ e →
  float64_gt (Seconds e) (Seconds (k * Second)) = true.
Proof.
  intros Hk Hin He. pose proof one_pos. unfold in_int64, int64_max in Hin.
  rewrite (Seconds_whole k) by (unfold Second in He; lia). apply Z.ltb_lt.
  destruct (Seconds_bounds e (e / Second)) as [Hlo _];
    [unfold Second in He; lia|done|
     unfold seconds_max, Second; Z.to_euclidean_division_equations; lia|].
  assert (k + 1 ≤ e / Second)
    by (unfold Second in *; Z.to_euclidean_division_equations; lia).
  nia.
Qed.

Lemma Seconds_gt_false e k :
  0 ≤ k < 2 ^ 52 → in_int64 e → e ≤ k * Second →
  float64_gt (Seconds e) (Seconds (k * Second)) = false.
Proof.
  intros Hk Hin He. pose proof one_pos. rewrite (Seconds_whole k) by lia. apply Z.ltb_ge.
  destruct (decide (e ≤ 0)) as [Hneg|Hpos].
  { pose proof (Seconds_nonpos e Hin Hneg). nia. }
  destruct (decide (e = k * Second)) as [->|Hne]; [rewrite Seconds_whole by lia; lia|].
  unfold in_int64, int64_max in Hin.
  destruct (Seconds_bounds e (e / Second)) as [_ Hhi];
    [lia|done|unfold seconds_max, Second; Z.to_euclidean_division_equations; lia|].
  assert (e / Second + 1 ≤ k) by (unfold Second in *; Z.to_euclidean_division_equations; lia).
  nia.
Qed.

(** One and a half seconds, and the largest duration. *)
Example Seconds_1500ms : 2 * Seconds (1500 * Millisecond) = 3 * one.
Proof. vm_compute. reflexivity. Qed.

Example Seconds_max : int64_of_float64 (Seconds int64_max) = 9223372036.
Proof. vm_compute. reflexivity. Qed.
