(* ===== verification/Sha256.v ===== *)
(** * crypto/sha256

    SHA-256 (FIPS 180-4) on byte strings, executable: words are integers below
    [2^32]. The program hashes the two cron expressions of an ActiveWindow. *)

From S2P Require Import Prelude.

Module Sha256.

Definition mask32 (z : Z) : Z := Z.land z (2 ^ 32 - 1).
Definition add32 (a b : Z) : Z := mask32 (a + b).
Definition not32 (a : Z) : Z := Z.lxor a (2 ^ 32 - 1).
Definition rotr (n a : Z) : Z :=
  Z.lor (Z.shiftr a n) (mask32 (Z.shiftl a (32 - n))).

Definition K : list Z :=
  [ 1116352408; 1899447441; 3049323471; 3921009573; 961987163; 1508970993;
    2453635748; 2870763221; 3624381080; 310598401; 607225278; 1426881987;
    1925078388; 2162078206; 2614888103; 3248222580; 3835390401; 4022224774;
    264347078; 604807628; 770255983; 1249150122; 1555081692; 1996064986;
    2554220882; 2821834349; 2952996808; 3210313671; 3336571891; 3584528711;
    113926993; 338241895; 666307205; 773529912; 1294757372; 1396182291;
    1695183700; 1986661051; 2177026350; 2456956037; 2730485921; 2820302411;
    3259730800; 3345764771; 3516065817; 3600352804; 4094571909; 275423344;
    430227734; 506948616; 659060556; 883997877; 958139571; 1322822218;
    1537002063; 1747873779; 1955562222; 2024104815; 2227730452; 2361852424;
    2428436474; 2756734187; 3204031479; 3329325298 ].

Record regs := mkRegs { ra : Z; rb : Z; rc : Z; rd : Z; re : Z; rf : Z; rg : Z; rh : Z }.

Definition H0 : regs :=
  mkRegs 1779033703 3144134277 1013904242 2773480762
         1359893119 2600822924 528734635 1541459225.

(** ** Bytes, padding and words *)

Definition bytes_of (s : string) : list Z :=
  (λ c, Z.of_N (Ascii.N_of_ascii c)) <$> String.list_ascii_of_string s.

Definition string_of (l : list Z) : string :=
  String.string_of_list_ascii ((λ b, Ascii.ascii_of_N (Z.to_N b)) <$> l).

Definition be_bytes (n : nat) (w : Z) : list Z :=
  (λ i, Z.land (Z.shiftr w (8 * Z.of_nat (n - 1 - i))) 255) <$> seq 0 n.

(** A one bit, zeros up to 56 modulo 64 bytes, and the length in bits. *)
Definition pad (m : list Z) : list Z :=
  let len := Z.of_nat (length m) in
  m ++ 128 :: replicate (Z.to_nat ((55 - len) mod 64)) 0
    ++ be_bytes 8 (8 * len).

Fixpoint words (l : list Z) : list Z :=
  match l with
  | a :: b :: c :: d :: l' =>
    (Z.shiftl a 24 + Z.shiftl b 16 + Z.shiftl c 8 + d) :: words l'
  | _ => []
  end.

(** ** Message schedule and compression *)

Definition sigma0 (x : Z) : Z := Z.lxor (rotr 7 x) (Z.lxor (rotr 18 x) (Z.shiftr x 3)).
Definition sigma1 (x : Z) : Z := Z.lxor (rotr 17 x) (Z.lxor (rotr 19 x) (Z.shiftr x 10)).
Definition Sigma0 (x : Z) : Z := Z.lxor (rotr 2 x) (Z.lxor (rotr 13 x) (rotr 22 x)).
Definition Sigma1 (x : Z) : Z := Z.lxor (rotr 6 x) (Z.lxor (rotr 11 x) (rotr 25 x)).
Definition Ch (x y z : Z) : Z := Z.lxor (Z.land x y) (Z.land (not32 x) z).
Definition Maj (x y z : Z) : Z :=
  Z.lxor (Z.land x y) (Z.lxor (Z.land x z) (Z.land y z)).

(** The last sixteen words, the newest first, extended [n] times. *)
Fixpoint schedule (n : nat) (w : list Z) : list Z :=
  match n with
  | O => w
  | S n' =>
    let nth i := default 0 (w !! i) in
    schedule n' (add32 (add32 (sigma1 (nth 1%nat)) (nth 6%nat))
                       (add32 (sigma0 (nth 14%nat)) (nth 15%nat)) :: w)
  end.

Definition round (r : regs) (kw : Z * Z) : regs :=
  let t1 := add32 (add32 (rh r) (Sigma1 (re r)))
                  (add32 (Ch (re r) (rf r) (rg r)) (add32 kw.1 kw.2)) in
  let t2 := add32 (Sigma0 (ra r)) (Maj (ra r) (rb r) (rc r)) in
  mkRegs (add32 t1 t2) (ra r) (rb r) (rc r) (add32 (rd r) t1) (re r) (rf r) (rg r).

Definition compress (h : regs) (block : list Z) : regs :=
  let w := reverse (schedule 48 (reverse block)) in
  let r := foldl round h (zip K w) in
  mkRegs (add32 (ra h) (ra r)) (add32 (rb h) (rb r)) (add32 (rc h) (rc r))
         (add32 (rd h) (rd r)) (add32 (re h) (re r)) (add32 (rf h) (rf r))
         (add32 (rg h) (rg r)) (add32 (rh h) (rh r)).

Fixpoint blocks (n : nat) (h : regs) (ws : list Z) : regs :=
  match n with
  | O => h
  | S n' => blocks n' (compress h (take 16 ws)) (drop 16 ws)
  end.

(** [h := sha256.New(); h.Write(m); h.Sum(nil)] *)
Definition Sum (m : string) : string :=
  let ws := words (pad (bytes_of m)) in
  let h := blocks (length ws / 16) H0 ws in
  string_of (mjoin (be_bytes 4 <$> [ra h; rb h; rc h; rd h; re h; rf h; rg h; rh h])).

(** Two of the standard's test vectors. *)
Example Sum_empty :
  bytes_of (Sum "") =
  [ 227; 176; 196; 66; 152; 252; 28; 20; 154; 251; 244; 200; 153; 111; 185; 36;
    39; 174; 65; 228; 100; 155; 147; 76; 164; 149; 153; 27; 120; 82; 184; 85 ].
Proof. vm_compute. reflexivity. Qed.

Example Sum_abc :
  bytes_of (Sum "abc") =
  [ 186; 120; 22; 191; 143; 1; 207; 234; 65; 65; 64; 222; 93; 174; 34; 35;
    176; 3; 97; 163; 150; 23; 122; 156; 180; 16; 255; 97; 242; 0; 21; 173 ].
Proof. vm_compute. reflexivity. Qed.

(** A digest has 32 bytes. *)
Lemma length_string_of l : String.length (string_of l) = length l.
Proof.
  unfold string_of. induction l as [|b l IH]; [done|]. cbn. by f_equal.
Qed.

Lemma length_Sum m : String.length (Sum m) = 32%nat.
Proof. unfold Sum. by rewrite length_string_of. Qed.

End Sha256.
