(* ===== verification/GoStrings.v ===== *)
(** * Packages [strings], [strconv] and [fmt]

    What the program uses of them, on byte strings. *)

From S2P Require Import Prelude.

Definition LF : string := String "010"%char "".

(** [strings.HasPrefix] and [strings.TrimPrefix] *)
Fixpoint HasPrefix (s prefix : string) {struct prefix} : bool :=
  match prefix, s with
  | EmptyString, _ => true
  | String p prefix', String c s' => if decide (p = c) then HasPrefix s' prefix' else false
  | String _ _, EmptyString => false
  end.

Fixpoint string_drop (n : nat) (s : string) : string :=
  match n, s with
  | S n', String _ s' => string_drop n' s'
  | _, _ => s
  end.

Fixpoint string_take (n : nat) (s : string) : string :=
  match n, s with
  | S n', String c s' => String c (string_take n' s')
  | _, _ => ""
  end.

Definition TrimPrefix (s prefix : string) : string :=
  if HasPrefix s prefix then string_drop (String.length prefix) s else s.

(** Cut at the first occurrence of a one-byte separator. *)
Fixpoint cut (sep : Ascii.ascii) (s : string) : option (string * string) :=
  match s with
  | EmptyString => None
  | String c s' =>
    if decide (c = sep) then Some ("", s')
    else match cut sep s' with
         | None => None
         | Some (before, after) => Some (String c before, after)
         end
  end.

(** [strings.SplitN(s, sep, n)] for a one-byte separator and [n > 0] *)
Fixpoint SplitN (s : string) (sep : Ascii.ascii) (n : nat) : list string :=
  match n with
  | S (S _ as n') =>
    match cut sep s with
    | Some (before, after) => before :: SplitN after sep n'
    | None => [s]
    end
  | S O => [s]
  | O => []
  end.

(** [strings.Split(s, sep)]: no limit, and there are no more parts than bytes
    and one. *)
Definition Split (s : string) (sep : Ascii.ascii) : list string :=
  SplitN s sep (S (S (String.length s))).

(** The inverse of splitting: [strings.Join]. *)
Fixpoint Join (l : list string) (sep : string) : string :=
  match l with
  | [] => ""
  | [s] => s
  | s :: l' => s +:+ sep +:+ Join l' sep
  end.

(** Membership of a byte in a string. *)
Fixpoint string_mem (c : Ascii.ascii) (s : string) : bool :=
  match s with
  | EmptyString => false
  | String d s' => bool_decide (d = c) || string_mem c s'
  end.

(** ** [%d] *)

Definition digit (z : Z) : Ascii.ascii := Ascii.ascii_of_N (Z.to_N (48 + z)).

(** The decimal digits of [0 <= z < 10 ^ fuel], without leading zeros, in
    front of [acc]. *)
Fixpoint digits_go (fuel : nat) (z : Z) (acc : string) : string :=
  match fuel with
  | O => acc
  | S fuel' =>
    let acc' := String (digit (z mod 10)) acc in
    if z <? 10 then acc' else digits_go fuel' (z / 10) acc'
  end.

(** Twenty digits are enough for an integer of 64 bits. *)
Definition fmt_d (z : Z) : string :=
  if z <? 0 then "-" +:+ digits_go 20 (- z) "" else digits_go 20 z "".

(** ** [%q] *)

Definition hex_digit (n : N) : Ascii.ascii :=
  Ascii.ascii_of_N (if (n <? 10)%N then 48 + n else 87 + n)%N.

(** A byte inside a quoted string. Bytes from 128 on are taken to belong to
    printable runes and stay as they are. *)
Definition quote_byte (c : Ascii.ascii) : string :=
  let n := Ascii.N_of_ascii c in
  if decide (n = 34 ∨ n = 92)%N then String "092"%char (String c "")
  else if decide (n = 7)%N then "\a" else if decide (n = 8)%N then "\b"
  else if decide (n = 9)%N then "\t" else if decide (n = 10)%N then "\n"
  else if decide (n = 11)%N then "\v" else if decide (n = 12)%N then "\f"
  else if decide (n = 13)%N then "\r"
  else if decide (n < 32 ∨ n = 127)%N then
    "\x" +:+ String (hex_digit (n / 16)) (String (hex_digit (n mod 16)) "")
  else String c "".

Fixpoint quote_body (s : string) : string :=
  match s with
  | EmptyString => ""
  | String c s' => quote_byte c +:+ quote_body s'
  end.

Definition DQ : string := String "034"%char "".

Definition fmt_q (s : string) : string := DQ +:+ quote_body s +:+ DQ.

(** ** [fmt.Sprintf], with the verbs the program uses *)

Inductive fmt_arg :=
  | ArgS (s : string)
  | ArgD (z : Z).

Definition fmt_verb (verb : Ascii.ascii) (a : fmt_arg) : option string :=
  match a with
  | ArgS s =>
    if Ascii.eqb verb "s" then Some s
    else if Ascii.eqb verb "q" then Some (fmt_q s) else None
  | ArgD z => if Ascii.eqb verb "d" then Some (fmt_d z) else None
  end.

(** An argument per verb, in order. *)
Fixpoint Sprintf (format : string) (args : list fmt_arg) : string :=
  match format with
  | EmptyString => ""
  | String c format1 =>
    if Ascii.eqb c "%" then
      match format1, args with
      | String verb format2, a :: args' =>
        match fmt_verb verb a with
        | Some s => s +:+ Sprintf format2 args'
        | None => String c (Sprintf format1 args)
        end
      | _, _ => String c (Sprintf format1 args)
      end
    else String c (Sprintf format1 args)
  end.

(** ** Facts *)

Lemma app_assoc_string (a b c : string) : a +:+ (b +:+ c) = (a +:+ b) +:+ c.
Proof. induction a as [|x a IH]; [done|]. cbn. by rewrite IH. Qed.

Lemma app_nil_string (a : string) : a +:+ "" = a.
Proof. induction a as [|x a IH]; [done|]. cbn. by rewrite IH. Qed.

Lemma length_app_string (a b : string) :
  String.length (a +:+ b) = (String.length a + String.length b)%nat.
Proof. induction a as [|x a IH]; [done|]. cbn. by rewrite IH. Qed.

Lemma HasPrefix_app (p s : string) : HasPrefix (p +:+ s) p = true.
Proof. induction p as [|c p IH]; [done|]. cbn. by rewrite decide_True. Qed.

Lemma HasPrefix_spec (s p : string) :
  HasPrefix s p = true ↔ ∃ t, s = p +:+ t.
Proof.
  split; [|intros [t ->]; apply HasPrefix_app].
  revert s. induction p as [|c p IH]; intros s; [by exists s|].
  destruct s as [|d s]; cbn; [done|].
  case_decide as Hd; [|done]. intros [t ->]%IH. subst. by exists t.
Qed.

Lemma string_drop_app (p s : string) : string_drop (String.length p) (p +:+ s) = s.
Proof. induction p as [|c p IH]; [by destruct s|]. cbn. exact IH. Qed.

Lemma string_take_app (p s : string) : string_take (String.length p) (p +:+ s) = p.
Proof. induction p as [|c p IH]; [by destruct s|]. cbn. f_equal. exact IH. Qed.

Lemma TrimPrefix_app (p s : string) : TrimPrefix (p +:+ s) p = s.
Proof. unfold TrimPrefix. by rewrite HasPrefix_app, string_drop_app. Qed.

Lemma cut_app (sep : Ascii.ascii) (a b : string) :
  string_mem sep a = false → cut sep (a +:+ String sep b) = Some (a, b).
Proof.
  induction a as [|c a IH]; cbn; intros Ha.
  - by rewrite decide_True.
  - apply orb_false_iff in Ha as [Hc Ha]. apply bool_decide_eq_false in Hc.
    rewrite decide_False by done. by rewrite IH.
Qed.

Lemma cut_Some (sep : Ascii.ascii) (s a b : string) :
  cut sep s = Some (a, b) → s = a +:+ String sep b ∧ string_mem sep a = false.
Proof.
  revert a b. induction s as [|c s IH]; intros a b; cbn; [done|].
  case_decide as Hc; [intros [= <- <-]; subst; done|].
  destruct (cut sep s) as [[a' b']|]; [|done].
  intros [= <- <-]. destruct (IH a' b' eq_refl) as [-> Ha'].
  split; [done|]. cbn. by rewrite bool_decide_eq_false_2, Ha'.
Qed.

Lemma cut_None (sep : Ascii.ascii) (s : string) :
  cut sep s = None ↔ string_mem sep s = false.
Proof.
  induction s as [|c s IH]; cbn; [done|].
  case_decide as Hc.
  - by rewrite bool_decide_eq_true_2.
  - rewrite bool_decide_eq_false_2 by done. cbn. rewrite <-IH.
    destruct (cut sep s) as [[? ?]|]; split; intros; done.
Qed.

Lemma string_mem_app (c : Ascii.ascii) (a b : string) :
  string_mem c (a +:+ b) = string_mem c a || string_mem c b.
Proof. induction a as [|d a IH]; [done|]. cbn. by rewrite IH, orb_assoc. Qed.

(** Quoting leaves a string of plain bytes as it is. *)
Lemma quote_body_plain s :
  (∀ c, string_mem c s = true → quote_byte c = String c "") → quote_body s = s.
Proof.
  induction s as [|c s IH]; intros Hs; [done|]. cbn.
  rewrite (Hs c), IH; [done| |cbn; by rewrite bool_decide_eq_true_2].
  intros d Hd. apply Hs. cbn. by rewrite Hd, orb_true_r.
Qed.

Lemma SplitN_SS (s : string) (sep : Ascii.ascii) (n : nat) :
  SplitN s sep (S (S n)) =
  match cut sep s with
  | Some (before, after) => before :: SplitN after sep (S n)
  | None => [s]
  end.
Proof. reflexivity. Qed.

(** What was joined is split back, when no part holds the separator. *)
Lemma SplitN_Join (sep : Ascii.ascii) (l : list string) (n : nat) :
  l ≠ [] → Forall (λ s, string_mem sep s = false) l → (length l < n)%nat →
  SplitN (Join l (String sep "")) sep n = l.
Proof.
  revert n. induction l as [|s l IH]; intros n Hne Hl Hn; [done|].
  apply Forall_cons_1 in Hl as [Hs Hl].
  destruct n as [|[|n]]; cbn [length] in Hn; [lia..|].
  destruct l as [|s' l].
  - cbn [Join SplitN]. by rewrite (proj2 (cut_None sep s) Hs).
  - change (Join (s :: s' :: l) (String sep ""))
      with (s +:+ String sep (Join (s' :: l) (String sep ""))).
    rewrite SplitN_SS, cut_app by done. f_equal. apply IH; [done..|lia].
Qed.

Lemma length_Join (sep : Ascii.ascii) (l : list string) :
  l ≠ [] → (length l ≤ S (String.length (Join l (String sep ""))))%nat.
Proof.
  induction l as [|s l IH]; intros Hne; [done|]. destruct l as [|s' l]; [cbn; lia|].
  change (Join (s :: s' :: l) (String sep ""))
    with (s +:+ String sep (Join (s' :: l) (String sep ""))).
  rewrite length_app_string. specialize (IH ltac:(done)).
  cbn [length String.length] in *. lia.
Qed.

Lemma Split_Join (sep : Ascii.ascii) (l : list string) :
  l ≠ [] → Forall (λ s, string_mem sep s = false) l →
  Split (Join l (String sep "")) sep = l.
Proof.
  intros Hne Hl. apply SplitN_Join; [done..|]. pose proof (length_Join sep l Hne). lia.
Qed.

Create Rewrite HintDb go_strings.
#[export] Hint Rewrite HasPrefix_app string_drop_app string_take_app TrimPrefix_app
  app_nil_string length_app_string string_mem_app : go_strings.
