(* ===== verification/Rfc3339.v ===== *)
(** * [time.RFC3339]: formatting and parsing instants

    [t.Format(time.RFC3339)] and [time.Parse(time.RFC3339, s)] over the
    proleptic Gregorian calendar. The program stores the time of the last
    token renewal in this format and reads it back. *)

From S2P Require Import Prelude GoTime GoStrings.

(** ** The calendar

    Years start in March, so that the leap day comes last; an era is 400 years
    of 146097 days, and day 0 of era 0 is March 1 of year 0. *)

Definition days_before_year (y : Z) : Z := 365 * y + y / 4 - y / 100.
Definition days_before_month (mp : Z) : Z := (153 * mp + 2) / 5.

(** Days since the Unix epoch of a date. *)
Definition days_from_civil (year month day : Z) : Z :=
  let y := if month <=? 2 then year - 1 else year in
  let mp := if month <=? 2 then month + 9 else month - 3 in
  (y / 400) * 146097 + days_before_year (y mod 400) + days_before_month mp
  + (day - 1) - 719468.

(** Year of the era, century by century: the last day of an era, and of a
    cycle of four years, is a leap day. *)
Definition year_of_era (doe : Z) : Z :=
  let n100 := Z.min 3 (doe / 36524) in
  let r100 := doe - n100 * 36524 in
  let n4 := r100 / 1461 in
  let r4 := r100 - n4 * 1461 in
  100 * n100 + 4 * n4 + Z.min 3 (r4 / 365).

(** The date of a day since the Unix epoch: (year, month, day). *)
Definition civil_from_days (days : Z) : Z * Z * Z :=
  let z := days + 719468 in
  let doe := z mod 146097 in
  let yoe := year_of_era doe in
  let doy := doe - days_before_year yoe in
  let mp := (5 * doy + 2) / 153 in
  let month := if mp <? 10 then mp + 3 else mp - 9 in
  let y := yoe + (z / 146097) * 400 in
  (if month <=? 2 then y + 1 else y, month, doy - days_before_month mp + 1).

Definition is_leap (year : Z) : bool :=
  (year mod 4 =? 0) && (negb (year mod 100 =? 0) || (year mod 400 =? 0)).

Definition daysIn (month year : Z) : Z :=
  if month =? 2 then (if is_leap year then 29 else 28)
  else if (month =? 4) || (month =? 6) || (month =? 9) || (month =? 11) then 30
  else 31.

Lemma year_of_era_spec doe :
  0 ≤ doe < 146097 →
  0 ≤ year_of_era doe < 400 ∧
  0 ≤ doe - days_before_year (year_of_era doe) ≤ 365 ∧
  (doe - days_before_year (year_of_era doe) = 365 → is_leap (year_of_era doe + 1) = true).
Proof.
  intros Hd. unfold year_of_era.
  set (n100 := Z.min 3 (doe / 36524)). set (r100 := doe - n100 * 36524).
  assert (H100 : 0 ≤ n100 ≤ 3 ∧ 0 ≤ r100 ≤ 36524 ∧ (r100 = 36524 → n100 = 3)).
  { subst r100 n100. Z.to_euclidean_division_equations. lia. }
  set (n4 := r100 / 1461). set (r4 := r100 - n4 * 1461).
  assert (H4 : 0 ≤ n4 ≤ 24 ∧ 0 ≤ r4 ≤ 1460 ∧ (n4 = 24 → r4 ≤ 1460)
               ∧ r100 = 1461 * n4 + r4).
  { subst r4 n4. Z.to_euclidean_division_equations. lia. }
  set (n1 := Z.min 3 (r4 / 365)).
  assert (H1 : 0 ≤ n1 ≤ 3 ∧ 0 ≤ r4 - 365 * n1 ≤ 365 ∧ (r4 - 365 * n1 = 365 → n1 = 3)).
  { subst n1. Z.to_euclidean_division_equations. lia. }
  assert (Hq4 : (100 * n100 + 4 * n4 + n1) / 4 = 25 * n100 + n4)
    by (Z.to_euclidean_division_equations; lia).
  assert (Hq100 : (100 * n100 + 4 * n4 + n1) / 100 = n100)
    by (Z.to_euclidean_division_equations; lia).
  unfold days_before_year. rewrite Hq4, Hq100. split_and!; try lia.
  intros Hleap. unfold is_leap.
  apply andb_true_intro. split; [Z.to_euclidean_division_equations; lia|].
  apply orb_true_iff. rewrite negb_true_iff, Z.eqb_neq, Z.eqb_eq.
  destruct (decide (n4 = 24)) as [->|Hn4].
  - right. assert (n100 = 3) as -> by lia. assert (n1 = 3) as -> by lia. done.
  - left. Z.to_euclidean_division_equations. lia.
Qed.

Lemma month_of_doy_spec doy :
  0 ≤ doy ≤ 365 →
  0 ≤ (5 * doy + 2) / 153 ≤ 11 ∧
  0 ≤ doy - days_before_month ((5 * doy + 2) / 153) ≤ 30.
Proof. intros Hd. unfold days_before_month. Z.to_euclidean_division_equations. lia. Qed.

(** A day's date names that day. *)
Lemma days_from_civil_from_days days y m d :
  civil_from_days days = (y, m, d) → days_from_civil y m d = days.
Proof.
  unfold civil_from_days. intros [= <- <- <-].
  pose proof (Z.mod_pos_bound (days + 719468) 146097 ltac:(lia)) as Hdoe.
  pose proof (Z.div_mod (days + 719468) 146097 ltac:(lia)) as Hera.
  set (doe := (days + 719468) mod 146097) in *. set (era := (days + 719468) / 146097) in *.
  destruct (year_of_era_spec doe Hdoe) as (Hy & Hdoy & _).
  set (yoe := year_of_era doe) in *. set (doy := doe - days_before_year yoe) in *.
  destruct (month_of_doy_spec doy Hdoy) as [Hmp _].
  set (mp := (5 * doy + 2) / 153) in *. unfold days_from_civil.
  assert (Hm : (if (if mp <? 10 then mp + 3 else mp - 9) <=? 2
                then (if mp <? 10 then mp + 3 else mp - 9) + 9
                else (if mp <? 10 then mp + 3 else mp - 9) - 3) = mp)
    by (repeat case_match; lia).
  rewrite Hm.
  assert (Hyy : (if (if mp <? 10 then mp + 3 else mp - 9) <=? 2
                 then (if (if mp <? 10 then mp + 3 else mp - 9) <=? 2
                       then yoe + era * 400 + 1 else yoe + era * 400) - 1
                 else (if (if mp <? 10 then mp + 3 else mp - 9) <=? 2
                       then yoe + era * 400 + 1 else yoe + era * 400))
                = yoe + era * 400) by (repeat case_match; lia).
  rewrite Hyy, Z.div_add, Z.mod_add by lia.
  rewrite Z.div_small, Z.mod_small by lia. lia.
Qed.

(** The day of the month, in a year [y] that is leap when the day is the 366th
    since March. *)
Lemma month_of_doy_daysIn doy y :
  let mp := (5 * doy + 2) / 153 in
  let m := if mp <? 10 then mp + 3 else mp - 9 in
  0 ≤ doy ≤ 365 → (doy = 365 → is_leap y = true) →
  1 ≤ m ≤ 12 ∧ 1 ≤ doy - days_before_month mp + 1 ≤ daysIn m y.
Proof.
  intros mp m Hdoy Hleap. subst m. unfold daysIn, days_before_month.
  assert (Hmp : 153 * mp ≤ 5 * doy + 2 < 153 * mp + 153).
  { subst mp. Z.to_euclidean_division_equations. lia. }
  clearbody mp.
  assert (Hb : 5 * ((153 * mp + 2) / 5) ≤ 153 * mp + 2 < 5 * ((153 * mp + 2) / 5) + 5)
    by (Z.to_euclidean_division_equations; lia).
  destruct (is_leap y); [clear Hleap|assert (doy ≠ 365) by (intros H; by apply Hleap in H);
    clear Hleap]; repeat case_match; lia.
Qed.

(** A date of the calendar: its month and its day are in range. *)
Lemma civil_from_days_valid days y m d :
  civil_from_days days = (y, m, d) → 1 ≤ m ≤ 12 ∧ 1 ≤ d ≤ daysIn m y.
Proof.
  unfold civil_from_days. intros [= <- <- <-].
  pose proof (Z.mod_pos_bound (days + 719468) 146097 ltac:(lia)) as Hdoe.
  set (doe := (days + 719468) mod 146097) in *. set (era := (days + 719468) / 146097) in *.
  destruct (year_of_era_spec doe Hdoe) as (Hy & Hdoy & Hleap).
  set (yoe := year_of_era doe) in *. set (doy := doe - days_before_year yoe) in *.
  destruct (month_of_doy_spec doy Hdoy) as [Hmp Hday].
  set (mp := (5 * doy + 2) / 153) in *.
  assert (Hleap' : doy = 365 → is_leap (yoe + era * 400 + 1) = true).
  { intros H. rewrite <-(Hleap H). unfold is_leap.
    replace (yoe + era * 400 + 1) with (yoe + 1 + era * 100 * 4) by lia.
    rewrite Z.mod_add by lia. replace (yoe + 1 + era * 100 * 4) with (yoe + 1 + era * 4 * 100) by lia.
    rewrite Z.mod_add by lia. replace (yoe + 1 + era * 4 * 100) with (yoe + 1 + era * 400) by lia.
    by rewrite Z.mod_add by lia. }
  apply month_of_doy_daysIn; [done|]. intros H365. apply Hleap' in H365 as Hl.
  assert (mp = 11) as -> by (subst mp; by rewrite H365). exact Hl.
Qed.

(** ** Format *)

Fixpoint zeros (n : nat) : string :=
  match n with O => "" | S n' => String "0"%char (zeros n') end.

(** [appendInt]: decimal, left-padded with zeros. *)
Definition appendInt (x : Z) (width : nat) : string :=
  let digits := digits_go 20 (Z.abs x) "" in
  (if x <? 0 then "-" else "") +:+ zeros (width - String.length digits) +:+ digits.

Definition day_seconds : Z := 86400.

(** [t.Format(time.RFC3339)] for a time whose zone is [offset] seconds east of
    UTC. *)
Definition Format (offset : Z) (t : Time) : string :=
  let abs := Time_Unix t + offset in
  let '(year, month, day) := civil_from_days (abs / day_seconds) in
  let sec := abs mod day_seconds in
  let zone := Z.quot offset 60 in
  appendInt year 4 +:+ "-" +:+ appendInt month 2 +:+ "-" +:+ appendInt day 2 +:+ "T" +:+
  appendInt (sec / 3600) 2 +:+ ":" +:+ appendInt (sec / 60 mod 60) 2 +:+ ":" +:+
  appendInt (sec mod 60) 2 +:+
  (if offset =? 0 then "Z"
   else (if zone <? 0 then "-" else "+") +:+
        appendInt (Z.abs zone / 60) 2 +:+ ":" +:+ appendInt (Z.abs zone mod 60) 2).

(** ** Parse *)

Definition digit_value (c : Ascii.ascii) : option Z :=
  let n := Z.of_N (Ascii.N_of_ascii c) in
  if (48 <=? n) && (n <=? 57) then Some (n - 48) else None.

(** [getnum]: one or two digits; two when [fixed]. *)
Definition getnum (s : string) (fixed : bool) : option (Z * string) :=
  match s with
  | String c1 s1 =>
    d1 ← digit_value c1;
    match s1 with
    | String c2 s2 =>
      match digit_value c2 with
      | Some d2 => Some (d1 * 10 + d2, s2)
      | None => if fixed then None else Some (d1, s1)
      end
    | EmptyString => if fixed then None else Some (d1, s1)
    end
  | EmptyString => None
  end.

(** The four digits of a year. *)
Definition getyear (s : string) : option (Z * string) :=
  '(hi, s1) ← getnum s true; '(lo, s2) ← getnum s1 true; Some (hi * 100 + lo, s2).

Definition skip (s : string) (c : Ascii.ascii) : option string :=
  match s with
  | String d s' => if decide (d = c) then Some s' else None
  | EmptyString => None
  end.

(** The digits of a fraction: the value of the first [width], as an integer of
    [width] digits, and what follows all of them. *)
Fixpoint fraction (width : nat) (acc : Z) (s : string) : Z * string :=
  match s with
  | String c s' =>
    match digit_value c, width with
    | Some d, S w => fraction w (acc * 10 + d) s'
    | Some _, O => fraction O acc s'
    | None, _ => (acc * 10 ^ Z.of_nat width, s)
    end
  | EmptyString => (acc * 10 ^ Z.of_nat width, s)
  end.

(** Nanoseconds: a fraction is accepted after the seconds though the layout has
    none. *)
Definition getnanos (s : string) : Z * string :=
  match s with
  | String c (String d _ as s') =>
    if decide (c = "."%char \/ c = ","%char)
    then match digit_value d with Some _ => fraction 9 0 s' | None => (0, s) end
    else (0, s)
  | _ => (0, s)
  end.

(** The zone: [Z], or a sign, hours and minutes. *)
Definition getzone (s : string) : option (Z * string) :=
  match s with
  | String c s' =>
    if decide (c = "Z"%char) then Some (0, s')
    else
      '(hr, s1) ← getnum s' true; s2 ← skip s1 ":"; '(mm, s3) ← getnum s2 true;
      if (24 <? hr) || (60 <? mm) then None
      else if decide (c = "+"%char) then Some ((hr * 60 + mm) * 60, s3)
      else if decide (c = "-"%char) then Some (- ((hr * 60 + mm) * 60), s3)
      else None
  | EmptyString => None
  end.

(** [time.Parse(time.RFC3339, s)]; [None] for its errors. *)
Definition Parse (s : string) : option Time :=
  '(year, s) ← getyear s; s ← skip s "-";
  '(month, s) ← getnum s true; s ← skip s "-";
  '(day, s) ← getnum s true; s ← skip s "T";
  '(hour, s) ← getnum s false; s ← skip s ":";
  '(min, s) ← getnum s true; s ← skip s ":";
  '(sec, s) ← getnum s true;
  let '(nsec, s) := getnanos s in
  '(offset, s) ← getzone s;
  if (month <? 1) || (12 <? month) || (23 <? hour) || (59 <? min) || (59 <? sec)
  then None
  else if (day <? 1) || (daysIn month year <? day) then None
  else if decide (s = "") then
    Some ((days_from_civil year month day * day_seconds
           + hour * 3600 + min * 60 + sec - offset) * Second + nsec)
  else None.

(** ** What is formatted is parsed back *)

Definition two_digits (z : Z) (rest : string) : string :=
  String (digit (z / 10)) (String (digit (z mod 10)) rest).

Lemma appendInt_2 z rest : 0 ≤ z < 100 → appendInt z 2 +:+ rest = two_digits z rest.
Proof.
  intros Hz. change (two_digits z rest) with (two_digits z "" +:+ rest). f_equal.
  assert (Hall : forallb (λ z, bool_decide (appendInt z 2 = two_digits z "")) (seqZ 0 100) = true)
    by (vm_compute; reflexivity).
  rewrite forallb_forall in Hall. apply (bool_decide_eq_true_1 _), Hall.
  apply list_elem_of_In, elem_of_seqZ. lia.
Qed.

Lemma appendInt_4 z rest :
  0 ≤ z < 10000 → appendInt z 4 +:+ rest = two_digits (z / 100) (two_digits (z mod 100) rest).
Proof.
  intros Hz.
  change (two_digits (z / 100) (two_digits (z mod 100) rest))
    with (two_digits (z / 100) (two_digits (z mod 100) "") +:+ rest). f_equal.
  assert (Hall : forallb (λ z, bool_decide (appendInt z 4 =
      two_digits (z / 100) (two_digits (z mod 100) ""))) (seqZ 0 10000) = true)
    by (vm_compute; reflexivity).
  rewrite forallb_forall in Hall. apply (bool_decide_eq_true_1 _), Hall.
  apply list_elem_of_In, elem_of_seqZ. lia.
Qed.

Lemma digit_value_digit z : 0 ≤ z < 10 → digit_value (digit z) = Some z.
Proof.
  intros Hz.
  assert (Hall : forallb (λ z, bool_decide (digit_value (digit z) = Some z)) (seqZ 0 10) = true)
    by (vm_compute; reflexivity).
  rewrite forallb_forall in Hall. apply (bool_decide_eq_true_1 _), Hall.
  apply list_elem_of_In, elem_of_seqZ. lia.
Qed.

Lemma getnum_two_digits z fixed rest :
  0 ≤ z < 100 → getnum (two_digits z rest) fixed = Some (z, rest).
Proof.
  intros Hz. unfold getnum, two_digits. cbn.
  rewrite !digit_value_digit by (Z.to_euclidean_division_equations; lia). cbn.
  do 2 f_equal. Z.to_euclidean_division_equations. lia.
Qed.

#[local] Arguments getnum : simpl never.
#[local] Arguments getyear : simpl never.
#[local] Arguments two_digits : simpl never.

#[local] Arguments skip : simpl never.

Lemma skip_eq c s : skip (String c s) c = Some s.
Proof. unfold skip. by rewrite decide_True. Qed.

Lemma getyear_four_digits z rest :
  0 ≤ z < 10000 →
  getyear (two_digits (z / 100) (two_digits (z mod 100) rest)) = Some (z, rest).
Proof.
  intros Hz. unfold getyear. rewrite getnum_two_digits by (Z.to_euclidean_division_equations; lia).
  cbn. rewrite getnum_two_digits by (Z.to_euclidean_division_equations; lia). cbn.
  do 2 f_equal. Z.to_euclidean_division_equations. lia.
Qed.

(** The zone of a whole number of minutes, less than a day. *)
Definition zone_ok (offset : Z) : Prop := offset mod 60 = 0 ∧ Z.abs offset < 86400.

Definition fmt_zone (offset : Z) : string :=
  let zone := Z.quot offset 60 in
  if offset =? 0 then "Z"
  else (if zone <? 0 then "-" else "+") +:+
       appendInt (Z.abs zone / 60) 2 +:+ ":" +:+ appendInt (Z.abs zone mod 60) 2.

#[local] Arguments getzone : simpl never.
#[local] Arguments fmt_zone : simpl never.

Lemma getzone_fmt_zone offset :
  zone_ok offset → getzone (fmt_zone offset) = Some (offset, "").
Proof.
  intros [Hm Hb]. unfold fmt_zone. destruct (Z.eqb_spec offset 0) as [->|H0]; [done|].
  set (zone := Z.quot offset 60).
  assert (Hzone : offset = zone * 60 ∧ Z.abs zone < 1440)
    by (subst zone; Z.to_euclidean_division_equations; lia).
  destruct Hzone as [Ho Hz]. clearbody zone.
  rewrite <-(app_nil_string (appendInt (Z.abs zone mod 60) 2)).
  rewrite !appendInt_2 by (Z.to_euclidean_division_equations; lia).
  assert (Hparts : ∀ c, getzone (String c (two_digits (Z.abs zone / 60) (":" +:+
     two_digits (Z.abs zone mod 60) ""))) =
     if decide (c = "Z"%char) then
       Some (0, two_digits (Z.abs zone / 60) (":" +:+ two_digits (Z.abs zone mod 60) ""))
     else if decide (c = "+"%char) then Some (Z.abs zone * 60, "")
     else if decide (c = "-"%char) then Some (- (Z.abs zone * 60), "") else None).
  { intros c. unfold getzone. case_decide; [done|].
    rewrite getnum_two_digits by (Z.to_euclidean_division_equations; lia). cbn.
    rewrite skip_eq. cbn.
    rewrite getnum_two_digits by (Z.to_euclidean_division_equations; lia). cbn.
    rewrite (proj2 (Z.ltb_ge _ _)) by (Z.to_euclidean_division_equations; lia).
    rewrite (proj2 (Z.ltb_ge _ _)) by (Z.to_euclidean_division_equations; lia). cbn.
    replace (Z.abs zone / 60 * 60 + Z.abs zone mod 60) with (Z.abs zone); [done|].
    Z.to_euclidean_division_equations. lia. }
  destruct (Z.ltb_spec zone 0); cbn; rewrite Hparts; cbn; do 2 f_equal; lia.
Qed.

Lemma getnanos_zone offset : getnanos (fmt_zone offset) = (0, fmt_zone offset).
Proof.
  unfold fmt_zone. destruct (offset =? 0); [done|].
  destruct (_ <? 0); cbn; by destruct (appendInt _ _ +:+ _).
Qed.

(** Formatted and parsed back, a time loses its fraction of a second. *)
Lemma Parse_Format offset t :
  zone_ok offset →
  0 ≤ (civil_from_days ((Time_Unix t + offset) / day_seconds)).1.1 < 10000 →
  Parse (Format offset t) = Some (Time_of_Unix (Time_Unix t)).
Proof.
  intros Hzone. unfold Format. set (abs := Time_Unix t + offset).
  destruct (civil_from_days (abs / day_seconds)) as [[y m] d] eqn:Hciv. cbn [fst]. intros Hy.
  pose proof (days_from_civil_from_days _ _ _ _ Hciv) as Hdays.
  destruct (civil_from_days_valid _ _ _ _ Hciv) as [Hm Hd].
  assert (Hd31 : daysIn m y ≤ 31) by (unfold daysIn; repeat case_match; lia).
  set (sec := abs mod day_seconds).
  assert (Hsec : 0 ≤ sec < 86400) by (apply Z.mod_pos_bound; unfold day_seconds; lia).
  change (if offset =? 0 then _ else _) with (fmt_zone offset).
  assert (Hf : 0 ≤ sec / 3600 < 24 ∧ 0 ≤ sec / 60 mod 60 < 60 ∧ 0 ≤ sec mod 60 < 60)
    by (Z.to_euclidean_division_equations; lia).
  rewrite appendInt_4 by lia. rewrite !appendInt_2 by lia.
  unfold Parse. rewrite getyear_four_digits by lia. cbn [mbind option_bind].
  (** each field is read back, up to the zone *)
  repeat (cbn; first [rewrite skip_eq | rewrite getnum_two_digits by lia]). cbn.
  rewrite (getnanos_zone offset), (getzone_fmt_zone _ Hzone). cbn.
  repeat rewrite (proj2 (Z.ltb_ge _ _)) by lia. cbn.
  do 2 f_equal. rewrite Hdays. unfold Time_of_Unix, Second, abs, day_seconds in *.
  subst sec abs. Z.to_euclidean_division_equations. lia.
Qed.

(** Formatting keeps the zone's whole minutes only; parsing needs no more to
    find the instant. *)
Example Format_example :
  Format 7200 (Time_of_Unix 1739172424) = "2025-02-10T09:27:04+02:00"
  ∧ Parse "2025-02-10T09:27:04.5+02:00" = Some (1739172424 * Second + 500 * Millisecond)
  ∧ Parse "2024-02-30T00:00:00Z" = None.
Proof. vm_compute. done. Qed.
