(* ===== verification/Base64.v ===== *)
(** * Package [encoding/base64]

    [StdEncoding.EncodeToString], with which the program writes CA bundles and
    licenses, and [RawURLEncoding.DecodeString], with which it reads the payload
    of a token; the opposite directions are what the readers and the writers of
    these strings do. *)

From S2P Require Import Prelude GoStrings.

Record Encoding := mkEncoding {
  alphabet : string;
  padded : bool
}.

Definition StdEncoding : Encoding :=
  mkEncoding "ABCDEFGHIJKLMNOPQRSTUVWXYZabcdefghijklmnopqrstuvwxyz0123456789+/" true.

Definition RawURLEncoding : Encoding :=
  mkEncoding "ABCDEFGHIJKLMNOPQRSTUVWXYZabcdefghijklmnopqrstuvwxyz0123456789-_" false.

Definition byte_of (c : Ascii.ascii) : Z := Z.of_N (Ascii.N_of_ascii c).
Definition of_byte (z : Z) : Ascii.ascii := Ascii.ascii_of_N (Z.to_N z).

(** The character of a value below 64, and back. *)
Definition encode_char (enc : Encoding) (v : Z) : Ascii.ascii :=
  default "="%char (String.get (Z.to_nat v) (alphabet enc)).

Fixpoint index_of (c : Ascii.ascii) (s : string) (i : Z) : option Z :=
  match s with
  | EmptyString => None
  | String d s' => if decide (d = c) then Some i else index_of c s' (i + 1)
  end.

Definition decode_char (enc : Encoding) (c : Ascii.ascii) : option Z :=
  index_of c (alphabet enc) 0.

Definition padding (enc : Encoding) (n : nat) : string :=
  if padded enc then match n with 1%nat => "=" | _ => "==" end else "".

(** Three bytes become four characters of six bits. *)
Fixpoint EncodeToString (enc : Encoding) (src : string) : string :=
  match src with
  | String a (String b (String c src')) =>
    let v := byte_of a * 65536 + byte_of b * 256 + byte_of c in
    String (encode_char enc (v / 262144)) (String (encode_char enc (v / 4096 mod 64))
      (String (encode_char enc (v / 64 mod 64)) (String (encode_char enc (v mod 64))
        (EncodeToString enc src'))))
  | String a (String b EmptyString) =>
    let v := byte_of a * 65536 + byte_of b * 256 in
    String (encode_char enc (v / 262144)) (String (encode_char enc (v / 4096 mod 64))
      (String (encode_char enc (v / 64 mod 64)) (padding enc 1)))
  | String a EmptyString =>
    let v := byte_of a * 65536 in
    String (encode_char enc (v / 262144)) (String (encode_char enc (v / 4096 mod 64))
      (padding enc 2))
  | EmptyString => ""
  end.

(** Line breaks are ignored wherever they are. *)
Fixpoint strip_newlines (s : string) : string :=
  match s with
  | EmptyString => ""
  | String c s' =>
    if decide (c = "010"%char ∨ c = "013"%char) then strip_newlines s'
    else String c (strip_newlines s')
  end.

(** The value of a full or partial quantum. *)
Definition quantum (v : Z) (bytes : nat) (rest : string) : string :=
  let b0 := of_byte (v / 65536) in
  let b1 := of_byte (v / 256 mod 256) in
  let b2 := of_byte (v mod 256) in
  match bytes with
  | 1%nat => String b0 rest
  | 2%nat => String b0 (String b1 rest)
  | _ => String b0 (String b1 (String b2 rest))
  end.

Fixpoint decode_quanta (enc : Encoding) (s : string) : option string :=
  match s with
  | EmptyString => Some ""
  | String c0 (String c1 (String c2 (String c3 s'))) =>
    v0 ← decode_char enc c0; v1 ← decode_char enc c1;
    if decide (padded enc = true ∧ c2 = "="%char ∧ c3 = "="%char ∧ s' = "") then
      Some (quantum (v0 * 262144 + v1 * 4096) 1 "")
    else
      v2 ← decode_char enc c2;
      if decide (padded enc = true ∧ c3 = "="%char ∧ s' = "") then
        Some (quantum (v0 * 262144 + v1 * 4096 + v2 * 64) 2 "")
      else
        v3 ← decode_char enc c3; rest ← decode_quanta enc s';
        Some (quantum (v0 * 262144 + v1 * 4096 + v2 * 64 + v3) 3 rest)
  | String c0 (String c1 (String c2 EmptyString)) =>
    if padded enc then None else
      v0 ← decode_char enc c0; v1 ← decode_char enc c1; v2 ← decode_char enc c2;
      Some (quantum (v0 * 262144 + v1 * 4096 + v2 * 64) 2 "")
  | String c0 (String c1 EmptyString) =>
    if padded enc then None else
      v0 ← decode_char enc c0; v1 ← decode_char enc c1;
      Some (quantum (v0 * 262144 + v1 * 4096) 1 "")
  | String _ EmptyString => None
  end.

Definition DecodeString (enc : Encoding) (s : string) : option string :=
  decode_quanta enc (strip_newlines s).

(** ** What is encoded is decoded back *)

(** The two alphabets: 64 characters, none of them a line break, a dot, the
    padding or changed by quoting. *)
Definition good_char (enc : Encoding) (v : Z) : bool :=
  let c := encode_char enc v in
  bool_decide (decode_char enc c = Some v) && bool_decide (c ≠ "="%char)
  && bool_decide (c ≠ "010"%char) && bool_decide (c ≠ "013"%char) && bool_decide (c ≠ "."%char)
  && bool_decide (quote_byte c = String c "").

Definition good (enc : Encoding) : Prop := forallb (good_char enc) (seqZ 0 64) = true.

Lemma StdEncoding_good : good StdEncoding.
Proof. vm_compute. reflexivity. Qed.
Lemma RawURLEncoding_good : good RawURLEncoding.
Proof. vm_compute. reflexivity. Qed.

Section Roundtrip.
Context (enc : Encoding) (Hgood : good enc).

Lemma encode_char_spec v :
  0 ≤ v < 64 →
  decode_char enc (encode_char enc v) = Some v ∧ encode_char enc v ≠ "="%char ∧
  encode_char enc v ≠ "010"%char ∧ encode_char enc v ≠ "013"%char ∧
  encode_char enc v ≠ "."%char ∧ quote_byte (encode_char enc v) = String (encode_char enc v) "".
Proof.
  intros Hv. unfold good in Hgood. rewrite forallb_forall in Hgood.
  specialize (Hgood v). rewrite <-list_elem_of_In, elem_of_seqZ in Hgood.
  specialize (Hgood ltac:(lia)). unfold good_char in Hgood.
  repeat (apply andb_prop in Hgood as [Hgood ?%bool_decide_eq_true]).
  by apply bool_decide_eq_true in Hgood.
Qed.

Lemma byte_of_bounds c : 0 ≤ byte_of c < 256.
Proof. unfold byte_of. pose proof (Ascii.N_ascii_bounded c). lia. Qed.

Lemma of_byte_byte_of c : of_byte (byte_of c) = c.
Proof. unfold of_byte, byte_of. rewrite N2Z.id. apply Ascii.ascii_N_embedding. Qed.

(** The sextets of a 24-bit value. *)
Lemma sextets a b c (v := a * 65536 + b * 256 + c) :
  0 ≤ a < 256 → 0 ≤ b < 256 → 0 ≤ c < 256 →
  0 ≤ v / 262144 < 64 ∧ 0 ≤ v / 4096 mod 64 < 64 ∧ 0 ≤ v / 64 mod 64 < 64 ∧ 0 ≤ v mod 64 < 64 ∧
  v / 262144 * 262144 + v / 4096 mod 64 * 4096 + v / 64 mod 64 * 64 + v mod 64 = v ∧
  v / 65536 = a ∧ v / 256 mod 256 = b ∧ v mod 256 = c.
Proof. intros Ha Hb Hc. subst v. Z.to_euclidean_division_equations. lia. Qed.

Lemma quantum_spec a b c rest (v := byte_of a * 65536 + byte_of b * 256 + byte_of c) :
  quantum v 3 rest = String a (String b (String c rest)) ∧
  quantum v 2 rest = String a (String b rest) ∧
  quantum v 1 rest = String a rest.
Proof.
  destruct (sextets (byte_of a) (byte_of b) (byte_of c)) as (_ & _ & _ & _ & _ & H1 & H2 & H3);
    [apply byte_of_bounds..|].
  subst v. unfold quantum. by rewrite H1, H2, H3, !of_byte_byte_of.
Qed.

#[local] Arguments quantum : simpl never.
#[local] Arguments encode_char : simpl never.
#[local] Arguments decode_char : simpl never.

(** Induction three bytes at a time. *)
Lemma string_ind3 (P : string → Prop) :
  P "" → (∀ a, P (String a "")) → (∀ a b, P (String a (String b ""))) →
  (∀ a b c s, P s → P (String a (String b (String c s)))) → ∀ s, P s.
Proof.
  intros H0 H1 H2 H3. fix IH 1. intros [|a [|b [|c s]]]; [apply H0|apply H1|apply H2|].
  apply H3, IH.
Qed.

(** [sextet_chars a b c] bounds the sextets of three bytes and recomposes
    them. *)
Ltac sextet_chars a b c :=
  let H := fresh in
  pose proof (sextets a b c) as H; cbn zeta in H;
  destruct H as (?S0 & ?S1 & ?S2 & ?S3 & ?Sv & _);
  [first [apply byte_of_bounds | lia]..|].

Lemma strip_newlines_encode src :
  strip_newlines (EncodeToString enc src) = EncodeToString enc src.
Proof.
  assert (Hstep : ∀ v s, 0 ≤ v < 64 →
    strip_newlines (String (encode_char enc v) s) = String (encode_char enc v) (strip_newlines s)).
  { intros v s Hv. destruct (encode_char_spec v Hv) as (_ & _ & H1 & H2 & _). cbn.
    rewrite decide_False by (intros [?|?]; done). done. }
  induction src as [|a|a b|a b c src IH] using string_ind3; [done|..];
    cbn [EncodeToString]; cbv zeta.
  - sextet_chars (byte_of a) 0 0. change (0 * 256) with 0 in *.
    rewrite !Z.add_0_r in *. rewrite !Hstep by done.
    unfold padding. destruct (padded enc); reflexivity.
  - sextet_chars (byte_of a) (byte_of b) 0. change (0 * 256) with 0 in *.
    rewrite !Z.add_0_r in *. rewrite !Hstep by done.
    unfold padding. destruct (padded enc); reflexivity.
  - sextet_chars (byte_of a) (byte_of b) (byte_of c). by rewrite !Hstep, IH by done.
Qed.

Lemma decode_quanta_encode src : decode_quanta enc (EncodeToString enc src) = Some src.
Proof.
  assert (Hz : byte_of "000"%char = 0) by reflexivity.
  induction src as [|a|a b|a b c src IH] using string_ind3; [done|..];
    cbn [EncodeToString]; cbv zeta.
  - sextet_chars (byte_of a) 0 0. pose proof (quantum_spec a "000" "000" "") as (_ & _ & Q).
    cbv zeta in Q. rewrite Hz in Q. change (0 * 256) with 0 in *. rewrite !Z.add_0_r in *.
    assert (Hv2 : byte_of a * 65536 / 64 mod 64 = 0 ∧ byte_of a * 65536 mod 64 = 0)
      by (pose proof (byte_of_bounds a); Z.to_euclidean_division_equations; lia).
    destruct Hv2 as [Hv2 Hv3]. rewrite Hv2, Hv3 in Sv.
    destruct (encode_char_spec _ S0) as [D0 _]. destruct (encode_char_spec _ S1) as [D1 _].
    unfold padding. destruct (padded enc) eqn:Hp; cbn; rewrite ?Hp, ?D0, ?D1; cbn;
      [rewrite decide_True by done|];
      f_equal; rewrite <-Q; f_equal; lia.
  - sextet_chars (byte_of a) (byte_of b) 0. pose proof (quantum_spec a b "000" "") as (_ & Q & _).
    cbv zeta in Q. rewrite Hz in Q. change (0 * 256) with 0 in *. rewrite !Z.add_0_r in *.
    assert (Hv3 : (byte_of a * 65536 + byte_of b * 256) mod 64 = 0)
      by (pose proof (byte_of_bounds a); Z.to_euclidean_division_equations; lia).
    rewrite Hv3 in Sv.
    destruct (encode_char_spec _ S0) as [D0 _]. destruct (encode_char_spec _ S1) as [D1 _].
    destruct (encode_char_spec _ S2) as (D2 & N2 & _).
    unfold padding. destruct (padded enc) eqn:Hp; cbn; rewrite ?Hp, ?D0, ?D1; cbn;
      [rewrite decide_False by (intros (_ & ? & _); done)|]; rewrite D2; cbn;
      [rewrite decide_True by done|];
      f_equal; rewrite <-Q; f_equal; lia.
  - sextet_chars (byte_of a) (byte_of b) (byte_of c).
    pose proof (quantum_spec a b c src) as (Q & _). cbv zeta in Q.
    destruct (encode_char_spec _ S0) as [D0 _]. destruct (encode_char_spec _ S1) as [D1 _].
    destruct (encode_char_spec _ S2) as (D2 & N2 & _).
    destruct (encode_char_spec _ S3) as (D3 & N3 & _).
    cbn. rewrite D0, D1; cbn. rewrite decide_False by (intros (_ & ? & _); done).
    rewrite D2; cbn. rewrite decide_False by (intros (_ & ? & _); done).
    rewrite D3, IH; cbn. f_equal. rewrite <-Q. f_equal. lia.
Qed.

Lemma DecodeString_EncodeToString src : DecodeString enc (EncodeToString enc src) = Some src.
Proof. unfold DecodeString. by rewrite strip_newlines_encode, decode_quanta_encode. Qed.

(** Every character of an encoding is the padding or that of a sextet. *)
Lemma EncodeToString_chars (P : Ascii.ascii → Prop) src :
  (∀ v, 0 ≤ v < 64 → P (encode_char enc v)) → P "="%char →
  ∀ c, string_mem c (EncodeToString enc src) = true → P c.
Proof.
  intros Hv Heq c.
  assert (Hpad : ∀ n, string_mem c (padding enc n) = true → P c).
  { intros n. unfold padding. destruct (padded enc); [|done].
    destruct n as [|[|n]]; cbn; rewrite ?orb_true_iff, ?bool_decide_eq_true; naive_solver. }
  induction src as [|a|a b|a b c' src IH] using string_ind3; [done|..];
    cbn [EncodeToString string_mem]; cbv zeta; rewrite !orb_true_iff, !bool_decide_eq_true.
  - sextet_chars (byte_of a) 0 0. change (0 * 256) with 0 in *. rewrite !Z.add_0_r in *.
    intros [<-|[<-|Hp]]; [by apply Hv..|by apply (Hpad 2%nat)].
  - sextet_chars (byte_of a) (byte_of b) 0. rewrite !Z.add_0_r in *.
    intros [<-|[<-|[<-|Hp]]]; [by apply Hv..|by apply (Hpad 1%nat)].
  - sextet_chars (byte_of a) (byte_of b) (byte_of c').
    intros [<-|[<-|[<-|[<-|Hp]]]]; [by apply Hv..|by apply IH].
Qed.

Lemma EncodeToString_no_char src c :
  c ≠ "="%char → (∀ v, 0 ≤ v < 64 → encode_char enc v ≠ c) →
  string_mem c (EncodeToString enc src) = false.
Proof.
  intros Hc Hv. apply not_true_is_false. intros Hin.
  by apply (EncodeToString_chars (λ d, d ≠ c) src) in Hin.
Qed.

Lemma EncodeToString_no_dot src : string_mem "." (EncodeToString enc src) = false.
Proof. apply EncodeToString_no_char; [done|]. intros v Hv. by apply encode_char_spec. Qed.

Lemma EncodeToString_no_newline src : string_mem "010" (EncodeToString enc src) = false.
Proof. apply EncodeToString_no_char; [done|]. intros v Hv. by apply encode_char_spec. Qed.

(** Quoting it adds the quotes only. *)
Lemma fmt_q_encode src :
  fmt_q (EncodeToString enc src) = DQ +:+ EncodeToString enc src +:+ DQ.
Proof.
  unfold fmt_q. do 2 f_equal. apply quote_body_plain, EncodeToString_chars; [|done].
  intros v Hv. by apply encode_char_spec.
Qed.

End Roundtrip.

Lemma EncodeToString_inj enc a b :
  good enc → EncodeToString enc a = EncodeToString enc b → a = b.
Proof.
  intros Hgood Heq. pose proof (DecodeString_EncodeToString enc Hgood a) as Ha.
  rewrite Heq, (DecodeString_EncodeToString enc Hgood) in Ha. by injection Ha.
Qed.

Example base64_examples :
  EncodeToString StdEncoding "light wor" = "bGlnaHQgd29y"
  ∧ EncodeToString StdEncoding "light wo" = "bGlnaHQgd28="
  ∧ DecodeString RawURLEncoding "bGlnaHQgdw" = Some "light w"
  ∧ DecodeString RawURLEncoding "bGlnaHQgdw==" = None.
Proof. vm_compute. done. Qed.
