(* ===== verification/Json.v ===== *)
(** * Package [encoding/json]: decoding into [map[string]interface{}]

    The grammar of JSON as the decoder reads it: objects keep their members in
    order (the last of several with the same name wins in the map), numbers
    become [float64], a number out of the range of [float64] is an error. A
    string is its bytes after unescaping; the decoder also replaces invalid
    UTF-8, which cannot turn another member name into one made of ASCII. *)

From S2P Require Import Prelude Float64 GoStrings Base64.

#[warnings="-register-all"]
Inductive json :=
  | JNull
  | JBool (b : bool)
  | JNumber (x : float64)
  | JString (s : string)
  | JArray (l : list json)
  | JObject (members : list (string * json)).

Definition is_space (c : Ascii.ascii) : bool :=
  bool_decide (c = " "%char ∨ c = "009"%char ∨ c = "010"%char ∨ c = "013"%char).

Fixpoint skip_spaces (s : string) : string :=
  match s with
  | String c s' => if is_space c then skip_spaces s' else s
  | EmptyString => ""
  end.

(** ** Numbers *)

Definition decimal (c : Ascii.ascii) : option Z :=
  let n := byte_of c in if (48 <=? n) && (n <=? 57) then Some (n - 48) else None.

(** The digits at the head of a string: how many, their value in front of
    [acc], and the rest. *)
Fixpoint digits (count : Z) (acc : Z) (s : string) : Z * Z * string :=
  match s with
  | String c s' =>
    match decimal c with
    | Some d => digits (count + 1) (acc * 10 + d) s'
    | None => (count, acc, s)
    end
  | EmptyString => (count, acc, s)
  end.

(** A number is [mantissa * 10 ^ exponent], rounded to a float64. *)
Definition float_of_decimal (mantissa exponent : Z) : option float64 :=
  let x := if 0 <=? exponent then fl (mantissa * 10 ^ exponent * one) 1
           else fl (mantissa * one) (10 ^ (- exponent)) in
  if Z.abs x <? 2 ^ 1024 * one then Some x else None.

(** The exponent part: [e] or [E], an optional sign and digits. *)
Definition parse_exponent (s : string) : option (Z * string) :=
  match s with
  | String c s' =>
    if decide (c = "e"%char ∨ c = "E"%char) then
      let '(sign, s1) :=
        match s' with
        | String d s'' =>
          if decide (d = "-"%char) then (-1, s'')
          else if decide (d = "+"%char) then (1, s'') else (1, s')
        | EmptyString => (1, s')
        end in
      let '(count, e, rest) := digits 0 0 s1 in
      if count =? 0 then None else Some (sign * e, rest)
    else Some (0, s)
  | EmptyString => Some (0, s)
  end.

(** The fraction part: its digits in front of those of the integer part, and
    how many they are. *)
Definition parse_fraction (acc : Z) (s : string) : option (Z * Z * string) :=
  match s with
  | String c s' =>
    if decide (c = "."%char) then
      let '(count, m, rest) := digits 0 acc s' in
      if count =? 0 then None else Some (m, count, rest)
    else Some (acc, 0, s)
  | EmptyString => Some (acc, 0, s)
  end.

(** An integer part of several digits does not start with 0. *)
Definition parse_number (s : string) : option (json * string) :=
  let '(sign, s1) :=
    match s with
    | String c s' => if decide (c = "-"%char) then (-1, s') else (1, s)
    | EmptyString => (1, s)
    end in
  let '(count, int, s2) := digits 0 0 s1 in
  if (count =? 0) || ((1 <? count) && HasPrefix s1 "0") then None
  else
    '(m, frac, s3) ← parse_fraction int s2;
    '(e, s4) ← parse_exponent s3;
    x ← float_of_decimal (sign * m) (e - frac);
    Some (JNumber x, s4).

(** ** Strings *)

Definition hex_value (c : Ascii.ascii) : option Z :=
  let n := byte_of c in
  if (48 <=? n) && (n <=? 57) then Some (n - 48)
  else if (97 <=? n) && (n <=? 102) then Some (n - 87)
  else if (65 <=? n) && (n <=? 70) then Some (n - 55)
  else None.

Definition hex4 (s : string) : option (Z * string) :=
  match s with
  | String a (String b (String c (String d s'))) =>
    x ← hex_value a; y ← hex_value b; z ← hex_value c; w ← hex_value d;
    Some (x * 4096 + y * 256 + z * 16 + w, s')
  | _ => None
  end.

Definition utf8 (rune : Z) (rest : string) : string :=
  let byte z := of_byte z in
  if rune <? 128 then String (byte rune) rest
  else if rune <? 2048 then
    String (byte (192 + rune / 64)) (String (byte (128 + rune mod 64)) rest)
  else if rune <? 65536 then
    String (byte (224 + rune / 4096)) (String (byte (128 + rune / 64 mod 64))
      (String (byte (128 + rune mod 64)) rest))
  else
    String (byte (240 + rune / 262144)) (String (byte (128 + rune / 4096 mod 64))
      (String (byte (128 + rune / 64 mod 64)) (String (byte (128 + rune mod 64)) rest))).

Definition replacement_rune : Z := 65533.

(** [\u] escapes: two that form a surrogate pair are one rune, a lone surrogate
    is replaced. *)
Definition unicode_escape (s : string) : option (Z * string) :=
  '(r1, s1) ← hex4 s;
  if (r1 <? 55296) || (57343 <? r1) then Some (r1, s1)
  else
    match s1 with
    | String b (String u s2) =>
      if decide (b = "092"%char ∧ u = "u"%char) then
        match hex4 s2 with
        | Some (r2, s3) =>
          if (r1 <? 56320) && (56320 <=? r2) && (r2 <=? 57343)
          then Some ((r1 - 55296) * 1024 + (r2 - 56320) + 65536, s3)
          else Some (replacement_rune, s1)
        | None => Some (replacement_rune, s1)
        end
      else Some (replacement_rune, s1)
    | _ => Some (replacement_rune, s1)
    end.

Definition simple_escape (c : Ascii.ascii) : option Ascii.ascii :=
  if decide (c = "034"%char ∨ c = "092"%char ∨ c = "/"%char) then Some c
  else if decide (c = "b"%char) then Some "008"%char
  else if decide (c = "f"%char) then Some "012"%char
  else if decide (c = "n"%char) then Some "010"%char
  else if decide (c = "r"%char) then Some "013"%char
  else if decide (c = "t"%char) then Some "009"%char
  else None.

(** The rest of a string after its opening quote. Each step consumes a byte. *)
Fixpoint parse_string (fuel : nat) (s : string) : option (string * string) :=
  match fuel, s with
  | S fuel', String c s' =>
    if decide (c = "034"%char) then Some ("", s')
    else if decide (c = "092"%char) then
      match s' with
      | String e s'' =>
        if decide (e = "u"%char) then
          '(rune, rest) ← unicode_escape s'';
          '(str, rest') ← parse_string fuel' rest; Some (utf8 rune str, rest')
        else
          b ← simple_escape e;
          '(str, rest') ← parse_string fuel' s''; Some (String b str, rest')
      | EmptyString => None
      end
    else if byte_of c <? 32 then None
    else '(str, rest') ← parse_string fuel' s'; Some (String c str, rest')
  | _, _ => None
  end.

(** ** Values *)

Definition keyword (s word : string) (v : json) : option (json * string) :=
  if HasPrefix s word then Some (v, string_drop (String.length word) s) else None.

(** The members of an object: [item] reads one, [acc] holds those read. *)
Definition comma_or (close : Ascii.ascii) (s : string) : option (bool * string) :=
  match skip_spaces s with
  | String c s' =>
    if decide (c = ","%char) then Some (true, s')
    else if decide (c = close) then Some (false, s') else None
  | EmptyString => None
  end.

Fixpoint items {A} (item : string → option (A * string)) (close : Ascii.ascii)
    (fuel : nat) (s : string) : option (list A * string) :=
  match fuel with
  | O => None
  | S fuel' =>
    '(x, s1) ← item s;
    '(more, s2) ← comma_or close s1;
    if (more : bool) then '(l, s3) ← items item close fuel' s2; Some (x :: l, s3)
    else Some ([x], s2)
  end.

(** A list of items up to [close], possibly empty. *)
Definition enclosed {A} (item : string → option (A * string)) (close : Ascii.ascii)
    (s : string) : option (list A * string) :=
  match skip_spaces s with
  | String c s' =>
    if decide (c = close) then Some ([], s')
    else items item close (String.length s) s
  | EmptyString => None
  end.

(** A member: its name, a colon and its value. *)
Definition member (value : string → option (json * string)) (s : string)
  : option (string * json * string) :=
  match skip_spaces s with
  | String c s' =>
    if decide (c = "034"%char) then
      '(name, s1) ← parse_string (S (String.length s')) s';
      match skip_spaces s1 with
      | String d s2 =>
        if decide (d = ":"%char) then '(v, s3) ← value s2; Some (name, v, s3) else None
      | EmptyString => None
      end
    else None
  | EmptyString => None
  end.

(** [depth] is what is left of the 10000 levels the decoder accepts. *)
Fixpoint parse_value (depth : nat) (s : string) : option (json * string) :=
  match skip_spaces s with
  | String c s' =>
    if decide (c = "034"%char) then
      '(str, rest) ← parse_string (S (String.length s')) s'; Some (JString str, rest)
    else if decide (c = "{"%char ∨ c = "["%char) then
      match depth with
      | O => None
      | S depth' =>
        if decide (c = "{"%char) then
          '(l, rest) ← enclosed (member (parse_value depth')) "}" s'; Some (JObject l, rest)
        else
          '(l, rest) ← enclosed (parse_value depth') "]" s'; Some (JArray l, rest)
      end
    else if decide (c = "t"%char) then keyword (String c s') "true" (JBool true)
    else if decide (c = "f"%char) then keyword (String c s') "false" (JBool false)
    else if decide (c = "n"%char) then keyword (String c s') "null" JNull
    else parse_number (String c s')
  | EmptyString => None
  end.

Definition maxNestingDepth : nat := Z.to_nat 10000.

(** [json.Unmarshal(data, &m)] for [m] a [map[string]interface{}]: an object,
    or [null], which leaves the map nil. *)
Definition Unmarshal (data : string) : option (list (string * json)) :=
  '(v, rest) ← parse_value maxNestingDepth data;
  if decide (skip_spaces rest = "") then
    match v with
    | JObject members => Some members
    | JNull => Some []
    | _ => None
    end
  else None.

(** [m[key]]: the last member of that name. *)
Definition map_lookup (key : string) (members : list (string * json)) : option json :=
  foldl (λ found m, if decide (m.1 = key) then Some m.2 else found) None members.

(** ** Decoding into a struct of a bool and a string

    Member names are compared without regard to case, [null] changes nothing, a
    value of another type is an error. *)

Fixpoint fold_name (s : string) : string :=
  match s with
  | EmptyString => ""
  | String c s' =>
    let n := byte_of c in
    match s' with
    | String d s'' =>
      if (n =? 197) && (byte_of d =? 191) then String "s" (fold_name s'')
      else String (if (65 <=? n) && (n <=? 90) then of_byte (n + 32) else c) (fold_name s')
    | EmptyString =>
      String (if (65 <=? n) && (n <=? 90) then of_byte (n + 32) else c) ""
    end
  end.

Definition decode_member (boolName stringName : string) (acc : option (bool * string))
    (m : string * json) : option (bool * string) :=
  '(b, s) ← acc;
  if decide (fold_name m.1 = boolName) then
    match m.2 with JBool b' => Some (b', s) | JNull => Some (b, s) | _ => None end
  else if decide (fold_name m.1 = stringName) then
    match m.2 with JString s' => Some (b, s') | JNull => Some (b, s) | _ => None end
  else Some (b, s).

Definition Unmarshal_struct (boolName stringName data : string) : option (bool * string) :=
  members ← Unmarshal data;
  foldl (decode_member boolName stringName) (Some (false, "")) members.

(** ** Decimal integers are read back *)

Lemma digits_go_app fuel z a b : digits_go fuel z a +:+ b = digits_go fuel z (a +:+ b).
Proof.
  revert z a. induction fuel as [|fuel IH]; intros z a; [done|]. cbn [digits_go].
  destruct (z <? 10); [done|]. by rewrite IH.
Qed.

Lemma decimal_digit z : 0 ≤ z < 10 → decimal (digit z) = Some z.
Proof.
  intros Hz.
  assert (Hall : forallb (λ z, bool_decide (decimal (digit z) = Some z)) (seqZ 0 10) = true)
    by (vm_compute; reflexivity).
  rewrite forallb_forall in Hall. apply (bool_decide_eq_true_1 _), Hall.
  apply list_elem_of_In, elem_of_seqZ. lia.
Qed.

Lemma digits_digits_go fuel z s count acc :
  (0 < fuel)%nat → 0 ≤ z < 10 ^ Z.of_nat fuel →
  ∃ len, 1 ≤ len ∧ (1 < len → 10 ≤ z) ∧
    digits count acc (digits_go fuel z s) = digits (count + len) (acc * 10 ^ len + z) s.
Proof.
  revert z s. induction fuel as [|fuel IH]; intros z s Hf Hz; [lia|]. cbn [digits_go].
  destruct (Z.ltb_spec z 10) as [Hlt|Hge].
  - exists 1. split_and!; [lia..|]. cbn [digits].
    rewrite Z.mod_small, decimal_digit by lia. done.
  - assert (Hf' : (0 < fuel)%nat).
    { destruct fuel; [|lia]. change (10 ^ Z.of_nat 1) with 10 in Hz. lia. }
    rewrite Nat2Z.inj_succ, Z.pow_succ_r in Hz by lia.
    destruct (IH (z / 10) (String (digit (z mod 10)) s) Hf') as (len & Hlen & _ & ->).
    { split; [apply Z.div_pos; lia|]. apply Z.div_lt_upper_bound; lia. }
    exists (len + 1). split_and!; [lia..|]. cbn [digits].
    rewrite decimal_digit by (apply Z.mod_pos_bound; lia).
    rewrite Z.pow_add_r by lia. pose proof (Z.div_mod z 10). f_equal; lia.
Qed.

Lemma digits_go_head fuel z s :
  1 ≤ z < 10 ^ Z.of_nat fuel → HasPrefix (digits_go fuel z s) "0" = false.
Proof.
  revert z s. induction fuel as [|fuel IH]; intros z s Hz; [cbn in Hz; lia|].
  cbn [digits_go]. rewrite Nat2Z.inj_succ, Z.pow_succ_r in Hz by lia.
  destruct (Z.ltb_spec z 10) as [Hlt|Hge].
  - cbn. case_decide as Hd; [|done]. rewrite Z.mod_small in Hd by lia.
    pose proof (decimal_digit z ltac:(lia)) as Hdec. rewrite <-Hd in Hdec.
    change (Some 0 = Some z) in Hdec. injection Hdec. lia.
  - apply IH. split; [apply Z.div_le_lower_bound; lia|]. apply Z.div_lt_upper_bound; lia.
Qed.

(** What may follow a number without being read as a part of it. *)
Definition number_end (s : string) : Prop :=
  match s with
  | String c _ =>
    decimal c = None ∧ c ≠ "."%char ∧ c ≠ "e"%char ∧ c ≠ "E"%char
  | EmptyString => True
  end.

Lemma digits_number_end count acc s : number_end s → digits count acc s = (count, acc, s).
Proof. destruct s as [|c s]; [done|]. cbn. by intros [-> _]. Qed.

Lemma parse_fraction_none acc s : number_end s → parse_fraction acc s = Some (acc, 0, s).
Proof.
  destruct s as [|c s]; [done|]. intros (_ & Hc & _). cbn. by rewrite decide_False.
Qed.

Lemma parse_exponent_none s : number_end s → parse_exponent s = Some (0, s).
Proof.
  destruct s as [|c s]; [done|]. intros (_ & _ & Hc & HC). cbn.
  rewrite decide_False; [done|]. by intros [?|?].
Qed.

Lemma parse_number_fmt_d n s :
  0 ≤ n < 2 ^ 53 → number_end s →
  parse_number (fmt_d n +:+ s) = Some (JNumber (n * one), s).
Proof.
  intros Hn Hs. unfold fmt_d. rewrite (proj2 (Z.ltb_ge n 0)) by lia.
  rewrite digits_go_app. cbn [String.append]. unfold parse_number.
  assert (Hp : 0 ≤ n < 10 ^ Z.of_nat 20) by lia.
  destruct (digits_digits_go 20 n s 0 0 ltac:(lia) Hp) as (len & Hlen & Hlong & Hdig).
  rewrite (digits_number_end _ _ s Hs), Z.mul_0_l, !Z.add_0_l in Hdig.
  assert (Hsign : ∃ c s', digits_go 20 n s = String c s' ∧ c ≠ "-"%char).
  { destruct (digits_go 20 n s) as [|c s'] eqn:E.
    - cbn in Hdig. injection Hdig. lia.
    - exists c, s'. split; [done|]. intros ->. cbn in Hdig. injection Hdig. lia. }
  destruct Hsign as (c & s' & E & Hc). rewrite E in *. rewrite decide_False by done.
  rewrite Hdig. cbv beta iota. rewrite (proj2 (Z.eqb_neq len 0)) by lia. cbn [orb].
  assert (Hzero : ((1 <? len) && HasPrefix (String c s') "0")%bool = false).
  { destruct (Z.ltb_spec 1 len) as [H1|]; [|done]. rewrite <-E.
    apply digits_go_head. specialize (Hlong H1). lia. }
  rewrite Hzero. rewrite (parse_fraction_none _ s Hs). cbn [mbind option_bind].
  rewrite (parse_exponent_none s Hs). cbn [mbind option_bind].
  unfold float_of_decimal. replace (0 - 0) with 0 by lia. cbn [Z.leb Z.compare].
  change (10 ^ 0) with 1. pose proof one_pos.
  replace (1 * n * 1 * one) with (n * one * 1) by lia.
  rewrite fl_exact by lia. rewrite Z.abs_mul, !Z.abs_eq by lia.
  rewrite (proj2 (Z.ltb_lt _ _)); [done|]. apply Z.mul_lt_mono_pos_r; lia.
Qed.

(** ** Objects of string members are read back

    [plain] strings need no escape. *)

Fixpoint plain (s : string) : Prop :=
  match s with
  | EmptyString => True
  | String c s' => c ≠ "034"%char ∧ c ≠ "092"%char ∧ 32 ≤ byte_of c ∧ plain s'
  end.

Definition text_string (s : string) : string := DQ +:+ s +:+ DQ.

Lemma parse_string_char fuel c s :
  c ≠ "034"%char → c ≠ "092"%char → 32 ≤ byte_of c →
  parse_string (S fuel) (String c s) =
  '(str, rest) ← parse_string fuel s; Some (String c str, rest).
Proof.
  intros Hq Hb Hc. cbn [parse_string]. rewrite !decide_False by done.
  by rewrite (proj2 (Z.ltb_ge _ _)) by lia.
Qed.

#[local] Arguments parse_string : simpl never.
#[local] Arguments items : simpl never.

Lemma parse_string_plain s fuel rest :
  plain s → (String.length s < fuel)%nat →
  parse_string fuel (s +:+ String "034" rest) = Some (s, rest).
Proof.
  revert fuel. induction s as [|c s IH]; intros fuel Hs Hf.
  - destruct fuel as [|fuel]; [lia|]. done.
  - destruct fuel as [|fuel]; [cbn in Hf; lia|]. destruct Hs as (Hq & Hb & Hc & Hs).
    cbn in Hf. cbn [String.append]. rewrite parse_string_char by done.
    by rewrite IH by (done || lia).
Qed.

Lemma parse_string_rest s rest :
  plain s →
  parse_string (S (String.length (s +:+ String "034" rest))) (s +:+ String "034" rest)
  = Some (s, rest).
Proof. intros Hs. apply parse_string_plain; [done|]. rewrite length_app_string. lia. Qed.

Lemma text_string_app s rest : text_string s +:+ rest = String "034" (s +:+ String "034" rest).
Proof. unfold text_string. cbn. by rewrite <-app_assoc_string. Qed.

Lemma parse_value_text_string depth s rest :
  plain s → parse_value depth (text_string s +:+ rest) = Some (JString s, rest).
Proof.
  intros Hs. rewrite text_string_app.
  assert (Hq : ∀ s', parse_value depth (String "034" s') =
    '(str, rest) ← parse_string (S (String.length s')) s'; Some (JString str, rest))
    by (by destruct depth).
  by rewrite Hq, parse_string_rest.
Qed.

(** Refutes that a character known to be a digit is one that is not. *)
Local Ltac other_char := let H := fresh in intros H; repeat destruct H as [H|H];
  match goal with Hne : ∀ d, decimal d = None → ?c ≠ d |- _ =>
    match type of H with c = ?d => exact (Hne d eq_refl H) end end.

(** A number starts with a digit. *)
Lemma decimal_dispatch depth c s :
  decimal c ≠ None → parse_value depth (String c s) = parse_number (String c s).
Proof.
  intros Hc.
  assert (Hne : ∀ d, decimal d = None → c ≠ d) by (intros d Hd ->; done).
  destruct depth; cbn [parse_value skip_spaces]; unfold is_space;
    rewrite bool_decide_eq_false_2 by other_char; rewrite !decide_False by other_char; done.
Qed.

Lemma parse_value_fmt_d depth n rest :
  0 ≤ n < 2 ^ 53 → number_end rest →
  parse_value depth (fmt_d n +:+ rest) = Some (JNumber (n * one), rest).
Proof.
  intros Hn Hr. rewrite <-(parse_number_fmt_d n rest Hn Hr).
  unfold fmt_d. rewrite (proj2 (Z.ltb_ge n 0)) by lia. rewrite digits_go_app. cbn [String.append].
  destruct (digits_digits_go 20 n rest 0 0 ltac:(lia)) as (len & Hlen & _ & Hdig); [lia|].
  rewrite (digits_number_end _ _ rest Hr) in Hdig.
  destruct (digits_go 20 n rest) as [|c s']; [injection Hdig; lia|].
  apply decimal_dispatch. intros Hc. cbn in Hdig. rewrite Hc in Hdig. injection Hdig. lia.
Qed.

(** Members with string values, before a last one. *)
Fixpoint members_text (l : list (string * string)) (last : string) : string :=
  match l with
  | [] => last
  | (k, v) :: l' => text_string k +:+ ":" +:+ text_string v +:+ "," +:+ members_text l' last
  end.

Lemma member_text value name text rest v :
  plain name → value (text +:+ rest) = Some (v, rest) →
  member value (text_string name +:+ ":" +:+ text +:+ rest) = Some (name, v, rest).
Proof.
  intros Hname Hv. rewrite text_string_app.
  assert (Hq : ∀ s', member value (String "034" s') =
    '(name, s1) ← parse_string (S (String.length s')) s';
    match skip_spaces s1 with
    | String d s2 =>
      if decide (d = ":"%char) then '(v, s3) ← value s2; Some (name, v, s3) else None
    | EmptyString => None
    end) by done.
  rewrite Hq, parse_string_rest by done. cbn [mbind option_bind].
  change (skip_spaces (":" +:+ text +:+ rest)) with (String ":" (text +:+ rest)).
  cbv iota beta. rewrite decide_True by done. by rewrite Hv.
Qed.

(** The members of an object, up to its closing brace. *)
Lemma items_members depth (l : list (string * string)) fuel last text v rest :
  Forall (λ m, plain m.1 ∧ plain m.2) l → plain last → (length l < fuel)%nat →
  (∀ r, number_end r → parse_value depth (text +:+ r) = Some (v, r)) →
  items (member (parse_value depth)) "}" fuel
    (members_text l (text_string last +:+ ":" +:+ text) +:+ String "}" rest) =
  Some (((λ m, (m.1, JString m.2)) <$> l) ++ [(last, v)], rest).
Proof.
  intros Hl Hlast Hf Hv. revert fuel Hf.
  induction Hl as [|[k s] l [Hk Hs] _ IH]; intros fuel Hf;
    (destruct fuel as [|fuel]; [lia|]); cbn [members_text].
  - rewrite <-!app_assoc_string. unfold items.
    rewrite (member_text _ last text (String "}" rest) v) by (done || by apply Hv). done.
  - cbn [length] in Hf. rewrite <-!app_assoc_string.
    change (items (member (parse_value depth)) "}" (S fuel) ?s) with
      ('(x, s1) ← member (parse_value depth) s;
       '(more, s2) ← comma_or "}" s1;
       if (more : bool)
       then '(l, s3) ← items (member (parse_value depth)) "}" fuel s2; Some (x :: l, s3)
       else Some ([x], s2)).
    rewrite (member_text _ k (text_string s) _ (JString s)) by
      (done || by apply parse_value_text_string). cbn [mbind option_bind].
    change (comma_or "}" ("," +:+ ?s)) with (Some (true, s)). cbn [mbind option_bind].
    by rewrite IH by lia.
Qed.

(** An object of string members and a last one with an integer value. *)
Definition object_text (l : list (string * string)) (last : string) (n : Z) : string :=
  "{" +:+ members_text l (text_string last +:+ ":" +:+ fmt_d n) +:+ "}".

Lemma length_members_text l last : (length l ≤ String.length (members_text l last))%nat.
Proof.
  induction l as [|[k v] l IH]; cbn [members_text length]; [lia|].
  rewrite !length_app_string. change (String.length ",") with 1%nat. lia.
Qed.

Lemma parse_object_text depth l last n rest :
  Forall (λ m, plain m.1 ∧ plain m.2) l → plain last → 0 ≤ n < 2 ^ 53 →
  parse_value (S depth) (object_text l last n +:+ rest) =
  Some (JObject (((λ m, (m.1, JString m.2)) <$> l) ++ [(last, JNumber (n * one))]), rest).
Proof.
  intros Hl Hlast Hn. unfold object_text. rewrite <-!app_assoc_string.
  set (body := members_text l _). 
  assert (Hobj : ∀ s, parse_value (S depth) (String "{" s) =
    '(l, rest) ← enclosed (member (parse_value depth)) "}" s; Some (JObject l, rest)) by done.
  change ("{" +:+ body +:+ "}" +:+ rest) with (String "{" (body +:+ String "}" rest)).
  rewrite Hobj. clear Hobj.
  assert (Hquote : ∃ s, body +:+ String "}" rest = String "034" s).
  { subst body. destruct l as [|[k v] l]; cbn [members_text]; rewrite <-?app_assoc_string,
      text_string_app; eauto. }
  destruct Hquote as [s Hquote].
  assert (Hlen : (length l < String.length (body +:+ String "}" rest))%nat).
  { rewrite length_app_string. cbn [String.length]. subst body.
    pose proof (length_members_text l (text_string last +:+ ":" +:+ fmt_d n)). lia. }
  unfold enclosed. rewrite Hquote in *.
  change (skip_spaces (String "034" s)) with (String "034" s). cbv iota beta.
  rewrite decide_False by done. rewrite <-Hquote. subst body.
  rewrite (items_members depth l _ last (fmt_d n) (JNumber (n * one)) rest Hl Hlast); [done| |].
  - by rewrite Hquote.
  - intros r Hr. by apply parse_value_fmt_d.
Qed.

Lemma Unmarshal_object_text l last n :
  Forall (λ m, plain m.1 ∧ plain m.2) l → plain last → 0 ≤ n < 2 ^ 53 →
  Unmarshal (object_text l last n) =
  Some (((λ m, (m.1, JString m.2)) <$> l) ++ [(last, JNumber (n * one))]).
Proof.
  intros Hl Hlast Hn. unfold Unmarshal, maxNestingDepth.
  replace (Z.to_nat 10000) with (S (Z.to_nat 9999)) by lia.
  rewrite <-(app_nil_string (object_text l last n)), parse_object_text by done.
  cbn [mbind option_bind skip_spaces]. by rewrite decide_True.
Qed.

(** The last member is the one found. *)
Lemma map_lookup_last l key v : map_lookup key (l ++ [(key, v)]) = Some v.
Proof. unfold map_lookup. rewrite foldl_app. cbn. by rewrite decide_True. Qed.
