(* ===== verification/Api.v ===== *)
(** * The API objects

    The Go structs of [libsveltosv1beta1] and [metav1] the program reads and
    writes, field by field. Pointers, and slices and maps that may be [nil],
    are options. What the program never looks at in a SveltosCluster's Spec is
    carried along as one opaque field, so that comparing two Specs still
    compares everything. *)

From S2P Require Import Prelude GoTime.

(** ** Cluster checks *)

Inductive LabelOperation :=
  | OperationEqual
  | OperationDifferent
  | OperationHas
  | OperationDoesNotHave
  | OperationUnknown (s : string).

Record LabelFilter := mkLabelFilter {
  Key : string;
  Operation : LabelOperation;
  Value : string
}.

Record LabelSelectorRequirement := mkLabelSelectorRequirement {
  Requirement_Key : string;
  Requirement_Operator : string;
  Requirement_Values : Slice string
}.

(** [metav1.LabelSelector] *)
Record LabelSelector := mkLabelSelector {
  MatchLabels : option (gmap string string);
  MatchExpressions : Slice LabelSelectorRequirement
}.

Record CELRule := mkCELRule {
  CELRule_Name : string;
  CELRule_Rule : string
}.

Record ResourceSelector := mkResourceSelector {
  Group : string;
  Version : string;
  Kind : string;
  LabelFilters : Slice LabelFilter;
  Selector : option LabelSelector;
  Selector_Namespace : string;
  Selector_Name : string;
  Evaluate : string;
  EvaluateCEL : Slice CELRule;
  IncludeDeletingResources : bool
}.

Record ClusterCheck := mkClusterCheck {
  Check_Name : string;
  ResourceSelectors : Slice ResourceSelector;
  Condition : string
}.

(** ** SveltosCluster.Spec *)

Record ActiveWindow := mkActiveWindow {
  From : string;
  To : string
}.

Record TokenRequestRenewalOption := mkTokenRequestRenewalOption {
  RenewTokenRequestInterval : Duration;
  TokenDuration : Duration;
  SANamespace : string;
  SAName : string;
  Option_KubeconfigKeyName : option string
}.

Record SveltosClusterSpec := mkSpec {
  Paused : bool;
  PullMode : bool;
  ConsecutiveFailureThreshold : Z;
  Spec_TokenRequestRenewalOption : option TokenRequestRenewalOption;
  KubeconfigKeyName : string;
  Spec_ActiveWindow : option ActiveWindow;
  ReadinessChecks : Slice ClusterCheck;
  LivenessChecks : Slice ClusterCheck;
  CleanupGracePeriod : option Duration;
  Spec_other : string
}.

(** ** SveltosCluster.Status *)

Inductive ConnectionStatus_t :=
  | ConnectionUnset
  | ConnectionHealthy
  | ConnectionDown.

Record SveltosClusterStatus := mkStatus {
  Ready : bool;
  Status_Version : string;
  ConnectionStatus : ConnectionStatus_t;
  ConnectionFailures : Z;
  FailureMessage : option string;
  LastReconciledTokenRequestAt : string;
  NextPause : option Time;
  NextUnpause : option Time;
  ActiveWindowHash : option string;
  AgentLastReportTime : option Time
}.

(** ** SveltosCluster *)

Record ObjectMeta := mkMeta {
  Namespace : string;
  Name : string;
  UID : string;
  Labels : option (gmap string string);
  Annotations : option (gmap string string);
  Finalizers : list string;
  CreationTimestamp : Time;
  DeletionTimestamp : option Time
}.

Record SveltosCluster := mkCluster {
  Meta : ObjectMeta;
  Spec : SveltosClusterSpec;
  Status : SveltosClusterStatus
}.

(** ** Record update *)

#[export] Instance eta_Option : Eta TokenRequestRenewalOption := λ r,
  mkTokenRequestRenewalOption (RenewTokenRequestInterval r) (TokenDuration r)
    (SANamespace r) (SAName r) (Option_KubeconfigKeyName r).

#[export] Instance eta_Spec : Eta SveltosClusterSpec := λ r,
  mkSpec (Paused r) (PullMode r) (ConsecutiveFailureThreshold r)
    (Spec_TokenRequestRenewalOption r) (KubeconfigKeyName r) (Spec_ActiveWindow r)
    (ReadinessChecks r) (LivenessChecks r) (CleanupGracePeriod r) (Spec_other r).

#[export] Instance eta_Status : Eta SveltosClusterStatus := λ r,
  mkStatus (Ready r) (Status_Version r) (ConnectionStatus r) (ConnectionFailures r)
    (FailureMessage r) (LastReconciledTokenRequestAt r) (NextPause r) (NextUnpause r)
    (ActiveWindowHash r) (AgentLastReportTime r).

#[export] Instance eta_Meta : Eta ObjectMeta := λ r,
  mkMeta (Namespace r) (Name r) (UID r) (Labels r) (Annotations r) (Finalizers r)
    (CreationTimestamp r) (DeletionTimestamp r).

#[export] Instance eta_Cluster : Eta SveltosCluster := λ r,
  mkCluster (Meta r) (Spec r) (Status r).

(** ** Decidable equality *)

#[export] Instance LabelOperation_eq_dec : EqDecision LabelOperation.
Proof. solve_decision. Defined.
#[export] Instance LabelFilter_eq_dec : EqDecision LabelFilter.
Proof. solve_decision. Defined.
#[export] Instance LabelSelectorRequirement_eq_dec : EqDecision LabelSelectorRequirement.
Proof. solve_decision. Defined.
#[export] Instance LabelSelector_eq_dec : EqDecision LabelSelector.
Proof. solve_decision. Defined.
#[export] Instance CELRule_eq_dec : EqDecision CELRule.
Proof. solve_decision. Defined.
#[export] Instance ResourceSelector_eq_dec : EqDecision ResourceSelector.
Proof. solve_decision. Defined.
#[export] Instance ClusterCheck_eq_dec : EqDecision ClusterCheck.
Proof. solve_decision. Defined.
#[export] Instance ActiveWindow_eq_dec : EqDecision ActiveWindow.
Proof. solve_decision. Defined.
#[export] Instance TokenRequestRenewalOption_eq_dec : EqDecision TokenRequestRenewalOption.
Proof. solve_decision. Defined.
#[export] Instance SveltosClusterSpec_eq_dec : EqDecision SveltosClusterSpec.
Proof. solve_decision. Defined.
#[export] Instance ConnectionStatus_eq_dec : EqDecision ConnectionStatus_t.
Proof. solve_decision. Defined.
#[export] Instance SveltosClusterStatus_eq_dec : EqDecision SveltosClusterStatus.
Proof. solve_decision. Defined.

(** ** A blank object, as [&SveltosCluster{}] *)

Definition zero_Spec : SveltosClusterSpec :=
  mkSpec false false 0 None "" None None None None "".

Definition zero_Status : SveltosClusterStatus :=
  mkStatus false "" ConnectionUnset 0 None "" None None None None.

Definition zero_Meta : ObjectMeta :=
  mkMeta "" "" "" None None [] zero_Time None.

Definition zero_SveltosCluster : SveltosCluster :=
  mkCluster zero_Meta zero_Spec zero_Status.
