(* ===== verification/Platform.v ===== *)
(** * What the program gets from third-party code

    One type class per dependency, with the operations the program calls. The
    definitions of the development use the operations only; what a theorem
    needs to know of them it states as a hypothesis or as a class of laws.
    What happens outside of the process is a world of type [W], threaded
    through every call that can read or change it. *)

From S2P Require Import Prelude GoTime Api.

(** ** github.com/robfig/cron

    [Next] returns the next activation time, later than the given time, or
    the zero time when there is none. A schedule without a time zone of its
    own is read in the zone of the time it is given. *)

Inductive Location :=
  | Local
  | UTC.

Class Cron := {
  Schedule : Type;
  cron_ParseStandard : string → result Schedule;
  Schedule_Next : Schedule → Location → Time → Time
}.

(** ** The clock

    [time.Now()], and the offset of the local zone at an instant, in seconds
    east of UTC. *)

Class Clock (W : Type) := {
  time_Now : St W Time;
  Local_offset : Time → Z
}.

Section Clock.
Context {W : Type} `{Clock W}.

Definition time_Until (t : Time) : St W Duration := now ← time_Now; mret (Time_Sub t now).
Definition time_Since (t : Time) : St W Duration := now ← time_Now; mret (Time_Sub now t).

End Clock.

(** ** sigs.k8s.io/controller-runtime: the result of a reconciliation

    No delay means no further reconciliation is asked for. *)

Record ctrl_Result := mkResult { RequeueAfter : Duration }.

Definition no_requeue : ctrl_Result := mkResult 0.

(** ** k8s.io/client-go: a rest.Config and the clientset made from it *)

Record Config := mkConfig {
  Host : string;
  CAData : string;
  Config_other : string
}.

#[export] Instance eta_Config : Eta Config := λ r,
  mkConfig (Host r) (CAData r) (Config_other r).

Class ClientSet (W : Type) := {
  Clientset : Type;
  kubernetes_NewForConfig : Config → St W (result Clientset);
  (** [ServiceAccounts(namespace).CreateToken(name, ExpirationSeconds)]: the token *)
  CreateToken : Clientset → string → string → Z → St W (result string);
  (** [SelfSubjectReviews().Create]: the username *)
  SelfSubjectReview : Clientset → St W (result string)
}.

(** ** sigs.k8s.io/controller-runtime: the client of the management cluster *)

Class ManagementClient (W : Type) := {
  Get_SveltosCluster : string → string → St W (result SveltosCluster);
  (** [Data] of a ConfigMap *)
  Get_ConfigMap : string → string → St W (result (option (gmap string string)));
  (** [patch.NewHelper] and [Patch] of libsveltos *)
  PatchHelper : Type;
  patch_NewHelper : SveltosCluster → St W (result PatchHelper);
  Patch : PatchHelper → SveltosCluster → St W (option error)
}.

Class Finalizer := {
  ContainsFinalizer : list string → string → bool;
  AddFinalizer : list string → string → list string;
  RemoveFinalizer : list string → string → list string
}.

Class FinalizerLaws `{Finalizer} := {
  Contains_nil g : ContainsFinalizer [] g = false;
  Contains_Add l f g :
    ContainsFinalizer (AddFinalizer l f) g = bool_decide (f = g) || ContainsFinalizer l g;
  Contains_Remove l f g :
    ContainsFinalizer (RemoveFinalizer l f) g = bool_decide (f ≠ g) && ContainsFinalizer l g
}.

(** ** go.yaml.in/yaml/v3 over a kubeconfig: what the program reads of it *)

Record NamedContext := mkContext {
  Context_Namespace : string;
  Context_AuthInfo : string
}.

Class Yaml := {
  yaml_Unmarshal_Config : string → result (list NamedContext)
}.

(** ** github.com/Masterminds/semver: major, minor and patch of a version *)

Class Semver := {
  semver_NewVersion : string → result (Z * Z * Z)
}.

(** ** Resources of a managed cluster: k8s.io/client-go *)

Class Dynamic (W : Type) := {
  (** [unstructured.Unstructured] *)
  Resource : Type;
  GetDeletionTimestamp : Resource → option Time;
  APIGroupResources : Type;
  restmapper_GetAPIGroupResources : Config → St W (result APIGroupResources);
  (** group, kind and version to the name of the resource *)
  RESTMapping : APIGroupResources → string → string → string → result string;
  (** [LabelSelectorAsSelector] and [String] *)
  LabelSelectorAsSelector : LabelSelector → result string;
  (** group, version and resource; label selector and field selector *)
  dynamic_List : Config → string → string → string → string → string →
    St W (result (list Resource))
}.

(** ** github.com/google/cel-go, through libsveltos *)

Class CEL (W : Type) `{Dynamic W} := {
  sveltoscel_EvaluateRules : Resource → Slice CELRule → St W (result bool)
}.

(** ** github.com/yuin/gopher-lua *)

Class Lua (W : Type) `{Dynamic W} := {
  LState : Type;
  LTable : Type;
  LValue : Type;
  lua_NewState : St W LState;
  lua_Close : LState → St W ();
  MapToTable : Resource → St W LTable;
  lua_NewTable : LState → St W LTable;
  lua_Append : LTable → LTable → St W ();
  lua_DoString : LState → string → St W (option error);
  lua_SetGlobal : LState → string → LTable → St W ();
  (** a protected call of the global function [evaluate] with one argument *)
  lua_CallByParam : LState → LTable → St W (option error);
  (** the value on the top of the stack *)
  lua_Get : LState → St W LValue;
  as_LTable : LValue → option LTable;
  (** [json.Marshal(ToGoValue(tbl))] *)
  json_Marshal_ToGoValue : LTable → St W (result string);
  LuaTableError : string
}.

(** ** github.com/projectsveltos/libsveltos *)

Class ClusterProxy (W : Type) := {
  GetSveltosKubernetesRestConfig : string → string → St W (result Config);
  GetSveltosSecretData : string → string → St W (result string);
  (** namespace, name, data and key *)
  UpdateSveltosSecretData : string → string → string → string → St W (option error);
  EvictWorkloadIdentityCache : string → string → St W ();
  ClusterObject : Type;
  GetCluster : string → string → St W (result ClusterObject);
  IsShardAMatch : string → ClusterObject → bool;
  GetKubernetesVersion : Config → St W (result string)
}.

(** What identifies a deployment in the pull-mode transport. *)
Record Deployment := mkDeployment {
  Deployment_Namespace : string;
  Deployment_Cluster : string;
  RequestorKind : string;
  RequestorName : string;
  RequestorFeature : string
}.

Record ObjectReference := mkObjectReference {
  Ref_APIVersion : string;
  Ref_Kind : string;
  Ref_Namespace : string;
  Ref_Name : string;
  Ref_UID : string
}.

(** A Secret with byte data. *)
Record Secret := mkSecret {
  Secret_APIVersion : string;
  Secret_Kind : string;
  Secret_Namespace : string;
  Secret_Name : string;
  Secret_Data : gmap string string
}.

Inductive FeatureStatus :=
  | FeatureStatusProvisioned
  | FeatureStatusOther (s : string).

#[export] Instance FeatureStatus_eq_dec : EqDecision FeatureStatus.
Proof. solve_decision. Defined.

Class PullModeTransport (W : Type) := {
  Unstructured_t : Type;
  (** [runtime.DefaultUnstructuredConverter.ToUnstructured] of a Secret *)
  ToUnstructured : Secret → result Unstructured_t;
  (** the resources per key, and whether unchanged ones are skipped *)
  StageResourcesForDeployment :
    Deployment → gmap string (list Unstructured_t) → bool → St W (option error);
  CommitStagedResourcesForDeployment :
    Deployment → ObjectReference → St W (option error);
  (** [DeploymentStatus] of the status, when there is a status *)
  GetDeploymentStatus : Deployment → St W (result (option (option FeatureStatus)));
  TerminateDeploymentTracking : Deployment → St W (option error);
  AgentHeartbeatTimeoutError : string;
  IsAgentTimeoutError : SveltosCluster → bool
}.

Record LicensePayload := mkLicensePayload {
  MaxClusters : Z;
  ExpirationDate : Time
}.

(** Byte slices may be [nil]. *)
Record LicenseVerificationResult := mkVerification {
  Payload : option LicensePayload;
  PayloadData : option string;
  SignatureData : option string;
  IsValid : bool;
  IsExpired : bool;
  IsEnforced : bool;
  Verification_Message : string
}.

Class Licenses (W : Type) := {
  PublicKey : Type;
  GetPublicKey : St W (result PublicKey);
  VerifyLicenseSecret : string → PublicKey → St W LicenseVerificationResult;
  LicensePayloadAnnotation : string;
  LicenseSignatureAnnotation : string
}.

(** [SveltosLicense], its Status, and its client *)
Inductive LicenseStatus :=
  | LicenseStatusUnset
  | LicenseStatusValid
  | LicenseStatusExpired
  | LicenseStatusInvalid.

Record SveltosLicenseStatus := mkLicenseStatus {
  License_Status : LicenseStatus;
  License_MaxClusters : option Z;
  License_ExpirationDate : option Time;
  License_Message : string
}.

Record SveltosLicense := mkLicense {
  License_DeletionTimestamp : option Time;
  LicenseStatus_ : SveltosLicenseStatus
}.

#[export] Instance eta_LicenseStatus : Eta SveltosLicenseStatus := λ r,
  mkLicenseStatus (License_Status r) (License_MaxClusters r) (License_ExpirationDate r)
    (License_Message r).

#[export] Instance eta_License : Eta SveltosLicense := λ r,
  mkLicense (License_DeletionTimestamp r) (LicenseStatus_ r).

Class LicenseClient (W : Type) := {
  Get_SveltosLicense : string → string → St W (result SveltosLicense);
  Status_Update : SveltosLicense → St W (option error)
}.

(** Names of the API group and of events. *)
Class Names := {
  GroupVersion : string;
  SveltosClusterKind : string;
  SveltosClusterFinalizer : string;
  ClusterTypeSveltos : string;
  FeatureTokenRenewal : string;
  ClusterUnreachable : string;
  AgentUnhealthy : string;
  ClusterRecovered : string;
  ActionConnecting : string;
  TruncateNote : string → string
}.
