(* ===== verification/Recon.v ===== *)
(** * The state a reconciliation works on

    The reconciler's configuration, and what a reconciliation reads and
    changes: the SveltosCluster of its scope (one object, shared by all the
    helpers), the metrics, the calls made to the event recorder, and the world. *)

From S2P Require Import Prelude GoTime Float64 Api Platform.

(** [SveltosClusterReconciler]; [EventRecorder] tells whether a recorder is
    set. *)
Record SveltosClusterReconciler := mkReconciler {
  r_Config : Config;
  ConcurrentReconciles : Z;
  ShardKey : string;
  SveltosNamespace : string;
  EventRecorder : bool
}.

(** ** Prometheus gauges

    The rows of a gauge vector: the value of each set of labels. *)

Definition labels_t : Type := gmap string string.

Class Gauge := {
  GaugeVec : Type;
  gauge_Set : labels_t → float64 → GaugeVec → GaugeVec;
  gauge_Delete : labels_t → GaugeVec → GaugeVec;
  gauge_DeletePartialMatch : labels_t → GaugeVec → GaugeVec;
  gauge_row : GaugeVec → labels_t → option float64
}.

(** [Set] writes one row, [Delete] removes one, [DeletePartialMatch] removes
    all those that carry the given labels. *)
Class GaugeLaws `{Gauge} := {
  row_Set l v g l' :
    gauge_row (gauge_Set l v g) l' = if decide (l = l') then Some v else gauge_row g l';
  row_Delete l g l' :
    gauge_row (gauge_Delete l g) l' = if decide (l = l') then None else gauge_row g l';
  row_DeletePartialMatch l g l' :
    gauge_row (gauge_DeletePartialMatch l g) l' =
    if decide (l ⊆ l') then None else gauge_row g l'
}.

Record Metrics `{Gauge} := mkMetrics {
  clusterConnectivityGauge : GaugeVec;
  kubernetesVersionGauge : GaugeVec;
  connectionFailuresGauge : GaugeVec;
  agentLastHeartbeatTimestampGauge : GaugeVec
}.

#[export] Instance eta_Metrics `{Gauge} : Eta Metrics := λ m,
  mkMetrics _ (clusterConnectivityGauge m) (kubernetesVersionGauge m)
    (connectionFailuresGauge m) (agentLastHeartbeatTimestampGauge m).

(** ** Events *)

Record Event := mkEvent {
  Event_Namespace : string;
  Event_Name : string;
  Event_Type : string;
  Event_Reason : string;
  Event_Action : string;
  Event_Note : string
}.

(** ** The state *)

Record Recon (W : Type) `{Gauge} := mkRecon {
  cluster : SveltosCluster;
  metrics : Metrics;
  events : list Event;
  world : W
}.
Arguments mkRecon {W _}.
Arguments cluster {W _}.
Arguments metrics {W _}.
Arguments events {W _}.
Arguments world {W _}.

#[export] Instance eta_Recon {W} `{Gauge} : Eta (Recon W) := λ s,
  mkRecon (cluster s) (metrics s) (events s) (world s).

Section Recon.
Context {W : Type} `{Gauge}.

(** A call to the outside. *)
Definition outside {A} (m : St W A) : St (Recon W) A := λ s,
  let '(a, w) := m (world s) in (a, s <| world := w |>).

Definition get_cluster : St (Recon W) SveltosCluster := gets cluster.
Definition update_cluster (f : SveltosCluster → SveltosCluster) : St (Recon W) () :=
  modify (λ s, s <| cluster := f (cluster s) |>).
Definition update_metrics (f : Metrics → Metrics) : St (Recon W) () :=
  modify (λ s, s <| metrics := f (metrics s) |>).

(** [Status.FailureMessage = &msg], and [= nil] *)
Definition set_failure (msg : option string) : St (Recon W) () :=
  update_cluster (λ c, c <| Status; FailureMessage := msg |>).

(** ** What a computation leaves alone

    [keeps P m]: running [m] does not change what [P] reads of the state. *)

Definition keeps {A X} (P : Recon W → X) (m : St (Recon W) A) : Prop :=
  ∀ s, P (m s).2 = P s.

Lemma keeps_ret {A X} (P : Recon W → X) (a : A) : keeps P (mret a).
Proof. done. Qed.

Lemma keeps_bind {A B X} (P : Recon W → X) (m : St (Recon W) A) (f : A → St (Recon W) B) :
  keeps P m → (∀ a, keeps P (f a)) → keeps P (m ≫= f).
Proof.
  intros Hm Hf s. specialize (Hm s). unfold mbind, St_bind.
  destruct (m s) as [a s']; cbn in *. by rewrite Hf.
Qed.

Lemma keeps_gets {A X} (P : Recon W → X) (f : Recon W → A) : keeps P (gets f).
Proof. done. Qed.

Lemma keeps_outside {A X} (P : Recon W → X) (m : St W A) :
  (∀ s w, P (s <| world := w |>) = P s) → keeps P (outside m).
Proof. intros HP s. unfold outside. destruct (m (world s)) as [a w]. apply HP. Qed.

Lemma keeps_modify {X} (P : Recon W → X) (f : Recon W → Recon W) :
  (∀ s, P (f s) = P s) → keeps P (modify f).
Proof. intros Hf s. apply Hf. Qed.

End Recon.

(** [keeps_tac] proves [keeps P m] for code built from the operations above, down
    to the changes [P] has to be invariant under; the database [recon_keeps] holds
    what is known of the helpers [m] calls. *)
Create HintDb recon_keeps.

Ltac keeps_step :=
  first
  [ solve [eauto with recon_keeps nocore]
  | progress unfold set_failure, update_cluster, update_metrics, get_cluster
  | lazymatch goal with
    | |- keeps _ (mret _) => apply keeps_ret
    | |- keeps _ (mbind _ _) => apply keeps_bind; [|intros ?]
    | |- keeps _ (gets _) => apply keeps_gets
    | |- keeps _ (outside _) => apply keeps_outside; solve [done]
    | |- keeps _ (modify _) => apply keeps_modify; intros [? ? ? ?]
    | |- keeps _ (match ?x with _ => _ end) => destruct x
    end ].

Ltac keeps_tac := repeat keeps_step; try done.

(** [run] computes with the sequencing of the code under consideration. *)
Ltac run :=
  unfold mbind, St_bind, mret, St_ret, outside, get_cluster, gets, set_failure,
    update_cluster, update_metrics, modify in *; cbn in *.
