(* ===== verification/Sim.v ===== *)
(** * A concrete platform

    One instance of every interface of [Platform] and [Recon], small enough to
    compute with: the witnesses evaluate the program's definitions on it. *)

From S2P Require Import Prelude GoTime Float64 GoStrings Api Platform Recon.

Record SimWorld := mkSim {
  sim_now : Time;
  sim_tick : Duration;
  sim_clusters : gmap (string * string) SveltosCluster;
  sim_patched : list SveltosCluster;
  sim_configmaps : gmap (string * string) (gmap string string);
  sim_restconfig : result Config;
  sim_version : result string;
  sim_secret : result string;
  sim_updates : list (string * string);
  sim_token : string → string → Z → result string;
  sim_requests : list (string * string * Z);
  sim_username : result string;
  sim_staged : list (Deployment * gmap string (list Secret));
  sim_committed : list (Deployment * ObjectReference);
  sim_deployment : option (option FeatureStatus);
  sim_evicted : list (string * string);
  sim_shard : string;
  sim_license : LicenseVerificationResult;
  sim_resources : list (string * option Time);
  sim_script : string;
  sim_sveltoslicense : option SveltosLicense;
  sim_agent : string * option (string * Time)
}.

#[export] Instance eta_SimWorld : Eta SimWorld := λ w,
  mkSim (sim_now w) (sim_tick w) (sim_clusters w) (sim_patched w) (sim_configmaps w)
    (sim_restconfig w) (sim_version w) (sim_secret w) (sim_updates w) (sim_token w)
    (sim_requests w) (sim_username w) (sim_staged w) (sim_committed w) (sim_deployment w)
    (sim_evicted w) (sim_shard w) (sim_license w) (sim_resources w) (sim_script w)
    (sim_sveltoslicense w) (sim_agent w).

Definition not_found : error := mkError "not found" ErrNotFound.

(** Every reading of the clock advances it by [sim_tick]. *)
#[export] Instance sim_clock : Clock SimWorld := {
  time_Now := λ w, (sim_now w, w <| sim_now := sim_now w + sim_tick w |>);
  Local_offset := λ _, 3600
}.

#[export] Instance sim_clientset : ClientSet SimWorld := {
  Clientset := Config;
  kubernetes_NewForConfig := λ config w, (Ok config, w);
  CreateToken := λ _ ns name exp w,
    (sim_token w ns name exp, w <| sim_requests := sim_requests w ++ [(ns, name, exp)] |>);
  SelfSubjectReview := λ _ w, (sim_username w, w)
}.

#[export] Instance sim_client : ManagementClient SimWorld := {
  Get_SveltosCluster := λ ns name w,
    (match sim_clusters w !! (ns, name) with Some c => Ok c | None => Err not_found end, w);
  Get_ConfigMap := λ ns name w,
    (match sim_configmaps w !! (ns, name) with Some d => Ok (Some d) | None => Err not_found end,
     w);
  PatchHelper := ();
  patch_NewHelper := λ _ w, (Ok (), w);
  Patch := λ _ c w, (None, w <| sim_patched := sim_patched w ++ [c] |>)
}.

#[export] Instance sim_finalizer : Finalizer := {
  ContainsFinalizer := λ l f, bool_decide (f ∈ l);
  AddFinalizer := λ l f, if decide (f ∈ l) then l else l ++ [f];
  RemoveFinalizer := λ l f, filter (λ g, g ≠ f) l
}.

#[export] Instance sim_finalizer_laws : FinalizerLaws.
Proof.
  split; [done|intros l f g; cbn..].
  - apply Bool.eq_true_iff_eq. rewrite orb_true_iff, !bool_decide_eq_true.
    case_decide; rewrite ?elem_of_app, ?list_elem_of_singleton; naive_solver.
  - apply Bool.eq_true_iff_eq. rewrite andb_true_iff, !bool_decide_eq_true.
    rewrite list_elem_of_filter. naive_solver.
Qed.

(** A kubeconfig is a line ["namespace/user"] per context. *)
#[export] Instance sim_yaml : Yaml := {
  yaml_Unmarshal_Config := λ data,
    Ok (omap (λ line, match cut "/" line with
                      | Some (ns, user) => Some (mkContext ns user)
                      | None => None
                      end) (Split data "010"))
}.

(** Versions ["vX.Y.Z"] of one digit each. *)
#[export] Instance sim_semver : Semver := {
  semver_NewVersion := λ v,
    match v with
    | String _ (String a (String _ (String b (String _ (String c _))))) =>
      let d x := Z.of_N (Ascii.N_of_ascii x) - 48 in Ok (d a, d b, d c)
    | _ => Err (errors_New "invalid version")
    end
}.

#[export] Instance sim_proxy : ClusterProxy SimWorld := {
  GetSveltosKubernetesRestConfig := λ _ _ w, (sim_restconfig w, w);
  GetSveltosSecretData := λ _ _ w, (sim_secret w, w);
  UpdateSveltosSecretData := λ _ _ data key w,
    (None, w <| sim_updates := sim_updates w ++ [(key, data)] |>);
  EvictWorkloadIdentityCache := λ ns name w,
    ((), w <| sim_evicted := sim_evicted w ++ [(ns, name)] |>);
  ClusterObject := string;
  GetCluster := λ _ _ w, (Ok (sim_shard w), w);
  IsShardAMatch := λ key shard, bool_decide (key = shard);
  GetKubernetesVersion := λ _ w, (sim_version w, w)
}.

#[export] Instance sim_pullmode : PullModeTransport SimWorld := {
  Unstructured_t := Secret;
  ToUnstructured := Ok;
  StageResourcesForDeployment := λ d resources _ w,
    (None, w <| sim_staged := sim_staged w ++ [(d, resources)] |>);
  CommitStagedResourcesForDeployment := λ d ref w,
    (None, w <| sim_committed := sim_committed w ++ [(d, ref)] |>);
  GetDeploymentStatus := λ _ w, (Ok (sim_deployment w), w);
  TerminateDeploymentTracking := λ _ w, (None, w <| sim_deployment := None |>);
  AgentHeartbeatTimeoutError := "agent heartbeat timeout";
  IsAgentTimeoutError := λ c,
    bool_decide (FailureMessage (Status c) = Some "agent heartbeat timeout")
}.

#[export] Instance sim_licenses : Licenses SimWorld := {
  PublicKey := ();
  GetPublicKey := λ w, (Ok (), w);
  VerifyLicenseSecret := λ _ _ w, (sim_license w, w);
  LicensePayloadAnnotation := "license-payload";
  LicenseSignatureAnnotation := "license-signature"
}.

(** Resources are a name and a deletion timestamp; every list returns them all. *)
#[export] Instance sim_dynamic : Dynamic SimWorld := {
  Resource := string * option Time;
  GetDeletionTimestamp := snd;
  APIGroupResources := ();
  restmapper_GetAPIGroupResources := λ _ w, (Ok (), w);
  RESTMapping := λ _ group kind version,
    if decide (kind = "Unknown") then Err (mkError "no matches" ErrNoMatch) else Ok kind;
  LabelSelectorAsSelector := λ s, Ok (if MatchLabels s is Some _ then "app=web" else "");
  dynamic_List := λ _ _ _ _ _ _ w, (Ok (sim_resources w), w)
}.

(** CEL rules accept what is called as their first rule says. *)
#[export] Instance sim_cel : CEL SimWorld := {
  sveltoscel_EvaluateRules := λ u rules w,
    (Ok (match elems rules with r :: _ => bool_decide (u.1 = CELRule_Rule r) | [] => false end),
     w)
}.

(** The script ["fail"] fails and matches nothing, ["error"] does not load, any
    other one passes and matches everything. *)
#[export] Instance sim_lua : Lua SimWorld := {
  LState := ();
  LTable := string;
  LValue := string;
  lua_NewState := λ w, ((), w);
  lua_Close := λ _ w, ((), w);
  MapToTable := λ u w, (u.1, w);
  lua_NewTable := λ _ w, ("", w);
  lua_Append := λ _ _ w, ((), w);
  lua_DoString := λ _ script w,
    (if decide (script = "error") then Some (errors_New "syntax error") else None,
     w <| sim_script := script |>);
  lua_SetGlobal := λ _ _ _ w, ((), w);
  lua_CallByParam := λ _ _ w, (None, w);
  lua_Get := λ _ w, (sim_script w, w);
  as_LTable := Some;
  json_Marshal_ToGoValue := λ script w,
    (Ok (Sprintf "{%q:%s,%q:%s,%q:%q}"
           (let b := ArgS (if decide (script = "fail") then "false" else "true") in
            [ArgS "pass"; b; ArgS "matching"; b; ArgS "message"; ArgS script])), w);
  LuaTableError := "lua script does not return a table"
}.

#[export] Instance sim_license_client : LicenseClient SimWorld := {
  Get_SveltosLicense := λ _ _ w,
    (match sim_sveltoslicense w with Some l => Ok l | None => Err not_found end, w);
  Status_Update := λ l w, (None, w <| sim_sveltoslicense := Some l |>)
}.

#[export] Instance sim_names : Names := {
  GroupVersion := "lib.projectsveltos.io/v1beta1";
  SveltosClusterKind := "SveltosCluster";
  SveltosClusterFinalizer := "sveltosclusterfinalizer.projectsveltos.io";
  ClusterTypeSveltos := "Sveltos";
  FeatureTokenRenewal := "TokenRenewal";
  ClusterUnreachable := "ClusterUnreachable";
  AgentUnhealthy := "AgentUnhealthy";
  ClusterRecovered := "ClusterRecovered";
  ActionConnecting := "Connecting";
  TruncateNote := string_take 1024
}.

#[export] Instance sim_gauge : Gauge := {
  GaugeVec := gmap (gmap string string) float64;
  gauge_Set := λ l v g, <[l := v]> g;
  gauge_Delete := λ l g, delete l g;
  gauge_DeletePartialMatch := λ l g, filter (λ r, ¬ l ⊆ r.1) g;
  gauge_row := λ g l, g !! l
}.

#[export] Instance sim_gauge_laws : GaugeLaws.
Proof.
  split; intros; cbn; case_decide; simplify_map_eq; try done.
  - apply map_lookup_filter_None. right. intros x _. cbn. tauto.
  - destruct (g !! l') eqn:E.
    + by apply map_lookup_filter_Some.
    + apply map_lookup_filter_None. by left.
Qed.

Definition no_license : LicenseVerificationResult :=
  mkVerification None None None false false true "no license".

Definition sim_init : SimWorld :=
  mkSim 0 0 ∅ [] ∅ (Ok (mkConfig "https://10.0.0.1" "ca" "")) (Ok "v1.3.0") (Ok "") []
    (λ _ _ _, Ok "header.payload.signature") [] (Ok "admin") [] [] None [] "" no_license [] "" None
    ("", None).

Definition sim_metrics : Metrics := mkMetrics _ ∅ ∅ ∅ ∅.

Definition sim_recon (c : SveltosCluster) (w : SimWorld) : Recon SimWorld :=
  mkRecon c sim_metrics [] w.

Definition sim_r : SveltosClusterReconciler :=
  mkReconciler (mkConfig "https://kubernetes.default.svc" "internal-ca" "") 10 ""
    "projectsveltos" true.
