(* ===== verification/ServiceAccount.v ===== *)
(** * Which ServiceAccount a token is renewed for

    Model of [ParseServiceAccountUsername], [whoami] and
    [getServiceAccountDetails] ([controllers/sveltoscluster_controller.go]). *)

From S2P Require Import Prelude GoTime GoStrings Api Platform Recon.

Record serviceAccountInfo := mkSaInfo {
  sa_Namespace : string;
  sa_Name : string
}.

Definition prefix : string := "system:serviceaccount:".

Definition ParseServiceAccountUsername (username : string) : option serviceAccountInfo :=
  if negb (HasPrefix username prefix) then None
  else
    let remainder := TrimPrefix username prefix in
    match SplitN remainder ":" 2 with
    | [ns; name] => Some (mkSaInfo ns name)
    | _ => None
    end.

Section ServiceAccount.
Context {W : Type} `{ClientSet W}.

(** Who a clientset of [config] is: a ServiceAccount, or nothing the program
    can renew a token for. *)
Definition whoami (config : Config) : St W (result (option serviceAccountInfo)) :=
  clientset ← kubernetes_NewForConfig config;
  match clientset with
  | Err err => mret (Err (Errorf_w "error creating clientset: " err))
  | Ok clientset =>
    username ← SelfSubjectReview clientset;
    match username with
    | Err err => mret (Err (Errorf_w "error creating SelfSubjectReview: " err))
    | Ok username => mret (Ok (ParseServiceAccountUsername username))
    end
  end.

(** Namespace and name; both empty when there is no ServiceAccount. *)
Definition getServiceAccountDetails (c : SveltosCluster) (config : Config)
  : St W (result (string * string)) :=
  let configured :=
    match Spec_TokenRequestRenewalOption (Spec c) with
    | Some opt =>
      if bool_decide (SANamespace opt ≠ "") && bool_decide (SAName opt ≠ "")
      then Some (SANamespace opt, SAName opt) else None
    | None => None
    end in
  match configured with
  | Some sa => mret (Ok sa)
  | None =>
    saInfo ← whoami config;
    match saInfo with
    | Err err => mret (Err err)
    | Ok (Some saInfo) => mret (Ok (sa_Namespace saInfo, sa_Name saInfo))
    | Ok None => mret (Ok ("", ""))
    end
  end.

(** ** Properties *)

Lemma configured_account (c : SveltosCluster) (opt : TokenRequestRenewalOption)
    (config : Config) (w : W) :
  Spec_TokenRequestRenewalOption (Spec c) = Some opt → SANamespace opt ≠ "" → SAName opt ≠ "" →
  getServiceAccountDetails c config w = (Ok (SANamespace opt, SAName opt), w).
Proof.
  intros Hopt Hns Hn. unfold getServiceAccountDetails. rewrite Hopt.
  by rewrite !bool_decide_eq_true_2.
Qed.

End ServiceAccount.

(** C32: exactly the usernames [system:serviceaccount:NAMESPACE:NAME] name a
    ServiceAccount, the namespace ends at the first colon, and what is parsed
    out is what was put in. *)
Theorem ParseServiceAccountUsername_spec (username : string) (info : serviceAccountInfo) :
  ParseServiceAccountUsername username = Some info ↔
  username = prefix +:+ sa_Namespace info +:+ ":" +:+ sa_Name info ∧
  string_mem ":" (sa_Namespace info) = false.
Proof.
  unfold ParseServiceAccountUsername. destruct info as [ns name]. cbn [sa_Namespace sa_Name].
  destruct (HasPrefix username prefix) eqn:Hp; cbn [negb].
  - apply HasPrefix_spec in Hp as [t ->]. rewrite TrimPrefix_app. cbn [SplitN].
    destruct (cut ":" t) as [[a b]|] eqn:Hcut.
    + apply cut_Some in Hcut as [-> Ha]. split.
      * intros [= <- <-]. done.
      * intros [Heq Hns]. apply (f_equal (string_drop (String.length prefix))) in Heq.
        rewrite !string_drop_app in Heq. apply (f_equal (cut ":")) in Heq.
        rewrite cut_app in Heq by done.
        change (ns +:+ ":" +:+ name) with (ns +:+ String ":" name) in Heq.
        rewrite cut_app in Heq by done. by injection Heq as <- <-.
    + split; [done|]. intros [Heq _].
      apply (f_equal (string_drop (String.length prefix))) in Heq.
      rewrite !string_drop_app in Heq. subst t. apply cut_None in Hcut.
      rewrite string_mem_app in Hcut. cbn in Hcut. by rewrite orb_true_r in Hcut.
  - split; [done|]. intros [-> _]. by rewrite HasPrefix_app in Hp.
Qed.
