(* ===== verification/Kubeconfig.v ===== *)
(** * The renewed kubeconfig

    Model of [getKubeconfigKey], [getKubeconfigFromToken],
    [getPullModeManagementClusterEndpoint] and [getPullModeKubeconfigSecret]
    ([controllers/sveltoscluster_controller.go]): the text of a kubeconfig, where
    it goes, and where the pull-mode one gets its endpoint from. *)

From S2P Require Import Prelude GoTime GoStrings Base64 Api Platform Recon.

Definition pullModeKubeconfigSecretNamePostfix : string := "-sveltos-kubeconfig".
Definition pullModeKubeconfigSecretKey : string := "kubeconfig".
Definition pullModeKubeconfigResourceKey : string := "kubeconfig-secret".
Definition pullModeManagementClusterURLConfigMapKey : string := "server".
Definition pullModeManagementClusterCAConfigMapKey : string := "ca.crt".
Definition pullModeManagementClusterTLSServerNameConfigMapKey : string := "tls-server-name".

(** The key of the Secret a renewed kubeconfig is stored under. *)
Definition getKubeconfigKey (c : SveltosCluster) : string :=
  match Spec_TokenRequestRenewalOption (Spec c) with
  | Some opt =>
    match Option_KubeconfigKeyName opt with
    | Some key => if decide (key = "") then "re-kubeconfig" else key
    | None => "re-kubeconfig"
    end
  | None => "re-kubeconfig"
  end.

Definition template : string :=
"apiVersion: v1
kind: Config
clusters:
- name: local
  cluster:
%s
users:
- name: %s
  user:
    token: %s
contexts:
- name: sveltos-context
  context:
    cluster: local
    namespace: %s
    user: %s
current-context: sveltos-context".

Definition getKubeconfigFromToken (namespace serviceAccountName token tlsServerName : string)
    (remoteConfig : Config) : string :=
  let clusterFields :=
    Sprintf ("    server: %s" +:+ LF +:+ "    certificate-authority-data: %q")
      [ArgS (Host remoteConfig); ArgS (EncodeToString StdEncoding (CAData remoteConfig))] in
  let clusterFields :=
    if decide (tlsServerName = "") then clusterFields
    else Sprintf ("    tls-server-name: %s" +:+ LF +:+ "%s")
           [ArgS tlsServerName; ArgS clusterFields] in
  Sprintf template
    [ArgS clusterFields; ArgS serviceAccountName; ArgS token; ArgS namespace;
     ArgS serviceAccountName].

Definition getPullModeKubeconfigSecret (sveltosNamespace clusterName kubeconfigData : string)
  : Secret :=
  mkSecret "v1" "Secret" sveltosNamespace
    (clusterName +:+ pullModeKubeconfigSecretNamePostfix)
    {[pullModeKubeconfigSecretKey := kubeconfigData]}.

Section Endpoint.
Context {W : Type} `{ManagementClient W}.

(** The value of a key of a map that may be nil; the empty string when there is
    none. *)
Definition data_value (key : string) (data : option (gmap string string)) : string :=
  default "" (data ≫= lookup key).

Definition missing_key (namespace name key : string) : error :=
  errors_New (Sprintf "configmap %s/%s does not contain a %q key"
                [ArgS namespace; ArgS name; ArgS key]).

(** The server, its CA and the name its certificate is verified against. *)
Definition getPullModeManagementClusterEndpoint (namespace name : string)
  : St W (result (string * string * string)) :=
  configMap ← Get_ConfigMap namespace name;
  match configMap with
  | Err err => mret (Err err)
  | Ok data =>
    let server := data_value pullModeManagementClusterURLConfigMapKey data in
    if decide (server = "")
    then mret (Err (missing_key namespace name pullModeManagementClusterURLConfigMapKey))
    else
      let ca := data_value pullModeManagementClusterCAConfigMapKey data in
      if decide (ca = "")
      then mret (Err (missing_key namespace name pullModeManagementClusterCAConfigMapKey))
      else
        let tlsServerName :=
          data_value pullModeManagementClusterTLSServerNameConfigMapKey data in
        mret (Ok (server, ca, tlsServerName))
  end.

(** A pull-mode endpoint is returned exactly when the ConfigMap exists and
    carries a server and a CA that are not empty; the name to verify the
    certificate against is optional. *)
Lemma endpoint_complete (namespace name server ca tls : string) (w : W) :
  (getPullModeManagementClusterEndpoint namespace name w).1 = Ok (server, ca, tls) ↔
  ∃ data, (Get_ConfigMap namespace name w).1 = Ok (Some data) ∧
    data !! "server" = Some server ∧ data !! "ca.crt" = Some ca ∧
    server ≠ "" ∧ ca ≠ "" ∧ tls = default "" (data !! "tls-server-name").
Proof.
  unfold getPullModeManagementClusterEndpoint, data_value, mbind, St_bind.
  destruct (Get_ConfigMap namespace name w) as [[[data|]|err] w']; cbn.
  - unfold pullModeManagementClusterURLConfigMapKey, pullModeManagementClusterCAConfigMapKey,
      pullModeManagementClusterTLSServerNameConfigMapKey.
    assert (Hdata : ∀ P : gmap string string → Prop,
      (∃ d, Ok (Some data) = Ok (Some d) ∧ P d) ↔ P data)
      by (intros P; split; [intros (d & [= <-] & HP); exact HP|eauto]).
    rewrite Hdata. clear Hdata.
    destruct (data !! "server") as [s|]; destruct (data !! "ca.crt") as [c|]; cbn;
      repeat case_decide; cbn; (split; [intros [=]|intros (Hs & Hc & Hs0 & Hc0 & Ht)]);
      subst; congruence || (repeat split; congruence).
  - split; [done|]. by intros (? & [=] & _).
  - split; [done|]. by intros (? & [=] & _).
Qed.

End Endpoint.

(** ** The lines of the kubeconfig *)

(** The parts that make up a kubeconfig are on one line each. *)
Definition one_line (s : string) : Prop := string_mem "010" s = false.

Definition kubeconfig_lines (namespace serviceAccountName token tlsServerName : string)
    (remoteConfig : Config) : list string :=
  ["apiVersion: v1"; "kind: Config"; "clusters:"; "- name: local"; "  cluster:"]
  ++ (if decide (tlsServerName = "") then [] else ["    tls-server-name: " +:+ tlsServerName])
  ++ ["    server: " +:+ Host remoteConfig;
      "    certificate-authority-data: " +:+ DQ +:+
        EncodeToString StdEncoding (CAData remoteConfig) +:+ DQ;
      "users:"; "- name: " +:+ serviceAccountName; "  user:"; "    token: " +:+ token;
      "contexts:"; "- name: sveltos-context"; "  context:"; "    cluster: local";
      "    namespace: " +:+ namespace; "    user: " +:+ serviceAccountName;
      "current-context: sveltos-context"].

Lemma kubeconfig_Join namespace sa token tls config :
  getKubeconfigFromToken namespace sa token tls config =
  Join (kubeconfig_lines namespace sa token tls config) LF.
Proof.
  unfold getKubeconfigFromToken, kubeconfig_lines.
  set (ca := EncodeToString StdEncoding (CAData config)).
  assert (Hq : fmt_q ca = DQ +:+ ca +:+ DQ) by apply (fmt_q_encode StdEncoding StdEncoding_good).
  clearbody ca.
  case_decide as Htls; cbn -[fmt_q]; rewrite Hq; cbn;
    do 4 (rewrite <-?app_assoc_string; cbn); reflexivity.
Qed.

Lemma Split_kubeconfig (namespace sa token tls : string) (config : Config) :
  one_line namespace → one_line sa → one_line token → one_line tls → one_line (Host config) →
  Split (getKubeconfigFromToken namespace sa token tls config) "010" =
  kubeconfig_lines namespace sa token tls config.
Proof.
  intros Hns Hsa Htoken Htls Hhost. rewrite kubeconfig_Join. apply Split_Join; [done|].
  pose proof (EncodeToString_no_newline StdEncoding StdEncoding_good (CAData config)) as Hca.
  set (ca := EncodeToString StdEncoding (CAData config)) in *.
  unfold kubeconfig_lines. fold ca. clearbody ca. unfold one_line in *.
  rewrite !Forall_app.
  split_and!; [|case_decide|];
    repeat first [apply Forall_nil_2 | apply Forall_cons_2]; cbn;
    rewrite ?string_mem_app, ?Hca, ?Hns, ?Hsa, ?Htoken, ?Htls, ?Hhost; done.
Qed.

(** The value of the first line that begins with [prefix]. *)
Fixpoint field (prefix : string) (lines : list string) : string :=
  match lines with
  | [] => ""
  | l :: lines' => if HasPrefix l prefix then TrimPrefix l prefix else field prefix lines'
  end.

(** The server a kubeconfig connects to, and the token it does that with. *)
Definition kubeconfig_server (text : string) : string := field "    server: " (Split text "010").
Definition kubeconfig_token (text : string) : string := field "    token: " (Split text "010").

Lemma kubeconfig_fields (namespace sa token tls : string) (config : Config) :
  one_line namespace → one_line sa → one_line token → one_line tls → one_line (Host config) →
  let text := getKubeconfigFromToken namespace sa token tls config in
  kubeconfig_server text = Host config ∧ kubeconfig_token text = token.
Proof.
  intros Hns Hsa Htoken Htls Hhost. unfold kubeconfig_server, kubeconfig_token. cbv zeta.
  rewrite Split_kubeconfig by done. unfold kubeconfig_lines. by case_decide.
Qed.

(** C26: a renewed kubeconfig is these lines and no others: one cluster with the
    server and the CA of the given configuration, the name to verify the
    certificate against only when there is one, one user that holds the token, and
    one context that joins the two in the ServiceAccount's namespace; and the CA
    decodes back to the bytes of the configuration. *)
Theorem kubeconfig_complete (namespace sa token tls : string) (config : Config)
  (Hns : one_line namespace) (Hsa : one_line sa) (Htoken : one_line token)
  (Htls : one_line tls) (Hhost : one_line (Host config)) :
  Split (getKubeconfigFromToken namespace sa token tls config) "010" =
    kubeconfig_lines namespace sa token tls config ∧
  DecodeString StdEncoding (EncodeToString StdEncoding (CAData config)) = Some (CAData config).
Proof.
  split; [by apply Split_kubeconfig|apply DecodeString_EncodeToString, StdEncoding_good].
Qed.

Lemma kubeconfig_complete_witness :
  Split (getKubeconfigFromToken "projectsveltos" "manager" "abc" "api.example.com"
           (mkConfig "https://10.0.0.1" "ca bytes" "")) "010" =
  ["apiVersion: v1"; "kind: Config"; "clusters:"; "- name: local"; "  cluster:";
   "    tls-server-name: api.example.com"; "    server: https://10.0.0.1";
   "    certificate-authority-data: " +:+ DQ +:+ "Y2EgYnl0ZXM=" +:+ DQ;
   "users:"; "- name: manager"; "  user:"; "    token: abc";
   "contexts:"; "- name: sveltos-context"; "  context:"; "    cluster: local";
   "    namespace: projectsveltos"; "    user: manager"; "current-context: sveltos-context"].
Proof.
  rewrite (proj1 (kubeconfig_complete "projectsveltos" "manager" "abc" "api.example.com"
    (mkConfig "https://10.0.0.1" "ca bytes" "") eq_refl eq_refl eq_refl eq_refl eq_refl)).
  vm_compute. reflexivity.
Defined.

#[global] Arguments getKubeconfigFromToken : simpl never.
