(* ===== verification/TokenTiming.v ===== *)
(** * When a token is renewed, and for how long

    Model of [shouldRenewTokenRequest], [getEffectiveTokenDurationInSecond],
    [getTokenExpiration] and [adjustTokenRequestRenewalOption]
    ([controllers/sveltoscluster_controller.go]): the arithmetic of renewal
    intervals, in [time.Duration] and [float64] seconds as the code does it. *)

From S2P Require Import Prelude GoTime Float64 GoStrings Rfc3339 Base64 Json Api Platform Recon Sim.

(** ** The expiration of a token *)

(** The errors are only logged: their texts leave out what the decoders say. *)
Definition getTokenExpiration (jwt : string) : result Time :=
  match Split jwt "." with
  | [_; payloadBase64; _] =>
    match DecodeString RawURLEncoding payloadBase64 with
    | None => Err (errors_New "failed to decode payload")
    | Some payloadBytes =>
      match Unmarshal payloadBytes with
      | None => Err (errors_New "failed to unmarshal payload")
      | Some payload =>
        match map_lookup "exp" payload with
        | Some (JNumber exp) => Ok (Time_of_Unix (int64_of_float64 exp))
        | _ => Err (errors_New "expiration time not found in payload")
        end
      end
    end
  | _ => Err (errors_New "invalid JWT format")
  end.

(** ** Durations *)

Definition secondsToAddToTokenRequest : Z := 30 * 60.
Definition tenMinutes : Z := 10 * 60.
Definition tolerance : Duration := 5 * Second.

Definition getEffectiveTokenDurationInSecond (opt : TokenRequestRenewalOption) : float64 :=
  if TokenDuration opt =? 0
  then float64_add (Seconds (RenewTokenRequestInterval opt))
                   (float64_of_int secondsToAddToTokenRequest)
  else Seconds (TokenDuration opt).

(** [time.Duration(x) * time.Second] *)
Definition duration_of_seconds (x : float64) : Duration :=
  dur_mul (int64_of_float64 x) Second.

Definition renewalThreshold (opt : TokenRequestRenewalOption) : Duration :=
  let renewalInterval := Seconds (RenewTokenRequestInterval opt) in
  if float64_gt renewalInterval (float64_of_int tenMinutes)
  then duration_of_seconds (float64_sub renewalInterval (float64_of_int tenMinutes))
  else duration_of_seconds renewalInterval.

Definition lastRenewal (c : SveltosCluster) : Time :=
  if decide (LastReconciledTokenRequestAt (Status c) = "") then CreationTimestamp (Meta c)
  else default (CreationTimestamp (Meta c)) (Parse (LastReconciledTokenRequestAt (Status c))).

Section TokenTiming.
Context {W : Type} `{Clock W}.

Definition shouldRenewTokenRequest (c : SveltosCluster) : St W bool :=
  match Spec_TokenRequestRenewalOption (Spec c) with
  | None => mret false
  | Some opt =>
    currentTime ← time_Now;
    let elapsed := Time_Sub currentTime (lastRenewal c) in
    mret (float64_gt (Seconds elapsed) (Seconds (renewalThreshold opt)))
  end.

Definition adjustTokenRequestRenewalOption (opt : TokenRequestRenewalOption) (jwt : string)
  : St W Duration :=
  match getTokenExpiration jwt with
  | Err _ => mret (RenewTokenRequestInterval opt)
  | Ok expirationTime =>
    let requestedDuration := duration_of_seconds (getEffectiveTokenDurationInSecond opt) in
    actualLifetime ← time_Until expirationTime;
    if actualLifetime <? dur_sub requestedDuration tolerance
    then mret actualLifetime
    else mret (RenewTokenRequestInterval opt)
  end.

End TokenTiming.

(** ** The arithmetic of the thresholds

    A sane duration is not negative and below some 146 years. *)

Definition sane (d : Duration) : Prop := 0 ≤ d ≤ 2 ^ 62.

Lemma sane_seconds d :
  sane d → 0 ≤ d / Second < 5 * 10 ^ 9 ∧ d / Second * Second ≤ d < (d / Second + 1) * Second.
Proof. unfold sane, Second. intros Hd. Z.to_euclidean_division_equations. lia. Qed.

Lemma sane_Seconds d :
  sane d → d / Second * one ≤ Seconds d ≤ (d / Second + 1) * one.
Proof.
  intros Hd. pose proof (sane_seconds d Hd). apply Seconds_bounds; [apply Hd|done|].
  unfold seconds_max. lia.
Qed.

Lemma duration_of_seconds_bounds x a b :
  0 ≤ a → b ≤ 2 ^ 33 → a * one ≤ x ≤ b * one →
  ∃ k, int64_of_float64 x = k ∧ duration_of_seconds x = k * Second ∧ a ≤ k ≤ b.
Proof.
  intros Ha Hb Hx.
  assert (Hk : a ≤ int64_of_float64 x ≤ b)
    by (apply int64_of_float64_bounds; [done|unfold int64_max; lia|done]).
  exists (int64_of_float64 x). split; [done|]. split; [|done]. unfold duration_of_seconds, dur_mul.
  apply wrap64_id. unfold in_int64, int64_min, int64_max, Second. lia.
Qed.

(** The threshold is ten minutes less than the interval, give or take a second,
    when the interval is longer than that, and the interval itself when not. *)
Lemma renewalThreshold_bounds opt (I := RenewTokenRequestInterval opt) :
  sane I →
  ∃ k, renewalThreshold opt = k * Second ∧ 0 ≤ k < 2 ^ 33 - 1 ∧
    (I < tenMinutes * Second → I - Second < k * Second ≤ I + Second) ∧
    (tenMinutes * Second + Second ≤ I →
       I - (tenMinutes + 1) * Second < k * Second ≤ I - (tenMinutes - 1) * Second) ∧
    k * Second ≤ I + Second.
Proof.
  intros HI. pose proof (sane_seconds I HI) as [Hs HsI]. pose proof (sane_Seconds I HI) as HS.
  pose proof one_pos. unfold renewalThreshold. fold I.
  rewrite (float64_of_int_exact tenMinutes) by (unfold tenMinutes; lia).
  set (s := I / Second) in *. unfold float64_gt.
  destruct (Z.ltb_spec (tenMinutes * one) (Seconds I)) as [Hgt|Hle].
  - assert (Hs600 : tenMinutes ≤ s) by nia.
    destruct (duration_of_seconds_bounds
      (float64_sub (Seconds I) (tenMinutes * one)) (s - tenMinutes) (s + 1 - tenMinutes))
      as (k & _ & -> & Hk); [lia|unfold tenMinutes; lia| |].
    { apply float64_sub_bounds; [done|unfold tenMinutes; lia..]. }
    exists k. split; [done|]. unfold tenMinutes, Second in *. lia.
  - assert (Hs600 : s ≤ tenMinutes) by nia.
    destruct (duration_of_seconds_bounds (Seconds I) s (s + 1)) as (k & _ & -> & Hk);
      [lia|unfold tenMinutes in *; lia|lia|].
    exists k. split; [done|]. unfold tenMinutes, Second in *. lia.
Qed.

(** Of a whole number of seconds the threshold is exact. *)
Lemma renewalThreshold_whole opt k :
  RenewTokenRequestInterval opt = k * Second → 0 ≤ k < 2 ^ 33 →
  renewalThreshold opt = (if tenMinutes <? k then k - tenMinutes else k) * Second.
Proof.
  intros HI Hk. pose proof one_pos. unfold renewalThreshold.
  rewrite HI, (Seconds_whole k) by lia.
  rewrite (float64_of_int_exact tenMinutes) by (unfold tenMinutes; lia).
  unfold float64_gt.
  assert (Hd : ∀ j, 0 ≤ j < 2 ^ 33 → duration_of_seconds (j * one) = j * Second).
  { intros j Hj. unfold duration_of_seconds, dur_mul.
    rewrite int64_of_float64_exact by (unfold in_int64, int64_min, int64_max; lia).
    apply wrap64_id. unfold in_int64, int64_min, int64_max, Second. lia. }
  destruct (Z.ltb_spec (tenMinutes * one) (k * one)); destruct (Z.ltb_spec tenMinutes k);
    try nia.
  - rewrite float64_sub_exact by (unfold tenMinutes in *; lia). apply Hd.
    unfold tenMinutes in *. lia.
  - by apply Hd.
Qed.

(** The requested duration, to the second. *)
Lemma effective_bounds opt (I := RenewTokenRequestInterval opt) (D := TokenDuration opt) :
  sane I → sane D →
  ∃ k, int64_of_float64 (getEffectiveTokenDurationInSecond opt) = k ∧
    duration_of_seconds (getEffectiveTokenDurationInSecond opt) = k * Second ∧
    0 ≤ k < 2 ^ 33 - 1 ∧
    let L := if D =? 0 then I + secondsToAddToTokenRequest * Second else D in
    L - Second < k * Second ≤ L + Second.
Proof.
  intros HI HD. pose proof (sane_seconds I HI) as [Hs HsI]. pose proof (sane_Seconds I HI) as HS.
  pose proof (sane_seconds D HD) as [Hd HdD]. pose proof (sane_Seconds D HD) as HDs.
  unfold getEffectiveTokenDurationInSecond. fold I D. destruct (D =? 0).
  - rewrite float64_of_int_exact by (unfold secondsToAddToTokenRequest; lia).
    destruct (duration_of_seconds_bounds
      (float64_add (Seconds I) (secondsToAddToTokenRequest * one))
      (I / Second + secondsToAddToTokenRequest) (I / Second + 1 + secondsToAddToTokenRequest))
      as (k & Hint & -> & Hk).
    + unfold secondsToAddToTokenRequest. lia.
    + unfold sane, Second, secondsToAddToTokenRequest in *.
      Z.to_euclidean_division_equations. lia.
    + apply float64_add_bounds; [done|unfold secondsToAddToTokenRequest; lia..].
    + exists k. do 2 (split; [done|]). unfold secondsToAddToTokenRequest, Second in *. cbn. lia.
  - destruct (duration_of_seconds_bounds (Seconds D) (D / Second) (D / Second + 1))
      as (k & Hint & -> & Hk); [lia|lia|done|].
    exists k. do 2 (split; [done|]). unfold Second in *. cbn. lia.
Qed.

(** ** When renewal is due *)

Lemma Time_Sub_in_int64 t u : in_int64 (Time_Sub t u).
Proof. unfold in_int64, Time_Sub, int64_min, int64_max. lia. Qed.

Lemma Time_Sub_ge t u d : d ≤ int64_max → u + d ≤ t → d ≤ Time_Sub t u.
Proof. unfold Time_Sub. lia. Qed.

Lemma Time_Sub_le t u d : int64_min ≤ d → t ≤ u + d → Time_Sub t u ≤ d.
Proof. unfold Time_Sub. lia. Qed.

Section Due.
Context {W : Type} `{Clock W}.

Lemma shouldRenew_true (c : SveltosCluster) opt k (w : W) :
  Spec_TokenRequestRenewalOption (Spec c) = Some opt →
  renewalThreshold opt = k * Second → 0 ≤ k < 2 ^ 33 →
  lastRenewal c + (k + 1) * Second ≤ (time_Now w).1 →
  (shouldRenewTokenRequest c w).1 = true.
Proof.
  intros Hopt Hthr Hk Hnow. unfold shouldRenewTokenRequest. rewrite Hopt.
  unfold mbind, St_bind. destruct (time_Now w) as [now w']; cbn in *. rewrite Hthr.
  apply Seconds_gt_true; [lia|apply Time_Sub_in_int64|].
  apply Time_Sub_ge; [|lia]. unfold Second, int64_max. lia.
Qed.

Lemma shouldRenew_false (c : SveltosCluster) opt k (w : W) :
  Spec_TokenRequestRenewalOption (Spec c) = Some opt →
  renewalThreshold opt = k * Second → 0 ≤ k < 2 ^ 33 →
  (time_Now w).1 ≤ lastRenewal c + k * Second →
  (shouldRenewTokenRequest c w).1 = false.
Proof.
  intros Hopt Hthr Hk Hnow. unfold shouldRenewTokenRequest. rewrite Hopt.
  unfold mbind, St_bind. destruct (time_Now w) as [now w']; cbn in *. rewrite Hthr.
  apply Seconds_gt_false; [lia|apply Time_Sub_in_int64|].
  apply Time_Sub_le; [|lia]. unfold Second, int64_min. lia.
Qed.

(** C23: with an interval of [k] whole seconds, renewal is due ten minutes before
    the interval has passed since the last one, or, for an interval of ten
    minutes or less, when it has passed: not up to that moment, and at any time
    from one second later. *)
Theorem renewal_threshold (c : SveltosCluster) (opt : TokenRequestRenewalOption) (k : Z) (w : W)
  (Hopt : Spec_TokenRequestRenewalOption (Spec c) = Some opt)
  (Hk : RenewTokenRequestInterval opt = k * Second) (Hrange : 0 ≤ k < 2 ^ 33) :
  let due := lastRenewal c + (if tenMinutes <? k then k - tenMinutes else k) * Second in
  ((time_Now w).1 ≤ due → (shouldRenewTokenRequest c w).1 = false) ∧
  (due + Second ≤ (time_Now w).1 → (shouldRenewTokenRequest c w).1 = true).
Proof.
  intros due. pose proof (renewalThreshold_whole opt k Hk Hrange) as Hthr.
  assert (Hk' : 0 ≤ (if tenMinutes <? k then k - tenMinutes else k) < 2 ^ 33)
    by (destruct (Z.ltb_spec tenMinutes k); unfold tenMinutes in *; lia).
  split; intros Hnow.
  - by apply (shouldRenew_false c opt _ w Hopt Hthr Hk').
  - apply (shouldRenew_true c opt _ w Hopt Hthr Hk'). unfold due, Second in *. lia.
Qed.

(** ** After a renewal

    [renewed c opt jwt w t]: the cluster as a renewal leaves it that adjusted
    [opt] to the token [jwt] in the world [w] and recorded the time [t]. *)
Record renewed (c : SveltosCluster) (opt : TokenRequestRenewalOption) (jwt : string)
    (w : W) (t : Time) : Prop := {
  renewed_option : Spec_TokenRequestRenewalOption (Spec c) =
    Some (opt <| RenewTokenRequestInterval := (adjustTokenRequestRenewalOption opt jwt w).1 |>);
  renewed_time : LastReconciledTokenRequestAt (Status c) = Format (Local_offset t) t
}.

(** A time that RFC 3339 can tell: years of four digits, a zone of whole
    minutes. *)
Definition recordable (t : Time) : Prop :=
  zone_ok (Local_offset t) ∧
  0 ≤ (civil_from_days ((Time_Unix t + Local_offset t) / day_seconds)).1.1 < 10000.

(** The recorded time is read back to the second. *)
Lemma lastRenewal_recorded c t :
  recordable t → LastReconciledTokenRequestAt (Status c) = Format (Local_offset t) t →
  t - Second < lastRenewal c ≤ t.
Proof.
  intros [Hzone Hyear] Hlast. unfold lastRenewal. rewrite Hlast.
  pose proof (Parse_Format _ t Hzone Hyear) as Hparse.
  destruct (decide (Format (Local_offset t) t = "")) as [Hempty|_];
    [rewrite Hempty in Hparse; discriminate|].
  rewrite Hparse. cbn. unfold Time_of_Unix, Time_Unix, Second.
  Z.to_euclidean_division_equations. lia.
Qed.

(** The requested duration leaves a margin after the interval; of an interval of
    more than ten minutes the last ten are one. *)
Definition has_margin (opt : TokenRequestRenewalOption) : Prop :=
  TokenDuration opt = 0 ∨
  RenewTokenRequestInterval opt + tenMinutes * Second ≤ TokenDuration opt ∨
  (tenMinutes + 1) * Second ≤ RenewTokenRequestInterval opt ≤ TokenDuration opt.

(** The interval an adjustment leaves: the lifetime of a token that is shorter
    than requested, or the configured interval, which then ends well before the
    token does. *)
Lemma adjusted_interval opt jwt (E : Time) (w : W) (A := Time_Sub E (time_Now w).1)
    (I' := (adjustTokenRequestRenewalOption opt jwt w).1) :
  getTokenExpiration jwt = Ok E → sane (RenewTokenRequestInterval opt) →
  sane (TokenDuration opt) →
  (I' = A ∧ A < 2 ^ 62 + 1801 * Second) ∨
  (I' = RenewTokenRequestInterval opt ∧
   (if TokenDuration opt =? 0
    then RenewTokenRequestInterval opt + secondsToAddToTokenRequest * Second
    else TokenDuration opt) - 6 * Second < A).
Proof.
  intros HE HI HD. unfold I'. unfold adjustTokenRequestRenewalOption. rewrite HE.
  destruct (effective_bounds opt HI HD) as (k & _ & -> & Hk & Hreq). cbv zeta in Hreq.
  unfold time_Until, mbind, St_bind. subst A. destruct (time_Now w) as [now w']; cbn.
  unfold dur_sub. rewrite wrap64_id
    by (unfold in_int64, int64_min, int64_max, tolerance, Second; lia).
  set (L := if TokenDuration opt =? 0 then _ else _) in *.
  assert (HL : L ≤ 2 ^ 62 + secondsToAddToTokenRequest * Second).
  { unfold sane, secondsToAddToTokenRequest, Second in *. subst L. case_match; lia. }
  unfold tolerance, Second, secondsToAddToTokenRequest in *.
  case_match; cbn; [left|right]; split; try done; lia.
Qed.

(** An adjusted interval is the token's lifetime, then shorter than requested, or
    the configured interval. *)
Lemma adjusted_shorter opt jwt (E : Time) (w : W) (A := Time_Sub E (time_Now w).1)
    (I' := (adjustTokenRequestRenewalOption opt jwt w).1) :
  getTokenExpiration jwt = Ok E → sane (RenewTokenRequestInterval opt) →
  sane (TokenDuration opt) →
  (I' = A ∧ (TokenDuration opt = 0 ∨ A < TokenDuration opt)) ∨
  I' = RenewTokenRequestInterval opt.
Proof.
  intros HE HI HD. unfold I'. unfold adjustTokenRequestRenewalOption. rewrite HE.
  destruct (effective_bounds opt HI HD) as (k & _ & -> & Hk & Hreq). cbv zeta in Hreq.
  unfold time_Until, mbind, St_bind. subst A. destruct (time_Now w) as [now w']; cbn.
  unfold dur_sub. rewrite wrap64_id
    by (unfold in_int64, int64_min, int64_max, tolerance, Second; lia).
  unfold tolerance, Second in *.
  destruct (Z.ltb_spec (Time_Sub E now) (k * 10 ^ 9 - 5 * 10 ^ 9)); [left|by right].
  split; [done|]. destruct (Z.eqb_spec (TokenDuration opt) 0); [by left|right]. lia.
Qed.

(** The state of a cluster whose token expires at [E] and is renewed in time: with
    its interval and its last renewal, renewal is due from eight minutes before
    [E]. *)
Definition in_time (c : SveltosCluster) (E : Time) : Prop :=
  ∃ opt, Spec_TokenRequestRenewalOption (Spec c) = Some opt ∧
    sane (RenewTokenRequestInterval opt) ∧ sane (TokenDuration opt) ∧ has_margin opt ∧
    lastRenewal c +
      (if RenewTokenRequestInterval opt <? (tenMinutes + 1) * Second
       then RenewTokenRequestInterval opt + 2 * Second
       else RenewTokenRequestInterval opt - (tenMinutes - 2) * Second) ≤ E - 8 * Minute.

Lemma in_time_due c E (w : W) :
  in_time c E → E - 8 * Minute ≤ (time_Now w).1 → (shouldRenewTokenRequest c w).1 = true.
Proof.
  intros (opt & Hopt & HI & _ & _ & Hlast) Hnow.
  destruct (renewalThreshold_bounds opt HI) as (k & Hthr & Hk & _ & Hlong & Hany).
  apply (shouldRenew_true c opt k w Hopt Hthr); [lia|].
  destruct (Z.ltb_spec (RenewTokenRequestInterval opt) ((tenMinutes + 1) * Second));
    unfold tenMinutes, Minute, Second in *; lia.
Qed.

(** The adjustment keeps the margin, for a token of eleven minutes or more. *)
Lemma adjusted_margin opt jwt E (w : W) (A := Time_Sub E (time_Now w).1)
    (opt' := opt <| RenewTokenRequestInterval := (adjustTokenRequestRenewalOption opt jwt w).1 |>) :
  getTokenExpiration jwt = Ok E → sane (RenewTokenRequestInterval opt) →
  sane (TokenDuration opt) → has_margin opt → 11 * Minute ≤ A ≤ 2 ^ 62 →
  sane (RenewTokenRequestInterval opt') ∧ has_margin opt'.
Proof.
  intros HE HI HD Hmargin HA. pose proof (adjusted_shorter opt jwt E w HE HI HD) as Hadj.
  unfold has_margin, sane, opt' in *. cbn [RenewTokenRequestInterval TokenDuration update] in *.
  fold A in Hadj. destruct Hadj as [[-> Hshort]| ->]; [|by split].
  unfold tenMinutes, Minute, Second in *. lia.
Qed.

Lemma renewed_in_time c opt jwt (issued recorded E : Time) (w : W) :
  renewed c opt jwt w recorded → recordable recorded → (time_Now w).1 = issued →
  getTokenExpiration jwt = Ok E → sane (RenewTokenRequestInterval opt) →
  sane (TokenDuration opt) → has_margin opt → 11 * Minute ≤ E - issued ≤ 2 ^ 62 →
  recorded ≤ issued + Minute → in_time c E.
Proof.
  intros [Hopt Hlast] Hrecordable Hissued HE HI HD Hmargin Hlife Hrec.
  apply (lastRenewal_recorded c recorded Hrecordable) in Hlast.
  assert (HA : Time_Sub E (time_Now w).1 = E - issued).
  { rewrite Hissued. apply Time_Sub_exact. unfold in_int64, int64_min, int64_max, Minute in *. lia. }
  pose proof (adjusted_interval opt jwt E w HE HI HD) as Hadj. cbv zeta in Hadj.
  pose proof (adjusted_margin opt jwt E w HE HI HD Hmargin) as Hkeep. rewrite HA in Hadj, Hkeep.
  destruct (Hkeep Hlife) as [HI' Hmargin'].
  exists (opt <| RenewTokenRequestInterval := (adjustTokenRequestRenewalOption opt jwt w).1 |>).
  split_and!; [done..|]. cbn [RenewTokenRequestInterval update] in *.
  set (I' := (adjustTokenRequestRenewalOption opt jwt w).1) in *.
  destruct (Z.ltb_spec I' ((tenMinutes + 1) * Second)) as [HI'2|HI'2];
    unfold has_margin, sane, Minute, tenMinutes, secondsToAddToTokenRequest, Second in *;
    destruct Hadj as [[-> _]|[-> Hreq]]; [lia| |lia|];
    destruct (Z.eqb_spec (TokenDuration opt) 0); lia.
Qed.

(** C4: a renewed token is renewed again before it expires: when it lives for
    eleven minutes or more after it was issued, the requested duration leaves a
    margin after the interval, and the renewal was recorded within a minute, then
    renewal is due at any time from eight minutes before the expiration, whether
    or not the token got the lifetime that was asked for. *)
Theorem renewal_due_before_expiration (c : SveltosCluster) (opt : TokenRequestRenewalOption)
  (jwt : string) (issued recorded E : Time) (w w' : W)
  (Hrenewed : renewed c opt jwt w recorded) (Hrecordable : recordable recorded)
  (Hissued : (time_Now w).1 = issued) (Hexp : getTokenExpiration jwt = Ok E)
  (HI : sane (RenewTokenRequestInterval opt)) (HD : sane (TokenDuration opt))
  (Hmargin : has_margin opt)
  (Hlife : 11 * Minute ≤ E - issued ≤ 2 ^ 62) (Hrec : recorded ≤ issued + Minute)
  (Hnow : E - 8 * Minute ≤ (time_Now w').1) :
  (shouldRenewTokenRequest c w').1 = true.
Proof.
  apply (in_time_due c E w'); [|done].
  by apply (renewed_in_time c opt jwt issued recorded E w).
Qed.

(** C39: a token that lives for less than ten minutes, and less than requested,
    is not renewed before it expires: its lifetime becomes the interval, and of an
    interval that short nothing is taken off. *)
Theorem short_token_not_renewed_in_time (c : SveltosCluster) (opt : TokenRequestRenewalOption)
  (jwt : string) (issued recorded E : Time) (w w' : W)
  (Hrenewed : renewed c opt jwt w recorded) (Hrecordable : recordable recorded)
  (Hissued : (time_Now w).1 = issued) (Hexp : getTokenExpiration jwt = Ok E)
  (HI : sane (RenewTokenRequestInterval opt)) (HD : sane (TokenDuration opt))
  (Hshorter : E - issued + 6 * Second ≤
     (if TokenDuration opt =? 0
      then RenewTokenRequestInterval opt + secondsToAddToTokenRequest * Second
      else TokenDuration opt))
  (Hlife : 0 ≤ E - issued < 10 * Minute) (Hrec : issued ≤ recorded)
  (Hnow : (time_Now w').1 ≤ E - 2 * Second) :
  (shouldRenewTokenRequest c w').1 = false.
Proof.
  destruct Hrenewed as [Hopt Hlast]. apply (lastRenewal_recorded c recorded Hrecordable) in Hlast.
  pose proof (adjusted_interval opt jwt E w Hexp HI HD) as Hadj. cbv zeta in Hadj.
  rewrite Hissued, Time_Sub_exact in Hadj
    by (unfold in_int64, int64_min, int64_max, Minute in *; lia).
  set (I' := (adjustTokenRequestRenewalOption opt jwt w).1) in *.
  set (opt' := opt <| RenewTokenRequestInterval := I' |>) in *.
  destruct Hadj as [[HI' _]|[_ Hreq]]; [|lia].
  destruct (renewalThreshold_bounds opt') as (k & Hthr & Hk & Hshort & _);
    change (RenewTokenRequestInterval opt') with I' in *.
  { unfold sane, Minute in *. lia. }
  apply (shouldRenew_false c opt' k w' Hopt Hthr); [lia|].
  unfold Minute, tenMinutes, Second in *. lia.
Qed.

(** An adjustment may lengthen the interval: a token duration far above the
    interval, and a token that gets less than that but more than the interval,
    make the token's lifetime the new interval. *)
Lemma adjustment_may_lengthen_interval (opt : TokenRequestRenewalOption) (jwt : string)
  (issued E : Time) (w : W)
  (Hissued : (time_Now w).1 = issued) (Hexp : getTokenExpiration jwt = Ok E)
  (HI : sane (RenewTokenRequestInterval opt)) (HD : sane (TokenDuration opt))
  (Hset : TokenDuration opt ≠ 0)
  (Hlonger : RenewTokenRequestInterval opt < E - issued)
  (Hshorter : E - issued + 6 * Second ≤ TokenDuration opt) :
  (adjustTokenRequestRenewalOption opt jwt w).1 = E - issued ∧
  RenewTokenRequestInterval opt < (adjustTokenRequestRenewalOption opt jwt w).1.
Proof.
  pose proof (adjusted_interval opt jwt E w Hexp HI HD) as Hadj. cbv zeta in Hadj.
  rewrite (proj2 (Z.eqb_neq _ _) Hset), Hissued, Time_Sub_exact in Hadj
    by (unfold in_int64, int64_min, int64_max, sane, Second in *; lia).
  destruct Hadj as [[-> _]|[_ Hreq]]; lia.
Qed.

End Due.

(** ** The expiration in a token *)

(** C25: of a token in three parts, the middle one the unpadded URL-safe base64
    of a JSON object, the expiration is the Unix time its [exp] member holds,
    whatever string members come before it. *)
Theorem token_expiration_roundtrip (header signature : string)
  (claims : list (string * string)) (n : Z)
  (Hheader : string_mem "." header = false) (Hsignature : string_mem "." signature = false)
  (Hclaims : Forall (λ m, plain m.1 ∧ plain m.2) claims) (Hn : 0 ≤ n < 2 ^ 53) :
  getTokenExpiration
    (header +:+ "." +:+ EncodeToString RawURLEncoding (object_text claims "exp" n)
     +:+ "." +:+ signature) = Ok (Time_of_Unix n).
Proof.
  set (payload := EncodeToString RawURLEncoding (object_text claims "exp" n)).
  unfold getTokenExpiration.
  change (header +:+ "." +:+ payload +:+ "." +:+ signature)
    with (Join [header; payload; signature] (String "." "")).
  rewrite Split_Join; [|done|].
  2:{ repeat apply Forall_cons_2; [done| |done|apply Forall_nil_2].
      apply (EncodeToString_no_dot RawURLEncoding RawURLEncoding_good). }
  unfold payload. rewrite (DecodeString_EncodeToString _ RawURLEncoding_good).
  rewrite Unmarshal_object_text by (done || by repeat split).
  rewrite map_lookup_last, int64_of_float64_exact; [done|].
  unfold in_int64, int64_min, int64_max. lia.
Qed.

(** ** Instances *)

Lemma token_expiration_roundtrip_witness :
  getTokenExpiration
    ("eyJhbGciOiJSUzI1NiJ9" +:+ "." +:+
     EncodeToString RawURLEncoding (object_text [("iss", "kubernetes/serviceaccount")] "exp"
       1739172424) +:+ "." +:+ "c2ln") = Ok (Time_of_Unix 1739172424).
Proof.
  apply (token_expiration_roundtrip "eyJhbGciOiJSUzI1NiJ9" "c2ln"
    [("iss", "kubernetes/serviceaccount")] 1739172424 eq_refl eq_refl); [|lia].
  apply Forall_cons_2; [|apply Forall_nil_2]. vm_compute. repeat split; congruence.
Defined.

(** A token that expires at [n] seconds since the epoch. *)
Definition sim_jwt (n : Z) : string :=
  "h." +:+ EncodeToString RawURLEncoding (object_text [] "exp" n) +:+ ".s".

Definition sim_time : Time := Time_of_Unix 1739172424.

Definition sim_at (t : Time) : SimWorld := sim_init <| sim_now := t |>.

Definition sim_option (interval duration : Duration) : TokenRequestRenewalOption :=
  mkTokenRequestRenewalOption interval duration "projectsveltos" "manager" None.

Definition sim_renewing (opt : TokenRequestRenewalOption) (last : string) : SveltosCluster :=
  zero_SveltosCluster <| Spec; Spec_TokenRequestRenewalOption := Some opt |>
    <| Status; LastReconciledTokenRequestAt := last |>.

(** The last renewal is read back from the text that recorded it. *)
Lemma sim_lastRenewal opt :
  lastRenewal (sim_renewing opt (Format 3600 sim_time)) = sim_time.
Proof. vm_compute. reflexivity. Qed.

Lemma renewal_threshold_witness :
  (shouldRenewTokenRequest (sim_renewing (sim_option Hour 0) (Format 3600 sim_time))
     (sim_at (sim_time + 51 * Minute))).1 = true.
Proof.
  apply (renewal_threshold (sim_renewing (sim_option Hour 0) (Format 3600 sim_time))
    (sim_option Hour 0) 3600 (sim_at (sim_time + 51 * Minute)) eq_refl eq_refl ltac:(lia)).
  rewrite sim_lastRenewal. vm_compute. congruence.
Defined.

Lemma sim_renewed opt jwt t :
  renewed (sim_renewing (opt <| RenewTokenRequestInterval :=
             (adjustTokenRequestRenewalOption opt jwt (sim_at t)).1 |>) (Format 3600 sim_time))
    opt jwt (sim_at t) sim_time.
Proof. by split. Qed.

Lemma sim_recordable : recordable (W := SimWorld) sim_time.
Proof. vm_compute. repeat split; congruence. Qed.

(** A token of a day is asked for, one of twelve hours is given. *)
Lemma renewal_due_before_expiration_witness :
  let opt := sim_option (24 * Hour) 0 in
  let jwt := sim_jwt (1739172424 + 43200) in
  let c := sim_renewing (opt <| RenewTokenRequestInterval :=
             (adjustTokenRequestRenewalOption opt jwt (sim_at sim_time)).1 |>)
             (Format 3600 sim_time) in
  (shouldRenewTokenRequest c (sim_at (sim_time + 12 * Hour - 8 * Minute))).1 = true.
Proof.
  intros opt jwt c.
  apply (renewal_due_before_expiration c opt jwt sim_time sim_time (sim_time + 12 * Hour)
    (sim_at sim_time) _ (sim_renewed opt jwt sim_time)
    sim_recordable eq_refl).
  - vm_compute. reflexivity.
  - vm_compute. split; congruence.
  - vm_compute. split; congruence.
  - by left.
  - vm_compute. split; congruence.
  - vm_compute. congruence.
  - vm_compute. congruence.
Defined.

(** A token of nine minutes. *)
Lemma short_token_not_renewed_in_time_witness :
  let opt := sim_option Hour 0 in
  let jwt := sim_jwt (1739172424 + 540) in
  let c := sim_renewing (opt <| RenewTokenRequestInterval :=
             (adjustTokenRequestRenewalOption opt jwt (sim_at sim_time)).1 |>)
             (Format 3600 sim_time) in
  (shouldRenewTokenRequest c (sim_at (sim_time + 538 * Second))).1 = false.
Proof.
  intros opt jwt c.
  apply (short_token_not_renewed_in_time c opt jwt sim_time sim_time (sim_time + 540 * Second)
    (sim_at sim_time) _ (sim_renewed opt jwt sim_time)
    sim_recordable eq_refl).
  - vm_compute. reflexivity.
  - vm_compute. split; congruence.
  - vm_compute. split; congruence.
  - vm_compute. congruence.
  - vm_compute. split; congruence.
  - vm_compute. congruence.
  - vm_compute. congruence.
Defined.

(** An interval of one hour, a token duration of ten, a token of five. *)
Lemma adjustment_may_lengthen_interval_witness :
  (adjustTokenRequestRenewalOption (sim_option Hour (10 * Hour)) (sim_jwt (1739172424 + 18000))
     (sim_at sim_time)).1 = 5 * Hour.
Proof.
  apply (adjustment_may_lengthen_interval (H := sim_clock) (sim_option Hour (10 * Hour))
    (sim_jwt (1739172424 + 18000)) sim_time (sim_time + 5 * Hour) (sim_at sim_time) eq_refl).
  - vm_compute. reflexivity.
  - vm_compute. split; congruence.
  - vm_compute. split; congruence.
  - vm_compute. congruence.
  - vm_compute. congruence.
  - vm_compute. congruence.
Defined.
