(* ===== verification/TokenRenewal.v ===== *)
(** * Renewing the token of a cluster

    Model of [getServiceAccountTokenRequest], [handleTokenRequestRenewal] (push
    mode), [handlePullModeTokenRequestRenewal] and
    [terminatePullModeTokenRenewalTrackingIfProvisioned]
    ([controllers/sveltoscluster_controller.go]). The renewal option is a pointer
    into the cluster's Spec: changing the interval changes the cluster, whether or
    not the renewal then succeeds. *)

From stdpp Require Import relations.
From S2P Require Import Prelude GoTime Float64 GoStrings Rfc3339 Api Platform Recon Sim.
From S2P Require Import ServiceAccount Kubeconfig TokenTiming.

(** [opt.RenewTokenRequestInterval = i], through the cluster's Spec *)
Definition set_interval (i : Duration) (c : SveltosCluster) : SveltosCluster :=
  c <| Spec; Spec_TokenRequestRenewalOption :=
    (λ opt, opt <| RenewTokenRequestInterval := i |>)
      <$> Spec_TokenRequestRenewalOption (Spec c) |>.

Definition set_LastReconciled (s : string) (c : SveltosCluster) : SveltosCluster :=
  c <| Status; LastReconciledTokenRequestAt := s |>.

Definition set_KubeconfigKeyName (key : string) (c : SveltosCluster) : SveltosCluster :=
  if decide (KubeconfigKeyName (Spec c) = key) then c
  else c <| Spec; KubeconfigKeyName := key |>.

Section TokenRenewal.
Context {W : Type} `{Gauge, Clock W, ClientSet W, ManagementClient W, ClusterProxy W,
  PullModeTransport W, Yaml, Names}.

Definition getServiceAccountTokenRequest (remoteConfig : Config)
    (serviceAccountNamespace serviceAccountName : string) (saExpirationInSecond : float64)
  : St W (result string) :=
  let expiration := int64_of_float64 saExpirationInSecond in
  clientset ← kubernetes_NewForConfig remoteConfig;
  match clientset with
  | Err err => mret (Err err)
  | Ok clientset =>
    CreateToken clientset serviceAccountNamespace serviceAccountName expiration
  end.

(** [time.Now().Format(time.RFC3339)] into the Status *)
Definition record_renewal : St (Recon W) () :=
  now ← outside time_Now;
  update_cluster (set_LastReconciled (Format (Local_offset now) now)).

(** ** Push mode *)

(** What the loop does with the ServiceAccount of one context. *)
Definition renewContext (remoteConfig : Config) (saExpirationInSecond : float64)
    (saNamespace saName : string) : St (Recon W) () :=
  tokenRequest ← outside (getServiceAccountTokenRequest remoteConfig saNamespace saName
                            saExpirationInSecond);
  match tokenRequest with
  | Err _ => mret ()
  | Ok token =>
    c ← get_cluster;
    match Spec_TokenRequestRenewalOption (Spec c) with
    | None => mret ()
    | Some opt =>
      interval ← outside (adjustTokenRequestRenewalOption opt token);
      update_cluster (set_interval interval);;
      c ← get_cluster;
      let key := getKubeconfigKey c in
      let data := getKubeconfigFromToken saNamespace saName token "" remoteConfig in
      err ← outside (UpdateSveltosSecretData (Namespace (Meta c)) (Name (Meta c)) data key);
      match err with
      | Some _ => mret ()
      | None => update_cluster (set_KubeconfigKeyName key);; record_renewal
      end
    end
  end.

(** The loop over the contexts: a ServiceAccount that is not known is taken from
    a context, and kept for those that follow. *)
Fixpoint renewContexts (remoteConfig : Config) (saExpirationInSecond : float64)
    (saNamespace saName : string) (contexts : list NamedContext) : St (Recon W) () :=
  match contexts with
  | [] => mret ()
  | cc :: contexts' =>
    let '(ns, name) :=
      if decide (saName = "") then (Context_Namespace cc, Context_AuthInfo cc)
      else (saNamespace, saName) in
    (if decide (ns = "" ∨ name = "") then mret ()
     else renewContext remoteConfig saExpirationInSecond ns name);;
    renewContexts remoteConfig saExpirationInSecond ns name contexts'
  end.

Definition handleTokenRequestRenewal (remoteConfig : Config) : St (Recon W) (option error) :=
  c ← get_cluster;
  match Spec_TokenRequestRenewalOption (Spec c) with
  | None => mret None
  | Some opt =>
    let saExpirationInSecond := getEffectiveTokenDurationInSecond opt in
    data ← outside (GetSveltosSecretData (Namespace (Meta c)) (Name (Meta c)));
    match data with
    | Err err => mret (Some err)
    | Ok data =>
      match yaml_Unmarshal_Config data with
      | Err err => mret (Some err)
      | Ok contexts =>
        sa ← outside (getServiceAccountDetails c remoteConfig);
        match sa with
        | Err err => mret (Some err)
        | Ok (saNamespace, saName) =>
          renewContexts remoteConfig saExpirationInSecond saNamespace saName contexts;;
          mret None
        end
      end
    end
  end.

(** ** Pull mode *)

Definition token_deployment (c : SveltosCluster) : Deployment :=
  mkDeployment (Namespace (Meta c)) (Name (Meta c)) SveltosClusterKind (Name (Meta c))
    FeatureTokenRenewal.

Definition handlePullModeTokenRequestRenewal (r : SveltosClusterReconciler)
  : St (Recon W) (option error) :=
  c ← get_cluster;
  match Spec_TokenRequestRenewalOption (Spec c) with
  | None => mret None
  | Some opt =>
    if decide (SAName opt = "" ∨ SANamespace opt = "") then mret None
    else
      let saExpirationInSecond := getEffectiveTokenDurationInSecond opt in
      endpoint ← outside (getPullModeManagementClusterEndpoint (SANamespace opt) (SAName opt));
      match endpoint with
      | Err err => mret (Some err)
      | Ok (managementClusterURL, managementClusterCA, managementClusterTLSServerName) =>
        tokenRequest ← outside (getServiceAccountTokenRequest (r_Config r) (SANamespace opt)
                                  (SAName opt) saExpirationInSecond);
        match tokenRequest with
        | Err err => mret (Some err)
        | Ok token =>
          interval ← outside (adjustTokenRequestRenewalOption opt token);
          update_cluster (set_interval interval);;
          let kubeconfigServerConfig :=
            r_Config r <| Host := managementClusterURL |> <| CAData := managementClusterCA |> in
          let kubeconfigData :=
            getKubeconfigFromToken (SANamespace opt) (SAName opt) token
              managementClusterTLSServerName kubeconfigServerConfig in
          match ToUnstructured
                  (getPullModeKubeconfigSecret (SveltosNamespace r) (Name (Meta c))
                     kubeconfigData) with
          | Err err => mret (Some err)
          | Ok uSecret =>
            let resources := {[pullModeKubeconfigResourceKey := [uSecret]]} in
            err ← outside (StageResourcesForDeployment (token_deployment c) resources true);
            match err with
            | Some err => mret (Some err)
            | None =>
              let sourceRef :=
                mkObjectReference GroupVersion SveltosClusterKind (Namespace (Meta c))
                  (Name (Meta c)) (UID (Meta c)) in
              err ← outside (CommitStagedResourcesForDeployment (token_deployment c) sourceRef);
              match err with
              | Some err => mret (Some err)
              | None => record_renewal;; mret None
              end
            end
          end
        end
      end
  end.

Definition terminatePullModeTokenRenewalTrackingIfProvisioned : St (Recon W) () :=
  c ← get_cluster;
  status ← outside (GetDeploymentStatus (token_deployment c));
  match status with
  | Ok (Some (Some status)) =>
    if decide (status = FeatureStatusProvisioned)
    then _ ← outside (TerminateDeploymentTracking (token_deployment c)); mret ()
    else mret ()
  | _ => mret ()
  end.

(** ** What a renewal may change

    A cluster without the renewal interval, the name of the kubeconfig's key and
    the time of the last renewal. *)
Definition but_renewal (c : SveltosCluster) : SveltosCluster :=
  set_interval 0 c <| Spec; KubeconfigKeyName := "" |>
    <| Status; LastReconciledTokenRequestAt := "" |>.

Definition frame (s : Recon W) := (but_renewal (cluster s), metrics s, events s).

Lemma but_renewal_interval i c : but_renewal (set_interval i c) = but_renewal c.
Proof.
  destruct c as [m [? ? ? opt ? ? ? ? ? ?] ?]; cbn. by destruct opt as [[]|].
Qed.

Lemma but_renewal_key key c : but_renewal (set_KubeconfigKeyName key c) = but_renewal c.
Proof. unfold set_KubeconfigKeyName. by case_decide. Qed.

#[local] Arguments but_renewal : simpl never.
#[local] Arguments set_interval : simpl never.
#[local] Arguments set_KubeconfigKeyName : simpl never.

Lemma record_renewal_keeps : keeps frame record_renewal.
Proof. unfold record_renewal. keeps_tac. Qed.
#[local] Hint Resolve record_renewal_keeps : recon_keeps.

Lemma renewContext_keeps config exp ns name : keeps frame (renewContext config exp ns name).
Proof.
  unfold renewContext. keeps_tac; unfold frame; cbn.
  - by rewrite but_renewal_interval.
  - by rewrite but_renewal_key.
Qed.
#[local] Hint Resolve renewContext_keeps : recon_keeps.

Lemma renewContexts_keeps config exp ns name contexts :
  keeps frame (renewContexts config exp ns name contexts).
Proof.
  revert ns name. induction contexts as [|cc contexts IH]; intros ns name; cbn; keeps_tac.
Qed.
#[local] Hint Resolve renewContexts_keeps : recon_keeps.

Lemma handleTokenRequestRenewal_keeps config :
  keeps frame (handleTokenRequestRenewal config).
Proof. unfold handleTokenRequestRenewal. keeps_tac. Qed.

Lemma handlePullModeTokenRequestRenewal_keeps r :
  keeps frame (handlePullModeTokenRequestRenewal r).
Proof.
  unfold handlePullModeTokenRequestRenewal. keeps_tac; unfold frame; cbn.
  by rewrite but_renewal_interval.
Qed.

Lemma terminate_keeps {X} (P : Recon W → X) :
  (∀ s w, P (s <| world := w |>) = P s) →
  keeps P terminatePullModeTokenRenewalTrackingIfProvisioned.
Proof.
  intros HP. unfold terminatePullModeTokenRenewalTrackingIfProvisioned.
  repeat first [apply keeps_outside, HP | keeps_step].
Qed.

(** ** Pull mode: what a renewal amounts to *)

(** C13: a pull-mode renewal that reports no error has asked for a token of the
    configured ServiceAccount in the management cluster, staged and committed the
    Secret that carries it together with the endpoint read from the ConfigMap, and
    recorded the time; one that reports an error has recorded no renewal. *)
Theorem pull_renewal_outcome (r : SveltosClusterReconciler) (s : Recon W)
  (opt : TokenRequestRenewalOption)
  (Hopt : Spec_TokenRequestRenewalOption (Spec (cluster s)) = Some opt)
  (Hname : SAName opt ≠ "") (Hns : SANamespace opt ≠ "") :
  let '(err, s') := handlePullModeTokenRequestRenewal r s in
  match err with
  | Some _ =>
    LastReconciledTokenRequestAt (Status (cluster s')) =
    LastReconciledTokenRequestAt (Status (cluster s))
  | None =>
    ∃ url ca tls token u w1 w2 w3 w4 w5 t,
      getPullModeManagementClusterEndpoint (SANamespace opt) (SAName opt) (world s)
        = (Ok (url, ca, tls), w1) ∧
      getServiceAccountTokenRequest (r_Config r) (SANamespace opt) (SAName opt)
        (getEffectiveTokenDurationInSecond opt) w1 = (Ok token, w2) ∧
      ToUnstructured (getPullModeKubeconfigSecret (SveltosNamespace r)
        (Name (Meta (cluster s)))
        (getKubeconfigFromToken (SANamespace opt) (SAName opt) token tls
           (mkConfig url ca (Config_other (r_Config r))))) = Ok u ∧
      (adjustTokenRequestRenewalOption opt token w2).2 = w3 ∧
      StageResourcesForDeployment (token_deployment (cluster s))
        {[pullModeKubeconfigResourceKey := [u]]} true w3 = (None, w4) ∧
      CommitStagedResourcesForDeployment (token_deployment (cluster s))
        (mkObjectReference GroupVersion SveltosClusterKind (Namespace (Meta (cluster s)))
           (Name (Meta (cluster s))) (UID (Meta (cluster s)))) w4 = (None, w5) ∧
      (time_Now w5).1 = t ∧
      renewed (cluster s') opt token w2 t
  end.
Proof.
  unfold handlePullModeTokenRequestRenewal, record_renewal. run. rewrite Hopt.
  rewrite decide_False by tauto.
  destruct (getPullModeManagementClusterEndpoint _ _ _)
    as [[[[url ca] tls]|err] w1] eqn:Hendpoint; cbn; [|done].
  destruct (getServiceAccountTokenRequest _ _ _ _ w1) as [[token|err] w2] eqn:Htoken; cbn;
    [|done].
  destruct (adjustTokenRequestRenewalOption opt token w2) as [interval w3] eqn:Hadj; cbn.
  destruct (ToUnstructured _) as [u|err] eqn:Hu; cbn; [|done].
  destruct (StageResourcesForDeployment _ _ _ w3) as [[err|] w4] eqn:Hstage; cbn; [done|].
  destruct (CommitStagedResourcesForDeployment _ _ w4) as [[err|] w5] eqn:Hcommit; cbn; [done|].
  destruct (time_Now w5) as [t w6] eqn:Hnow; cbn.
  exists url, ca, tls, token, u, w1, w2, w3, w4, w5, t.
  split_and!; try done; [by rewrite Hadj|by rewrite Hnow|].
  split; [|done]. cbn. unfold set_interval. cbn. by rewrite Hopt, Hadj.
Qed.

(** ** Push mode *)

(** One turn of the loop that renewed: a token of the ServiceAccount was had, the very
    kubeconfig that holds it was stored in the cluster's Secret, under the key the Spec
    then names, and the time after that was recorded, beside the adjusted interval. *)
Definition renewed_from (config : Config) (exp : float64) (s s' : Recon W) : Prop :=
  ∃ ns name jwt opt w1 w2 w3 now,
    Spec_TokenRequestRenewalOption (Spec (cluster s)) = Some opt ∧
    getServiceAccountTokenRequest config ns name exp (world s) = (Ok jwt, w1) ∧
    (adjustTokenRequestRenewalOption opt jwt w1).2 = w2 ∧
    UpdateSveltosSecretData (Namespace (Meta (cluster s))) (Name (Meta (cluster s)))
      (getKubeconfigFromToken ns name jwt "" config) (getKubeconfigKey (cluster s)) w2
      = (None, w3) ∧
    time_Now w3 = (now, world s') ∧ renewed (cluster s') opt jwt w1 now ∧
    KubeconfigKeyName (Spec (cluster s')) = getKubeconfigKey (cluster s).

(** A turn of the loop, for some ServiceAccount. *)
Definition context_turn (config : Config) (exp : float64) : relation (Recon W) :=
  λ s s', ∃ ns name, s' = (renewContext config exp ns name s).2.

Definition recorded_at (s : Recon W) : string := LastReconciledTokenRequestAt (Status (cluster s)).

Lemma getKubeconfigKey_interval i c : getKubeconfigKey (set_interval i c) = getKubeconfigKey c.
Proof.
  unfold getKubeconfigKey, set_interval. by destruct (Spec_TokenRequestRenewalOption (Spec c)).
Qed.

Lemma renewContext_renewed config exp ns name (s : Recon W)
    (s' := (renewContext config exp ns name s).2) :
  recorded_at s' = recorded_at s ∨ renewed_from config exp s s'.
Proof.
  subst s'. unfold renewed_from, renewContext, record_renewal, recorded_at. run.
  generalize getKubeconfigFromToken as kubeconfig. intros kubeconfig.
  destruct (getServiceAccountTokenRequest _ _ _ _ _) as [[jwt|err] w1] eqn:Htoken; cbn; [|by left].
  destruct (Spec_TokenRequestRenewalOption _) as [opt|] eqn:Hopt; cbn; [|by left].
  destruct (adjustTokenRequestRenewalOption opt jwt w1) as [interval w2] eqn:Hadj; cbn.
  rewrite getKubeconfigKey_interval.
  destruct (UpdateSveltosSecretData _ _ _ _ w2) as [[err|] w3] eqn:Hupdate; cbn; [by left|].
  destruct (time_Now w3) as [now w4] eqn:Hnow; cbn. right.
  exists ns, name, jwt, opt, w1, w2, w3, now. split_and!; try done.
  - by rewrite Hadj.
  - unfold set_KubeconfigKeyName. case_decide; split; unfold set_interval; cbn;
      by rewrite ?Hopt, ?Hadj.
  - cbn. unfold set_KubeconfigKeyName. by case_decide.
Qed.

(** The loop records nothing, or what its last renewal did. *)
Lemma renewContexts_renewed config exp contexts ns name (s : Recon W)
    (s' := (renewContexts config exp ns name contexts s).2) :
  rtc (context_turn config exp) s s' ∧
  (recorded_at s' = recorded_at s ∨
   ∃ s1 s2, rtc (context_turn config exp) s s1 ∧ renewed_from config exp s1 s2 ∧
     rtc (context_turn config exp) s2 s' ∧ recorded_at s' = recorded_at s2).
Proof.
  subst s'. revert ns name s. induction contexts as [|cc contexts IH]; intros ns name s.
  { split; [apply rtc_refl|by left]. }
  cbn [renewContexts]. destruct (if decide (name = "") then _ else _) as [ns' name'].
  unfold mbind, St_bind. case_decide as Hempty; [by apply IH|].
  assert (Hturn : context_turn config exp s (renewContext config exp ns' name' s).2)
    by by exists ns', name'.
  pose proof (renewContext_renewed config exp ns' name' s) as Hone. cbv zeta in Hone.
  destruct (renewContext config exp ns' name' s) as [[] s1]. cbn [snd] in *.
  destruct (IH ns' name' s1) as [Hrest [Hsame|(s2 & s3 & Hto & Hrenewed & Hafter & Hlast)]].
  - split; [by eapply rtc_l|]. destruct Hone as [Hone|Hone]; [left; congruence|right].
    exists s, s1. by split_and!.
  - split; [by eapply rtc_l|]. right. exists s2, s3. split; [by eapply rtc_l|done].
Qed.

(** C14: a push-mode renewal records a time only when a token was renewed and stored.
    After the cluster's Secret and its ServiceAccount were looked up, some turn of the
    loop got a token with the effective lifetime, stored the kubeconfig that holds this
    very token in the Secret of this cluster, and recorded the time it read after that;
    the turns after it recorded nothing. *)
Theorem push_renewal_backed (config : Config) (s : Recon W)
  (s' := (handleTokenRequestRenewal config s).2)
  (Hchanged : recorded_at s' ≠ recorded_at s) :
  ∃ opt data w1 account w2 s1 s2 (exp := getEffectiveTokenDurationInSecond opt),
    Spec_TokenRequestRenewalOption (Spec (cluster s)) = Some opt ∧
    GetSveltosSecretData (Namespace (Meta (cluster s))) (Name (Meta (cluster s))) (world s)
      = (Ok data, w1) ∧
    getServiceAccountDetails (cluster s) config w1 = (Ok account, w2) ∧
    rtc (context_turn config exp) (s <| world := w2 |>) s1 ∧ renewed_from config exp s1 s2 ∧
    rtc (context_turn config exp) s2 s' ∧ recorded_at s' = recorded_at s2.
Proof.
  subst s'. revert Hchanged. unfold handleTokenRequestRenewal. run.
  destruct (Spec_TokenRequestRenewalOption _) as [opt|]; cbn; [|done].
  destruct (GetSveltosSecretData _ _ _) as [[data|err] w1] eqn:Hdata; cbn; [|done].
  destruct (yaml_Unmarshal_Config data) as [contexts|err]; cbn; [|done].
  destruct (getServiceAccountDetails _ _ _) as [[[ns name]|err] w2] eqn:Hsa; cbn; [|done].
  destruct (renewContexts_renewed config (getEffectiveTokenDurationInSecond opt) contexts ns name
    (s <| world := w2 |>)) as [_ Hcases].
  change (mkRecon _ _ _ w2) with (s <| world := w2 |>).
  destruct (renewContexts _ _ _ _ _ _) as [[] s']; cbn [snd] in *. intros Hchanged.
  destruct Hcases as [Hsame|(s1 & s2 & Hcases)]; [done|].
  by exists opt, data, w1, (ns, name), w2, s1, s2.
Qed.

(** The worlds of [Q] give no token, and are not left by asking for one. *)
Definition no_token (config : Config) (Q : W → Prop) : Prop :=
  ∀ ns name exp w, Q w →
    let '(token, w') := getServiceAccountTokenRequest config ns name exp w in
    is_Ok token = false ∧ Q w'.

Lemma renewContexts_no_token config Q exp contexts ns name (s : Recon W) :
  no_token config Q → Q (world s) →
  cluster (renewContexts config exp ns name contexts s).2 = cluster s.
Proof.
  intros Hfail. revert ns name s.
  induction contexts as [|cc contexts IH]; intros ns name s Hs; [done|]. cbn [renewContexts].
  destruct (if decide (name = "") then _ else _) as [ns' name'].
  unfold mbind, St_bind. case_decide; [by apply IH|].
  unfold renewContext. run. specialize (Hfail ns' name' exp (world s) Hs).
  destruct (getServiceAccountTokenRequest config ns' name' exp (world s)) as [[token|err] w];
    destruct Hfail as [Hfail Hw]; cbn in *; [done|]. by rewrite IH.
Qed.

(** C40: when no token can be had for any context, a push-mode renewal still
    reports no error and leaves the cluster as it was: its Status does not tell
    that the token is not being renewed. *)
Theorem push_renewal_failure_is_silent (config : Config) (s : Recon W) (data : string)
  (contexts : list NamedContext) (ns name : string) (w1 w2 : W) (Q : W → Prop)
  (Hdata : GetSveltosSecretData (Namespace (Meta (cluster s))) (Name (Meta (cluster s)))
             (world s) = (Ok data, w1))
  (Hyaml : yaml_Unmarshal_Config data = Ok contexts)
  (Hsa : getServiceAccountDetails (cluster s) config w1 = (Ok (ns, name), w2))
  (Hw : Q w2) (Hfail : no_token config Q) :
  (handleTokenRequestRenewal config s).1 = None ∧
  cluster (handleTokenRequestRenewal config s).2 = cluster s.
Proof.
  unfold handleTokenRequestRenewal. run.
  destruct (Spec_TokenRequestRenewalOption _) as [opt|]; cbn; [|done].
  rewrite Hdata; cbn. rewrite Hyaml; cbn. rewrite Hsa; cbn.
  pose proof (renewContexts_no_token config Q (getEffectiveTokenDurationInSecond opt) contexts
    ns name (s <| world := w1 |> <| world := w2 |>) Hfail Hw) as Hsame.
  by destruct (renewContexts _ _ _ _ _ _) as [[] s']; cbn in *.
Qed.

(** When the ServiceAccount is to be taken from the kubeconfig and its first
    context names a user but no namespace, no context is renewed: the user's name
    is kept, so the later contexts are not looked at. *)
Lemma context_without_namespace_blocks (config : Config) (exp : float64) (ns : string)
  (cc : NamedContext) (contexts : list NamedContext) (s : Recon W)
  (Hns : Context_Namespace cc = "") (Hname : Context_AuthInfo cc ≠ "") :
  renewContexts config exp ns "" (cc :: contexts) s = ((), s).
Proof.
  cbn [renewContexts]. rewrite decide_True, Hns by done. unfold mbind, St_bind.
  rewrite decide_True by auto. cbn.
  induction contexts as [|cc' contexts IH]; [done|]. cbn [renewContexts].
  rewrite decide_False by done. unfold mbind, St_bind. rewrite decide_True by auto. exact IH.
Qed.

End TokenRenewal.

(** ** Instances *)

Definition sim_cluster_renewing : SveltosCluster :=
  sim_renewing (sim_option (24 * Hour) 0) "" <| Meta; Namespace := "prod" |>
    <| Meta; Name := "edge" |>.

Definition sim_registered : SimWorld :=
  sim_at sim_time
    <| sim_configmaps := {[("projectsveltos", "manager") :=
         {["server" := "https://api.example.com"; "ca.crt" := "external-ca"]}]} |>
    <| sim_token := λ _ _ seconds, Ok (sim_jwt (1739172424 + seconds)) |>
    <| sim_secret := Ok "kube-system/admin" |>.

Lemma pull_renewal_outcome_witness :
  ∃ t, LastReconciledTokenRequestAt (Status (cluster
    (handlePullModeTokenRequestRenewal sim_r
       (sim_recon sim_cluster_renewing sim_registered)).2)) = Format 3600 t.
Proof.
  pose proof (pull_renewal_outcome sim_r (sim_recon sim_cluster_renewing sim_registered)
    (sim_option (24 * Hour) 0) eq_refl ltac:(done) ltac:(done)) as Hout.
  assert (Herr : (handlePullModeTokenRequestRenewal sim_r
    (sim_recon sim_cluster_renewing sim_registered)).1 = None) by (vm_compute; reflexivity).
  destruct (handlePullModeTokenRequestRenewal _ _) as [err s']. cbn in Herr. subst err.
  destruct Hout as (url & ca & tls & token & u & w1 & w2 & w3 & w4 & w5 & t & Hout).
  destruct Hout as (_ & _ & _ & _ & _ & _ & _ & Hrenewed). exists t.
  exact (renewed_time _ _ _ _ _ Hrenewed).
Defined.

(** The kubeconfig with the token of the cluster's ServiceAccount is the one stored. *)
Lemma push_renewal_backed_witness :
  let config := mkConfig "https://10.0.0.1" "ca" "" in
  ∃ s1 s2,
    renewed_from config (getEffectiveTokenDurationInSecond (sim_option (24 * Hour) 0)) s1 s2 ∧
    recorded_at (handleTokenRequestRenewal config
      (sim_recon sim_cluster_renewing sim_registered)).2 = recorded_at s2.
Proof.
  intros config.
  destruct (push_renewal_backed config (sim_recon sim_cluster_renewing sim_registered))
    as (opt & data & w1 & account & w2 & s1 & s2 & Hopt & _ & _ & _ & Hrenewed & _ & Hlast).
  - vm_compute. congruence.
  - apply Some_inj in Hopt. rewrite <-Hopt in Hrenewed. exists s1, s2.
    split; [exact Hrenewed|exact Hlast].
Defined.

Lemma push_renewal_failure_is_silent_witness :
  let w := sim_registered <| sim_token := λ _ _ _, Err (errors_New "forbidden") |> in
  (handleTokenRequestRenewal (mkConfig "https://10.0.0.1" "ca" "")
     (sim_recon sim_cluster_renewing w)).1 = None.
Proof.
  intros w.
  apply (push_renewal_failure_is_silent (mkConfig "https://10.0.0.1" "ca" "")
    (sim_recon sim_cluster_renewing w) "kube-system/admin" [mkContext "kube-system" "admin"]
    "projectsveltos" "manager" w w
    (λ w, sim_token w = λ _ _ _, Err (errors_New "forbidden"))); try reflexivity.
  intros ns name exp w' Hw'. unfold getServiceAccountTokenRequest, mbind, St_bind.
  destruct w'. cbn in Hw' |- *. by subst.
Defined.

Lemma context_without_namespace_blocks_witness :
  cluster (renewContexts (mkConfig "https://10.0.0.1" "ca" "") (Seconds Hour) "" ""
    [mkContext "" "admin"; mkContext "kube-system" "manager"]
    (sim_recon sim_cluster_renewing sim_registered)).2 = sim_cluster_renewing.
Proof.
  rewrite (context_without_namespace_blocks (mkConfig "https://10.0.0.1" "ca" "") (Seconds Hour)
    "" (mkContext "" "admin") [mkContext "kube-system" "manager"]
    (sim_recon sim_cluster_renewing sim_registered) eq_refl ltac:(done)).
  reflexivity.
Defined.
