(* ===== verification/Metrics.v ===== *)
(** * The metrics of a cluster

    Model of [controllers/metrics.go]: four gauges whose rows carry the type, the
    namespace and the name of a cluster, and for the version gauge the version. *)

From S2P Require Import Prelude GoTime Float64 GoStrings Api Platform Recon Sim.

Definition labelClusterType : string := "cluster_type".
Definition labelClusterNamespace : string := "cluster_namespace".
Definition labelClusterName : string := "cluster_name".
Definition labelKubernetesVersion : string := "kubernetes_version".

Definition StatusHealthy : float64 := float64_of_int 0.
Definition StatusDisconnected : float64 := float64_of_int 1.

Definition cluster_labels (clusterType namespace name : string) : labels_t :=
  {[labelClusterType := clusterType; labelClusterNamespace := namespace;
    labelClusterName := name]}.

Definition version_labels (clusterType namespace name version : string) : labels_t :=
  <[labelKubernetesVersion := version]> (cluster_labels clusterType namespace name).

#[global] Arguments cluster_labels : simpl never.
#[global] Arguments version_labels : simpl never.

Section Metrics.
Context `{Gauge}.

Definition updateClusterConnectionStatusMetric (clusterType namespace name : string)
    (status : ConnectionStatus_t) (m : Metrics) : Metrics :=
  let val := if decide (status = ConnectionHealthy) then StatusHealthy
             else StatusDisconnected in
  m <| clusterConnectivityGauge :=
    gauge_Set (cluster_labels clusterType namespace name) val (clusterConnectivityGauge m) |>.

(** The row of an earlier version goes away first. *)
Definition updateKubernetesVersionMetric (clusterType namespace name version : string)
    (m : Metrics) : Metrics :=
  let cleared :=
    gauge_DeletePartialMatch (cluster_labels clusterType namespace name)
      (kubernetesVersionGauge m) in
  m <| kubernetesVersionGauge :=
    gauge_Set (version_labels clusterType namespace name version) (float64_of_int 1) cleared |>.

Definition updateConnectionFailuresMetric (clusterType namespace name : string)
    (failures : Z) (m : Metrics) : Metrics :=
  m <| connectionFailuresGauge :=
    gauge_Set (cluster_labels clusterType namespace name) (float64_of_int failures)
      (connectionFailuresGauge m) |>.

Definition updateAgentLastHeartbeatMetric (clusterType namespace name : string)
    (lastReportTime : Time) (m : Metrics) : Metrics :=
  m <| agentLastHeartbeatTimestampGauge :=
    gauge_Set (cluster_labels clusterType namespace name)
      (float64_of_int (Time_Unix lastReportTime)) (agentLastHeartbeatTimestampGauge m) |>.

Definition deleteClusterMetrics (clusterType namespace name : string) (m : Metrics) : Metrics :=
  let labels := cluster_labels clusterType namespace name in
  m <| clusterConnectivityGauge := gauge_Delete labels (clusterConnectivityGauge m) |>
    <| kubernetesVersionGauge := gauge_DeletePartialMatch labels (kubernetesVersionGauge m) |>
    <| connectionFailuresGauge := gauge_Delete labels (connectionFailuresGauge m) |>
    <| agentLastHeartbeatTimestampGauge :=
         gauge_Delete labels (agentLastHeartbeatTimestampGauge m) |>.

(** ** Rows *)

Context `{!GaugeLaws}.

(** A row belongs to the cluster its labels name. *)
Definition row_of (clusterType namespace name : string) (l : labels_t) : Prop :=
  cluster_labels clusterType namespace name ⊆ l.

Lemma cluster_labels_row_of t ns n : row_of t ns n (cluster_labels t ns n).
Proof. unfold row_of. reflexivity. Qed.

Lemma version_labels_row_of t ns n v : row_of t ns n (version_labels t ns n v).
Proof.
  unfold row_of, version_labels. apply insert_subseteq. reflexivity.
Qed.

(** C28: after the version of a cluster was reported there is exactly one version
    row for it, with the reported version and the value 1, whatever rows there
    were; the rows of other clusters are as before. *)
Theorem one_version_row (t ns n version : string) (m : Metrics) (l : labels_t)
  (m' := updateKubernetesVersionMetric t ns n version m) :
  (row_of t ns n l →
     gauge_row (kubernetesVersionGauge m') l =
     if decide (l = version_labels t ns n version) then Some (float64_of_int 1) else None) ∧
  (¬ row_of t ns n l →
     gauge_row (kubernetesVersionGauge m') l = gauge_row (kubernetesVersionGauge m) l).
Proof.
  subst m'. unfold updateKubernetesVersionMetric. cbn.
  rewrite row_Set, row_DeletePartialMatch. fold (row_of t ns n l). split; intros Hrow.
  - rewrite (decide_True _ _ Hrow). repeat case_decide; congruence.
  - rewrite (decide_False _ _ Hrow). case_decide as Heq; [|done].
    destruct Hrow. subst l. apply version_labels_row_of.
Qed.

(** The rows of a cluster, in the four gauges. *)
Definition no_rows (t ns n : string) (m : Metrics) : Prop :=
  gauge_row (clusterConnectivityGauge m) (cluster_labels t ns n) = None ∧
  (∀ l, row_of t ns n l → gauge_row (kubernetesVersionGauge m) l = None) ∧
  gauge_row (connectionFailuresGauge m) (cluster_labels t ns n) = None ∧
  gauge_row (agentLastHeartbeatTimestampGauge m) (cluster_labels t ns n) = None.

(** All the rows of other clusters are the same. *)
Definition same_other_rows (t ns n : string) (m m' : Metrics) : Prop :=
  ∀ l, ¬ row_of t ns n l →
    gauge_row (clusterConnectivityGauge m') l = gauge_row (clusterConnectivityGauge m) l ∧
    gauge_row (kubernetesVersionGauge m') l = gauge_row (kubernetesVersionGauge m) l ∧
    gauge_row (connectionFailuresGauge m') l = gauge_row (connectionFailuresGauge m) l ∧
    gauge_row (agentLastHeartbeatTimestampGauge m') l =
      gauge_row (agentLastHeartbeatTimestampGauge m) l.

Lemma delete_no_rows t ns n m : no_rows t ns n (deleteClusterMetrics t ns n m).
Proof.
  unfold deleteClusterMetrics, no_rows. cbn. rewrite !row_Delete, !decide_True by done.
  split_and!; try done. intros l Hl. by rewrite row_DeletePartialMatch, decide_True.
Qed.

Lemma delete_same_other_rows t ns n m :
  same_other_rows t ns n m (deleteClusterMetrics t ns n m).
Proof.
  intros l Hl. cbn. rewrite !row_Delete, row_DeletePartialMatch.
  assert (cluster_labels t ns n ≠ l) by (intros <-; apply Hl, cluster_labels_row_of).
  by rewrite !decide_False.
Qed.

(** ** The updates touch the cluster's rows only *)

Lemma row_Set_other t ns n v g l :
  ¬ row_of t ns n l → gauge_row (gauge_Set (cluster_labels t ns n) v g) l = gauge_row g l.
Proof. intros Hl. rewrite row_Set, decide_False; [done|]. intros <-. apply Hl, cluster_labels_row_of. Qed.

Lemma updateClusterConnectionStatusMetric_others t ns n status m :
  same_other_rows t ns n m (updateClusterConnectionStatusMetric t ns n status m).
Proof. intros l Hl. cbn. by rewrite row_Set_other. Qed.

Lemma updateConnectionFailuresMetric_others t ns n failures m :
  same_other_rows t ns n m (updateConnectionFailuresMetric t ns n failures m).
Proof. intros l Hl. cbn. by rewrite row_Set_other. Qed.

Lemma updateAgentLastHeartbeatMetric_others t ns n time m :
  same_other_rows t ns n m (updateAgentLastHeartbeatMetric t ns n time m).
Proof. intros l Hl. cbn. by rewrite row_Set_other. Qed.

Lemma updateKubernetesVersionMetric_others t ns n version m :
  same_other_rows t ns n m (updateKubernetesVersionMetric t ns n version m).
Proof.
  intros l Hl. cbn. rewrite row_Set, row_DeletePartialMatch. unfold row_of in Hl.
  rewrite !decide_False; [done|done|]. intros <-. apply Hl, version_labels_row_of.
Qed.

End Metrics.

(** [deleteClusterMetrics] where there is something to delete. *)
Lemma one_version_row_witness :
  let m := updateKubernetesVersionMetric "Sveltos" "prod" "edge" "v1.2.3" sim_metrics in
  gauge_row (kubernetesVersionGauge
    (updateKubernetesVersionMetric "Sveltos" "prod" "edge" "v1.3.0" m))
    (version_labels "Sveltos" "prod" "edge" "v1.2.3") = None.
Proof.
  intros m.
  rewrite (proj1 (one_version_row "Sveltos" "prod" "edge" "v1.3.0" m
    (version_labels "Sveltos" "prod" "edge" "v1.2.3")) (version_labels_row_of _ _ _ _)).
  vm_compute. reflexivity.
Defined.
