(* ===== verification/Connection.v ===== *)
(** * Connection status and events

    Model of [updateConnectionStatus] ([controllers/sveltoscluster_controller.go])
    and of [controllers/events.go]: a cluster is down after
    [ConsecutiveFailureThreshold] failures in a row, and an event is recorded when
    it goes down or comes back. *)

From S2P Require Import Prelude GoTime GoStrings Api Platform Recon Sim.

Section Connection.
Context {W : Type} `{Gauge, PullModeTransport W, Names}.

Definition recordEventf (r : SveltosClusterReconciler) (regarding : SveltosCluster)
    (eventType reason action format : string) (args : list fmt_arg) : St (Recon W) () :=
  if EventRecorder r then
    let note := TruncateNote (Sprintf format args) in
    modify (λ s, s <| events := events s ++
      [mkEvent (Namespace (Meta regarding)) (Name (Meta regarding)) eventType reason action
         note] |>)
  else mret ().

Definition getFailureMessage (c : SveltosCluster) : string :=
  match FailureMessage (Status c) with
  | None => "unknown failure"
  | Some msg =>
    if IsAgentTimeoutError c
    then "agent has not reported for longer than the maximum allowed time"
    else msg
  end.

Definition recordConnectionTransition (r : SveltosClusterReconciler) (c : SveltosCluster)
    (previousStatus : ConnectionStatus_t) : St (Recon W) () :=
  let currentStatus := ConnectionStatus (Status c) in
  if decide (previousStatus ≠ ConnectionDown ∧ currentStatus = ConnectionDown) then
    let reason := if PullMode (Spec c) then AgentUnhealthy else ClusterUnreachable in
    recordEventf r c "Warning" reason ActionConnecting "cluster %s/%s: %s"
      [ArgS (Namespace (Meta c)); ArgS (Name (Meta c)); ArgS (getFailureMessage c)]
  else if decide (previousStatus = ConnectionDown ∧ currentStatus ≠ ConnectionDown) then
    let message := if PullMode (Spec c) then "agent is reporting again"
                   else "connection is healthy again" in
    recordEventf r c "Normal" ClusterRecovered ActionConnecting "cluster %s/%s: %s"
      [ArgS (Namespace (Meta c)); ArgS (Name (Meta c)); ArgS message]
  else mret ().

(** The change of the Status; [ConnectionFailures] is an [int] of 64 bits. *)
Definition connection_step (c : SveltosCluster) : SveltosCluster :=
  match FailureMessage (Status c) with
  | Some _ =>
    let failures := wrap64 (ConnectionFailures (Status c) + 1) in
    let c := c <| Status; ConnectionFailures := failures |> in
    if ConsecutiveFailureThreshold (Spec c) <=? failures
    then c <| Status; ConnectionStatus := ConnectionDown |> else c
  | None =>
    c <| Status; ConnectionStatus := ConnectionHealthy |> <| Status; ConnectionFailures := 0 |>
  end.

Definition updateConnectionStatus (r : SveltosClusterReconciler) : St (Recon W) () :=
  c ← get_cluster;
  let previousStatus := ConnectionStatus (Status c) in
  update_cluster connection_step;;
  c ← get_cluster;
  recordConnectionTransition r c previousStatus.

(** ** One update *)

Lemma updateConnectionStatus_cluster r s :
  cluster (updateConnectionStatus r s).2 = connection_step (cluster s).
Proof.
  unfold updateConnectionStatus, recordConnectionTransition, recordEventf. run.
  repeat case_decide; repeat case_match; done.
Qed.

Lemma updateConnectionStatus_keeps {X} (P : Recon W → X) r :
  (∀ s c, P (s <| cluster := c |>) = P s) → (∀ s e, P (s <| events := e |>) = P s) →
  keeps P (updateConnectionStatus r).
Proof.
  intros Hc He. unfold updateConnectionStatus, recordConnectionTransition, recordEventf.
  repeat first [apply keeps_modify; intros s; first [apply Hc|apply He] | keeps_step].
Qed.

(** What is recorded: nothing, or the event of the transition. *)
Definition transition_event (c : SveltosCluster) (previous : ConnectionStatus_t)
  : option string :=
  if decide (previous ≠ ConnectionDown ∧ ConnectionStatus (Status c) = ConnectionDown)
  then Some "Warning"
  else if decide (previous = ConnectionDown ∧ ConnectionStatus (Status c) ≠ ConnectionDown)
  then Some "Normal" else None.

Lemma updateConnectionStatus_events r s :
  EventRecorder r = true →
  Event_Type <$> events (updateConnectionStatus r s).2 =
  (Event_Type <$> events s) ++
  option_list (transition_event (connection_step (cluster s))
                 (ConnectionStatus (Status (cluster s)))).
Proof.
  intros Hr. unfold updateConnectionStatus, recordConnectionTransition, recordEventf,
    transition_event. rewrite Hr. run.
  repeat case_decide; cbn; by rewrite ?fmap_app, ?app_nil_r.
Qed.

(** ** A history of reconciliations

    Each found a failure or none. *)
Definition observe (r : SveltosClusterReconciler) (s : Recon W) (outcome : option string)
  : Recon W :=
  (updateConnectionStatus r (set_failure outcome s).2).2.

Definition observe_all (r : SveltosClusterReconciler) : Recon W → list (option string) → Recon W :=
  foldl (observe r).

(** The failures at the end of a history. *)
Definition trailing (os : list (option string)) : Z :=
  foldl (λ k o, match o with Some _ => k + 1 | None => 0 end) 0 os.

Lemma observe_cluster r s outcome :
  cluster (observe r s outcome) =
  connection_step (cluster s <| Status; FailureMessage := outcome |>).
Proof. unfold observe. by rewrite updateConnectionStatus_cluster. Qed.

Lemma trailing_snoc os o :
  trailing (os ++ [o]) = match o with Some _ => trailing os + 1 | None => 0 end.
Proof. unfold trailing. by rewrite foldl_app. Qed.

Lemma trailing_bounds os : 0 ≤ trailing os ≤ Z.of_nat (length os).
Proof.
  induction os as [|o os IH] using rev_ind; [done|].
  rewrite trailing_snoc, length_app. destruct o; cbn; lia.
Qed.

Lemma observe_all_snoc r s os o :
  observe_all r s (os ++ [o]) = observe r (observe_all r s os) o.
Proof. unfold observe_all. by rewrite foldl_app. Qed.

Lemma connection_step_Spec c : Spec (connection_step c) = Spec c.
Proof. unfold connection_step. repeat case_match; done. Qed.

Lemma observe_all_Spec r s os : Spec (cluster (observe_all r s os)) = Spec (cluster s).
Proof.
  induction os as [|o os IH] using rev_ind; [done|].
  by rewrite observe_all_snoc, observe_cluster, connection_step_Spec.
Qed.

(** C10: from a cluster without failures that is not down, after any history of
    reconciliations ConnectionFailures is the number of failures at its end, and
    the cluster is down exactly when that is not zero and has reached
    ConsecutiveFailureThreshold. *)
Theorem down_after_consecutive_failures (r : SveltosClusterReconciler) (s : Recon W)
  (os : list (option string))
  (Hzero : ConnectionFailures (Status (cluster s)) = 0)
  (Hup : ConnectionStatus (Status (cluster s)) ≠ ConnectionDown)
  (Hlen : Z.of_nat (length os) ≤ int64_max)
  (final := Status (cluster (observe_all r s os))) :
  ConnectionFailures final = trailing os ∧
  (ConnectionStatus final = ConnectionDown ↔
   0 < trailing os ∧ ConsecutiveFailureThreshold (Spec (cluster s)) ≤ trailing os).
Proof.
  subst final. induction os as [|o os IH] using rev_ind.
  { cbn. split; [done|]. split; [done|]. unfold trailing. cbn. lia. }
  rewrite length_app in Hlen. cbn in Hlen. destruct IH as [IHf IHs]; [lia|].
  rewrite observe_all_snoc, observe_cluster, trailing_snoc.
  pose proof (trailing_bounds os) as Hb.
  unfold connection_step. cbn. destruct o as [msg|]; cbn; [|split; [done|]; split; [done|lia]].
  rewrite IHf, wrap64_id by (unfold in_int64, int64_min; lia). rewrite observe_all_Spec.
  destruct (Z.leb_spec (ConsecutiveFailureThreshold (Spec (cluster s))) (trailing os + 1));
    cbn; (split; [done|]).
  - split; [lia|done].
  - rewrite IHs. lia.
Qed.

(** Alternation: the types of the events a run records, given that the last one
    before was, or was not, a Warning. *)
Fixpoint alternates (down : bool) (types : list string) : Prop :=
  match types with
  | [] => True
  | t :: types' => t = (if down then "Normal" else "Warning") ∧ alternates (negb down) types'
  end.

Lemma alternates_app down a b :
  alternates down (a ++ b) ↔
  alternates down a ∧ alternates (if Nat.even (length a) then down else negb down) b.
Proof.
  revert down. induction a as [|t a IH]; intros down; cbn [app alternates]; [cbn; tauto|].
  rewrite IH. cbn [length]. rewrite Nat.even_succ, <-Nat.negb_even.
  destruct (Nat.even (length a)), down; cbn; tauto.
Qed.

(** C16: over any history of reconciliations the events alternate, a Warning when
    the cluster goes down, a Normal one when it recovers, starting with a Warning
    for a cluster that is not down; and the cluster is down exactly when the last
    event was a Warning: staying down, or up, records nothing. *)
Theorem events_alternate (r : SveltosClusterReconciler) (s : Recon W)
  (os : list (option string))
  (Hrecorder : EventRecorder r = true) (Hnone : events s = [])
  (Hup : ConnectionStatus (Status (cluster s)) ≠ ConnectionDown)
  (types := Event_Type <$> events (observe_all r s os)) :
  alternates false types ∧
  (ConnectionStatus (Status (cluster (observe_all r s os))) = ConnectionDown ↔
   Nat.even (length types) = false).
Proof.
  subst types. induction os as [|o os IH] using rev_ind.
  { cbn. rewrite Hnone. cbn. done. }
  destruct IH as [IHa IHd]. rewrite observe_all_snoc. set (s1 := observe_all r s os) in *.
  rewrite observe_cluster. unfold observe at 1 2.
  rewrite !updateConnectionStatus_events by done.
  change (cluster (set_failure o s1).2) with
    (cluster s1 <| Status; FailureMessage := o |>).
  change (events (set_failure o s1).2) with (events s1).
  set (c := cluster s1 <| Status; FailureMessage := o |>).
  change (ConnectionStatus (Status c)) with (ConnectionStatus (Status (cluster s1))).
  unfold transition_event.
  set (before := ConnectionStatus (Status (cluster s1))) in *.
  set (after := ConnectionStatus (Status (connection_step c))).
  set (types := Event_Type <$> events s1) in *.
  destruct (decide (before = ConnectionDown)) as [Hb|Hb];
    destruct (decide (after = ConnectionDown)) as [Ha|Ha];
    repeat first [rewrite decide_True by tauto | rewrite decide_False by tauto];
    cbn [option_list]; rewrite alternates_app, length_app, Nat.even_add; cbn;
    destruct (Nat.even (length types)) eqn:Heven; cbn; intuition congruence.
Qed.

End Connection.

(** ** Instances *)

Definition sim_watched (threshold : Z) : Recon SimWorld :=
  sim_recon (zero_SveltosCluster <| Spec; ConsecutiveFailureThreshold := threshold |>) sim_init.

Lemma down_after_consecutive_failures_witness :
  let os := [Some "timeout"; None; Some "timeout"; Some "timeout"; Some "timeout"] in
  ConnectionStatus (Status (cluster (observe_all sim_r (sim_watched 3) os))) = ConnectionDown.
Proof.
  intros os. apply (down_after_consecutive_failures sim_r (sim_watched 3) os);
    [done|done|vm_compute; congruence|]. vm_compute. split; congruence.
Defined.

Lemma events_alternate_witness :
  alternates false (Event_Type <$> events (observe_all sim_r (sim_watched 1)
    [Some "timeout"; Some "timeout"; None; None; Some "timeout"])).
Proof.
  refine (proj1 (events_alternate sim_r (sim_watched 1)
    [Some "timeout"; Some "timeout"; None; None; Some "timeout"] eq_refl eq_refl _)).
  discriminate.
Defined.
