(* ===== verification/ClusterChecks.v ===== *)
(** * Readiness and liveness checks

    Model of [controllers/cluster_checks.go]: a check selects resources of the
    managed cluster and passes them to a Lua script. *)

From S2P Require Import Prelude GoTime GoStrings Json Api Platform Recon Sim.

Record matchStatus := mkMatchStatus { Matching : bool; Match_Message : string }.
Record checkStatus := mkCheckStatus { Pass : bool; Check_Message : string }.

(** ** Selectors *)

(** One label filter as a clause of a label selector; an operation the API does
    not define adds nothing. *)
Definition filter_clause (f : LabelFilter) : string :=
  match Operation f with
  | OperationEqual => Sprintf "%s=%s" [ArgS (Key f); ArgS (Value f)]
  | OperationDifferent => Sprintf "%s!=%s" [ArgS (Key f); ArgS (Value f)]
  | OperationHas => Key f
  | OperationDoesNotHave => Sprintf "!%s" [ArgS (Key f)]
  | OperationUnknown _ => ""
  end.

(** The loop over the filters. *)
Definition add_filter (labelFilter : string) (f : LabelFilter) : string :=
  (if decide (labelFilter = "") then labelFilter else labelFilter +:+ ",") +:+ filter_clause f.

Section ClusterChecks.
Context {W : Type} `{Dynamic W}.

Definition calculateLabelSelector (rs : ResourceSelector) : result string :=
  let labelFilter := foldl add_filter "" (elems (LabelFilters rs)) in
  match Selector rs with
  | None => Ok labelFilter
  | Some selector =>
    match LabelSelectorAsSelector selector with
    | Err err => Err (Errorf_w "failed to convert Selector to internal selector: " err)
    | Ok selectorString =>
      if decide (selectorString = "") then Ok labelFilter
      else if decide (labelFilter = "") then Ok selectorString
      else Ok (labelFilter +:+ "," +:+ selectorString)
    end
  end.

Definition fieldSelector (rs : ResourceSelector) : string :=
  let s := if decide (Selector_Namespace rs = "") then ""
           else Sprintf "metadata.namespace=%s" [ArgS (Selector_Namespace rs)] in
  if decide (Selector_Name rs = "") then s
  else (if decide (s = "") then s else s +:+ ",")
       +:+ Sprintf "metadata.name=%s" [ArgS (Selector_Name rs)].

Context `{!CEL W, !Lua W}.

(** ** Scripts *)

(** The table a call of [evaluate] leaves on the stack, as the JSON of the Go
    value it is converted to. *)
Definition evaluate_result (l : LState) : St W (result string) :=
  lv ← lua_Get l;
  match as_LTable lv with
  | None => mret (Err (errors_New LuaTableError))
  | Some tbl => json_Marshal_ToGoValue tbl
  end.

Definition unmarshal_error : error := errors_New "failed to unmarshal result".

(** [l.Close()] is deferred: it runs on every way out. *)
Definition with_state {A} (body : LState → St W A) : St W A :=
  l ← lua_NewState; a ← body l; lua_Close l;; mret a.

Definition isMatchForLua (resource : Resource) (script : string) : St W (result bool) :=
  if decide (script = "") then mret (Ok true)
  else
    with_state (λ l,
      obj ← MapToTable resource;
      err ← lua_DoString l script;
      match err with
      | Some err => mret (Err err)
      | None =>
        lua_SetGlobal l "obj" obj;;
        err ← lua_CallByParam l obj;
        match err with
        | Some err => mret (Err err)
        | None =>
          resultJson ← evaluate_result l;
          match resultJson with
          | Err err => mret (Err err)
          | Ok resultJson =>
            match Unmarshal_struct "matching" "message" resultJson with
            | None => mret (Err unmarshal_error)
            | Some (matching, message) =>
              let result := mkMatchStatus matching message in mret (Ok (Matching result))
            end
          end
        end
      end).

Fixpoint append_resources (argTable : LTable) (resources : list Resource) : St W () :=
  match resources with
  | [] => mret ()
  | resource :: resources' =>
    obj ← MapToTable resource; lua_Append argTable obj;; append_resources argTable resources'
  end.

(** Whether the check passed, and its message. *)
Definition validateCheck (luaScript : string) (resources : list Resource)
  : St W (result (bool * string)) :=
  if decide (luaScript = "") then mret (Ok (true, ""))
  else
    with_state (λ l,
      err ← lua_DoString l luaScript;
      match err with
      | Some err => mret (Err err)
      | None =>
        argTable ← lua_NewTable l;
        append_resources argTable resources;;
        lua_SetGlobal l "resources" argTable;;
        err ← lua_CallByParam l argTable;
        match err with
        | Some err => mret (Err err)
        | None =>
          resultJson ← evaluate_result l;
          match resultJson with
          | Err err => mret (Err err)
          | Ok resultJson =>
            match Unmarshal_struct "pass" "message" resultJson with
            | None => mret (Err unmarshal_error)
            | Some (pass, message) =>
              let result := mkCheckStatus pass message in
              mret (Ok (Pass result, Check_Message result))
            end
          end
        end
      end).

(** ** Selection *)

Definition isMatch (u : Resource) (rs : ResourceSelector) : St W (result bool) :=
  isMatch ← sveltoscel_EvaluateRules u (EvaluateCEL rs);
  match isMatch with
  | Err err => mret (Err err)
  | Ok true => mret (Ok true)
  | Ok false =>
    if bool_decide (EvaluateCEL rs ≠ None) && bool_decide (Evaluate rs = "")
    then mret (Ok false)
    else isMatchForLua u (Evaluate rs)
  end.

(** Not looked at unless the selector includes deleting resources. *)
Definition skipped (rs : ResourceSelector) (resource : Resource) : bool :=
  negb (IncludeDeletingResources rs) && negb (IsZero_ptr (GetDeletionTimestamp resource)).

Fixpoint matching_resources (rs : ResourceSelector) (items : list Resource)
  : St W (result (list Resource)) :=
  match items with
  | [] => mret (Ok [])
  | resource :: items' =>
    if skipped rs resource then matching_resources rs items'
    else
      isMatch ← isMatch resource rs;
      match isMatch with
      | Err err => mret (Err err)
      | Ok isMatch =>
        rest ← matching_resources rs items';
        match rest with
        | Err err => mret (Err err)
        | Ok rest => mret (Ok (if isMatch : bool then resource :: rest else rest))
        end
      end
  end.

Definition getResourcesMatchinResourceSelector (remoteConfig : Config) (rs : ResourceSelector)
  : St W (result (list Resource)) :=
  groupResources ← restmapper_GetAPIGroupResources remoteConfig;
  match groupResources with
  | Err err => mret (Err err)
  | Ok groupResources =>
    match RESTMapping groupResources (Group rs) (Kind rs) (Version rs) with
    | Err err => if meta_IsNoMatchError err then mret (Ok []) else mret (Err err)
    | Ok resourceId =>
      match calculateLabelSelector rs with
      | Err err => mret (Err err)
      | Ok labelSelector =>
        list ← dynamic_List remoteConfig (Group rs) (Version rs) resourceId labelSelector
                 (fieldSelector rs);
        match list with
        | Err err => mret (Err err)
        | Ok items => matching_resources rs items
        end
      end
    end
  end.

Fixpoint getResources (remoteConfig : Config) (resourceSelectors : list ResourceSelector)
  : St W (result (list Resource)) :=
  match resourceSelectors with
  | [] => mret (Ok [])
  | rs :: resourceSelectors' =>
    matching ← getResourcesMatchinResourceSelector remoteConfig rs;
    match matching with
    | Err err => mret (Err err)
    | Ok matching =>
      rest ← getResources remoteConfig resourceSelectors';
      match rest with
      | Err err => mret (Err err)
      | Ok rest => mret (Ok (matching ++ rest))
      end
    end
  end.

(** ** Checks *)

Definition runCheck (remoteConfig : Config) (check : ClusterCheck)
  : St W (result (bool * string)) :=
  resources ← getResources remoteConfig (elems (ResourceSelectors check));
  match resources with
  | Err err => mret (Err err)
  | Ok resources => validateCheck (Condition check) resources
  end.

Definition check_failed (check : ClusterCheck) (message : string) : error :=
  errors_New (Sprintf "cluster check %s failed (message: %s)"
                [ArgS (Check_Name check); ArgS message]).

Fixpoint runChecks (remoteConfig : Config) (checks : list ClusterCheck)
  : St W (option error) :=
  match checks with
  | [] => mret None
  | check :: checks' =>
    result ← runCheck remoteConfig check;
    match result with
    | Err err => mret (Some err)
    | Ok (pass, message) =>
      if negb pass then mret (Some (check_failed check message))
      else runChecks remoteConfig checks'
    end
  end.

(** [r.runChecks]: readiness checks until the cluster is ready, liveness checks
    from then on. *)
Definition r_runChecks (remoteConfig : Config) (c : SveltosCluster) : St W (option error) :=
  if negb (Ready (Status c)) then runChecks remoteConfig (elems (ReadinessChecks (Spec c)))
  else runChecks remoteConfig (elems (LivenessChecks (Spec c))).

(** ** The selectors are conjunctions *)

(** What the API admits: one of its four operations on a label. *)
Definition api_filter (f : LabelFilter) : Prop :=
  Key f ≠ "" ∧ ∀ s, Operation f ≠ OperationUnknown s.

Lemma filter_clause_nonempty f : api_filter f → filter_clause f ≠ "".
Proof.
  intros [Hkey Hop]. unfold filter_clause. destruct (Operation f) eqn:E; cbn; [..|done|].
  - by destruct (Key f).
  - by destruct (Key f).
  - done.
  - by destruct (Hop s).
Qed.

Lemma Join_snoc l x : l ≠ [] → Join (l ++ [x]) "," = Join l "," +:+ "," +:+ x.
Proof.
  induction l as [|y l IH]; intros Hl; [done|]. destruct l as [|z l]; [done|].
  change (Join ((y :: z :: l) ++ [x]) ",") with (y +:+ "," +:+ Join ((z :: l) ++ [x]) ",").
  rewrite IH by done. change (Join (y :: z :: l) ",") with (y +:+ "," +:+ Join (z :: l) ",").
  by rewrite !app_assoc_string.
Qed.

Lemma Join_nonempty l : Forall (λ s, s ≠ "") l → l ≠ [] → Join l "," ≠ "".
Proof.
  intros Hl Hne. destruct Hl as [|x l Hx Hl]; [done|].
  destruct l as [|y l]; [exact Hx|]. cbn. by destruct x.
Qed.

Lemma foldl_add_filter fs :
  Forall api_filter fs → foldl add_filter "" fs = Join (filter_clause <$> fs) ",".
Proof.
  induction fs as [|f fs IH] using rev_ind; intros Hfs; [done|].
  apply Forall_app in Hfs as [Hfs _]. rewrite foldl_app, fmap_app. cbn.
  rewrite IH by done. unfold add_filter. destruct fs as [|f' fs]; [done|].
  rewrite Join_snoc by done. rewrite decide_False; [by rewrite <-app_assoc_string|].
  apply Join_nonempty; [|done]. apply Forall_fmap. eapply Forall_impl; [|exact Hfs].
  apply filter_clause_nonempty.
Qed.

(** C30: the label selector is the conjunction, in order, of one clause per label
    filter and of the standard selector when that is not empty: the comma-separated
    list of them. *)
Theorem label_selector_conjunction (rs : ResourceSelector) (sel : string)
  (Hfilters : Forall api_filter (elems (LabelFilters rs)))
  (Hsel : match Selector rs with
          | None => sel = ""
          | Some selector => LabelSelectorAsSelector selector = Ok sel
          end) :
  calculateLabelSelector rs =
  Ok (Join ((filter_clause <$> elems (LabelFilters rs))
            ++ (if decide (sel = "") then [] else [sel])) ",").
Proof.
  unfold calculateLabelSelector. rewrite foldl_add_filter by done.
  assert (Hne : elems (LabelFilters rs) ≠ [] →
    Join (filter_clause <$> elems (LabelFilters rs)) "," ≠ "").
  { intros Hfs. apply Join_nonempty; [|by destruct (elems _)].
    apply Forall_fmap. eapply Forall_impl; [|exact Hfilters]. apply filter_clause_nonempty. }
  destruct (Selector rs) as [selector|].
  - rewrite Hsel. case_decide as Hs; [by rewrite app_nil_r|].
    destruct (elems (LabelFilters rs)) as [|f fs].
    + cbn. done.
    + rewrite decide_False by (by apply Hne). rewrite Join_snoc by done. done.
  - subst sel. by rewrite decide_True, app_nil_r.
Qed.

(** ** Selection *)

Lemma matching_resources_spec rs items w l w' :
  matching_resources rs items w = (Ok l, w') →
  l `sublist_of` items ∧ Forall (λ u, skipped rs u = false) l.
Proof.
  revert w l w'. induction items as [|u items IH]; intros w l w'; cbn.
  { intros [= <- <-]. done. }
  destruct (skipped rs u) eqn:Hskip.
  - intros Hrun. apply IH in Hrun as [Hsub Hl]. split; [by constructor|done].
  - unfold mbind, St_bind. destruct (isMatch u rs w) as [[m|err] w1]; [|done].
    destruct (matching_resources rs items w1) as [[rest|err] w2] eqn:Hrest; [|done].
    intros [= <- <-]. apply IH in Hrest as [Hsub Hl].
    destruct m; (split; [by constructor|]); by auto.
Qed.

Lemma getResourcesMatching_Ok config rs w l w' :
  getResourcesMatchinResourceSelector config rs w = (Ok l, w') →
  Forall (λ u, skipped rs u = false) l.
Proof.
  unfold getResourcesMatchinResourceSelector, mbind, St_bind.
  destruct (restmapper_GetAPIGroupResources config w) as [[groups|err] w1]; [|done].
  destruct (RESTMapping _ _ _ _) as [id|err]; [|case_match; [by intros [= <- <-]|done]].
  destruct (calculateLabelSelector rs) as [sel|err]; [|done].
  destruct (dynamic_List _ _ _ _ _ _ w1) as [[items|err] w2]; [|done].
  intros Hrun. by apply matching_resources_spec in Hrun as [_ ?].
Qed.

(** C29: a check's script is only given resources that are not being deleted,
    unless one of its selectors includes those that are. *)
Theorem no_deleting_resource (config : Config) (selectors : list ResourceSelector) (w w' : W)
  (l : list Resource)
  (Hselectors : Forall (λ rs, IncludeDeletingResources rs = false) selectors)
  (Hrun : getResources config selectors w = (Ok l, w')) :
  Forall (λ u, IsZero_ptr (GetDeletionTimestamp u) = true) l.
Proof.
  revert w l w' Hrun. induction Hselectors as [|rs selectors Hrs _ IH]; intros w l w'; cbn.
  { by intros [= <- <-]. }
  unfold mbind, St_bind.
  destruct (getResourcesMatchinResourceSelector config rs w) as [[m|err] w1] eqn:Hm; [|done].
  destruct (getResources config selectors w1) as [[rest|err] w2] eqn:Hrest; [|done].
  intros [= <- <-]. apply Forall_app. split; [|by eapply IH].
  apply getResourcesMatching_Ok in Hm. eapply Forall_impl; [|exact Hm].
  intros u. cbn. unfold skipped. rewrite Hrs. cbn. by rewrite negb_false_iff.
Qed.

(** A resource matches when the CEL rules accept it, whatever the Lua script
    would say; one they do not accept is left to the script, but does not match
    when there are rules and no script. *)
Lemma isMatch_cases (u : Resource) (rs : ResourceSelector) (w w1 : W) (cel : bool)
  (Hcel : sveltoscel_EvaluateRules u (EvaluateCEL rs) w = (Ok cel, w1)) :
  isMatch u rs w =
  if cel then (Ok true, w1)
  else if decide (Evaluate rs = "") then (Ok (bool_decide (EvaluateCEL rs = None)), w1)
  else isMatchForLua u (Evaluate rs) w1.
Proof.
  unfold isMatch, mbind, St_bind. rewrite Hcel. destruct cel; [done|].
  destruct (decide (Evaluate rs = "")) as [He|He].
  - rewrite (bool_decide_eq_true_2 (Evaluate rs = "")) by done. rewrite andb_true_r.
    destruct (EvaluateCEL rs) as [rules|]; [done|]. cbn. unfold isMatchForLua.
    by rewrite decide_True.
  - by rewrite (bool_decide_eq_false_2 (Evaluate rs = "")), andb_false_r by done.
Qed.

(** ** The first check that does not pass decides *)

(** The checks pass one after the other, from one world to the next. *)
Inductive all_pass (config : Config) : list ClusterCheck → W → W → Prop :=
  | all_pass_nil w : all_pass config [] w w
  | all_pass_cons check checks message w w1 w2 :
      runCheck config check w = (Ok (true, message), w1) →
      all_pass config checks w1 w2 → all_pass config (check :: checks) w w2.

(** A check that does not pass, and the error for it. *)
Inductive fails (config : Config) (check : ClusterCheck) (w : W) : error → W → Prop :=
  | fails_error err w1 : runCheck config check w = (Err err, w1) → fails config check w err w1
  | fails_message message w1 :
      runCheck config check w = (Ok (false, message), w1) →
      fails config check w (check_failed check message) w1.

Lemma runChecks_cons config check checks w :
  runChecks config (check :: checks) w =
  match runCheck config check w with
  | (Err err, w1) => (Some err, w1)
  | (Ok (true, _), w1) => runChecks config checks w1
  | (Ok (false, message), w1) => (Some (check_failed check message), w1)
  end.
Proof.
  cbn [runChecks]. unfold mbind, St_bind.
  by destruct (runCheck config check w) as [[[[|] message]|err] w1].
Qed.

Lemma runChecks_pass config checks w w' :
  runChecks config checks w = (None, w') → all_pass config checks w w'.
Proof.
  revert w. induction checks as [|check checks IH]; intros w; [intros [= <-]; constructor|].
  rewrite runChecks_cons.
  destruct (runCheck config check w) as [[[[|] message]|err] w1] eqn:Hrun; [|done..].
  intros Hrest. econstructor; eauto.
Qed.

Lemma runChecks_fail config checks w w' err :
  runChecks config checks w = (Some err, w') →
  ∃ before check after w1, checks = before ++ check :: after ∧
    all_pass config before w w1 ∧ fails config check w1 err w'.
Proof.
  revert w. induction checks as [|check checks IH]; intros w; [done|].
  rewrite runChecks_cons.
  destruct (runCheck config check w) as [[[[|] message]|e] w1] eqn:Hrun.
  - intros (before & c & after & w2 & -> & Hall & Hf)%IH.
    exists (check :: before), c, after, w2. split_and!; [done|by econstructor|done].
  - intros [= <- <-]. exists [], check, checks, w.
    split_and!; [done|constructor|by constructor].
  - intros [= <- <-]. exists [], check, checks, w.
    split_and!; [done|constructor|by constructor].
Qed.

(** C22: running checks reports no error exactly when every check passes; and it
    reports an error exactly when some check fails after all those before it
    passed: it reports the error of that check, and does not run those after it. *)
Theorem runChecks_first_failure (config : Config) (checks : list ClusterCheck) (w w' : W)
  (err : error) :
  (runChecks config checks w = (None, w') ↔ all_pass config checks w w') ∧
  (runChecks config checks w = (Some err, w') ↔
   ∃ before check after w1, checks = before ++ check :: after ∧
     all_pass config before w w1 ∧ fails config check w1 err w').
Proof.
  split; split.
  - apply runChecks_pass.
  - induction 1 as [|check checks message w w1 w2 Hrun _ IH]; [done|].
    by rewrite runChecks_cons, Hrun.
  - apply runChecks_fail.
  - intros (before & check & after & w1 & -> & Hall & Hf). revert w' Hf.
    induction Hall as [w|c cs message w w1 w2 Hrun _ IH]; intros w' Hf; cbn [app];
      rewrite runChecks_cons; [|rewrite Hrun; by apply IH].
    inversion Hf as [e w1 Hrun|message w1 Hrun]; subst; by rewrite Hrun.
Qed.

End ClusterChecks.

(** ** Instances *)

Definition sim_selector : ResourceSelector :=
  mkResourceSelector "" "v1" "Pod"
    (Some [mkLabelFilter "env" OperationEqual "prod"; mkLabelFilter "canary" OperationDoesNotHave ""])
    (Some (mkLabelSelector (Some ∅) None)) "default" "" "" None false.

Lemma label_selector_conjunction_witness :
  calculateLabelSelector sim_selector = Ok "env=prod,!canary,app=web".
Proof.
  rewrite (label_selector_conjunction sim_selector "app=web"); [reflexivity| |reflexivity].
  apply Forall_cons_2; [|apply Forall_cons_2; [|apply Forall_nil_2]]; split; done.
Defined.

Definition sim_pods : SimWorld :=
  sim_init <| sim_resources := [("web", None); ("old", Some 1); ("db", None)] |>.

Definition sim_web : Resource (W := SimWorld) := ("web", None : option Time).

Lemma no_deleting_resource_witness :
  Forall (λ u : Resource, IsZero_ptr (GetDeletionTimestamp u) = true)
    [sim_web; (("db", None : option Time) : Resource (W := SimWorld))].
Proof.
  apply (no_deleting_resource (mkConfig "" "" "") [sim_selector] sim_pods sim_pods).
  - apply Forall_cons_2; [reflexivity|apply Forall_nil_2].
  - vm_compute. reflexivity.
Defined.

(** A CEL rule accepts what the script rejects. *)
Lemma isMatch_cases_witness :
  let rs := mkResourceSelector "" "v1" "Pod" None None "" "" "fail"
              (Some [mkCELRule "by name" "web"]) false in
  isMatch sim_web rs sim_pods = (Ok true, sim_pods).
Proof.
  intros rs.
  rewrite (isMatch_cases sim_web rs sim_pods sim_pods true); reflexivity.
Defined.

(** The second of three checks fails. *)
Lemma runChecks_first_failure_witness :
  let check name script := mkClusterCheck name (Some [sim_selector]) script in
  fst (runChecks (mkConfig "" "" "") [check "nodes" "ok"; check "pods" "fail"; check "dns" "ok"]
    sim_pods) = Some (errors_New "cluster check pods failed (message: fail)").
Proof.
  intros check.
  assert (Hrun : runChecks (mkConfig "" "" "")
    [check "nodes" "ok"; check "pods" "fail"; check "dns" "ok"] sim_pods =
    (Some (check_failed (check "pods" "fail") "fail"), sim_pods <| sim_script := "fail" |>)).
  { apply (runChecks_first_failure (mkConfig "" "" "")
      [check "nodes" "ok"; check "pods" "fail"; check "dns" "ok"] sim_pods).
    exists [check "nodes" "ok"], (check "pods" "fail"), [check "dns" "ok"],
      (sim_pods <| sim_script := "ok" |>).
    split_and!; [done| |].
    - econstructor; [vm_compute; reflexivity|constructor].
    - apply fails_message. vm_compute. reflexivity. }
  rewrite Hrun. vm_compute. reflexivity.
Defined.
