(* ===== verification/License.v ===== *)
(** * Licenses

    Model of [updateLicenseAnnotations] ([controllers/sveltoscluster_controller.go]),
    which hands the license to the agent of a pull-mode cluster, and of the
    SveltosLicense controller ([controllers/sveltoslicense_controller.go]). *)

From S2P Require Import Prelude GoTime GoStrings Base64 Api Platform Recon Sim.

(** ** The relay to pull-mode clusters *)

(** What the annotations say under a key: a missing one reads as empty. *)
Definition annotation (key : string) (annotations : option (gmap string string)) : string :=
  default "" (annotations ≫= lookup key).

Section Relay.
Context {W : Type} `{Gauge, Licenses W}.

(** The annotations after a verification. *)
Definition relay_annotations (result : LicenseVerificationResult)
    (annotations : option (gmap string string)) : option (gmap string string) :=
  match PayloadData result with
  | None =>
    match annotations with
    | None => None
    | Some m =>
      let hasPayload := bool_decide (is_Some (m !! LicensePayloadAnnotation)) in
      let hasSignature := bool_decide (is_Some (m !! LicenseSignatureAnnotation)) in
      if negb hasPayload && negb hasSignature then annotations
      else Some (delete LicenseSignatureAnnotation (delete LicensePayloadAnnotation m))
    end
  | Some payload =>
    let payloadAnnotation := EncodeToString StdEncoding payload in
    let signatureAnnotation := EncodeToString StdEncoding (default "" (SignatureData result)) in
    if bool_decide (annotations ≠ None)
       && bool_decide (annotation LicensePayloadAnnotation annotations = payloadAnnotation)
       && bool_decide (annotation LicenseSignatureAnnotation annotations = signatureAnnotation)
    then annotations
    else Some (<[LicenseSignatureAnnotation := signatureAnnotation]>
               (<[LicensePayloadAnnotation := payloadAnnotation]> (default ∅ annotations)))
  end.

Definition updateLicenseAnnotations (r : SveltosClusterReconciler) : St (Recon W) () :=
  publicKey ← outside GetPublicKey;
  match publicKey with
  | Err _ => mret ()
  | Ok publicKey =>
    result ← outside (VerifyLicenseSecret (SveltosNamespace r) publicKey);
    update_cluster (λ c, c <| Meta; Annotations := relay_annotations result (Annotations (Meta c)) |>)
  end.

Lemma updateLicenseAnnotations_keeps {X} (P : Recon W → X) r :
  (∀ s w, P (s <| world := w |>) = P s) →
  (∀ s a, P (s <| cluster := cluster s <| Meta; Annotations := a |> |>) = P s) →
  keeps P (updateLicenseAnnotations r).
Proof.
  intros Hw Ha. unfold updateLicenseAnnotations.
  repeat first [apply keeps_outside, Hw | progress unfold update_cluster;
                apply keeps_modify; intros s; apply Ha | keeps_step].
Qed.

(** ** What the agent reads *)

Context (Hkeys : LicensePayloadAnnotation ≠ LicenseSignatureAnnotation).

(** The annotations of others. *)
Definition same_others (a a' : option (gmap string string)) : Prop :=
  ∀ key, key ≠ LicensePayloadAnnotation → key ≠ LicenseSignatureAnnotation →
    a' ≫= lookup key = a ≫= lookup key.

(** What the two annotations are afterwards, for a reader of the object. *)
Lemma relay_reads (result : LicenseVerificationResult) (a : option (gmap string string))
    (a' := relay_annotations result a) :
  match PayloadData result with
  | Some payload =>
    a' ≠ None ∧
    annotation LicensePayloadAnnotation a' = EncodeToString StdEncoding payload ∧
    annotation LicenseSignatureAnnotation a' =
      EncodeToString StdEncoding (default "" (SignatureData result))
  | None =>
    a' ≫= lookup LicensePayloadAnnotation = None ∧
    a' ≫= lookup LicenseSignatureAnnotation = None
  end.
Proof.
  subst a'. unfold relay_annotations. destruct (PayloadData result) as [payload|].
  - destruct (_ && _ && _) eqn:Hsame.
    + apply andb_true_iff in Hsame as [Hsame Hsig%bool_decide_eq_true].
      by apply andb_true_iff in Hsame as [?%bool_decide_eq_true Hpay%bool_decide_eq_true].
    + unfold annotation. cbn. by rewrite lookup_insert_eq, lookup_insert_ne, lookup_insert_eq by done.
  - destruct a as [m|]; [|done]. destruct (_ && _) eqn:Hnone.
    + apply andb_true_iff in Hnone as [Hp%negb_true_iff%bool_decide_eq_false
        Hs%negb_true_iff%bool_decide_eq_false].
      split; cbn; by apply eq_None_not_Some.
    + cbn. by rewrite lookup_delete_ne, !lookup_delete_eq by done.
Qed.

Lemma relay_others (result : LicenseVerificationResult) (a : option (gmap string string)) :
  same_others a (relay_annotations result a).
Proof.
  intros key H1 H2. unfold relay_annotations. destruct (PayloadData result) as [payload|].
  - destruct (_ && _ && _); [done|]. cbn. rewrite !lookup_insert_ne by done. by destruct a.
  - destruct a as [m|]; [|done]. destruct (_ && _); [done|]. cbn. by rewrite !lookup_delete_ne.
Qed.

(** When a signed payload was extracted, the agent decodes the payload and the
    signature from the two annotations; when none was, neither annotation is left; and
    in both cases all other annotations are as before. *)
Definition relayed (result : LicenseVerificationResult) (a a' : option (gmap string string)) : Prop :=
  match PayloadData result with
  | Some payload =>
    DecodeString StdEncoding (annotation LicensePayloadAnnotation a') = Some payload ∧
    DecodeString StdEncoding (annotation LicenseSignatureAnnotation a') =
      Some (default "" (SignatureData result))
  | None =>
    a' ≫= lookup LicensePayloadAnnotation = None ∧
    a' ≫= lookup LicenseSignatureAnnotation = None
  end ∧ same_others a a'.

Lemma relay_annotations_relayed result a : relayed result a (relay_annotations result a).
Proof.
  split; [|apply relay_others]. pose proof (relay_reads result a) as Hread.
  destruct (PayloadData result) as [payload|]; [|done]. destruct Hread as (_ & -> & ->).
  split; apply (DecodeString_EncodeToString StdEncoding StdEncoding_good).
Qed.

(** An unchanged license changes nothing: the relay is idempotent, to the object. *)
Lemma relay_idempotent (result : LicenseVerificationResult) (a : option (gmap string string)) :
  relay_annotations result (relay_annotations result a) = relay_annotations result a.
Proof.
  pose proof (relay_reads result a) as Hread.
  set (a' := relay_annotations result a) in *. clearbody a'. unfold relay_annotations.
  destruct (PayloadData result) as [payload|].
  - destruct Hread as (Ha & Hp & Hs). by rewrite !bool_decide_eq_true_2.
  - destruct Hread as [Hp Hs]. destruct a' as [m|]; [|done]. cbn in *.
    by rewrite Hp, Hs, !bool_decide_eq_false_2 by (by intros []).
Qed.

(** ** The relay without its checks

    What the code would be if it did not look for differences first: remove both
    annotations, or write both. *)
Definition relay_always (result : LicenseVerificationResult)
    (annotations : option (gmap string string)) : option (gmap string string) :=
  match PayloadData result with
  | None => delete LicenseSignatureAnnotation ∘ delete LicensePayloadAnnotation <$> annotations
  | Some payload =>
    Some (<[LicenseSignatureAnnotation :=
              EncodeToString StdEncoding (default "" (SignatureData result))]>
          (<[LicensePayloadAnnotation := EncodeToString StdEncoding payload]>
             (default ∅ annotations)))
  end.

(** An annotation that reads as a text that is not empty is there. *)
Lemma annotation_Some key a s : s ≠ "" → annotation key a = s → a ≫= lookup key = Some s.
Proof.
  unfold annotation. intros Hs. destruct (a ≫= lookup key); cbn; [by intros ->|by intros <-].
Qed.

Lemma encoded_not_empty s : s ≠ "" → EncodeToString StdEncoding s ≠ "".
Proof.
  intros Hs Hempty. apply Hs. by apply (EncodeToString_inj StdEncoding s "" StdEncoding_good).
Qed.

(** C21: looking for differences before writing, which keeps an unchanged license
    from waking up the watchers of the cluster every minute, does not change what is
    written: the annotations are those that removing or writing both of them always
    would leave, to the object, whenever the payload and the signature, if there are
    any, are not empty. *)
Theorem relay_as_unconditional (result : LicenseVerificationResult)
  (a : option (gmap string string))
  (Hdata : ∀ payload, PayloadData result = Some payload →
     payload ≠ "" ∧ default "" (SignatureData result) ≠ "") :
  relay_annotations result a = relay_always result a.
Proof.
  unfold relay_annotations, relay_always. destruct (PayloadData result) as [payload|].
  - destruct (Hdata payload eq_refl) as [Hp%encoded_not_empty Hs%encoded_not_empty].
    destruct (_ && _ && _) eqn:Hsame; [|done].
    apply andb_true_iff in Hsame as [Hsame Hsig%bool_decide_eq_true].
    apply andb_true_iff in Hsame as [_ Hpay%bool_decide_eq_true].
    apply (annotation_Some _ _ _ Hp) in Hpay. apply (annotation_Some _ _ _ Hs) in Hsig.
    destruct a as [m|]; [|done]. cbn in *. by rewrite (insert_id m), (insert_id m).
  - destruct a as [m|]; [|done]. destruct (_ && _) eqn:Hnone; [|done].
    apply andb_true_iff in Hnone as [Hp%negb_true_iff%bool_decide_eq_false
      Hs%negb_true_iff%bool_decide_eq_false].
    apply eq_None_not_Some in Hp, Hs. cbn. by rewrite (delete_id m), (delete_id m).
Qed.

End Relay.

(** ** The SveltosLicense controller *)

Definition normalRequeueAfter : Duration := 10 * Second.

Record SveltosLicenseReconciler := mkLicenseReconciler {
  LicenseReconciler_SveltosNamespace : string
}.

Section Controller.
Context {W : Type} `{Clock W, Licenses W, LicenseClient W}.

Definition set_License_Status (st : LicenseStatus) (l : SveltosLicense) : SveltosLicense :=
  l <| LicenseStatus_; License_Status := st |>.

Definition set_License_Message (msg : string) (l : SveltosLicense) : SveltosLicense :=
  l <| LicenseStatus_; License_Message := msg |>.

(** The Status a verification result gives. *)
Definition license_verdict (l : SveltosLicense) (result : LicenseVerificationResult)
  : SveltosLicense * option LicensePayload :=
  match Payload result with
  | None => (set_License_Status LicenseStatusInvalid l, None)
  | Some payload =>
    let l := l <| LicenseStatus_; License_MaxClusters := Some (MaxClusters payload) |>
               <| LicenseStatus_; License_ExpirationDate := Some (ExpirationDate payload) |> in
    if IsValid result then
      (set_License_Message "" (set_License_Status LicenseStatusValid l), Some payload)
    else if negb (IsEnforced result) then
      (set_License_Message (Verification_Message result)
         (set_License_Status LicenseStatusValid l), Some payload)
    else if IsExpired result then
      (set_License_Message (Verification_Message result)
         (set_License_Status LicenseStatusExpired l
            <| LicenseStatus_; License_ExpirationDate := Some (ExpirationDate payload) |>),
       Some payload)
    else
      (set_License_Message (Verification_Message result)
         (set_License_Status LicenseStatusInvalid l), Some payload)
  end.

Definition validateSveltosLicense (r : SveltosLicenseReconciler) (l : SveltosLicense)
  : St W (SveltosLicense * option LicensePayload) :=
  publicKey ← GetPublicKey;
  match publicKey with
  | Err _ => mret (set_License_Status LicenseStatusInvalid l, None)
  | Ok publicKey =>
    result ← VerifyLicenseSecret (LicenseReconciler_SveltosNamespace r) publicKey;
    mret (license_verdict l result)
  end.

Definition License_Reconcile (r : SveltosLicenseReconciler) (namespace name : string)
  : St W (ctrl_Result * option error) :=
  if decide (name ≠ "default") then mret (no_requeue, None)
  else
    sveltosLicense ← Get_SveltosLicense namespace name;
    match sveltosLicense with
    | Err err =>
      if apierrors_IsNotFound err then mret (no_requeue, None)
      else mret (no_requeue, Some (Errorf_w
        (Sprintf "Failed to fetch sveltosLicense %s/%s: " [ArgS namespace; ArgS name]) err))
    | Ok l =>
      if negb (IsZero_ptr (License_DeletionTimestamp l)) then mret (no_requeue, None)
      else
        '(l, payload) ← validateSveltosLicense r l;
        err ← Status_Update l;
        match err with
        | Some _ => mret (mkResult normalRequeueAfter, None)
        | None =>
          match payload with
          | Some payload =>
            timeUntilExpiration ← time_Until (ExpirationDate payload);
            if 0 <? timeUntilExpiration then mret (mkResult timeUntilExpiration, None)
            else mret (mkResult Minute, None)
          | None => mret (mkResult Minute, None)
          end
        end
    end.

(** The Status of a license with a payload: Valid when the license is valid
    or not enforced yet, else Expired or Invalid, with the payload's limits, and
    the verification's message unless it is valid. Without a payload the Status
    becomes Invalid and nothing else of it changes. *)
Lemma license_verdict_table (l : SveltosLicense) (result : LicenseVerificationResult)
  (l' := (license_verdict l result).1) (st := LicenseStatus_ l') :
  match Payload result with
  | None => l' = set_License_Status LicenseStatusInvalid l
  | Some payload =>
    License_MaxClusters st = Some (MaxClusters payload) ∧
    License_ExpirationDate st = Some (ExpirationDate payload) ∧
    License_Message st = (if IsValid result then "" else Verification_Message result) ∧
    (License_Status st = LicenseStatusValid ↔ IsValid result = true ∨ IsEnforced result = false) ∧
    (License_Status st = LicenseStatusExpired ↔
       IsValid result = false ∧ IsEnforced result = true ∧ IsExpired result = true) ∧
    (License_Status st = LicenseStatusInvalid ↔
       IsValid result = false ∧ IsEnforced result = true ∧ IsExpired result = false)
  end ∧ (license_verdict l result).2 = Payload result.
Proof.
  subst st l'. unfold license_verdict. destruct (Payload result) as [payload|]; [|done].
  destruct (IsValid result), (IsEnforced result), (IsExpired result); cbn;
    intuition congruence.
Qed.


End Controller.

(** ** Instances *)

Definition sim_valid_license : LicenseVerificationResult :=
  mkVerification (Some (mkLicensePayload 10 (Time_of_Unix 1000))) (Some "payload bytes")
    (Some "signature") true false true "".

Lemma sim_keys :
  LicensePayloadAnnotation (W := SimWorld) ≠ LicenseSignatureAnnotation (W := SimWorld).
Proof. done. Qed.

Lemma relay_idempotent_witness :
  let relay := relay_annotations (W := SimWorld) sim_valid_license in
  relay (relay None) = relay None.
Proof. intros relay. exact (relay_idempotent sim_keys sim_valid_license None). Defined.

Lemma relay_as_unconditional_witness :
  relay_annotations (W := SimWorld) sim_valid_license (Some {["team" := "edge"]}) =
  relay_always (W := SimWorld) sim_valid_license (Some {["team" := "edge"]}).
Proof. apply relay_as_unconditional. intros payload [= <-]. done. Defined.
