(* ===== verification/Startup.v ===== *)
(** * Starting the program

    Model of [cmd/main.go], of [InitScheme] ([controllers/utils.go]) and of the two
    [SetupWithManager]. What controller-runtime and pflag do is a class of
    operations; the order of the calls and what ends the process is the model's. *)

From S2P Require Import Prelude GoTime Float64 GoStrings Api Platform Recon Sim.
From S2P Require Import License.

(** ** Flags *)

Inductive flag_value :=
  | FlagString (s : string)
  | FlagBool (b : bool)
  | FlagInt (z : Z)
  | FlagFloat32 (z : Z)
  | FlagDuration (d : Duration).

Definition flags_t : Type := gmap string flag_value.

Definition defaultReconcilers : Z := 10.

(** The flags and their defaults. *)
Definition initFlags : list (string * flag_value) :=
  [("diagnostics-address", FlagString ":8443");
   ("insecure-diagnostics", FlagBool false);
   ("shard-key", FlagString "");
   ("concurrent-reconciles", FlagInt defaultReconcilers);
   ("kube-api-qps", FlagFloat32 20);
   ("kube-api-burst", FlagInt 30);
   ("webhook-port", FlagInt 9443);
   ("sync-period", FlagDuration (10 * Minute));
   ("health-addr", FlagString ":9440")].

Definition flag_string (name : string) (f : flags_t) : string :=
  match f !! name with Some (FlagString s) => s | _ => "" end.
Definition flag_bool (name : string) (f : flags_t) : bool :=
  match f !! name with Some (FlagBool b) => b | _ => false end.
Definition flag_int (name : string) (f : flags_t) : Z :=
  match f !! name with Some (FlagInt z) | Some (FlagFloat32 z) | Some (FlagDuration z) => z
                | _ => 0 end.

(** ** Options *)

(** [metricsserver.Options]; the filter demands authentication and authorization. *)
Record metrics_Options := mkMetricsOptions {
  BindAddress : string;
  SecureServing : bool;
  FilterProvider : bool
}.

Definition getDiagnosticsOptions (f : flags_t) : metrics_Options :=
  if flag_bool "insecure-diagnostics" f
  then mkMetricsOptions (flag_string "diagnostics-address" f) false false
  else mkMetricsOptions (flag_string "diagnostics-address" f) true true.

Record ctrl_Options := mkCtrlOptions {
  Options_Metrics : metrics_Options;
  HealthProbeBindAddress : string;
  WebhookPort : Z;
  SyncPeriod : Duration
}.

(** What a controller is built from. *)
Inductive controller :=
  | SveltosClusterController (r : SveltosClusterReconciler) (MaxConcurrentReconciles : Z)
  | SveltosLicenseController (r : SveltosLicenseReconciler) (name : string).

(** ** The libraries the program starts with *)

Class Runtime (W : Type) := {
  Scheme : Type;
  NewScheme : Scheme;
  clientgoscheme_AddToScheme : Scheme → St W (option error * Scheme);
  libsveltosv1beta1_AddToScheme : Scheme → St W (option error * Scheme);
  (** the values of the registered flags, or the code the process ends with *)
  pflag_Parse : list (string * flag_value) → St W (flags_t + Z);
  Getenv : string → St W string;
  GetConfigOrDie : St W (result Config);
  Manager : Type;
  (** configuration, QPS, burst and options *)
  NewManager : Config → Z → Z → Scheme → ctrl_Options → St W (result Manager);
  mgr_GetConfig : Manager → Config;
  Build : Manager → controller → St W (option error);
  AddHealthzCheck : Manager → string → St W (option error);
  AddReadyzCheck : Manager → string → St W (option error);
  Start : Manager → St W (option error)
}.

(** How [main] ends: with an exit code, or by returning. *)
Inductive ending :=
  | Exit (code : Z)
  | Returned.

Section Startup.
Context {W : Type} `{Runtime W}.

Definition InitScheme : St W (result Scheme) :=
  '(err, s) ← clientgoscheme_AddToScheme NewScheme;
  match err with
  | Some err => mret (Err err)
  | None =>
    '(err, s) ← libsveltosv1beta1_AddToScheme s;
    match err with Some err => mret (Err err) | None => mret (Ok s) end
  end.

Definition SveltosCluster_SetupWithManager (r : SveltosClusterReconciler) (mgr : Manager)
  : St W (option error) :=
  Build mgr (SveltosClusterController r (ConcurrentReconciles r)).

Definition SveltosLicense_SetupWithManager (r : SveltosLicenseReconciler) (mgr : Manager)
  : St W (option error) :=
  Build mgr (SveltosLicenseController r "sveltoslicense").

(** An error ends the process with code 1. *)
Definition or_exit (m : St W (option error)) (k : St W ending) : St W ending :=
  err ← m; match err with Some _ => mret (Exit 1) | None => k end.

Definition clusterReconciler (mgr : Manager) (f : flags_t) (sveltosNamespace : string)
  : SveltosClusterReconciler :=
  mkReconciler (mgr_GetConfig mgr) (flag_int "concurrent-reconciles" f)
    (flag_string "shard-key" f) sveltosNamespace true.

(** From the manager on. *)
Definition run_manager (mgr : Manager) (f : flags_t) (sveltosNamespace : string) : St W ending :=
  or_exit (SveltosCluster_SetupWithManager (clusterReconciler mgr f sveltosNamespace) mgr)
  (or_exit (SveltosLicense_SetupWithManager (mkLicenseReconciler sveltosNamespace) mgr)
  (or_exit (AddHealthzCheck mgr "healthz")
  (or_exit (AddReadyzCheck mgr "readyz")
  (or_exit (Start mgr) (mret Returned))))).

Definition main : St W ending :=
  scheme ← InitScheme;
  match scheme with
  | Err _ => mret (Exit 1)
  | Ok scheme =>
    f ← pflag_Parse initFlags;
    match f with
    | inr code => mret (Exit code)
    | inl f =>
      logConfig ← GetConfigOrDie;
      if negb (is_Ok logConfig) then mret (Exit 1) else
      sveltosNamespace ← Getenv "NAMESPACE";
      if decide (sveltosNamespace = "") then mret (Exit 1)
      else
        let ctrlOptions :=
          mkCtrlOptions (getDiagnosticsOptions f) (flag_string "health-addr" f)
            (flag_int "webhook-port" f) (flag_int "sync-period" f) in
        restConfig ← GetConfigOrDie;
        match restConfig with
        | Err _ => mret (Exit 1)
        | Ok restConfig =>
          mgr ← NewManager restConfig (flag_int "kube-api-qps" f) (flag_int "kube-api-burst" f)
                  scheme ctrlOptions;
          match mgr with
          | Err _ => mret (Exit 1)
          | Ok mgr => run_manager mgr f sveltosNamespace
          end
        end
    end
  end.

(** ** How the program ends *)

Lemma or_exit_Returned m k w w' :
  or_exit m k w = (Returned, w') → ∃ w1, m w = (None, w1) ∧ k w1 = (Returned, w').
Proof.
  unfold or_exit, mbind, St_bind. destruct (m w) as [[err|] w1]; [done|]. eauto.
Qed.

(** The manager was started with both controllers and both probes in place. *)
Record started (mgr : Manager) (f : flags_t) (ns : string) (w w' : W) : Prop := {
  started_steps : ∃ w1 w2 w3 w4,
    Build mgr (SveltosClusterController (clusterReconciler mgr f ns)
                 (flag_int "concurrent-reconciles" f)) w = (None, w1) ∧
    Build mgr (SveltosLicenseController (mkLicenseReconciler ns) "sveltoslicense") w1
      = (None, w2) ∧
    AddHealthzCheck mgr "healthz" w2 = (None, w3) ∧
    AddReadyzCheck mgr "readyz" w3 = (None, w4) ∧
    Start mgr w4 = (None, w')
}.

Lemma run_manager_Returned mgr f ns w w' :
  run_manager mgr f ns w = (Returned, w') ↔ started mgr f ns w w'.
Proof.
  unfold run_manager. split.
  - intros Hrun.
    apply or_exit_Returned in Hrun as (w1 & H1 & Hrun).
    apply or_exit_Returned in Hrun as (w2 & H2 & Hrun).
    apply or_exit_Returned in Hrun as (w3 & H3 & Hrun).
    apply or_exit_Returned in Hrun as (w4 & H4 & Hrun).
    apply or_exit_Returned in Hrun as (w5 & H5 & [= ->]).
    split. by exists w1, w2, w3, w4.
  - intros [(w1 & w2 & w3 & w4 & H1 & H2 & H3 & H4 & H5)].
    unfold or_exit, mbind, St_bind. unfold SveltosCluster_SetupWithManager,
      SveltosLicense_SetupWithManager.
    change (ConcurrentReconciles (clusterReconciler mgr f ns))
      with (flag_int "concurrent-reconciles" f). by rewrite H1, H2, H3, H4, H5.
Qed.


End Startup.

(** ** An instance: a platform on which everything succeeds *)

#[export] Instance sim_runtime : Runtime SimWorld := {
  Scheme := ();
  NewScheme := ();
  clientgoscheme_AddToScheme := λ s w, ((None, s), w);
  libsveltosv1beta1_AddToScheme := λ s w, ((None, s), w);
  pflag_Parse := λ registered w, (inl (list_to_map registered), w);
  Getenv := λ _ w, ("projectsveltos", w);
  GetConfigOrDie := λ w, (sim_restconfig w, w);
  Manager := Config;
  NewManager := λ config _ _ _ _ w, (Ok config, w);
  mgr_GetConfig := id;
  Build := λ _ _ w, (None, w);
  AddHealthzCheck := λ _ _ w, (None, w);
  AddReadyzCheck := λ _ _ w, (None, w);
  Start := λ _ w, (None, w)
}.

