(* ===== verification/AutoPause.v ===== *)
(** * The active window: automatic pause and unpause

    Model of [handleAutomaticPauseUnPause] and of what it calls
    ([controllers/sveltoscluster_controller.go]). A SveltosCluster with an
    active window is paused outside of it; the controller keeps the next
    activation of the two cron expressions in the cluster's Status, with a
    hash of the window they were computed from. *)

From S2P Require Import Prelude GoTime Sha256 GoStrings Api Platform.

(** [bytes.Equal] on slices that may be [nil]: [nil] is the empty slice. *)
Definition bytes_Equal (a b : option string) : bool :=
  bool_decide (default "" a = default "" b).

Definition calculateActiveWindowHash (activeWindow : option ActiveWindow)
  : option string :=
  match activeWindow with
  | None => None
  | Some w => Some (Sha256.Sum (From w +:+ To w))
  end.

Create HintDb auto_pause.

Section AutoPause.
Context `{Cron}.

(** ** getNextScheduleTime *)

Definition maxNumberOfFailures : nat := 100.

(** The counting loop. [left] is [maxNumberOfFailures - starts]: the loop
    gives up when one more activation before [now] would exceed the maximum.
    [t] keeps the location of the time the loop started from. *)
Fixpoint countMissedStarts (left : nat) (sched : Schedule) (loc : Location)
    (t now : Time) : result () :=
  if Before t now then
    match left with
    | O => Err (errors_New "too many missed start times (> 100). Set or check clock skew")
    | S left' => countMissedStarts left' sched loc (Schedule_Next sched loc t) now
    end
  else Ok ().

(** [now] is in UTC: the callers convert it. *)
Definition getNextScheduleTime (schedule : string)
    (lastRunTime : option (Location * Time)) (now : Time) : result Time :=
  match cron_ParseStandard schedule with
  | Err err => Err (Errorf_w ("unparseable schedule " +:+ fmt_q schedule +:+ ": ") err)
  | Ok sched =>
    match lastRunTime with
    | None => Err (errors_New "last run time must be specified")
    | Some (loc, last) =>
      match countMissedStarts maxNumberOfFailures sched loc
              (Schedule_Next sched loc last) now with
      | Err err => Err err
      | Ok _ => Ok (Schedule_Next sched UTC now)
      end
    end
  end.

(** ** recalculateNextUnpause and recalculateNextPause

    The time the count starts from: what the Status holds, in UTC, or else the
    creation time as it was decoded. *)
Definition lastRunTime (creation : Time) (next : option Time) : Location * Time :=
  match next with
  | Some t => (UTC, t)
  | None => (Local, creation)
  end.

(** [Status.NextX == nil || currentTime.After(Status.NextX.Time)] *)
Definition is_due (next : option Time) (currentTime : Time) : bool :=
  match next with
  | None => true
  | Some t => After currentTime t
  end.

(** Both functions are only called with an active window. *)
Definition recalculateNextUnpause (sveltosCluster : SveltosCluster) (w : ActiveWindow)
    (currentTime : Time) : SveltosCluster * option error :=
  if is_due (NextUnpause (Status sveltosCluster)) currentTime then
    match getNextScheduleTime (From w)
            (Some (lastRunTime (CreationTimestamp (Meta sveltosCluster))
                               (NextUnpause (Status sveltosCluster)))) currentTime with
    | Err err => (sveltosCluster, Some err)
    | Ok nextFromTime =>
      (sveltosCluster <| Status; NextUnpause := Some nextFromTime |>, None)
    end
  else (sveltosCluster, None).

Definition recalculateNextPause (sveltosCluster : SveltosCluster) (w : ActiveWindow)
    (currentTime : Time) : SveltosCluster * option error :=
  if is_due (NextPause (Status sveltosCluster)) currentTime then
    match getNextScheduleTime (To w)
            (Some (lastRunTime (CreationTimestamp (Meta sveltosCluster))
                               (NextPause (Status sveltosCluster)))) currentTime with
    | Err err => (sveltosCluster, Some err)
    | Ok nextToTime =>
      (sveltosCluster <| Status; NextPause := Some nextToTime |>, None)
    end
  else (sveltosCluster, None).

(** ** handleAutomaticPauseUnPause *)

(** The function's last part: recalculate both times and record the hash. *)
Definition recalculateWindow (sveltosCluster : SveltosCluster) (w : ActiveWindow)
    (currentHashBytes : option string) (currentTime : Time) : SveltosCluster :=
  match recalculateNextUnpause sveltosCluster w currentTime with
  | (c1, Some _) => c1
  | (c1, None) =>
    match recalculateNextPause c1 w currentTime with
    | (c2, Some _) => c2
    | (c2, None) =>
      match NextUnpause (Status c2), NextPause (Status c2) with
      | Some _, Some _ => c2 <| Status; ActiveWindowHash := currentHashBytes |>
      | _, _ => c2
      end
    end
  end.

Definition handleAutomaticPauseUnPause (sveltosCluster : SveltosCluster)
    (currentTime : Time) : SveltosCluster :=
  match Spec_ActiveWindow (Spec sveltosCluster) with
  | None =>
    sveltosCluster <| Status; NextUnpause := None |> <| Status; NextPause := None |>
  | Some w =>
    let currentHashBytes := calculateActiveWindowHash (Some w) in
    let forceRecalculate :=
      negb (bytes_Equal (ActiveWindowHash (Status sveltosCluster)) currentHashBytes) in
    let c :=
      if forceRecalculate then
        sveltosCluster <| Status; NextUnpause := None |> <| Status; NextPause := None |>
      else sveltosCluster in
    match NextPause (Status c), NextUnpause (Status c) with
    | Some nextPause, Some nextUnpause =>
      if After currentTime nextUnpause && Before currentTime nextPause then
        c <| Spec; Paused := false |>
      else if Before currentTime nextUnpause then
        c <| Spec; Paused := true |>
      else if After currentTime nextPause then
        recalculateWindow (c <| Spec; Paused := true |>) w currentHashBytes currentTime
      else if Before currentTime nextPause then
        if negb forceRecalculate then c
        else recalculateWindow c w currentHashBytes currentTime
      else recalculateWindow c w currentHashBytes currentTime
    | _, _ =>
      recalculateWindow (c <| Spec; Paused := true |>) w currentHashBytes currentTime
    end
  end.

(** ** getNextScheduleTime: what it returns, and when it gives up *)

(** The [n]-th activation after [t]. *)
Definition activation (sched : Schedule) (loc : Location) (n : nat) (t : Time) : Time :=
  Nat.iter n (Schedule_Next sched loc) t.

Lemma activation_shift sched loc n t :
  activation sched loc n (Schedule_Next sched loc t) = activation sched loc (S n) t.
Proof. apply Nat.iter_swap. Qed.

Lemma countMissedStarts_Ok left sched loc t now :
  countMissedStarts left sched loc t now = Ok () ↔
  ∃ j, (j ≤ left)%nat ∧ now ≤ activation sched loc j t.
Proof.
  revert t. induction left as [|left IH]; intros t; cbn;
    destruct (Before t now) eqn:Ht; time_cases.
  - split; [done|]. intros (j & Hj & Hle). replace j with 0%nat in Hle by lia.
    cbn in Hle. lia.
  - split; [|done]. exists 0%nat. cbn. lia.
  - rewrite IH. setoid_rewrite activation_shift. split.
    + intros (j & Hj & Hle). exists (S j). split; [lia|done].
    + intros (j & Hj & Hle). destruct j as [|j]; [cbn in Hle; lia|].
      exists j. split; [lia|done].
  - split; [|done]. exists 0%nat. split; [lia|]. cbn. lia.
Qed.

(** At most [maxNumberOfFailures] activations lie between the last run and [now]. *)
Definition few_missed (sched : Schedule) (loc : Location) (last now : Time) : Prop :=
  ∃ j, (j ≤ maxNumberOfFailures)%nat ∧ now ≤ activation sched loc (S j) last.

Lemma getNextScheduleTime_Ok schedule sched loc last now t :
  cron_ParseStandard schedule = Ok sched →
  getNextScheduleTime schedule (Some (loc, last)) now = Ok t ↔
  few_missed sched loc last now ∧ t = Schedule_Next sched UTC now.
Proof.
  intros Hparse. unfold getNextScheduleTime, few_missed. rewrite Hparse.
  pose proof (countMissedStarts_Ok maxNumberOfFailures sched loc
                (Schedule_Next sched loc last) now) as Hspec.
  setoid_rewrite activation_shift in Hspec.
  destruct (countMissedStarts _ _ _ _ _) as [[]|e].
  - split.
    + intros [= <-]. split; [by apply Hspec|done].
    + by intros [_ ->].
  - split; [done|]. intros [Hfew _]. by apply Hspec in Hfew.
Qed.

Lemma few_missed_mono sched loc last now now' :
  now ≤ now' → few_missed sched loc last now' → few_missed sched loc last now.
Proof. intros Hle (j & Hj & Hact). exists j. split; [done|lia]. Qed.

Lemma few_missed_next sched loc last now :
  now ≤ Schedule_Next sched loc last → few_missed sched loc last now.
Proof. intros Hle. exists 0%nat. split; [lia|done]. Qed.

(** ** handleAutomaticPauseUnPause, case by case *)

(** The Status was computed from the current window. *)
Definition hash_current (c : SveltosCluster) (w : ActiveWindow) : bool :=
  bytes_Equal (ActiveWindowHash (Status c)) (calculateActiveWindowHash (Some w)).

(** The Status without the two times. *)
Definition forget (c : SveltosCluster) : SveltosCluster :=
  c <| Status; NextUnpause := None |> <| Status; NextPause := None |>.

(** The Status after a successful recalculation. *)
Definition with_window (c : SveltosCluster) (w : ActiveWindow) (u p : Time)
  : SveltosCluster :=
  c <| Status; NextUnpause := Some u |> <| Status; NextPause := Some p |>
    <| Status; ActiveWindowHash := calculateActiveWindowHash (Some w) |>.

Lemma hash_current_with_window c w u p : hash_current (with_window c w u p) w = true.
Proof. by apply bool_decide_eq_true. Qed.

Section Window.
Context (w : ActiveWindow) (sf st : Schedule).
Context (Hfrom : cron_ParseStandard (From w) = Ok sf).
Context (Hto : cron_ParseStandard (To w) = Ok st).

(** The next unpause and the next pause after [t], as the controller stores
    them. *)
Definition nextFrom (t : Time) : Time := Schedule_Next sf UTC t.
Definition nextTo (t : Time) : Time := Schedule_Next st UTC t.

(** The start and end of the count of both schedules. *)
Definition recalculable (c : SveltosCluster) (now : Time) : Prop :=
  (let '(loc, last) := lastRunTime (CreationTimestamp (Meta c)) (NextUnpause (Status c)) in
   few_missed sf loc last now) ∧
  (let '(loc, last) := lastRunTime (CreationTimestamp (Meta c)) (NextPause (Status c)) in
   few_missed st loc last now).

Lemma recalculateWindow_both c now :
  is_due (NextUnpause (Status c)) now = true →
  is_due (NextPause (Status c)) now = true →
  recalculable c now →
  recalculateWindow c w (calculateActiveWindowHash (Some w)) now =
  with_window c w (nextFrom now) (nextTo now).
Proof.
  unfold recalculable, recalculateWindow, recalculateNextUnpause, recalculateNextPause.
  intros Hu Hp [Hfu Hfp]. rewrite Hu.
  destruct (lastRunTime _ (NextUnpause _)) as [loc last].
  rewrite (proj2 (getNextScheduleTime_Ok _ _ _ _ _ (nextFrom now) Hfrom)) by done.
  cbn. rewrite Hp. destruct (lastRunTime _ (NextPause _)) as [loc' last'].
  rewrite (proj2 (getNextScheduleTime_Ok _ _ _ _ _ (nextTo now) Hto)) by done.
  done.
Qed.

(** The two times are known and belong to the current window. *)
Lemma handle_known c u p now :
  Spec_ActiveWindow (Spec c) = Some w → hash_current c w = true →
  NextUnpause (Status c) = Some u → NextPause (Status c) = Some p →
  handleAutomaticPauseUnPause c now =
  if After now u && Before now p then c <| Spec; Paused := false |>
  else if Before now u then c <| Spec; Paused := true |>
  else if After now p then
    recalculateWindow (c <| Spec; Paused := true |>) w
      (calculateActiveWindowHash (Some w)) now
  else if Before now p then c
  else recalculateWindow c w (calculateActiveWindowHash (Some w)) now.
Proof.
  intros Hw Hhash Hu Hp. unfold hash_current in Hhash.
  unfold handleAutomaticPauseUnPause. rewrite Hw, Hhash. cbn [negb]. by rewrite Hu, Hp.
Qed.

(** The window is new or has changed. *)
Lemma handle_changed c now :
  Spec_ActiveWindow (Spec c) = Some w → hash_current c w = false →
  handleAutomaticPauseUnPause c now =
  recalculateWindow (forget c <| Spec; Paused := true |>) w
    (calculateActiveWindowHash (Some w)) now.
Proof.
  intros Hw Hhash. unfold hash_current in Hhash.
  unfold handleAutomaticPauseUnPause. by rewrite Hw, Hhash.
Qed.

End Window.

(** ** What a call leaves alone *)

Lemma update_Spec_Paused (s : SveltosClusterSpec) : s <| Paused := Paused s |> = s.
Proof. by destruct s. Qed.

(** [c'] differs from [c] in the window's bookkeeping only. *)
Definition same_but_window (c c' : SveltosCluster) : Prop :=
  ∃ b u p h, c' = c <| Spec; Paused := b |> <| Status; NextUnpause := u |>
                    <| Status; NextPause := p |> <| Status; ActiveWindowHash := h |>.

Lemma same_but_window_refl c : same_but_window c c.
Proof.
  exists (Paused (Spec c)), (NextUnpause (Status c)), (NextPause (Status c)),
    (ActiveWindowHash (Status c)). by destruct c as [m [] []].
Qed.

Lemma same_but_window_trans c1 c2 c3 :
  same_but_window c1 c2 → same_but_window c2 c3 → same_but_window c1 c3.
Proof.
  intros (b & u & p & h & ->) (b' & u' & p' & h' & ->). by exists b', u', p', h'.
Qed.

Lemma recalculateNextUnpause_frame c w now :
  ∃ u, (recalculateNextUnpause c w now).1 = c <| Status; NextUnpause := u |>.
Proof.
  unfold recalculateNextUnpause.
  repeat case_match; cbn; eauto; exists (NextUnpause (Status c)); by destruct c as [m s []].
Qed.

Lemma recalculateNextPause_frame c w now :
  ∃ p, (recalculateNextPause c w now).1 = c <| Status; NextPause := p |>.
Proof.
  unfold recalculateNextPause.
  repeat case_match; cbn; eauto; exists (NextPause (Status c)); by destruct c as [m s []].
Qed.

Lemma recalculateWindow_frame c w h now :
  ∃ u p h', recalculateWindow c w h now =
    c <| Status; NextUnpause := u |> <| Status; NextPause := p |>
      <| Status; ActiveWindowHash := h' |>.
Proof.
  unfold recalculateWindow.
  destruct (recalculateNextUnpause_frame c w now) as [u Hu].
  destruct (recalculateNextUnpause c w now) as [c1 [e1|]]; cbn in Hu; subst c1.
  { exists u, (NextPause (Status c)), (ActiveWindowHash (Status c)). by destruct c as [m s []]. }
  destruct (recalculateNextPause_frame (c <| Status; NextUnpause := u |>) w now) as [p Hp].
  destruct (recalculateNextPause _ w now) as [c2 [e2|]]; cbn in Hp; subst c2.
  { exists u, p, (ActiveWindowHash (Status c)). by destruct c as [m s []]. }
  repeat case_match; eauto; exists u, p, (ActiveWindowHash (Status c));
    by destruct c as [m s []].
Qed.

Lemma recalculateWindow_same c w h now : same_but_window c (recalculateWindow c w h now).
Proof.
  destruct (recalculateWindow_frame c w h now) as (u & p & h' & ->).
  exists (Paused (Spec c)), u, p, h'. by destruct c as [m [] []].
Qed.

Lemma recalculateWindow_Paused c w h now :
  Paused (Spec (recalculateWindow c w h now)) = Paused (Spec c).
Proof. by destruct (recalculateWindow_frame c w h now) as (u & p & h' & ->). Qed.

Lemma same_but_window_Paused c b : same_but_window c (c <| Spec; Paused := b |>).
Proof.
  exists b, (NextUnpause (Status c)), (NextPause (Status c)), (ActiveWindowHash (Status c)).
  by destruct c as [m [] []].
Qed.

Lemma same_but_window_forget c : same_but_window c (forget c).
Proof.
  exists (Paused (Spec c)), None, None, (ActiveWindowHash (Status c)).
  by destruct c as [m [] []].
Qed.

End AutoPause.

#[export] Hint Resolve same_but_window_refl same_but_window_Paused same_but_window_forget
  recalculateWindow_same : auto_pause.

(** A call touches Spec.Paused, Status.NextUnpause, Status.NextPause and
    Status.ActiveWindowHash at most. *)
Lemma handle_frame `{Cron} (c : SveltosCluster) (now : Time) :
  same_but_window c (handleAutomaticPauseUnPause c now).
Proof.
  assert (Hrec : ∀ c w h, same_but_window c
    (recalculateWindow (c <| Spec; Paused := true |>) w h now)).
  { intros. eapply same_but_window_trans;
      [apply same_but_window_Paused|apply recalculateWindow_same]. }
  unfold handleAutomaticPauseUnPause.
  destruct (Spec_ActiveWindow (Spec c)) as [w|]; [|auto with auto_pause].
  destruct (negb _); cbn -[recalculateWindow].
  - apply (same_but_window_trans _ (forget c)); auto with auto_pause.
  - repeat case_match; auto with auto_pause.
Qed.
