(* ===== verification/AutoPauseRuns.v ===== *)
(** * The active window over successive reconciliations

    What a cluster's Paused field does when [handleAutomaticPauseUnPause] runs
    again and again, compared with what the window asks for: paused exactly
    outside of it. *)

From S2P Require Import Prelude GoTime Api Platform AutoPause.

(** ** Two schedules that take turns *)

Section Turns.
Context (nA nB : Time → Time).

(** The contract of cron's [Next] for a schedule that never ends: the least
    activation later than the given time. *)
Definition next_activation (n : Time → Time) : Prop :=
  ∀ t, t < n t ∧ ∀ u, t ≤ u < n t → n u = n t.

(** [nA] comes next, then [nB] before [nA] again. *)
Definition take_turns : Prop := ∀ t, nA t < nB t → nB t < nA (nA t).

(** [nA] is the next of the two at [p] and for [gap] after it. *)
Definition quiet_after (p gap : Z) : Prop := ∀ s, p ≤ s ≤ p + gap → nA s < nB s.

Context (HA : next_activation nA) (HB : next_activation nB).
Context (Hturns : take_turns).

(** Then [nA] itself does not fire in that time. *)
Lemma quiet_no_activation p gap t :
  quiet_after p gap → p ≤ t ≤ p + gap → t ≤ nA p.
Proof.
  intros Hq Ht. destruct (Z.le_gt_cases t (nA p)) as [|Hlt]; [done|exfalso].
  pose proof (Hq p ltac:(lia)) as Hp.
  pose proof (proj1 (HA p)) as Hfp.
  pose proof (Hturns p Hp) as Hb.
  pose proof (proj2 (HB p) (nA p) ltac:(lia)) as Heq.
  pose proof (Hq (nA p) ltac:(lia)). lia.
Qed.

End Turns.

Section Runs.
Context `{Cron}.
Context (w : ActiveWindow) (sf st : Schedule).
Context (Hfrom : cron_ParseStandard (From w) = Ok sf).
Context (Hto : cron_ParseStandard (To w) = Ok st).

Abbreviation nextFrom := (nextFrom sf).
Abbreviation nextTo := (nextTo st).

(** The window is open when the next thing to happen is a pause. *)
Definition active (t : Time) : bool := nextTo t <? nextFrom t.

(** The Paused field after each of the reconciliations at the times [ts]. *)
Fixpoint pollPaused (c : SveltosCluster) (ts : list Time) : list bool :=
  match ts with
  | [] => []
  | t :: ts' =>
    let c' := handleAutomaticPauseUnPause c t in
    Paused (Spec c') :: pollPaused c' ts'
  end.

(** Reconciliations at most [gap] apart, none of them exactly at an
    activation of the window's schedules. *)
Fixpoint polled (gap : Duration) (t0 : Time) (ts : list Time) : Prop :=
  match ts with
  | [] => True
  | t :: ts' =>
    t0 < t ≤ t0 + gap ∧ (∀ s, nextFrom s ≠ t) ∧ (∀ s, nextTo s ≠ t) ∧ polled gap t ts'
  end.

(** What the window and the polling period have to satisfy: both schedules go
    on forever and take turns; [gap] is shorter than the time between two
    windows (for [open_long], than a window). *)
Record schedules_ok : Prop := {
  ok_from : next_activation nextFrom;
  ok_to : next_activation nextTo;
  ok_turns_from : take_turns nextFrom nextTo;
  ok_turns_to : take_turns nextTo nextFrom
}.

Definition closed_long (gap : Duration) : Prop :=
  ∀ t, quiet_after nextFrom nextTo (nextTo t) gap.
Definition open_long (gap : Duration) : Prop :=
  ∀ t, quiet_after nextTo nextFrom (nextFrom t) gap.

(** ** The state between two reconciliations *)

(** At [t0] the cluster holds the two times computed at [tr]. *)
Record holds_window (c : SveltosCluster) (tr t0 : Time) : Prop := {
  hw_window : Spec_ActiveWindow (Spec c) = Some w;
  hw_hash : hash_current c w = true;
  hw_unpause : NextUnpause (Status c) = Some (nextFrom tr);
  hw_pause : NextPause (Status c) = Some (nextTo tr);
  hw_since : tr ≤ t0
}.

Lemma holds_window_with_window c t :
  Spec_ActiveWindow (Spec c) = Some w →
  holds_window (with_window c w (nextFrom t) (nextTo t)) t t.
Proof.
  intros Hw. split;
    [exact Hw|apply hash_current_with_window|reflexivity|reflexivity|reflexivity].
Qed.

Lemma holds_window_paused c b tr t0 t :
  t0 ≤ t → holds_window c tr t0 → holds_window (c <| Spec; Paused := b |>) tr t.
Proof. intros Hle [Hw Hh Hu Hp Hs]. split; [exact Hw|exact Hh|exact Hu|exact Hp|lia]. Qed.

Lemma recalculable_known c b tr t0 t :
  holds_window c tr t0 →
  t ≤ nextFrom (nextFrom tr) → t ≤ nextTo (nextTo tr) →
  recalculable sf st (c <| Spec; Paused := b |>) t.
Proof.
  intros [_ _ Hu Hp _] Hf Ht. unfold recalculable. cbn. rewrite Hu, Hp.
  split; by apply few_missed_next.
Qed.

(** A reconciliation after both stored times recalculates them. *)
Lemma handle_past_both c tr t0 t :
  holds_window c tr t0 → nextFrom tr < t → nextTo tr < t →
  t ≤ nextFrom (nextFrom tr) → t ≤ nextTo (nextTo tr) →
  handleAutomaticPauseUnPause c t =
  with_window (c <| Spec; Paused := true |>) w (nextFrom t) (nextTo t).
Proof.
  intros Hh Hu Hp Hf Ht. pose proof Hh as [Hw Hhash HU HP _].
  rewrite (handle_known w c _ _ t Hw Hhash HU HP). time_goal. cbn [andb].
  rewrite (recalculateWindow_both w sf st Hfrom Hto); cbn; rewrite ?HU, ?HP; cbn;
    [done|by time_goal|by time_goal|].
  by eapply recalculable_known.
Qed.

(** A new or changed window is computed at once. *)
Lemma handle_first c t :
  Spec_ActiveWindow (Spec c) = Some w → hash_current c w = false →
  few_missed sf Local (CreationTimestamp (Meta c)) t →
  few_missed st Local (CreationTimestamp (Meta c)) t →
  handleAutomaticPauseUnPause c t =
  with_window (forget c <| Spec; Paused := true |>) w (nextFrom t) (nextTo t).
Proof.
  intros Hw Hhash Hf Ht. rewrite (handle_changed w c t Hw Hhash).
  by rewrite (recalculateWindow_both w sf st Hfrom Hto).
Qed.

(** ** A window first seen while closed: paused exactly outside of it *)

Section Closed.
Context (gap : Duration).
Context (Hok : schedules_ok) (Hlong : closed_long gap).

(** The cluster waits for, or is in, the window it holds. *)
Record tracking (c : SveltosCluster) (tr t0 : Time) : Prop := {
  tr_holds : holds_window c tr t0;
  tr_closed : nextFrom tr < nextTo tr;
  tr_before : t0 < nextTo tr
}.

(** Until that window has passed, [active] can be read off the stored times. *)
Lemma active_before_pause tr t :
  nextFrom tr < nextTo tr → tr ≤ t < nextTo tr → t ≠ nextFrom tr →
  active t = (nextFrom tr <? t).
Proof.
  destruct Hok as [Hf Ht Hturn _]. unfold active. intros Hcl Hle Hne.
  rewrite (proj2 (Ht tr) t) by lia.
  destruct (Z.ltb_spec (nextFrom tr) t).
  - pose proof (Hturn tr Hcl). rewrite (proj2 (Hf (nextFrom tr)) t) by lia.
    apply Z.ltb_lt. lia.
  - rewrite (proj2 (Hf tr) t) by lia. apply Z.ltb_ge. lia.
Qed.

Lemma tracking_step c tr t0 t :
  tracking c tr t0 → t0 < t ≤ t0 + gap → t ≠ nextFrom tr → t ≠ nextTo tr →
  Paused (Spec (handleAutomaticPauseUnPause c t)) = negb (active t) ∧
  ∃ tr', tracking (handleAutomaticPauseUnPause c t) tr' t.
Proof.
  intros [Hh Hcl Hbef] Hgap Hnf Hnt. pose proof Hh as [Hw Hhash HU HP Hs].
  destruct (Z.lt_ge_cases (nextTo tr) t) as [Hpast|Hnot].
  - destruct Hok as [Hf Ht Hturn _].
    pose proof (quiet_no_activation _ _ Hf Ht Hturn (nextTo tr) gap t (Hlong tr) ltac:(lia)).
    pose proof (Hlong tr t ltac:(lia)). pose proof (Hlong tr (nextTo tr) ltac:(lia)).
    pose proof (Hturn tr Hcl). pose proof (proj2 (Hf (nextFrom tr)) (nextTo tr) ltac:(lia)).
    pose proof (proj1 (Ht t)).
    rewrite (handle_past_both c tr t0 t Hh) by lia.
    split; [unfold active; cbn; rewrite (proj2 (Z.ltb_ge _ _)) by lia; done|].
    exists t. split; [by apply holds_window_with_window|lia..].
  - rewrite (handle_known w c _ _ t Hw Hhash HU HP).
    rewrite (active_before_pause tr t) by lia.
    destruct (Z.lt_ge_cases t (nextFrom tr)); time_goal; cbn [andb].
    + rewrite (proj2 (Z.ltb_ge _ _)) by lia. split; [done|].
      exists tr. split; [|lia..]. eapply holds_window_paused; [|exact Hh]; lia.
    + rewrite (proj2 (Z.ltb_lt _ _)) by lia. split; [done|].
      exists tr. split; [|lia..]. eapply holds_window_paused; [|exact Hh]; lia.
Qed.

Lemma tracking_run ts c tr t0 :
  tracking c tr t0 → polled gap t0 ts →
  pollPaused c ts = (λ t, negb (active t)) <$> ts.
Proof.
  revert c tr t0. induction ts as [|t ts IH]; intros c tr t0 Htr; [done|].
  intros (Hgap & Hnf & Hnt & Hrest). cbn.
  destruct (tracking_step c tr t0 t Htr Hgap) as [-> [tr' Htr']];
    [by specialize (Hnf tr)|by specialize (Hnt tr)|].
  by rewrite (IH _ _ _ Htr' Hrest).
Qed.

End Closed.

(** ** A window first seen while open: paused for good *)

Section Open.
Context (gap : Duration).
Context (Hok : schedules_ok) (Hlong : open_long gap).

(** The cluster holds the end of one window with the start of the next. *)
Record inverted (c : SveltosCluster) (tr t0 : Time) : Prop := {
  iv_holds : holds_window c tr t0;
  iv_open : nextTo tr < nextFrom tr;
  iv_before : t0 < nextFrom tr
}.

Lemma inverted_step c tr t0 t :
  inverted c tr t0 → t0 < t ≤ t0 + gap → t ≠ nextFrom tr →
  Paused (Spec (handleAutomaticPauseUnPause c t)) = true ∧
  ∃ tr', inverted (handleAutomaticPauseUnPause c t) tr' t.
Proof.
  intros [Hh Hop Hbef] Hgap Hnf. pose proof Hh as [Hw Hhash HU HP Hs].
  destruct (Z.lt_ge_cases (nextFrom tr) t) as [Hpast|Hnot].
  - destruct Hok as [Hf Ht _ Hturn].
    pose proof (quiet_no_activation _ _ Ht Hf Hturn (nextFrom tr) gap t (Hlong tr) ltac:(lia)).
    pose proof (Hlong tr t ltac:(lia)). pose proof (Hlong tr (nextFrom tr) ltac:(lia)).
    pose proof (Hturn tr Hop). pose proof (proj2 (Ht (nextTo tr)) (nextFrom tr) ltac:(lia)).
    pose proof (proj1 (Hf t)).
    rewrite (handle_past_both c tr t0 t Hh) by lia.
    split; [done|]. exists t. split; [by apply holds_window_with_window|lia..].
  - rewrite (handle_known w c _ _ t Hw Hhash HU HP). time_goal. cbn [andb].
    split; [done|]. exists tr.
    split; [|lia..]. eapply holds_window_paused; [|exact Hh]; lia.
Qed.

Lemma inverted_run ts c tr t0 :
  inverted c tr t0 → polled gap t0 ts →
  pollPaused c ts = (λ _, true) <$> ts.
Proof.
  revert c tr t0. induction ts as [|t ts IH]; intros c tr t0 Hiv; [done|].
  intros (Hgap & Hnf & _ & Hrest). cbn.
  destruct (inverted_step c tr t0 t Hiv Hgap) as [-> [tr' Hiv']]; [by specialize (Hnf tr)|].
  by rewrite (IH _ _ _ Hiv' Hrest).
Qed.

End Open.

End Runs.
