(* ===== verification/SimCron.v ===== *)
(** * A concrete cron library

    Daily and every-minute schedules in UTC: an implementation of [Cron] that
    the examples and witnesses of the development evaluate. *)

From S2P Require Import Prelude GoTime Api Platform AutoPause AutoPauseRuns.

Module SimCron.

(** Every [period], [offset] after the epoch. *)
Record periodic := mkPeriodic { period : Z; offset : Z }.

Definition next (s : periodic) (t : Time) : Time :=
  offset s + period s * ((t - offset s) / period s + 1).

Definition parse (schedule : string) : result periodic :=
  if decide (schedule = "* * * * *") then Ok (mkPeriodic Minute 0)
  else if decide (schedule = "0 20 * * *") then Ok (mkPeriodic (24 * Hour) (20 * Hour))
  else if decide (schedule = "0 7 * * *") then Ok (mkPeriodic (24 * Hour) (7 * Hour))
  else Err (errors_New "unsupported schedule").

#[export] Instance cron : Cron := {|
  Schedule := periodic;
  cron_ParseStandard := parse;
  Schedule_Next s _ t := next s t
|}.

Lemma next_next_activation s : 0 < period s → next_activation (next s).
Proof.
  intros Hp t. unfold next. set (q := (t - offset s) / period s).
  pose proof (Z.div_mod (t - offset s) (period s) ltac:(lia)) as Hdm.
  pose proof (Z.mod_pos_bound (t - offset s) (period s) ltac:(lia)) as Hm.
  fold q in Hdm. split; [nia|]. intros u Hu.
  replace ((u - offset s) / period s) with q; [done|].
  apply Z.div_unique with (u - offset s - period s * q); [left; nia|lia].
Qed.

(** [next] only hits times congruent to the offset. *)
Lemma next_never s t0 t :
  0 < period s → (t0 - offset s) mod period s ≠ 0 → next s t ≠ t0.
Proof.
  intros Hp Hmod <-. apply Hmod. unfold next.
  replace (_ + _ - offset s) with (((t - offset s) / period s + 1) * period s) by lia.
  apply Z.mod_mul. lia.
Qed.

(** Two schedules of the same period take turns. *)
Lemma next_take_turns a b :
  0 < period a → period a = period b → take_turns (next a) (next b).
Proof.
  intros Hp Heq t Hlt.
  assert (Haa : next a (next a t) = next a t + period a).
  { unfold next at 1. replace (next a t - offset a)
      with (((t - offset a) / period a + 1) * period a) by (unfold next; lia).
    rewrite Z.div_mul by lia. unfold next. lia. }
  assert (Hb : next b t ≤ t + period b).
  { unfold next. pose proof (Z.div_mod (t - offset b) (period b) ltac:(lia)).
    pose proof (Z.mod_pos_bound (t - offset b) (period b) ltac:(lia)). nia. }
  pose proof (proj1 (next_next_activation a Hp t)). lia.
Qed.

Lemma activation_next s loc n t :
  0 < period s → activation (H := cron) s loc (S n) t = next s t + period s * Z.of_nat n.
Proof.
  intros Hp. induction n as [|n IH]; [cbn; lia|].
  unfold activation in *. rewrite Nat.iter_succ, IH. cbn [Schedule_Next cron].
  unfold next at 1. replace (next s t + period s * Z.of_nat n - offset s)
    with (((t - offset s) / period s + 1 + Z.of_nat n) * period s) by (unfold next; lia).
  rewrite Z.div_mul by lia. unfold next. lia.
Qed.

(** ** Night shifts: open from 20:00 to 07:00 *)

Definition night : ActiveWindow := mkActiveWindow "0 20 * * *" "0 7 * * *".
Definition s20 : periodic := mkPeriodic (24 * Hour) (20 * Hour).
Definition s7 : periodic := mkPeriodic (24 * Hour) (7 * Hour).

Lemma night_ok : schedules_ok (H := cron) s20 s7.
Proof.
  split.
  - by apply (next_next_activation s20).
  - by apply (next_next_activation s7).
  - by apply (next_take_turns s20 s7).
  - by apply (next_take_turns s7 s20).
Qed.

Lemma night_closed_long : closed_long (H := cron) s20 s7 (9 * Hour).
Proof.
  intros t s. unfold nextTo, nextFrom. cbn. unfold next. cbn.
  unfold Hour. intros Hs. Z.to_euclidean_division_equations. lia.
Qed.

Lemma night_open_long : open_long (H := cron) s20 s7 (9 * Hour).
Proof.
  intros t s. unfold nextTo, nextFrom. cbn. unfold next. cbn.
  unfold Hour. intros Hs. Z.to_euclidean_division_equations. lia.
Qed.

End SimCron.
