(* ===== verification/ScheduleLoop.v ===== *)
(** * The loop of [getNextScheduleTime], step by step

    [for t := sched.Next(last); t.Before(now); t = sched.Next(t)] counts the
    activations between the last run and [now]. What stops it is its counter alone:
    nothing is assumed of the schedule, whose [Next] may stand still (it returns the
    zero time when there is no activation to come). Here the loop is a small-step
    relation on its two variables, with the counter that the source increments. *)

From stdpp Require Import relations.
From S2P Require Import Prelude GoTime Api Platform AutoPause SimCron.

Section ScheduleLoop.
Context `{Cron}.

(** The loop with its variables [starts] and [t], and its two ways out. *)
Inductive loop_state :=
  | Looping (starts : Z) (t : Time)
  | Exited
  | TooMany.

Inductive loop_step (sched : Schedule) (loc : Location) (now : Time) :
    loop_state → loop_state → Prop :=
  | step_exit starts t :
    Before t now = false → loop_step sched loc now (Looping starts t) Exited
  | step_too_many starts t :
    Before t now = true → Z.of_nat maxNumberOfFailures < starts + 1 →
    loop_step sched loc now (Looping starts t) TooMany
  | step_next starts t :
    Before t now = true → starts + 1 ≤ Z.of_nat maxNumberOfFailures →
    loop_step sched loc now (Looping starts t) (Looping (starts + 1) (Schedule_Next sched loc t)).

(** What the function returns once the loop is over. *)
Definition loop_result (sched : Schedule) (now : Time) (s : loop_state) : option (result Time) :=
  match s with
  | Looping _ _ => None
  | Exited => Some (Ok (Schedule_Next sched UTC now))
  | TooMany =>
    Some (Err (errors_New "too many missed start times (> 100). Set or check clock skew"))
  end.

Lemma loop_step_deterministic sched loc now : deterministic (loop_step sched loc now).
Proof. intros s s1 s2 H1 H2. destruct H1; inversion H2; subst; congruence || lia. Qed.

Lemma loop_over sched loc now s : nf (loop_step sched loc now) s ↔ loop_result sched now s ≠ None.
Proof.
  split.
  - destruct s as [starts t| |]; [|done..]. intros Hnf. destruct Hnf.
    destruct (Before t now) eqn:Ht; [|eexists; by constructor].
    destruct (Z.le_gt_cases (starts + 1) (Z.of_nat maxNumberOfFailures));
      eexists; constructor; (done || lia).
  - intros Hres [s' Hstep]. destruct Hstep; done.
Qed.

(** The loop runs to its end, in as many steps as the counter has left, and one. *)
Lemma loop_runs sched loc now left t :
  (left ≤ maxNumberOfFailures)%nat →
  ∃ n s, (n ≤ S left)%nat ∧
    nsteps (loop_step sched loc now) n
      (Looping (Z.of_nat maxNumberOfFailures - Z.of_nat left) t) s ∧
    loop_result sched now s =
      Some (match countMissedStarts left sched loc t now with
            | Ok _ => Ok (Schedule_Next sched UTC now)
            | Err err => Err err
            end).
Proof.
  revert t. induction left as [|left IH]; intros t Hleft; cbn [countMissedStarts];
    destruct (Before t now) eqn:Ht.
  - exists 1%nat, TooMany. split_and!; [lia| |done].
    apply nsteps_once, step_too_many; [done|lia].
  - exists 1%nat, Exited. split_and!; [lia| |done]. by apply nsteps_once, step_exit.
  - destruct (IH (Schedule_Next sched loc t) ltac:(lia)) as (n & s & Hn & Hsteps & Hres).
    exists (S n), s. split_and!; [lia| |done]. eapply nsteps_l; [apply step_next; [done|lia]|].
    replace (_ - Z.of_nat (S left) + 1)
      with (Z.of_nat maxNumberOfFailures - Z.of_nat left) by lia. exact Hsteps.
  - exists 1%nat, Exited. split_and!; [lia| |done]. by apply nsteps_once, step_exit.
Qed.

(** C19: whatever the schedule does, the loop of [getNextScheduleTime] terminates
    within 101 steps, in one way only, and what the function then returns is what the
    recursive model returns: no schedule, not even one without activations, can hang a
    reconciliation. *)
Theorem schedule_loop_terminates (schedule : string) (sched : Schedule) (loc : Location)
  (last now : Time) (Hparse : cron_ParseStandard schedule = Ok sched)
  (start := Looping 0 (Schedule_Next sched loc last)) :
  sn (loop_step sched loc now) start ∧
  ∃ s, (∃ n, (n ≤ 101)%nat ∧ nsteps (loop_step sched loc now) n start s) ∧
    (∀ s', rtc (loop_step sched loc now) start s' → nf (loop_step sched loc now) s' → s' = s) ∧
    loop_result sched now s = Some (getNextScheduleTime schedule (Some (loc, last)) now).
Proof.
  destruct (loop_runs sched loc now maxNumberOfFailures (Schedule_Next sched loc last) ltac:(lia))
    as (n & s & Hn & Hsteps & Hres).
  rewrite Z.sub_diag in Hsteps. fold start in Hsteps.
  assert (Hnf : nf (loop_step sched loc now) s) by (apply loop_over; by rewrite Hres).
  split.
  - clear Hn Hres. clearbody start. induction Hsteps as [s|n s1 s2 s3 H12 _ IH].
    + by apply nf_sn.
    + constructor. intros s' Hs'.
      rewrite (loop_step_deterministic _ _ _ _ _ _ Hs' H12). by apply IH.
  - exists s. split_and!; [by exists n| |].
    + intros s' Hs' Hnf'. apply rtc_nsteps_2 in Hsteps. clear Hn Hres. clearbody start.
      induction Hsteps as [s|s1 s2 s3 H12 H23 IH]; [by symmetry; eapply rtc_nf|].
      inversion Hs' as [|? s2' ? H12' H2']; subst; [by destruct Hnf'; eexists|].
      rewrite (loop_step_deterministic _ _ _ _ _ _ H12' H12) in H2'. by apply IH.
    + rewrite Hres. unfold getNextScheduleTime. rewrite Hparse. by destruct (countMissedStarts _ _ _ _ _) as [[]|].
Qed.

End ScheduleLoop.

(** A schedule of every minute, last run eleven days ago. *)
Lemma schedule_loop_terminates_witness :
  ∃ s, loop_result (H := SimCron.cron) (SimCron.mkPeriodic Minute 0) (11 * 24 * Hour) s =
    Some (getNextScheduleTime (H := SimCron.cron) "* * * * *" (Some (UTC, 0)) (11 * 24 * Hour)).
Proof.
  destruct (schedule_loop_terminates (H := SimCron.cron) "* * * * *"
    (SimCron.mkPeriodic Minute 0) UTC 0 (11 * 24 * Hour) eq_refl) as (_ & s & _ & _ & Hs).
  by exists s.
Defined.
