(* ===== verification/Reconciler.v ===== *)
(** * The SveltosCluster reconciler

    Model of [Reconcile], [reconcileDelete], [reconcileNormal],
    [reconcilePullModeCluster] and [isClusterAShardMatch]
    ([controllers/sveltoscluster_controller.go]), of the scope that persists the
    cluster ([pkg/scope/sveltoscluster_scope.go]) and of the predicates that decide
    which updates are reconciled ([controllers/sveltoscluster_predicate.go]). *)

From S2P Require Import Prelude GoTime Float64 GoStrings Api Platform Recon.
From S2P Require Import Kubeconfig TokenTiming TokenRenewal Metrics Connection ClusterChecks.
From S2P Require Import License AutoPause.

Definition deleteRequeueAfter : Duration := Minute.
Definition versionLabel : string := "projectsveltos.io/k8s-version".
Definition maxAllowedAge : Duration := 10 * Minute.

(** ** Which updates are reconciled *)

(** The predicate on an update; [None] is a nil old object. *)
Definition UpdateFunc (oldCluster : option SveltosCluster) (newCluster : SveltosCluster) : bool :=
  match oldCluster with
  | None => true
  | Some oldCluster =>
    if IsZero_ptr (DeletionTimestamp (Meta oldCluster))
       && negb (IsZero_ptr (DeletionTimestamp (Meta newCluster)))
    then true
    else if bool_decide (Spec oldCluster ≠ Spec newCluster) then true
    else false
  end.

Definition CreateFunc (c : SveltosCluster) : bool := true.
Definition DeleteFunc (c : SveltosCluster) : bool := true.
Definition GenericFunc (c : SveltosCluster) : bool := false.

(** What the manager tells of a watched cluster; those that pass are reconciled. *)
Inductive cluster_event :=
  | CreateEvent (c : SveltosCluster)
  | UpdateEvent (oldCluster : option SveltosCluster) (newCluster : SveltosCluster)
  | DeleteEvent (c : SveltosCluster)
  | GenericEvent (c : SveltosCluster).

Definition SveltosClusterPredicates (e : cluster_event) : bool :=
  match e with
  | CreateEvent c => CreateFunc c
  | UpdateEvent oldCluster newCluster => UpdateFunc oldCluster newCluster
  | DeleteEvent c => DeleteFunc c
  | GenericEvent c => GenericFunc c
  end.

(** ** The scope *)

Definition SetLabel (key value : string) (c : SveltosCluster) : SveltosCluster :=
  c <| Meta; Labels := Some (<[key := value]> (default ∅ (Labels (Meta c)))) |>.

Section Scope.
Context {W : Type} `{Gauge, ManagementClient W}.

Record SveltosClusterScope := mkScope {
  patchHelper : PatchHelper;
  controllerName : string
}.

Record SveltosClusterScopeParams := mkScopeParams {
  Param_Client : bool;
  Param_SveltosCluster : option SveltosCluster;
  Param_ControllerName : string
}.

(** [errors.Wrap] puts its message in front. *)
Definition NewSveltosClusterScope (params : SveltosClusterScopeParams)
  : St W (result SveltosClusterScope) :=
  if negb (Param_Client params)
  then mret (Err (errors_New "client is required when creating a SveltosClusterScope"))
  else
    match Param_SveltosCluster params with
    | None => mret (Err (errors_New "failed to generate new scope from nil SveltosCluster"))
    | Some c =>
      helper ← patch_NewHelper c;
      match helper with
      | Err err => mret (Err (Errorf_w "failed to init patch helper: " err))
      | Ok helper => mret (Ok (mkScope helper (Param_ControllerName params)))
      end
    end.

(** The name of the scope's cluster, and of its controller. *)
Definition Scope_Name : St (Recon W) string := gets (λ s, Name (Meta (cluster s))).

Definition ControllerName (scope : SveltosClusterScope) : string := controllerName scope.

(** Persists the cluster as it is by then. *)
Definition PatchObject (scope : SveltosClusterScope) : St (Recon W) (option error) :=
  c ← get_cluster; outside (Patch (patchHelper scope) c).

Definition Close (scope : SveltosClusterScope) : St (Recon W) (option error) :=
  PatchObject scope.

End Scope.

Section Reconciler.
Context {W : Type} `{Gauge, Clock W, ClientSet W, ManagementClient W, ClusterProxy W,
  PullModeTransport W, Licenses W, Yaml, Semver, Names, Finalizer, Cron}.
Context `{!Dynamic W, !CEL W, !Lua W}.

(** ** Sharding *)

Definition isClusterAShardMatch (r : SveltosClusterReconciler) (c : SveltosCluster)
  : St W (result bool) :=
  cluster ← GetCluster (Namespace (Meta c)) (Name (Meta c));
  match cluster with
  | Err err => if apierrors_IsNotFound err then mret (Ok true) else mret (Err err)
  | Ok cluster => mret (Ok (IsShardAMatch (ShardKey r) cluster))
  end.

(** ** Deletion *)

Definition set_finalizers (f : list string → list string) (c : SveltosCluster)
  : SveltosCluster :=
  c <| Meta; Finalizers := f (Finalizers (Meta c)) |>.

Definition evict_and_release : St (Recon W) ctrl_Result :=
  c ← get_cluster;
  outside (EvictWorkloadIdentityCache (Namespace (Meta c)) (Name (Meta c)));;
  update_metrics (deleteClusterMetrics ClusterTypeSveltos (Namespace (Meta c)) (Name (Meta c)));;
  update_cluster (set_finalizers (λ l, RemoveFinalizer l SveltosClusterFinalizer));;
  mret no_requeue.

Definition reconcileDelete : St (Recon W) ctrl_Result :=
  c ← get_cluster;
  if negb (ContainsFinalizer (Finalizers (Meta c)) SveltosClusterFinalizer)
  then mret no_requeue
  else
    match CleanupGracePeriod (Spec c) with
    | Some gracePeriod =>
      let deadline := Time_Add (default zero_Time (DeletionTimestamp (Meta c))) gracePeriod in
      now ← outside time_Now;
      if Before now deadline then mret (mkResult deleteRequeueAfter) else evict_and_release
    | None => evict_and_release
    end.

(** ** Metrics of the cluster *)

Definition update_cluster_metrics (f : string → string → string → SveltosCluster → Metrics → Metrics)
  : St (Recon W) () :=
  c ← get_cluster;
  update_metrics (f ClusterTypeSveltos (Namespace (Meta c)) (Name (Meta c)) c).

Definition report_connection : St (Recon W) () :=
  update_cluster_metrics (λ t ns n c,
    updateClusterConnectionStatusMetric t ns n (ConnectionStatus (Status c)));;
  update_cluster_metrics (λ t ns n c,
    updateConnectionFailuresMetric t ns n (ConnectionFailures (Status c))).

(** ** Push mode *)

Definition renew_if_due (r : SveltosClusterReconciler) (renew : St (Recon W) (option error))
  : St (Recon W) () :=
  c ← get_cluster;
  due ← outside (shouldRenewTokenRequest c);
  if due : bool then
    err ← renew;
    match err with
    | Some err => set_failure (Some (Error err))
    | None => mret ()
    end
  else mret ().

(** The label and the metric, when the version parses. *)
Definition record_version (currentVersion : string) : St (Recon W) () :=
  match semver_NewVersion currentVersion with
  | Err _ => mret ()
  | Ok (major, minor, patch) =>
    let kubernetesVersion := Sprintf "v%d.%d.%d" [ArgD major; ArgD minor; ArgD patch] in
    update_cluster (SetLabel versionLabel kubernetesVersion);;
    update_cluster_metrics (λ t ns n _, updateKubernetesVersionMetric t ns n kubernetesVersion)
  end.

Definition check_cluster (config : Config) (currentVersion : string) : St (Recon W) () :=
  c ← get_cluster;
  err ← outside (r_runChecks config c);
  match err with
  | Some err => set_failure (Some (Error err))
  | None =>
    update_cluster (λ c, c <| Status; Ready := true |>);;
    record_version currentVersion;;
    update_cluster (λ c, c <| Status; Status_Version := currentVersion |>)
  end.

Definition reconcilePushModeCluster (r : SveltosClusterReconciler) : St (Recon W) () :=
  c ← get_cluster;
  config ← outside (GetSveltosKubernetesRestConfig (Namespace (Meta c)) (Name (Meta c)));
  match config with
  | Err err =>
    set_failure (Some (Error err));; updateConnectionStatus r
  | Ok config =>
    set_failure None;;
    currentVersion ← outside (GetKubernetesVersion config);
    match currentVersion with
    | Err err => set_failure (Some (Error err))
    | Ok currentVersion =>
      renew_if_due r (handleTokenRequestRenewal config);;
      check_cluster config currentVersion
    end;;
    updateConnectionStatus r;;
    report_connection
  end.

(** ** Pull mode *)

Definition check_heartbeat (r : SveltosClusterReconciler) : St (Recon W) () :=
  c ← get_cluster;
  if negb (Ready (Status c)) then mret ()
  else
    match AgentLastReportTime (Status c) with
    | None => mret ()
    | Some lastReport =>
      lastReportAge ← outside (time_Since lastReport);
      (if maxAllowedAge <? lastReportAge
       then set_failure (Some AgentHeartbeatTimeoutError) else mret ());;
      update_cluster_metrics (λ t ns n _, updateAgentLastHeartbeatMetric t ns n lastReport);;
      updateConnectionStatus r;;
      report_connection
    end.

Definition reconcilePullModeCluster (r : SveltosClusterReconciler) : St (Recon W) () :=
  set_failure None;;
  updateLicenseAnnotations r;;
  renew_if_due r (handlePullModeTokenRequestRenewal r);;
  terminatePullModeTokenRenewalTrackingIfProvisioned;;
  check_heartbeat r.

(** ** A reconciliation *)

Definition update_finalizer (c : SveltosCluster) : SveltosCluster :=
  set_finalizers
    (λ l, match CleanupGracePeriod (Spec c) with
          | Some _ => AddFinalizer l SveltosClusterFinalizer
          | None => RemoveFinalizer l SveltosClusterFinalizer
          end) c.

(** The active window is handled on the way out, at the time read here. *)
Definition reconcileNormal (r : SveltosClusterReconciler) : St (Recon W) () :=
  update_cluster update_finalizer;;
  now ← outside time_Now;
  c ← get_cluster;
  (if PullMode (Spec c) then reconcilePullModeCluster r else reconcilePushModeCluster r);;
  update_cluster (λ c, handleAutomaticPauseUnPause c now).

(** The body once the cluster is known to belong to this shard; closing the scope
    is deferred and its error is the one returned. *)
Definition reconcile_in_scope (r : SveltosClusterReconciler) (scope : SveltosClusterScope)
  : St (Recon W) (ctrl_Result * option error) :=
  c ← get_cluster;
  res ← (if negb (IsZero_ptr (DeletionTimestamp (Meta c))) then reconcileDelete
         else reconcileNormal r;; mret (mkResult Minute));
  err ← Close scope;
  mret (res, err).

Definition wrap (format namespace name : string) (err : error) : error :=
  Errorf_w (Sprintf (format +:+ " %s/%s: ") [ArgS namespace; ArgS name]) err.

Definition Reconcile (r : SveltosClusterReconciler) (namespace name : string)
  : St (Recon W) (ctrl_Result * option error) :=
  update_cluster (λ _, zero_SveltosCluster);;
  sveltosCluster ← outside (Get_SveltosCluster namespace name);
  match sveltosCluster with
  | Err err =>
    if apierrors_IsNotFound err then mret (no_requeue, None)
    else mret (no_requeue, Some (wrap "Failed to fetch sveltosCluster" namespace name err))
  | Ok c =>
    update_cluster (λ _, c);;
    scope ← outside (NewSveltosClusterScope (mkScopeParams true (Some c) "sveltoscluster"));
    match scope with
    | Err err =>
      mret (no_requeue, Some (wrap "unable to create clusterprofile scope for" namespace name err))
    | Ok scope =>
      isMatch ← outside (isClusterAShardMatch r c);
      match isMatch with
      | Err _ => mret (mkResult normalRequeueAfter, None)
      | Ok false => mret (no_requeue, None)
      | Ok true => reconcile_in_scope r scope
      end
    end
  end.

End Reconciler.
