(* ===== verification/Calls.v ===== *)
(** * What the calls of a reconciliation do to the world

    A reconciliation only touches the world through the interfaces of Platform.v. If
    all of these calls, the ones that read and write the SveltosCluster itself
    excepted, move the world along a relation that is reflexive and transitive, then
    so does every function of the program between reading the cluster and persisting
    it. *)

From S2P Require Import Prelude GoTime Float64 Api Platform Recon.
From S2P Require Import ServiceAccount Kubeconfig TokenTiming TokenRenewal Metrics Connection.
From S2P Require Import ClusterChecks License AutoPause Reconciler.

Section Calls.
Context {W : Type} `{Gauge, Clock W, ClientSet W, ManagementClient W, ClusterProxy W,
  PullModeTransport W, Licenses W, Yaml, Semver, Names, Finalizer, Cron}.
Context `{!Dynamic W, !CEL W, !Lua W}.
Context (R : relation W) `{!PreOrder R}.

Definition along {A} (m : St W A) : Prop := ∀ w, R w (m w).2.

(** Dropping a deployment that is reported to be provisioned: dropping any other may lose
    what its agent has not fetched yet. *)
Definition terminate_provisioned (d : Deployment) : St W (option error) :=
  status ← GetDeploymentStatus d;
  match status with
  | Ok (Some (Some FeatureStatusProvisioned)) => TerminateDeploymentTracking d
  | _ => mret None
  end.

(** The calls that do not replace the kubeconfig of a cluster. *)
Record reads_along : Prop := {
  along_now : along time_Now;
  along_NewForConfig config : along (kubernetes_NewForConfig config);
  along_CreateToken cs ns name exp : along (CreateToken cs ns name exp);
  along_SelfSubjectReview cs : along (SelfSubjectReview cs);
  along_Get_ConfigMap ns name : along (Get_ConfigMap ns name);
  along_GetAPIGroupResources config : along (restmapper_GetAPIGroupResources config);
  along_List config g v res ls fs : along (dynamic_List config g v res ls fs);
  along_EvaluateRules u rules : along (sveltoscel_EvaluateRules u rules);
  along_NewState : along lua_NewState;
  along_Close l : along (lua_Close l);
  along_MapToTable u : along (MapToTable u);
  along_NewTable l : along (lua_NewTable l);
  along_Append t u : along (lua_Append t u);
  along_DoString l script : along (lua_DoString l script);
  along_SetGlobal l name t : along (lua_SetGlobal l name t);
  along_CallByParam l t : along (lua_CallByParam l t);
  along_Get l : along (lua_Get l);
  along_Marshal t : along (json_Marshal_ToGoValue t);
  along_RestConfig ns name : along (GetSveltosKubernetesRestConfig ns name);
  along_SecretData ns name : along (GetSveltosSecretData ns name);
  along_Evict ns name : along (EvictWorkloadIdentityCache ns name);
  along_GetCluster ns name : along (GetCluster ns name);
  along_KubernetesVersion config : along (GetKubernetesVersion config);
  along_Stage d resources skip : along (StageResourcesForDeployment d resources skip);
  along_terminate d : along (terminate_provisioned d);
  along_GetPublicKey : along GetPublicKey;
  along_Verify ns key : along (VerifyLicenseSecret ns key)
}.

(** With those that do. *)
Record calls_along : Prop := {
  along_reads :> reads_along;
  along_UpdateSecretData ns name data key : along (UpdateSveltosSecretData ns name data key);
  along_Commit d ref : along (CommitStagedResourcesForDeployment d ref)
}.

Lemma along_ret {A} (a : A) : along (mret a).
Proof. intros w. reflexivity. Qed.

Lemma along_bind {A B} (m : St W A) (f : A → St W B) :
  along m → (∀ a, along (f a)) → along (m ≫= f).
Proof.
  intros Hm Hf w. specialize (Hm w). unfold mbind, St_bind.
  destruct (m w) as [a w']; cbn in *. etransitivity; [exact Hm|apply Hf].
Qed.

(** The same of code that runs in a reconciliation. *)
Definition moves {A} (m : St (Recon W) A) : Prop := ∀ s, R (world s) (world (m s).2).

Lemma moves_bind {A B} (m : St (Recon W) A) (f : A → St (Recon W) B) :
  moves m → (∀ a, moves (f a)) → moves (m ≫= f).
Proof.
  intros Hm Hf s. specialize (Hm s). unfold mbind, St_bind.
  destruct (m s) as [a s']; cbn in *. etransitivity; [exact Hm|apply Hf].
Qed.

Lemma moves_outside {A} (m : St W A) : along m → moves (outside m).
Proof. intros Hm s. specialize (Hm (world s)). unfold outside. by destruct (m (world s)). Qed.

Lemma moves_same {A} (m : St (Recon W) A) : keeps world m → moves m.
Proof. intros Hm s. by rewrite (Hm s). Qed.

(** [along_tac] walks through a function of the program. *)
Ltac along_step :=
  first
  [ apply along_ret
  | solve [match goal with HR : reads_along |- _ => destruct HR; auto end]
  | lazymatch goal with
    | |- along (mbind _ _) => apply along_bind; [|intros ?]
    | |- along (match ?x with _ => _ end) => destruct x
    | |- along (let _ := _ in _) => intros
    end ].
Ltac along_tac := repeat along_step.

Create HintDb moves.

Ltac moves_step :=
  first
  [ solve [eauto with moves nocore]
  | progress unfold set_failure, update_cluster, update_metrics, get_cluster
  | lazymatch goal with
    | |- moves (mbind _ _) => apply moves_bind; [|intros ?]
    | |- moves (outside _) => apply moves_outside; solve [along_tac | eauto with moves nocore]
    | |- moves (match ?x with _ => _ end) => destruct x
    | |- moves (let _ := _ in _) => intros
    | |- moves _ => apply moves_same; solve [done]
    end ].
Ltac moves_tac := repeat moves_step.

Section Reads.
Context (HR : reads_along).

Lemma along_until t : along (time_Until t).
Proof. unfold time_Until. along_tac. Qed.

Lemma along_since t : along (time_Since t).
Proof. unfold time_Since. along_tac. Qed.

Lemma along_should c : along (shouldRenewTokenRequest c).
Proof. unfold shouldRenewTokenRequest. along_tac. Qed.

Lemma along_adjust opt jwt : along (adjustTokenRequestRenewalOption opt jwt).
Proof.
  pose proof along_until. unfold adjustTokenRequestRenewalOption. along_tac.
Qed.

Lemma along_details c config : along (getServiceAccountDetails c config).
Proof. unfold getServiceAccountDetails, whoami. along_tac. Qed.

Lemma along_token config ns name exp : along (getServiceAccountTokenRequest config ns name exp).
Proof. unfold getServiceAccountTokenRequest. along_tac. Qed.

Lemma along_endpoint ns name : along (getPullModeManagementClusterEndpoint ns name).
Proof. unfold getPullModeManagementClusterEndpoint. along_tac. Qed.

(** ** The checks *)

Lemma along_evaluate l : along (evaluate_result l).
Proof. unfold evaluate_result. along_tac. Qed.

Lemma along_lua u script : along (isMatchForLua u script).
Proof.
  pose proof along_evaluate. unfold isMatchForLua, with_state. along_tac; auto.
Qed.

Lemma along_append t us : along (append_resources t us).
Proof. induction us; cbn; along_tac; done. Qed.

Lemma along_validate script us : along (validateCheck script us).
Proof.
  pose proof along_evaluate. pose proof along_append. unfold validateCheck, with_state.
  along_tac; auto.
Qed.

Lemma along_matching rs us : along (matching_resources rs us).
Proof.
  pose proof along_lua. induction us as [|u us IH]; cbn; unfold isMatch; along_tac; done.
Qed.

Lemma along_resources config rss : along (getResources config rss).
Proof.
  pose proof along_matching. induction rss as [|rs rss IH]; cbn;
    unfold getResourcesMatchinResourceSelector; along_tac; auto.
Qed.

Lemma along_runChecks config checks : along (runChecks config checks).
Proof.
  pose proof along_resources. pose proof along_validate.
  induction checks as [|check checks IH]; cbn; unfold runCheck; along_tac; auto.
Qed.

Lemma along_r_runChecks config c : along (r_runChecks config c).
Proof. pose proof along_runChecks. unfold r_runChecks. along_tac; auto. Qed.

(** ** The reconciler *)

#[local] Hint Resolve along_should along_adjust along_details along_token along_endpoint
  along_r_runChecks : moves.

Lemma moves_connection r : moves (updateConnectionStatus r).
Proof. unfold updateConnectionStatus, recordConnectionTransition, recordEventf. moves_tac. Qed.

Lemma moves_report : moves report_connection.
Proof. unfold report_connection, update_cluster_metrics. moves_tac. Qed.

#[local] Hint Resolve moves_connection moves_report : moves.

Lemma moves_renew r renew : moves renew → moves (renew_if_due r renew).
Proof. intros Hrenew. unfold renew_if_due. moves_tac. Qed.

Lemma moves_check config v : moves (check_cluster config v).
Proof. unfold check_cluster, record_version, update_cluster_metrics. moves_tac. Qed.

Lemma moves_heartbeat r : moves (check_heartbeat r).
Proof.
  pose proof along_since. unfold check_heartbeat, update_cluster_metrics. moves_tac.
Qed.

Lemma moves_license r : moves (updateLicenseAnnotations r).
Proof. unfold updateLicenseAnnotations. moves_tac. Qed.

Lemma moves_terminate : moves terminatePullModeTokenRenewalTrackingIfProvisioned.
Proof.
  intros s. pose proof (along_terminate HR (token_deployment (cluster s)) (world s)) as Hdrop.
  revert Hdrop. unfold terminatePullModeTokenRenewalTrackingIfProvisioned, terminate_provisioned.
  run. destruct (GetDeploymentStatus _ _) as [[[[[|other]|]|]|err] w]; cbn; try done.
  all: case_decide; cbn; try done. by destruct (TerminateDeploymentTracking _ w).
Qed.

Lemma moves_delete : moves reconcileDelete.
Proof. unfold reconcileDelete, evict_and_release. moves_tac. Qed.

Lemma along_shard r c : along (isClusterAShardMatch r c).
Proof. unfold isClusterAShardMatch. along_tac. Qed.

End Reads.

(** ** Renewals, and the reconciler *)

Context (HC : calls_along) (HR : reads_along := along_reads HC).

#[local] Hint Resolve along_should along_adjust along_details along_token along_endpoint
  moves_connection moves_report moves_renew moves_check moves_heartbeat moves_license
  moves_terminate : moves.

Lemma moves_context config exp ns name : moves (renewContext config exp ns name).
Proof. pose proof (along_UpdateSecretData HC). unfold renewContext, record_renewal. moves_tac. Qed.
#[local] Hint Resolve moves_context : moves.

Lemma moves_contexts config exp contexts ns name :
  moves (renewContexts config exp ns name contexts).
Proof. revert ns name. induction contexts; intros ns name; cbn; moves_tac; done. Qed.
#[local] Hint Resolve moves_contexts : moves.

Lemma moves_push_renewal config : moves (handleTokenRequestRenewal config).
Proof. unfold handleTokenRequestRenewal. moves_tac. Qed.

Lemma moves_pull_renewal r : moves (handlePullModeTokenRequestRenewal r).
Proof.
  pose proof (along_Commit HC). unfold handlePullModeTokenRequestRenewal, record_renewal. moves_tac.
Qed.
#[local] Hint Resolve moves_push_renewal moves_pull_renewal : moves.

Lemma moves_push r : moves (reconcilePushModeCluster r).
Proof. unfold reconcilePushModeCluster. moves_tac. Qed.

Lemma moves_pull r : moves (reconcilePullModeCluster r).
Proof. unfold reconcilePullModeCluster. moves_tac. Qed.
#[local] Hint Resolve moves_push moves_pull : moves.

Lemma moves_normal r : moves (reconcileNormal r).
Proof. unfold reconcileNormal. moves_tac. Qed.

End Calls.

(** What two relations imply together. *)
Lemma reads_along_and {W : Type} `{Clock W, ClientSet W, ManagementClient W, ClusterProxy W,
    PullModeTransport W, Licenses W, !Dynamic W, !CEL W, !Lua W} (R1 R2 R3 : relation W) :
  (∀ w w', R1 w w' → R2 w w' → R3 w w') →
  reads_along R1 → reads_along R2 → reads_along R3.
Proof. intros HR [] []. unfold along in *. split; intros; intros w; apply HR; auto. Qed.
