(* ===== verification/AutoPauseSpec.v ===== *)
(** * The active window: properties

    What one call of [handleAutomaticPauseUnPause] does, what a series of
    calls does, and where the code and the window's meaning part ways. Each
    property with a hypothesis is followed by an instance over [SimCron]. *)

From S2P Require Import Prelude GoTime Sha256 GoStrings Api Platform.
From S2P Require Import AutoPause AutoPauseRuns SimCron.

(** ** Sample data *)

(** Day [d] at [h] hours and [m] minutes. *)
Definition at_day (d h m : Z) : Time := d * (24 * Hour) + h * Hour + m * Minute.

(** A cluster created at noon of day 100 with the night window. *)
Definition night_cluster : SveltosCluster :=
  zero_SveltosCluster
    <| Meta; CreationTimestamp := at_day 100 12 0 |>
    <| Spec; Spec_ActiveWindow := Some SimCron.night |>.

(** Decides comparisons of literal times. *)
Ltac sim_time :=
  repeat match goal with
  | |- _ ∧ _ => split
  | |- _ < _ => vm_compute; reflexivity
  | |- _ ≤ _ => vm_compute; congruence
  | |- _ ≠ _ => vm_compute; congruence
  end.

Section Spec.
Context `{Cron}.

(** ** One call *)

(** A call without an active window forgets the two stored times and
    changes nothing else: whether the cluster is paused is then up to the user. *)
Lemma no_window_forgets_times (c : SveltosCluster) (now : Time)
  (Hnone : Spec_ActiveWindow (Spec c) = None) :
  handleAutomaticPauseUnPause c now = forget c.
Proof. unfold handleAutomaticPauseUnPause. by rewrite Hnone. Qed.

(** With the two times of the current window in order ([u < p]), the
    cluster is paused before [u], unpaused strictly between [u] and [p], left as
    it is at the instant [u], and paused after [p] while the next window is
    being computed. *)
Lemma stored_window_decides_paused (c : SveltosCluster) (w : ActiveWindow) (u p now : Time)
  (Hw : Spec_ActiveWindow (Spec c) = Some w) (Hhash : hash_current c w = true)
  (Hu : NextUnpause (Status c) = Some u) (Hp : NextPause (Status c) = Some p)
  (Hup : u < p) :
  (now < u → handleAutomaticPauseUnPause c now = c <| Spec; Paused := true |>) ∧
  (now = u → handleAutomaticPauseUnPause c now = c) ∧
  (u < now < p → handleAutomaticPauseUnPause c now = c <| Spec; Paused := false |>) ∧
  (p < now → Paused (Spec (handleAutomaticPauseUnPause c now)) = true).
Proof.
  rewrite (handle_known w c u p now Hw Hhash Hu Hp).
  split_and!; intros; subst; time_goal; cbn [andb]; try done.
  by rewrite recalculateWindow_Paused.
Qed.

(** When the stored hash is not that of the window (a new window, or one
    that changed) and the count of missed activations stays within its bound, the
    call pauses the cluster, stores the next activation of both schedules after
    [now], and records the hash. *)
Lemma changed_window_is_recomputed (c : SveltosCluster) (w : ActiveWindow)
  (sf st : Schedule) (now : Time)
  (Hfrom : cron_ParseStandard (From w) = Ok sf) (Hto : cron_ParseStandard (To w) = Ok st)
  (Hw : Spec_ActiveWindow (Spec c) = Some w) (Hhash : hash_current c w = false)
  (Hff : few_missed sf Local (CreationTimestamp (Meta c)) now)
  (Hft : few_missed st Local (CreationTimestamp (Meta c)) now) :
  handleAutomaticPauseUnPause c now =
  c <| Spec; Paused := true |>
    <| Status; NextUnpause := Some (Schedule_Next sf UTC now) |>
    <| Status; NextPause := Some (Schedule_Next st UTC now) |>
    <| Status; ActiveWindowHash := calculateActiveWindowHash (Some w) |>.
Proof. by rewrite (handle_first w sf st Hfrom Hto c now Hw Hhash Hff Hft). Qed.

(** A schedule that does not parse leaves a new window without times: the
    cluster is paused, and no hash is recorded, so that the next call tries
    again. *)
Lemma unparseable_window_pauses (c : SveltosCluster) (w : ActiveWindow) (err : error)
  (now : Time)
  (Hfrom : cron_ParseStandard (From w) = Err err)
  (Hw : Spec_ActiveWindow (Spec c) = Some w) (Hhash : hash_current c w = false) :
  handleAutomaticPauseUnPause c now = forget c <| Spec; Paused := true |>.
Proof.
  rewrite (handle_changed w c now Hw Hhash).
  unfold recalculateWindow, recalculateNextUnpause, getNextScheduleTime. cbn.
  by rewrite Hfrom.
Qed.

(** C31: [getNextScheduleTime] returns the next activation after [now], and does
    so exactly when at most 100 activations lie between the last run and [now]. *)
Theorem getNextScheduleTime_next_activation (schedule : string) (sched : Schedule)
  (loc : Location) (last now t : Time)
  (Hparse : cron_ParseStandard schedule = Ok sched) :
  getNextScheduleTime schedule (Some (loc, last)) now = Ok t ↔
  (∃ j, (j ≤ 100)%nat ∧ now ≤ activation sched loc (S j) last) ∧
  t = Schedule_Next sched UTC now.
Proof. by apply getNextScheduleTime_Ok. Qed.

(** ** Many calls *)

(** For a window first seen while closed, over any series of calls at most [gap]
    apart, Paused is the negation of "the window is open" at each of them, provided
    the two schedules take turns and the time between windows is longer than
    [gap]. *)
Lemma polled_paused (c : SveltosCluster) (w : ActiveWindow)
  (sf st : Schedule) (gap : Duration) (t0 : Time) (ts : list Time)
  (Hfrom : cron_ParseStandard (From w) = Ok sf) (Hto : cron_ParseStandard (To w) = Ok st)
  (Hok : schedules_ok sf st) (Hlong : closed_long sf st gap)
  (Hw : Spec_ActiveWindow (Spec c) = Some w) (Hhash : hash_current c w = false)
  (Hff : few_missed sf Local (CreationTimestamp (Meta c)) t0)
  (Hft : few_missed st Local (CreationTimestamp (Meta c)) t0)
  (Hclosed : Schedule_Next sf UTC t0 < Schedule_Next st UTC t0)
  (Hpolled : polled sf st gap t0 ts) :
  pollPaused c (t0 :: ts) = (λ t, negb (active sf st t)) <$> (t0 :: ts).
Proof.
  cbn. rewrite (handle_first w sf st Hfrom Hto c t0 Hw Hhash Hff Hft). cbn.
  f_equal; [unfold active, nextFrom, nextTo; by rewrite (proj2 (Z.ltb_ge _ _)) by lia|].
  apply (tracking_run w sf st Hfrom Hto gap Hok Hlong ts _ t0 t0); [|done].
  split; [by apply holds_window_with_window|done|].
  apply (proj1 (ok_to _ _ Hok t0)).
Qed.

(** C35: a window first seen while open (a new cluster, or a changed window,
    reconciled between From and To) never unpauses the cluster: the stored pause
    then precedes the stored unpause, every later recalculation preserves that,
    and the cluster is found paused at every reconciliation, those inside its
    windows included. *)
Theorem window_seen_open_never_unpauses (c : SveltosCluster) (w : ActiveWindow)
  (sf st : Schedule) (gap : Duration) (t0 : Time) (ts : list Time)
  (Hfrom : cron_ParseStandard (From w) = Ok sf) (Hto : cron_ParseStandard (To w) = Ok st)
  (Hok : schedules_ok sf st) (Hlong : open_long sf st gap)
  (Hw : Spec_ActiveWindow (Spec c) = Some w) (Hhash : hash_current c w = false)
  (Hff : few_missed sf Local (CreationTimestamp (Meta c)) t0)
  (Hft : few_missed st Local (CreationTimestamp (Meta c)) t0)
  (Hopen : active sf st t0 = true)
  (Hpolled : polled sf st gap t0 ts) :
  pollPaused c (t0 :: ts) = (λ _, true) <$> (t0 :: ts).
Proof.
  apply Z.ltb_lt in Hopen.
  cbn. rewrite (handle_first w sf st Hfrom Hto c t0 Hw Hhash Hff Hft). cbn. f_equal.
  apply (inverted_run w sf st Hfrom Hto gap Hok Hlong ts _ t0 t0); [|done].
  split; [by apply holds_window_with_window|done|].
  apply (proj1 (ok_from _ _ Hok t0)).
Qed.

(** What an exhausted count leaves behind, and that it does so again. *)
Lemma too_many_missed_step (c : SveltosCluster) (w : ActiveWindow) (sf : Schedule) (t : Time) :
  cron_ParseStandard (From w) = Ok sf →
  Spec_ActiveWindow (Spec c) = Some w → hash_current c w = false →
  ¬ few_missed sf Local (CreationTimestamp (Meta c)) t →
  handleAutomaticPauseUnPause c t = forget c <| Spec; Paused := true |>.
Proof.
  intros Hfrom Hw Hhash Hmany. rewrite (handle_changed w c t Hw Hhash).
  unfold recalculateWindow, recalculateNextUnpause. cbn.
  destruct (getNextScheduleTime _ _ _) as [u|e] eqn:Hget; [|done].
  by apply (getNextScheduleTime_Ok _ _ _ _ _ _ Hfrom) in Hget as [? _].
Qed.

(** C36: a cluster with more than 100 activations of From between its creation
    and the moment it gets a window (or its window changes) is paused for good:
    the count starts from the creation time at every call, so no later call
    computes the window either. *)
Theorem old_cluster_never_gets_its_window (c : SveltosCluster) (w : ActiveWindow)
  (sf : Schedule) (t0 : Time) (ts : list Time)
  (Hfrom : cron_ParseStandard (From w) = Ok sf)
  (Hw : Spec_ActiveWindow (Spec c) = Some w) (Hhash : hash_current c w = false)
  (Hmany : ¬ few_missed sf Local (CreationTimestamp (Meta c)) t0)
  (Hlater : Forall (λ t, t0 ≤ t) ts) :
  pollPaused c ts = (λ _, true) <$> ts ∧
  NextUnpause (Status (foldl handleAutomaticPauseUnPause c (t0 :: ts))) = None.
Proof.
  assert (Hstep : ∀ c t, Spec_ActiveWindow (Spec c) = Some w → hash_current c w = false →
    ¬ few_missed sf Local (CreationTimestamp (Meta c)) t0 → t0 ≤ t →
    handleAutomaticPauseUnPause c t = forget c <| Spec; Paused := true |>).
  { intros c' t Hw' Hh' Hm' Ht. apply (too_many_missed_step c' w sf); [done..|].
    intros Hfew. by apply Hm', (few_missed_mono _ _ _ _ t). }
  cbn. rewrite (Hstep c t0) by done. split.
  - clear Hstep. revert c Hw Hhash Hmany. induction Hlater as [|t ts Ht _ IH]; [done|].
    intros c Hw Hhash Hmany. cbn.
    rewrite (too_many_missed_step c w sf); [|done..|].
    + cbn. f_equal. by apply IH.
    + intros Hfew. by apply Hmany, (few_missed_mono _ _ _ _ t).
  - assert (Hinv : ∀ c, Spec_ActiveWindow (Spec c) = Some w → hash_current c w = false →
      ¬ few_missed sf Local (CreationTimestamp (Meta c)) t0 → NextUnpause (Status c) = None →
      NextUnpause (Status (foldl handleAutomaticPauseUnPause c ts)) = None).
    { induction Hlater as [|t ts Ht _ IH]; [done|].
      intros c' Hw' Hh' Hm' Hn'. cbn. rewrite (Hstep c' t) by done. by apply IH. }
    by apply Hinv.
Qed.

(** ** The hash does not separate the two expressions *)

Lemma hash_current_concat (c : SveltosCluster) (w1 w2 : ActiveWindow) :
  From w1 +:+ To w1 = From w2 +:+ To w2 → hash_current c w1 = hash_current c w2.
Proof. unfold hash_current, calculateActiveWindowHash. by intros ->. Qed.

(** C37: the hash is taken of From and To run together, so replacing a window by
    another one with the same concatenation is not noticed: until the old window
    has passed, the times of the old window keep deciding whether the cluster is
    paused. *)
Theorem window_change_unnoticed (c : SveltosCluster) (w1 w2 : ActiveWindow) (u p now : Time)
  (Hconcat : From w1 +:+ To w1 = From w2 +:+ To w2)
  (Hhash : hash_current c w1 = true)
  (Hu : NextUnpause (Status c) = Some u) (Hp : NextPause (Status c) = Some p)
  (Hup : u < p) (Hnow : now < p ∧ now ≠ u) :
  handleAutomaticPauseUnPause (c <| Spec; Spec_ActiveWindow := Some w2 |>) now =
  c <| Spec; Spec_ActiveWindow := Some w2 |> <| Spec; Paused := (now <? u) |>.
Proof.
  set (c' := c <| Spec; Spec_ActiveWindow := Some w2 |>).
  assert (Hhash' : hash_current c' w2 = true).
  { by rewrite <-(hash_current_concat c' w1 w2 Hconcat). }
  rewrite (handle_known w2 c' u p now eq_refl Hhash' Hu Hp).
  destruct (Z.ltb_spec now u); time_goal; done.
Qed.

End Spec.

(** ** Instances *)

Lemma no_window_forgets_times_witness :
  handleAutomaticPauseUnPause (H := SimCron.cron) zero_SveltosCluster 0 =
  forget zero_SveltosCluster.
Proof. by apply (no_window_forgets_times (H := SimCron.cron)). Defined.

(** Missing no activation, over [SimCron]. *)
Lemma sim_few_missed (s : SimCron.periodic) (last now : Time) :
  now ≤ SimCron.next s last → few_missed (H := SimCron.cron) s Local last now.
Proof. apply (few_missed_next (H := SimCron.cron)). Qed.

Lemma night_hash_not_current : hash_current night_cluster SimCron.night = false.
Proof. vm_compute. reflexivity. Qed.

Lemma changed_window_is_recomputed_witness :
  NextPause (Status (handleAutomaticPauseUnPause (H := SimCron.cron) night_cluster
                       (at_day 100 12 30))) = Some (at_day 101 7 0).
Proof.
  rewrite (changed_window_is_recomputed (H := SimCron.cron) night_cluster SimCron.night
    SimCron.s20 SimCron.s7 (at_day 100 12 30) eq_refl eq_refl eq_refl
    night_hash_not_current); [reflexivity|apply sim_few_missed; sim_time..].
Defined.

Lemma unparseable_window_pauses_witness :
  let c := night_cluster <| Spec; Spec_ActiveWindow := Some (mkActiveWindow "x" "y") |> in
  Paused (Spec (handleAutomaticPauseUnPause (H := SimCron.cron) c 0)) = true.
Proof.
  intros c.
  rewrite (unparseable_window_pauses (H := SimCron.cron) c (mkActiveWindow "x" "y")
    (errors_New "unsupported schedule") 0 eq_refl eq_refl); [reflexivity|].
  vm_compute. reflexivity.
Defined.

Lemma getNextScheduleTime_next_activation_witness :
  getNextScheduleTime (H := SimCron.cron) "* * * * *" (Some (Local, at_day 100 12 0))
    (at_day 100 13 0) = Ok (at_day 100 13 1).
Proof.
  apply (getNextScheduleTime_next_activation (H := SimCron.cron) "* * * * *"
    (SimCron.mkPeriodic Minute 0) Local (at_day 100 12 0) (at_day 100 13 0)
    (at_day 100 13 1) eq_refl).
  split; [exists 60%nat; vm_compute; split; [lia|congruence]|reflexivity].
Defined.

(** Reconciliations every eight hours from day 100 at 12:30; those at 20:30 and
    04:30 fall in the window. *)
Definition eight_hourly (t0 : Time) (n : nat) : list Time :=
  (λ i, t0 + Z.of_nat (S i) * (8 * Hour)) <$> seq 0 n.

(** Decides [polled] for literal times. *)
Ltac sim_polled :=
  cbn [polled eight_hourly fmap list_fmap seq];
  repeat match goal with
  | |- _ ∧ _ => split
  | |- True => exact I
  | |- ∀ s, _ ≠ _ => intros s; apply SimCron.next_never
  end; sim_time.

(** First reconciled on day 100 at 22:30, inside the window; the reconciliation
    of day 101 at 22:30 is inside the next window. *)
Lemma window_seen_open_never_unpauses_witness :
  active (H := SimCron.cron) SimCron.s20 SimCron.s7 (at_day 101 22 30) = true ∧
  pollPaused (H := SimCron.cron) night_cluster
    [at_day 100 22 30; at_day 101 6 30; at_day 101 14 30; at_day 101 22 30] =
  [true; true; true; true].
Proof.
  split; [vm_compute; reflexivity|].
  rewrite (window_seen_open_never_unpauses (H := SimCron.cron) night_cluster SimCron.night
    SimCron.s20 SimCron.s7 (9 * Hour) (at_day 100 22 30)
    [at_day 101 6 30; at_day 101 14 30; at_day 101 22 30]
    eq_refl eq_refl SimCron.night_ok SimCron.night_open_long eq_refl
    night_hash_not_current);
    [reflexivity|exists 1%nat|apply sim_few_missed; sim_time|vm_compute; reflexivity|
     sim_polled].
  vm_compute. split; [lia|congruence].
Defined.

(** A cluster of 150 days gets its first window. *)
Lemma night_too_many_missed :
  ¬ few_missed (H := SimCron.cron) SimCron.s20 Local
      (CreationTimestamp (Meta night_cluster)) (at_day 250 12 30).
Proof.
  intros (j & Hj & Hle). rewrite SimCron.activation_next in Hle by (vm_compute; reflexivity).
  cbn [night_cluster] in Hle. unfold maxNumberOfFailures in Hj.
  assert (Hnext : SimCron.next SimCron.s20 (CreationTimestamp (Meta night_cluster)) =
                  at_day 100 20 0) by (vm_compute; reflexivity).
  rewrite Hnext in Hle. cbn [SimCron.period SimCron.s20] in Hle.
  unfold at_day, Hour, Minute in Hle. lia.
Qed.

Lemma old_cluster_never_gets_its_window_witness :
  pollPaused (H := SimCron.cron) night_cluster [at_day 250 12 30; at_day 250 22 30] =
  [true; true].
Proof.
  apply (old_cluster_never_gets_its_window (H := SimCron.cron) night_cluster SimCron.night
    SimCron.s20 (at_day 250 12 30) [at_day 250 12 30; at_day 250 22 30]
    eq_refl eq_refl night_hash_not_current night_too_many_missed).
  repeat constructor; sim_time.
Defined.

(** ["*/1" ++ "15 11"] against ["*/11" ++ "5 11"]. *)
Lemma window_change_unnoticed_witness :
  let w1 := mkActiveWindow "0 10 * * */1" "15 11 * * *" in
  let w2 := mkActiveWindow "0 10 * * */11" "5 11 * * *" in
  let c := zero_SveltosCluster
    <| Status; NextUnpause := Some (at_day 100 10 0) |>
    <| Status; NextPause := Some (at_day 100 11 15) |>
    <| Status; ActiveWindowHash := calculateActiveWindowHash (Some w1) |> in
  let c' := c <| Spec; Spec_ActiveWindow := Some w2 |> in
  NextPause (Status (handleAutomaticPauseUnPause (H := SimCron.cron) c' (at_day 100 10 30))) =
  Some (at_day 100 11 15).
Proof.
  intros w1 w2 c c'. unfold c'.
  rewrite (window_change_unnoticed (H := SimCron.cron) c w1 w2 (at_day 100 10 0)
    (at_day 100 11 15) (at_day 100 10 30) eq_refl); [reflexivity| | | |sim_time|sim_time].
  - vm_compute. reflexivity.
  - reflexivity.
  - reflexivity.
Defined.
