(* ===== verification/ReconcilerSpec.v ===== *)
(** * The SveltosCluster reconciler: properties

    What a reconciliation may change, when a cluster is released, how Ready, the
    failure message and the metrics follow from what it found, and what is
    persisted. *)

From S2P Require Import Prelude GoTime Float64 GoStrings Api Platform Recon Sim.
From S2P Require Import Kubeconfig TokenTiming TokenRenewal Metrics Connection ClusterChecks.
From S2P Require Import License AutoPause SimCron Reconciler.

(** The parts of a cluster that belong to others: its identity, its Spec but for
    Paused, KubeconfigKeyName and the renewal interval, and what its agent
    reports. *)
Definition identity (c : SveltosCluster) :=
  (Namespace (Meta c), Name (Meta c), UID (Meta c), CreationTimestamp (Meta c),
   DeletionTimestamp (Meta c)).

Definition spec_but_owned (c : SveltosCluster) : SveltosClusterSpec :=
  Spec (set_interval 0 c) <| Paused := false |> <| KubeconfigKeyName := "" |>.

Definition fixed (c : SveltosCluster) :=
  (identity c, spec_but_owned c, AgentLastReportTime (Status c)).

Lemma keeps_through {W A X Y} `{Gauge} (P : Recon W → X) (Q : Recon W → Y) (g : X → Y)
    (m : St (Recon W) A) :
  keeps P m → (∀ s, Q s = g (P s)) → keeps Q m.
Proof. intros Hm Hg s. by rewrite !Hg, Hm. Qed.

Section ReconcilerSpec.
Context {W : Type} `{Gauge, Clock W, ClientSet W, ManagementClient W, ClusterProxy W,
  PullModeTransport W, Licenses W, Yaml, Semver, Names, Finalizer, Cron}.
Context `{!Dynamic W, !CEL W, !Lua W}.

(** ** What the steps leave alone *)

Definition P_fixed (s : Recon W) := fixed (cluster s).
Definition P_finalizers (s : Recon W) := Finalizers (Meta (cluster s)).

Lemma fixed_but_renewal c : fixed c = fixed (but_renewal c).
Proof.
  destruct c as [m [? ? ? opt ? ? ? ? ? ?] st]. destruct opt as [[]|]; reflexivity.
Qed.

Lemma P_fixed_frame : ∃ g, ∀ s, P_fixed s = g (frame s).
Proof. exists (λ f, fixed (f.1.1)). intros s. apply fixed_but_renewal. Qed.

Lemma P_finalizers_frame : ∃ g, ∀ s, P_finalizers s = g (frame s).
Proof. by exists (λ f, Finalizers (Meta (f.1.1))). Qed.

(** An observation of the renewal's frame, and of nothing a window, a status or a
    label changes. *)
Record steady {X} (P : Recon W → X) : Prop := {
  steady_frame : ∃ g, ∀ s, P s = g (frame s);
  steady_world s w : P (s <| world := w |>) = P s;
  steady_metrics s m : P (s <| metrics := m |>) = P s;
  steady_events s e : P (s <| events := e |>) = P s;
  steady_annotations s a : P (s <| cluster := cluster s <| Meta; Annotations := a |> |>) = P s;
  steady_failure s msg : P (s <| cluster := cluster s <| Status; FailureMessage := msg |> |>) = P s;
  steady_ready s : P (s <| cluster := cluster s <| Status; Ready := true |> |>) = P s;
  steady_version s v : P (s <| cluster := cluster s <| Status; Status_Version := v |> |>) = P s;
  steady_label s k v : P (s <| cluster := SetLabel k v (cluster s) |>) = P s;
  steady_connection s : P (s <| cluster := connection_step (cluster s) |>) = P s
}.

Lemma P_fixed_steady : steady P_fixed.
Proof.
  split; try done; [apply P_fixed_frame|]. intros [c m e w]. unfold P_fixed. cbn.
  unfold connection_step. repeat case_match; done.
Qed.

Lemma P_finalizers_steady : steady P_finalizers.
Proof.
  split; try done; [apply P_finalizers_frame|]. intros [c m e w]. unfold P_finalizers. cbn.
  unfold connection_step. repeat case_match; done.
Qed.

Section Steady.
Context {X : Type} (P : Recon W → X) (HP : steady P).

Ltac steady_modify :=
  lazymatch goal with
  | |- keeps _ (outside _) => apply keeps_outside, (steady_world _ HP)
  | |- keeps _ (modify _) =>
    apply keeps_modify; intros s;
    first [apply (steady_failure _ HP) | apply (steady_ready _ HP) | apply (steady_version _ HP)
          | apply (steady_label _ HP) | apply (steady_connection _ HP)
          | apply (steady_metrics _ HP) | apply (steady_events _ HP)
          | apply (steady_annotations _ HP)]
  end.
Ltac steady_tac := repeat first [steady_modify | keeps_step].

Lemma frame_keeps {A} (m : St (Recon W) A) : keeps frame m → keeps P m.
Proof. destruct (steady_frame _ HP) as [g Hg]. intros Hm. by apply (keeps_through frame P g). Qed.

Lemma updateConnectionStatus_steady r : keeps P (updateConnectionStatus r).
Proof. unfold updateConnectionStatus, recordConnectionTransition, recordEventf. steady_tac. Qed.

Lemma report_connection_steady : keeps P report_connection.
Proof. unfold report_connection, update_cluster_metrics. steady_tac. Qed.

Lemma renew_if_due_steady r renew : keeps P renew → keeps P (renew_if_due r renew).
Proof. intros Hr. unfold renew_if_due. steady_tac. Qed.

Lemma check_cluster_steady config v : keeps P (check_cluster config v).
Proof. unfold check_cluster, record_version, update_cluster_metrics. steady_tac. Qed.

#[local] Hint Resolve updateConnectionStatus_steady report_connection_steady
  renew_if_due_steady check_cluster_steady : recon_keeps.

Lemma push_steady r : keeps P (reconcilePushModeCluster r).
Proof.
  pose proof (λ config, frame_keeps _ (handleTokenRequestRenewal_keeps config)).
  unfold reconcilePushModeCluster. steady_tac.
Qed.

Lemma pull_steady r : keeps P (reconcilePullModeCluster r).
Proof.
  pose proof (frame_keeps _ (handlePullModeTokenRequestRenewal_keeps r)).
  pose proof (updateLicenseAnnotations_keeps P r (steady_world _ HP) (steady_annotations _ HP)).
  pose proof (terminate_keeps P (steady_world _ HP)).
  unfold reconcilePullModeCluster, check_heartbeat, update_cluster_metrics. steady_tac.
Qed.

End Steady.

(** ** A reconciliation of a live cluster *)

Lemma reconcileNormal_steps r (s : Recon W) :
  ∃ s1 now s2,
    now = (time_Now (world s)).1 ∧
    s1 = snd (outside time_Now (s <| cluster := update_finalizer (cluster s) |>)) ∧
    s2 = snd (if PullMode (Spec (cluster s)) then reconcilePullModeCluster r s1
              else reconcilePushModeCluster r s1) ∧
    (reconcileNormal r s).2 = s2 <| cluster := handleAutomaticPauseUnPause (cluster s2) now |>.
Proof.
  unfold reconcileNormal. unfold update_cluster at 1. unfold get_cluster.
  unfold mbind, St_bind, modify, gets, outside. cbn.
  destruct (time_Now (world s)) as [now w]. cbn.
  destruct (PullMode (Spec (cluster s))); cbn;
    (eexists _, now, _; split_and!; [reflexivity|reflexivity|reflexivity|]); cbn;
    by match goal with |- context [let '(_, _) := ?x in _] => destruct x as [[] s2] end.
Qed.

Lemma same_but_window_fixed c c' :
  same_but_window c c' → fixed c' = fixed c ∧ Finalizers (Meta c') = Finalizers (Meta c).
Proof. intros (b & u & p & h & ->). done. Qed.

Lemma reconcileNormal_steady {X} (P : SveltosCluster → X) r (s : Recon W) :
  steady (λ s, P (cluster s)) → (∀ c c', same_but_window c c' → P c' = P c) →
  P (cluster (reconcileNormal r s).2) = P (update_finalizer (cluster s)).
Proof.
  intros HP Hwin. destruct (reconcileNormal_steps r s) as (s1 & now & s2 & _ & Hs1 & Hs2 & ->).
  cbn [cluster update]. rewrite (Hwin _ _ (handle_frame _ now)).
  transitivity (P (cluster s1)).
  - subst s2. destruct (PullMode _); [apply (pull_steady _ HP)|apply (push_steady _ HP)].
  - subst s1. unfold outside. by destruct (time_Now _).
Qed.

Lemma reconcileNormal_fixed r (s : Recon W) :
  fixed (cluster (reconcileNormal r s).2) = fixed (cluster s).
Proof.
  rewrite (reconcileNormal_steady fixed); [done|apply P_fixed_steady|].
  intros c c' Hc. by apply same_but_window_fixed in Hc as [? _].
Qed.

(** C12: a reconciliation leaves to others what is theirs: the identity of the
    cluster, its Spec but for Paused, KubeconfigKeyName and the renewal interval,
    and the time its agent reported, in push mode and in pull mode and when the cluster
    is deleted, whatever the calls it makes return. *)
Theorem reconcile_leaves_to_others (r : SveltosClusterReconciler) (s : Recon W) :
  fixed (cluster (reconcileNormal r s).2) = fixed (cluster s) ∧
  fixed (cluster (reconcileDelete s).2) = fixed (cluster s).
Proof.
  split; [apply reconcileNormal_fixed|]. revert s. change (keeps P_fixed reconcileDelete).
  unfold reconcileDelete, evict_and_release. keeps_tac.
Qed.

Context `{!FinalizerLaws}.

(** C17: after a reconciliation of a live cluster it carries the Sveltos finalizer
    exactly when it has a cleanup grace period, whether or not it did before; the
    other finalizers are as they were. *)
Theorem finalizer_iff_grace_period (r : SveltosClusterReconciler) (s : Recon W)
  (final := Finalizers (Meta (cluster (reconcileNormal r s).2))) :
  ContainsFinalizer final SveltosClusterFinalizer =
    bool_decide (CleanupGracePeriod (Spec (cluster s)) ≠ None) ∧
  ∀ f, f ≠ SveltosClusterFinalizer →
    ContainsFinalizer final f = ContainsFinalizer (Finalizers (Meta (cluster s))) f.
Proof.
  subst final.
  rewrite (reconcileNormal_steady (λ c, Finalizers (Meta c)));
    [|apply P_finalizers_steady|intros c c' Hc; by apply same_but_window_fixed in Hc as [_ ?]].
  cbn. destruct (CleanupGracePeriod (Spec (cluster s))) as [g|]; split.
  - by rewrite Contains_Add, bool_decide_eq_true_2.
  - intros f Hf. by rewrite Contains_Add, bool_decide_eq_false_2.
  - rewrite Contains_Remove, bool_decide_eq_false_2 by tauto. done.
  - intros f Hf. by rewrite Contains_Remove, bool_decide_eq_true_2.
Qed.

(** ** Deletion *)

Context `{!GaugeLaws}.

(** The moment a deleted cluster may be released; [None] is at once. *)
Definition release_deadline (c : SveltosCluster) : option Time :=
  (λ g, Time_Add (default zero_Time (DeletionTimestamp (Meta c))) g)
    <$> CleanupGracePeriod (Spec c).

(** What a release does. *)
Record released (s s' : Recon W) (ns := Namespace (Meta (cluster s)))
    (n := Name (Meta (cluster s))) : Prop := {
  released_rows : no_rows ClusterTypeSveltos ns n (metrics s');
  released_others : same_other_rows ClusterTypeSveltos ns n (metrics s) (metrics s');
  released_cache : ∃ w, world s' = (EvictWorkloadIdentityCache ns n w).2;
  released_finalizers f :
    ContainsFinalizer (Finalizers (Meta (cluster s'))) f =
    bool_decide (SveltosClusterFinalizer ≠ f)
    && ContainsFinalizer (Finalizers (Meta (cluster s))) f
}.

Lemma evict_and_release_released (s : Recon W) (w : W) :
  let '(res, s') := evict_and_release (s <| world := w |>) in
  res = no_requeue ∧ released s s'.
Proof.
  unfold evict_and_release. run.
  destruct (EvictWorkloadIdentityCache _ _ w) as [[] w'] eqn:Hevict. cbn.
  split; [done|]. split; cbn.
  - apply delete_no_rows.
  - apply delete_same_other_rows.
  - exists w. by rewrite Hevict.
  - intros f. apply Contains_Remove.
Qed.

(** A deleted cluster that carries the finalizer is released exactly when its
    grace period is over, or when it has none: before that nothing is changed and
    another look is asked for in a minute; then its cached access and its rows in
    every gauge are dropped, and only its own finalizer is removed. *)
Lemma reconcileDelete_release (s : Recon W)
  (Hfinalizer : ContainsFinalizer (Finalizers (Meta (cluster s))) SveltosClusterFinalizer = true)
  (waiting := match release_deadline (cluster s) with
              | Some deadline => Before (time_Now (world s)).1 deadline
              | None => false
              end) :
  let '(res, s') := reconcileDelete s in
  if waiting
  then res = mkResult Minute ∧ cluster s' = cluster s ∧ metrics s' = metrics s
  else res = no_requeue ∧ released s s'.
Proof.
  subst waiting. unfold reconcileDelete, release_deadline.
  unfold mbind at 1, St_bind at 1. unfold get_cluster at 1, gets at 1. rewrite Hfinalizer.
  cbn [negb]. destruct (CleanupGracePeriod (Spec (cluster s))) as [g|]; cbn.
  - unfold mbind, St_bind, outside. destruct (time_Now (world s)) as [now w]; cbn.
    destruct (Before _ _); [done|]. apply evict_and_release_released.
  - pose proof (evict_and_release_released s (world s)) as Hrel. by destruct s.
Qed.

(** A cluster that is gone when it is reconciled, as one without the
    finalizer is once deleted, keeps its rows in every gauge: nothing else deletes
    them. *)
Lemma gone_cluster_keeps_metrics (r : SveltosClusterReconciler) (ns n : string) (s : Recon W)
  (err : error) (w : W)
  (Hgone : Get_SveltosCluster ns n (world s) = (Err err, w))
  (Hnotfound : apierrors_IsNotFound err = true) :
  (Reconcile r ns n s).1 = (no_requeue, None) ∧
  metrics (Reconcile r ns n s).2 = metrics s ∧ world (Reconcile r ns n s).2 = w.
Proof. unfold Reconcile. run. rewrite Hgone. cbn. by rewrite Hnotfound. Qed.

(** A cluster deleted without the finalizer is left alone: no cached access and no
    metric of it is dropped. *)
Lemma deleted_without_finalizer_untouched (s : Recon W)
  (Hnone : ContainsFinalizer (Finalizers (Meta (cluster s))) SveltosClusterFinalizer = false) :
  reconcileDelete s = (no_requeue, s).
Proof. unfold reconcileDelete. run. by rewrite Hnone. Qed.

End ReconcilerSpec.

(** ** Instances *)

#[local] Existing Instance SimCron.cron.

Definition sim_edge : SveltosCluster :=
  zero_SveltosCluster <| Meta; Namespace := "prod" |> <| Meta; Name := "edge" |>
    <| Spec; ConsecutiveFailureThreshold := 3 |>.

(** Deleted at time 1000, with a grace period of five minutes. *)
Definition sim_deleted : SveltosCluster :=
  sim_edge <| Meta; DeletionTimestamp := Some (Time_of_Unix 1000) |>
    <| Meta; Finalizers := ["other"; "sveltosclusterfinalizer.projectsveltos.io"] |>
    <| Spec; CleanupGracePeriod := Some (5 * Minute) |>.

Definition sim_clock_at (seconds : Z) : SimWorld :=
  sim_init <| sim_now := Time_of_Unix seconds |>.

Lemma finalizer_iff_grace_period_witness :
  ContainsFinalizer
    (Finalizers (Meta (cluster (reconcileNormal sim_r (sim_recon
       (sim_edge <| Spec; CleanupGracePeriod := Some Hour |>) sim_init)).2)))
    SveltosClusterFinalizer = true.
Proof.
  rewrite (proj1 (finalizer_iff_grace_period sim_r (sim_recon
    (sim_edge <| Spec; CleanupGracePeriod := Some Hour |>) sim_init))).
  reflexivity.
Defined.

Definition sim_metrics_edge : Metrics :=
  updateConnectionFailuresMetric "Sveltos" "prod" "edge" 2 sim_metrics.

Lemma gone_cluster_keeps_metrics_witness :
  metrics (Reconcile sim_r "prod" "edge"
    (mkRecon zero_SveltosCluster sim_metrics_edge [] sim_init)).2 = sim_metrics_edge.
Proof.
  exact (proj1 (proj2 (gone_cluster_keeps_metrics sim_r "prod" "edge"
    (mkRecon zero_SveltosCluster sim_metrics_edge [] sim_init) not_found sim_init
    eq_refl eq_refl))).
Defined.
