(* ===== verification/WellFormed.v ===== *)
(** * Well-formed Statuses

    What a reader of a SveltosCluster's Status may rely on, whatever became of the
    cluster: an invariant that every reconciliation preserves, whatever the calls it
    makes return. *)

From S2P Require Import Prelude GoTime Float64 Sha256 GoStrings Rfc3339 Api Platform Recon Sim.
From S2P Require Import Kubeconfig TokenTiming TokenRenewal Metrics Connection ClusterChecks.
From S2P Require Import License AutoPause SimCron Reconciler ReconcilerSpec.

(** ** The invariant *)

(** The last renewal is not recorded, or recorded in RFC 3339. *)
Definition renewal_ok (c : SveltosCluster) : Prop :=
  LastReconciledTokenRequestAt (Status c) = "" ∨
  is_Some (Parse (LastReconciledTokenRequestAt (Status c))).

(** Failures are counted from zero, at most [n] of them, and none is needed for a
    connection that is not down. *)
Record connection_ok (n : Z) (c : SveltosCluster) : Prop := {
  failures_counted : 0 ≤ ConnectionFailures (Status c) ≤ n;
  down_after_failure :
    ConnectionStatus (Status c) = ConnectionDown → 0 < ConnectionFailures (Status c)
}.

(** The hash is a SHA-256 digest; a next pause only stands beside a next unpause and
    a hash of the window both belong to. *)
Record window_ok (c : SveltosCluster) : Prop := {
  hash_digest h : ActiveWindowHash (Status c) = Some h → String.length h = 32%nat;
  pause_with_unpause : NextPause (Status c) ≠ None →
    NextUnpause (Status c) ≠ None ∧ ActiveWindowHash (Status c) ≠ None
}.

Record well_formed (n : Z) (c : SveltosCluster) : Prop := {
  wf_renewal : renewal_ok c;
  wf_connection : connection_ok n c;
  wf_window : window_ok c
}.

Lemma connection_ok_mono n n' c : n ≤ n' → connection_ok n c → connection_ok n' c.
Proof. intros Hle [Hf Hd]. split; [lia|done]. Qed.

(** ** The active window *)

#[local] Arguments calculateActiveWindowHash : simpl never.

Lemma window_hash_digest w h :
  calculateActiveWindowHash w = Some h → String.length h = 32%nat.
Proof. destruct w as [w|]; [|done]. intros Heq. injection Heq as <-. apply Sha256.length_Sum. Qed.

Section Window.
Context `{Cron}.

Lemma window_ok_hash c w :
  window_ok c → window_ok (c <| Status; ActiveWindowHash := calculateActiveWindowHash (Some w) |>).
Proof.
  intros [Hh Hp]. split; cbn.
  - apply window_hash_digest.
  - intros Hpause. split; [by apply Hp|done].
Qed.

Lemma recalculateWindow_ok c w now :
  window_ok c → window_ok (recalculateWindow c w (calculateActiveWindowHash (Some w)) now).
Proof.
  intros Hc. unfold recalculateWindow, recalculateNextUnpause.
  assert (Hpause : ∀ c', window_ok c' → NextUnpause (Status c') ≠ None → window_ok
    (match recalculateNextPause c' w now with
     | (c2, Some _) => c2
     | (c2, None) =>
       match NextUnpause (Status c2), NextPause (Status c2) with
       | Some _, Some _ =>
         c2 <| Status; ActiveWindowHash := calculateActiveWindowHash (Some w) |>
       | _, _ => c2
       end
     end)).
  { intros c' Hc' Hu. unfold recalculateNextPause.
    destruct (NextUnpause (Status c')) as [u|] eqn:Heq; [|done].
    destruct (is_due _ _).
    - destruct (getNextScheduleTime _ _ _) as [p|]; cbn; [|done]. rewrite Heq.
      split; cbn; [apply window_hash_digest|by rewrite Heq].
    - rewrite Heq. destruct (NextPause (Status c')); [by apply window_ok_hash|done]. }
  destruct (is_due _ _) eqn:Hdue.
  - destruct (getNextScheduleTime _ _ _) as [u|]; [|done]. apply Hpause; [|done].
    destruct Hc as [Hh Hp]. split; [done|]. cbn. intros Hn. split; [done|by apply Hp].
  - apply Hpause; [done|]. by destruct (NextUnpause (Status c)).
Qed.

Lemma handle_window_ok c now : window_ok c → window_ok (handleAutomaticPauseUnPause c now).
Proof.
  intros Hc. unfold handleAutomaticPauseUnPause.
  assert (Hnone : window_ok (c <| Status; NextUnpause := None |> <| Status; NextPause := None |>))
    by (destruct Hc; by split).
  assert (Hpaused : ∀ b c', window_ok c' → window_ok (c' <| Spec; Paused := b |>))
    by (intros b c' []; by split).
  destruct (Spec_ActiveWindow (Spec c)) as [w|]; [|done]. cbv zeta.
  set (c0 := if negb _ then _ else c).
  assert (Hc0 : window_ok c0) by (subst c0; by case_match).
  repeat case_match; auto using recalculateWindow_ok.
Qed.

End Window.

(** ** A reconciliation *)

Section WellFormed.
Context {W : Type} `{Gauge, Clock W, ClientSet W, ManagementClient W, ClusterProxy W,
  PullModeTransport W, Licenses W, Yaml, Semver, Names, Finalizer, Cron}.
Context `{!Dynamic W, !CEL W, !Lua W}.

(** The clock shows times that RFC 3339 can tell. *)
Context (Hclock : ∀ w : W, recordable (time_Now w).1).

(** [takes P Q m]: from a cluster in [P], [m] leaves one in [Q]. *)
Definition takes {A} (P Q : SveltosCluster → Prop) (m : St (Recon W) A) : Prop :=
  ∀ s, P (cluster s) → Q (cluster (m s).2).

Lemma takes_bind {A B} (P Q : SveltosCluster → Prop) (m : St (Recon W) A)
    (f : A → St (Recon W) B) :
  takes P P m → (∀ a, takes P Q (f a)) → takes P Q (m ≫= f).
Proof.
  intros Hm Hf s Hs. specialize (Hm s Hs). unfold mbind, St_bind.
  destruct (m s) as [a s']. by apply Hf.
Qed.

Lemma takes_then {A} (P Q : SveltosCluster → Prop) (m : St (Recon W) ()) (k : St (Recon W) A) :
  takes P Q m → takes Q Q k → takes P Q (m;; k).
Proof.
  intros Hm Hk s Hs. specialize (Hm s Hs). unfold mbind, St_bind.
  destruct (m s) as [[] s']. by apply Hk.
Qed.

Lemma takes_ret {A} (P : SveltosCluster → Prop) (a : A) : takes P P (mret a).
Proof. by intros s. Qed.

Lemma takes_outside {A} (P : SveltosCluster → Prop) (m : St W A) : takes P P (outside m).
Proof. intros s Hs. unfold outside. by destruct (m (world s)). Qed.

Lemma takes_update (P : SveltosCluster → Prop) f :
  (∀ c, P c → P (f c)) → takes P P (update_cluster f).
Proof. intros Hf s Hs. by apply Hf. Qed.

Lemma takes_same {A} (P : SveltosCluster → Prop) (m : St (Recon W) A) :
  keeps cluster m → takes P P m.
Proof. intros Hm s Hs. by rewrite (Hm s). Qed.

(** The part of a Status that renewals and connections change. *)
Definition progress_ok (n : Z) (c : SveltosCluster) : Prop := renewal_ok c ∧ connection_ok n c.

(** An update of other parts. *)
Lemma progress_ok_other n c c' :
  LastReconciledTokenRequestAt (Status c') = LastReconciledTokenRequestAt (Status c) →
  ConnectionFailures (Status c') = ConnectionFailures (Status c) →
  ConnectionStatus (Status c') = ConnectionStatus (Status c) →
  progress_ok n c → progress_ok n c'.
Proof.
  intros Hl Hf Hs [Hr [Hc Hd]]. unfold progress_ok, renewal_ok. rewrite Hl.
  split; [done|]. by split; rewrite ?Hs, Hf.
Qed.

Lemma takes_record_renewal n : takes (progress_ok n) (progress_ok n) record_renewal.
Proof.
  intros s [_ Hc]. unfold record_renewal. run. destruct (Hclock (world s)) as [Hzone Hyear].
  destruct (time_Now (world s)) as [now w]. cbn in Hzone, Hyear |- *.
  split; [|by destruct Hc]. right.
  change (LastReconciledTokenRequestAt _) with (Format (Local_offset now) now).
  by rewrite Parse_Format.
Qed.

Lemma takes_connection r n :
  n + 1 < 2 ^ 63 → takes (progress_ok n) (progress_ok (n + 1)) (updateConnectionStatus r).
Proof.
  intros Hn s [Hr [Hf Hd]]. rewrite updateConnectionStatus_cluster.
  unfold connection_step, progress_ok, renewal_ok. case_match; cbn.
  - rewrite wrap64_id by (unfold in_int64, int64_min, int64_max; lia).
    case_match; (split; [done|split; cbn; lia]).
  - split; [done|]. split; cbn; [lia|done].
Qed.

(** [takes_tac] walks through a function of the program. *)
Ltac takes_step :=
  first
  [ solve [eauto with takes nocore]
  | progress unfold set_failure, update_metrics, get_cluster
  | lazymatch goal with
    | |- takes _ _ (mret _) => apply takes_ret
    | |- takes _ _ (outside _) => apply takes_outside
    | |- takes ?P ?P (mbind _ _) => apply takes_bind; [|intros ?]
    | |- takes _ _ (match ?x with _ => _ end) => destruct x
    | |- takes _ _ (update_cluster _) => apply takes_update; intros ?; by apply progress_ok_other
    | |- takes _ _ _ => apply takes_same; solve [done]
    end ].
Ltac takes_tac := repeat takes_step.

Create HintDb takes.
#[local] Hint Resolve takes_record_renewal : takes.

Lemma progress_ok_key n key c : progress_ok n c → progress_ok n (set_KubeconfigKeyName key c).
Proof. unfold set_KubeconfigKeyName. case_decide; [done|]. by apply progress_ok_other. Qed.

Lemma takes_context n config exp ns name :
  takes (progress_ok n) (progress_ok n) (renewContext config exp ns name).
Proof.
  unfold renewContext. takes_tac. apply takes_update. intros c. apply progress_ok_key.
Qed.
#[local] Hint Resolve takes_context : takes.

Lemma takes_contexts n config exp contexts ns name :
  takes (progress_ok n) (progress_ok n) (renewContexts config exp ns name contexts).
Proof. revert ns name. induction contexts; intros ns name; cbn; takes_tac; done. Qed.
#[local] Hint Resolve takes_contexts : takes.

Lemma takes_push_renewal n config :
  takes (progress_ok n) (progress_ok n) (handleTokenRequestRenewal config).
Proof. unfold handleTokenRequestRenewal. takes_tac. Qed.

Lemma takes_pull_renewal n r :
  takes (progress_ok n) (progress_ok n) (handlePullModeTokenRequestRenewal r).
Proof. unfold handlePullModeTokenRequestRenewal. takes_tac. Qed.
#[local] Hint Resolve takes_push_renewal takes_pull_renewal : takes.

Lemma takes_push r n :
  n + 1 < 2 ^ 63 → takes (progress_ok n) (progress_ok (n + 1)) (reconcilePushModeCluster r).
Proof.
  intros Hn. pose proof (takes_connection r n Hn).
  assert (takes (progress_ok (n + 1)) (progress_ok (n + 1)) report_connection)
    by (unfold report_connection, update_cluster_metrics; takes_tac).
  unfold reconcilePushModeCluster, renew_if_due, check_cluster, record_version,
    update_cluster_metrics.
  apply takes_bind; [takes_tac|intros c]. apply takes_bind; [takes_tac|intros [config|err]].
  - apply takes_bind; [takes_tac|intros []].
    apply takes_bind; [takes_tac|intros version]. apply takes_bind; [takes_tac|intros []].
    by apply takes_then.
  - apply takes_bind; [takes_tac|intros []]. done.
Qed.

Lemma takes_pull r n :
  n + 1 < 2 ^ 63 → takes (progress_ok n) (progress_ok (n + 1)) (reconcilePullModeCluster r).
Proof.
  intros Hn. pose proof (takes_connection r n Hn).
  assert (takes (progress_ok (n + 1)) (progress_ok (n + 1)) report_connection)
    by (unfold report_connection, update_cluster_metrics; takes_tac).
  assert (Hmono : ∀ {A} (a : A), takes (progress_ok n) (progress_ok (n + 1)) (mret a)).
  { intros A a s [Hr Hc]. split; [done|]. apply (connection_ok_mono n); [lia|done]. }
  unfold reconcilePullModeCluster, updateLicenseAnnotations, renew_if_due,
    terminatePullModeTokenRenewalTrackingIfProvisioned, check_heartbeat, update_cluster_metrics.
  do 4 (apply takes_bind; [takes_tac|intros []]).
  apply takes_bind; [takes_tac|intros c]. destruct (negb _); [apply Hmono|].
  destruct (AgentLastReportTime _); [|apply Hmono]. apply takes_bind; [takes_tac|intros age].
  do 2 (apply takes_bind; [takes_tac|intros []]). by apply takes_then.
Qed.

(** What only the active window changes. *)
Definition P_window (s : Recon W) :=
  (NextPause (Status (cluster s)), NextUnpause (Status (cluster s)),
   ActiveWindowHash (Status (cluster s))).

Lemma P_window_steady : steady P_window.
Proof.
  split; try done.
  - by exists (λ f, (NextPause (Status f.1.1), NextUnpause (Status f.1.1),
      ActiveWindowHash (Status f.1.1))).
  - intros [c m e w]. unfold P_window. cbn. unfold connection_step. repeat case_match; done.
Qed.

Lemma window_ok_same (s s' : Recon W) :
  P_window s' = P_window s → window_ok (cluster s) → window_ok (cluster s').
Proof. intros [= Hp Hu Hh] [Hd Hn]. split; rewrite ?Hp, ?Hu, Hh; done. Qed.

(** A reconciliation of a live cluster counts one failure at most. *)
Lemma normal_well_formed r n (s : Recon W) :
  n + 1 < 2 ^ 63 → well_formed n (cluster s) →
  well_formed (n + 1) (cluster (reconcileNormal r s).2).
Proof.
  intros Hn [Hr Hc Hw].
  destruct (reconcileNormal_steps r s) as (s1 & now & s2 & _ & Hs1 & Hs2 & ->).
  assert (Hcluster : cluster s1 = update_finalizer (cluster s)).
  { rewrite Hs1. unfold outside. by destruct (time_Now _). }
  assert (Hp1 : progress_ok n (cluster s1)).
  { rewrite Hcluster. by apply (progress_ok_other n (cluster s)). }
  assert (Hp2 : progress_ok (n + 1) (cluster s2) ∧ P_window s2 = P_window s1).
  { rewrite Hs2. destruct (PullMode _).
    - split; [by apply takes_pull|apply (pull_steady _ P_window_steady)].
    - split; [by apply takes_push|apply (push_steady _ P_window_steady)]. }
  destruct Hp2 as [Hp2 Hsame].
  assert (Hw2 : window_ok (cluster s2)).
  { apply (window_ok_same s1); [done|]. rewrite Hcluster. by destruct Hw. }
  cbn [cluster update]. destruct (handle_frame (cluster s2) now) as (b & u & p & h & Hframe).
  pose proof (handle_window_ok (cluster s2) now Hw2) as Hw3.
  assert (Hp3 : progress_ok (n + 1) (handleAutomaticPauseUnPause (cluster s2) now)).
  { rewrite Hframe. by apply (progress_ok_other _ (cluster s2)). }
  by destruct Hp3.
Qed.

Lemma delete_well_formed n (s : Recon W) :
  well_formed n (cluster s) → well_formed n (cluster (reconcileDelete s).2).
Proof.
  intros Hs.
  assert (Hrel : ∀ s : Recon W, well_formed n (cluster s) →
    well_formed n (cluster (evict_and_release s).2)).
  { intros s0 [Hr Hc Hw]. unfold evict_and_release. run.
    destruct (EvictWorkloadIdentityCache _ _ _). cbn. split; [done|by destruct Hc|by destruct Hw]. }
  unfold reconcileDelete, mbind, St_bind, get_cluster, gets.
  destruct (negb _); [done|]. destruct (CleanupGracePeriod _); [|by apply Hrel].
  unfold outside. destruct (time_Now _). destruct (Before _ _); [done|by apply Hrel].
Qed.

End WellFormed.
