(* ===== verification/System.v ===== *)
(** * The controller and the API server

    A SveltosCluster lives in the API server, where users, agents and the controller
    change it; the controller works on copies. Here reconciliations and the changes of
    others are the steps of a transition system over the stored object, and what the
    controller guarantees is stated of every state that is reachable. *)

From stdpp Require Import relations.
From S2P Require Import Prelude GoTime Float64 GoStrings Rfc3339 Api Platform Recon Sim.
From S2P Require Import Kubeconfig TokenTiming TokenRenewal Metrics Connection ClusterChecks.
From S2P Require Import License AutoPause SimCron Reconciler ReconcilerSpec Calls WellFormed.

(** ** The stored object *)

(** An object that is being deleted is gone once it has no finalizers. *)
Definition persisted (c : SveltosCluster) : option SveltosCluster :=
  if negb (IsZero_ptr (DeletionTimestamp (Meta c))) && bool_decide (Finalizers (Meta c) = [])
  then None else Some c.

Lemma persisted_Some c c' : persisted c = Some c' → c' = c.
Proof. unfold persisted. destruct (_ && _); naive_solver. Qed.

(** What of the Status is the controller's own bookkeeping: all but Ready, the version, the
    failure message and the agent's report. *)
Definition bookkeeping (c : SveltosCluster) : SveltosClusterStatus :=
  Status c <| Ready := false |> <| Status_Version := "" |> <| FailureMessage := None |>
    <| AgentLastReportTime := None |>.

(** ** What others do to it

    They edit its metadata and Spec; they may set Ready (nothing in the controller does in
    pull mode), the version and the failure message, and report an agent's heartbeat;
    they leave the rest of the Status to the controller. They delete it, which sets the deletion timestamp as long as there are finalizers. They leave the
    controller's finalizer to the controller, and a deletion is for good: its timestamp
    and the grace period stay. *)
Inductive edit `{Names, Finalizer} : relation (option SveltosCluster) :=
  | edit_update c c' :
    bookkeeping c' = bookkeeping c →
    (ContainsFinalizer (Finalizers (Meta c)) SveltosClusterFinalizer = true →
     ContainsFinalizer (Finalizers (Meta c')) SveltosClusterFinalizer = true) →
    (IsZero_ptr (DeletionTimestamp (Meta c)) = false →
     DeletionTimestamp (Meta c') = DeletionTimestamp (Meta c) ∧
     CleanupGracePeriod (Spec c') = CleanupGracePeriod (Spec c)) →
    edit (Some c) (Some c')
  | edit_remove c :
    ContainsFinalizer (Finalizers (Meta c)) SveltosClusterFinalizer = false →
    edit (Some c) None.

Abbreviation edited := (rtc edit).

(** They also create it, without the bookkeeping. *)
Inductive others `{Names, Finalizer} : relation (option SveltosCluster) :=
  | others_edit o o' : edited o o' → others o o'
  | others_create c :
    bookkeeping c = zero_Status → DeletionTimestamp (Meta c) = None → others None (Some c).

(** ** What a Patch does to it

    The helper holds the object as it was read, [c]; what is sent is where the copy, [c'],
    differs from it. Of the object as it is by then, [cur], a part that was sent becomes
    the copy's, unless the Patch fails, and any other part stays. *)
Definition patched_part {X} (part : SveltosCluster → X) (c c' cur c'' : SveltosCluster) : Prop :=
  part c'' = part cur ∨ (part c' ≠ part c ∧ part c'' = part c').

Record patched (c c' cur c'' : SveltosCluster) : Prop := {
  patched_finalizers : patched_part (λ c, Finalizers (Meta c)) c c' cur c'';
  patched_deletion : patched_part (λ c, DeletionTimestamp (Meta c)) c c' cur c'';
  patched_grace : patched_part (λ c, CleanupGracePeriod (Spec c)) c c' cur c'';
  patched_status : patched_part bookkeeping c c' cur c''
}.

(** An object that is gone stays gone. *)
Inductive patches (c c' : SveltosCluster) : relation (option SveltosCluster) :=
  | patches_gone : patches c c' None None
  | patches_some cur c'' : patched c c' cur c'' → patches c c' (Some cur) (persisted c'').

Section System.
Context {W : Type} `{Gauge, Clock W, ClientSet W, ManagementClient W, ClusterProxy W,
  PullModeTransport W, Licenses W, Yaml, Semver, Names, Finalizer, Cron}.
Context `{!Dynamic W, !CEL W, !Lua W}.
Context (r : SveltosClusterReconciler) (ns name : string).
Context (stored : W → option SveltosCluster).

Definition clock (w : W) : Time := (time_Now w).1.

(** Others edit the object, and time does not go back. *)
Definition proceeds (w w' : W) : Prop := edited (stored w) (stored w') ∧ clock w ≤ clock w'.

#[local] Instance proceeds_preorder : PreOrder proceeds.
Proof.
  split; [by split|]. intros w1 w2 w3 [Hs1 Hc1] [Hs2 Hc2].
  split; [by transitivity (stored w2)|lia].
Qed.

(** The API server, which serves others at the same time: [Get] reads the object at some
    moment of the call, [Patch] with a helper made of that object changes it at some
    moment, and no other call of the controller changes it. *)
Record api_server : Prop := {
  api_calls : calls_along proceeds;
  api_get w : proceeds w (Get_SveltosCluster ns name w).2 ∧
    ∀ c, (Get_SveltosCluster ns name w).1 = Ok c →
      edited (stored w) (Some c) ∧ edited (Some c) (stored (Get_SveltosCluster ns name w).2);
  api_helper c w : proceeds w (patch_NewHelper c w).2;
  api_patch c h w c' w2 : (patch_NewHelper c w).1 = Ok h → edited (Some c) (stored w2) →
    clock w2 ≤ clock (Patch h c' w2).2 ∧
    ∃ o1 o2, edited (stored w2) o1 ∧ patches c c' o1 o2 ∧ edited o2 (stored (Patch h c' w2).2)
}.

Context (HA : api_server).

(** ** One reconciliation *)

(** The reconciliation of a cluster that is in scope. *)
Definition reconcile_body (s : Recon W) : Recon W :=
  if IsZero_ptr (DeletionTimestamp (Meta (cluster s)))
  then (reconcileNormal r s).2 else (reconcileDelete s).2.

Definition reconcile_result (s : Recon W) : ctrl_Result :=
  if IsZero_ptr (DeletionTimestamp (Meta (cluster s))) then mkResult Minute
  else (reconcileDelete s).1.

Lemma reconcile_in_scope_eq scope s
    (p := Patch (patchHelper scope) (cluster (reconcile_body s)) (world (reconcile_body s))) :
  reconcile_in_scope r scope s = ((reconcile_result s, p.1), reconcile_body s <| world := p.2 |>).
Proof.
  subst p. unfold reconcile_in_scope, reconcile_body, reconcile_result, Close, PatchObject, mbind,
    St_bind, get_cluster, gets, outside.
  destruct (IsZero_ptr _); cbn [negb].
  - destruct (reconcileNormal r s) as [[] s1]. cbn.
    by destruct (Patch _ (cluster s1) (world s1)).
  - destruct (reconcileDelete s) as [res s1]. cbn. by destruct (Patch _ (cluster s1) (world s1)).
Qed.

(** What a reconciliation does to the object, besides what others do: nothing, or it
    patches it, at some moment, with what became of the copy. *)
Inductive reconciled (s s' : Recon W) : Prop :=
  | reconciled_not : proceeds (world s) (world s') → reconciled s s'
  | reconciled_patch c s1 o1 o2 :
    edited (stored (world s)) (Some c) → cluster s1 = c → clock (world s) ≤ clock (world s1) →
    clock (world (reconcile_body s1)) ≤ clock (world s') →
    edited (Some c) o1 → patches c (cluster (reconcile_body s1)) o1 o2 →
    edited o2 (stored (world s')) → reconciled s s'.

Lemma reconcile_body_moves s : proceeds (world s) (world (reconcile_body s)).
Proof.
  unfold reconcile_body.
  case_match; [apply moves_normal|apply moves_delete]; first [apply _|apply HA].
Qed.

Lemma Reconcile_reconciled s : reconciled s (Reconcile r ns name s).2.
Proof.
  unfold Reconcile. unfold mbind, St_bind. cbn [update_cluster modify].
  unfold outside at 1. cbn [world update].
  destruct (api_get HA (world s)) as [Hget Hread].
  destruct (Get_SveltosCluster ns name (world s)) as [[c|err] w1]; cbn in Hget, Hread |- *.
  2:{ destruct (apierrors_IsNotFound err); by apply reconciled_not. }
  unfold outside at 1. unfold NewSveltosClusterScope, mbind, St_bind. cbn.
  pose proof (api_helper HA c w1) as Hhelper.
  pose proof (λ h, api_patch HA c h w1) as Hpatch.
  destruct (patch_NewHelper c w1) as [[h|err] w2]; cbn in Hhelper, Hpatch |- *.
  2:{ apply reconciled_not. cbn. by transitivity w1. }
  unfold outside at 1. pose proof (along_shard proceeds (api_calls HA) r c w2) as Hshard. cbn.
  destruct (isClusterAShardMatch r c w2) as [[[]|err] w3]; cbn in Hshard |- *;
    try (apply reconciled_not; cbn; transitivity w2; [|done]; by transitivity w1).
  match goal with |- context [reconcile_in_scope r ?sc ?x] => set (s1 := x); set (scope := sc) end.
  rewrite reconcile_in_scope_eq. destruct (Hread c eq_refl) as [Hbefore Hafter].
  destruct (reconcile_body_moves s1) as [Hs1 _].
  assert (Hw3 : proceeds w1 w3) by by transitivity w2. destruct Hw3 as [Hedits Hclock].
  destruct (Hpatch h (cluster (reconcile_body s1)) (world (reconcile_body s1)))
    as (Hlate & o1 & o2 & Ho1 & Hpatches & Ho2); [done| |].
  { transitivity (stored w1); [done|]. by transitivity (stored w3). }
  apply (reconciled_patch _ _ c s1 o1 o2); try done.
  - cbn. destruct Hget as [_ Hget]. lia.
  - transitivity (stored w1); [done|]. transitivity (stored w3); [done|].
    by transitivity (stored (world (reconcile_body s1))).
Qed.

(** ** The transition system

    A reconciliation runs on what the last one left of the metrics and the events;
    meanwhile the world moves on. *)
Inductive sys_step : relation (Recon W) :=
  | step_reconcile s : sys_step s (Reconcile r ns name s).2
  | step_others s w :
    others (stored (world s)) (stored w) → clock (world s) ≤ clock w →
    sys_step s (s <| world := w |>).

(** *** Statuses stay well-formed *)

Lemma well_formed_status n c c' : bookkeeping c' = bookkeeping c → well_formed n c → well_formed n c'.
Proof.
  unfold bookkeeping.
  destruct c as [m sp [? ? ? ? ? ? ? ? ? ?]], c' as [m' sp' [? ? ? ? ? ? ? ? ? ?]].
  cbn. intros [=]. subst. intros [Hr [Hf Hd] [Hh Hp]]. by split; [|split|split].
Qed.

Lemma well_formed_mono n n' c : n ≤ n' → well_formed n c → well_formed n' c.
Proof. intros Hle [Hr Hc Hw]. split; [done|by apply (connection_ok_mono n)|done]. Qed.

Lemma well_formed_zero c : bookkeeping c = zero_Status → well_formed 0 c.
Proof.
  intros Hst. apply (well_formed_status 0 zero_SveltosCluster); [done|].
  by split; [left|split|split].
Qed.

Section WellFormed.
Context (Hclock : ∀ w : W, recordable (time_Now w).1).

Lemma body_well_formed n s :
  n + 1 < 2 ^ 63 → well_formed n (cluster s) → well_formed (n + 1) (cluster (reconcile_body s)).
Proof.
  intros Hn Hs. unfold reconcile_body. case_match; [by apply normal_well_formed|].
  apply (well_formed_mono n); [lia|by apply delete_well_formed].
Qed.

Definition object_ok (n : Z) (o : option SveltosCluster) : Prop :=
  ∀ c, o = Some c → well_formed n c.

Lemma edited_ok n o o' : edited o o' → object_ok n o → object_ok n o'.
Proof.
  induction 1 as [|o1 o2 o3 Hedit _ IH]; [done|]. intros Ho. apply IH. intros c' Hc'.
  destruct Hedit as [c c2 Hst _ _|]; [|done]. injection Hc' as <-.
  apply (well_formed_status n c); [done|by apply Ho].
Qed.

Lemma others_ok n o o' : others o o' → 0 ≤ n → object_ok n o → object_ok n o'.
Proof.
  intros [o1 o2 Hedits|c Hst _] Hn Ho; [by apply (edited_ok n o1)|]. intros c' [= <-].
  apply (well_formed_mono 0); [lia|by apply well_formed_zero].
Qed.

Lemma patches_ok n c c' o o' :
  patches c c' o o' → well_formed n c' → object_ok n o → object_ok n o'.
Proof.
  intros [|cur c'' Hpatched] Hc' Ho; [done|]. intros c2 Hc2. apply persisted_Some in Hc2 as ->.
  destruct (patched_status _ _ _ _ Hpatched) as [Hst|[_ Hst]];
    apply (well_formed_status n _ _ Hst); [by apply Ho|done].
Qed.

Lemma object_ok_mono n n' o : n ≤ n' → object_ok n o → object_ok n' o.
Proof. intros Hle Ho c Hc. by apply (well_formed_mono n); [|apply Ho]. Qed.

Lemma sys_step_ok n s s' :
  0 ≤ n → n + 1 < 2 ^ 63 → object_ok n (stored (world s)) → sys_step s s' →
  object_ok (n + 1) (stored (world s')).
Proof.
  intros H0n Hn Hs Hstep. destruct Hstep as [s|s w Hothers _].
  - destruct (Reconcile_reconciled s) as [[Hedits _]|c s1 o1 o2 Hread Hs1 _ _ Ho1 Hpatches Ho2].
    + apply (object_ok_mono n); [lia|]. by apply (edited_ok n (stored (world s))).
    + apply (edited_ok n) in Hread; [|done]. pose proof (Hread c eq_refl) as Hc.
      apply (edited_ok _ o2); [done|]. apply (patches_ok _ c _ o1 o2 Hpatches).
      * apply body_well_formed; [done|by rewrite Hs1].
      * apply (object_ok_mono n); [lia|]. by apply (edited_ok n (Some c)).
  - cbn. apply (object_ok_mono n); [lia|]. by apply (others_ok n (stored (world s))).
Qed.

(** C6: in every state that reconciliations and the changes of others can reach from
    one without the cluster, in fewer than 2^63 steps, the stored Status is
    well-formed: the last renewal is a time in RFC 3339 that the controller reads
    back, failures are counted from zero, with one at least when the connection is
    down, the hash is a SHA-256 digest, and a next pause stands beside a next unpause
    and a hash. That holds whatever any call returns and whichever Patch fails half-way,
    and whatever others, also between two calls of a reconciliation, change of the
    object's metadata and Spec, of Ready, the version, the failure message and the
    agent's report: of the rest of the Status nobody else writes ([edit]). *)
Theorem stored_status_well_formed (n : nat) (s0 s : Recon W) (c : SveltosCluster)
  (Hstart : stored (world s0) = None) (Hrun : nsteps sys_step n s0 s)
  (Hn : Z.of_nat n < 2 ^ 63) (Hc : stored (world s) = Some c) :
  well_formed (Z.of_nat n) c.
Proof.
  revert c Hc. change (object_ok (Z.of_nat n) (stored (world s))).
  assert (Hzero : object_ok 0 (stored (world s0))) by (intros c; by rewrite Hstart).
  assert (Hmany : ∀ n s1 s2, nsteps sys_step n s1 s2 → ∀ k, 0 ≤ k → k + Z.of_nat n < 2 ^ 63 →
    object_ok k (stored (world s1)) → object_ok (k + Z.of_nat n) (stored (world s2))).
  { clear - HA Hclock. intros n s1 s2 Hrun. induction Hrun as [s|n s1 s2 s3 Hstep _ IH]; intros k Hk Hn Hs1.
    - by rewrite Z.add_0_r.
    - replace (k + Z.of_nat (S n)) with (k + 1 + Z.of_nat n) by lia.
      apply IH; [lia..|]. apply (sys_step_ok k s1); [done|lia|done..]. }
  exact (Hmany n s0 s Hrun 0 ltac:(lia) Hn Hzero).
Qed.

End WellFormed.

(** *** A deleted cluster is held for its grace period *)

Context `{!FinalizerLaws}.

(** The object is being deleted since [d], carries the controller's finalizer, and has
    the grace period [g]. *)
Definition held (d : Time) (g : Duration) (o : option SveltosCluster) : Prop :=
  ∃ c, o = Some c ∧ ContainsFinalizer (Finalizers (Meta c)) SveltosClusterFinalizer = true ∧
    DeletionTimestamp (Meta c) = Some d ∧ CleanupGracePeriod (Spec c) = Some g.

Lemma edited_held d g o o' : IsZero d = false → edited o o' → held d g o → held d g o'.
Proof.
  intros Hd. induction 1 as [|o1 o2 o3 Hedit _ IH]; [done|]. intros (c & -> & Hf & Hdel & Hg).
  apply IH. inversion Hedit as [c1 c' _ Hfinalizer Hdeleting|c1 Hno]; subst; [|congruence].
  destruct (Hdeleting ltac:(by rewrite Hdel)) as [Hdel' Hg'].
  exists c'. split_and!; [done|by apply Hfinalizer|congruence..].
Qed.

Lemma others_held d g o o' : IsZero d = false → others o o' → held d g o → held d g o'.
Proof.
  intros Hd [o1 o2 Hedits|c _ _]; [by apply edited_held|]. by intros (c' & ? & _).
Qed.

Lemma patched_same {X} (part : SveltosCluster → X) c cur c'' :
  patched_part part c c cur c'' → part c'' = part cur.
Proof. by intros [Hpart|[Hne _]]. Qed.

Lemma patches_held d g c o o' : patches c c o o' → held d g o → held d g o'.
Proof.
  intros [|cur c'' [Hf Hdel Hg _]]; [done|]. intros (c0 & [= <-] & Hfin & Hd & Hgrace).
  apply patched_same in Hf, Hdel, Hg. exists c''. split_and!; [|congruence..].
  unfold persisted. rewrite (bool_decide_eq_false_2 (Finalizers (Meta c'') = []));
    [by rewrite andb_false_r|]. intros Hnil. by rewrite <-Hf, Hnil, Contains_nil in Hfin.
Qed.

(** Until the deadline a reconciliation leaves the copy as it is. *)
Lemma reconcile_body_waits s d g :
  IsZero d = false → held d g (Some (cluster s)) →
  cluster (reconcile_body s) = cluster s ∨ d + g ≤ clock (world (reconcile_body s)).
Proof.
  intros Hd (c & [= <-] & Hf & Hdel & Hg). unfold reconcile_body. rewrite Hdel. cbn [IsZero_ptr].
  rewrite Hd. destruct (Z.lt_ge_cases (clock (world s)) (d + g)) as [Hlt|Hge].
  - left. unfold reconcileDelete, mbind, St_bind, get_cluster, gets. rewrite Hf, Hg, Hdel.
    cbn [negb default from_option id]. unfold clock in Hlt. unfold outside.
    destruct (time_Now (world s)) as [now w]. cbn in Hlt |- *. unfold Time_Add.
    by rewrite (proj2 (Before_true _ _)).
  - right. pose proof (moves_delete proceeds (api_calls HA) s) as [_ Hmoves]. lia.
Qed.

(** C5: a cluster that carries the controller's finalizer when it is deleted stays in
    the API server, finalizer and all, until its cleanup grace period is over: in
    every state reachable by reconciliations and changes of others, in any order and
    number, also changes made while a reconciliation runs, it is still held or the
    deadline has passed. *)
Theorem held_until_grace_period (s0 s : Recon W) (d : Time) (g : Duration)
  (Hd : IsZero d = false) (Hheld : held d g (stored (world s0))) (Hrun : rtc sys_step s0 s) :
  held d g (stored (world s)) ∨ d + g ≤ clock (world s).
Proof.
  assert (Hinv : held d g (stored (world s0)) ∨ d + g ≤ clock (world s0)) by by left.
  clear Hheld. induction Hrun as [s|s1 s2 s3 Hstep _ IH]; [done|]. apply IH. clear IH.
  destruct Hstep as [s|s w Hothers Hlate].
  - destruct (Reconcile_reconciled s)
      as [[Hedits Hlate]|c s1 o1 o2 Hread Hs1 Hbefore Hlate Ho1 Hpatches Ho2].
    + destruct Hinv; [left; by apply (edited_held d g (stored (world s)))|right; lia].
    + destruct (reconcile_body_moves s1) as [_ Hmoves].
      destruct Hinv as [Hinv|Hpast]; [|right; lia].
      apply (edited_held d g _ _ Hd) in Hread; [|done].
      destruct (reconcile_body_waits s1 d g Hd) as [Hsame|Hpast]; [by rewrite Hs1| |right; lia].
      rewrite Hsame, Hs1 in Hpatches. left. apply (edited_held d g o2); [done..|].
      apply (patches_held d g c o1); [done|]. by apply (edited_held d g (Some c)).
  - destruct Hinv; [left; by apply (others_held d g (stored (world s)))|right; cbn; lia].
Qed.

End System.

(** ** An API server that holds one cluster *)

Module SimServer.

Definition key : string * string := ("prod", "edge").

Definition stored (w : SimWorld) : option SveltosCluster := sim_clusters w !! key.

Definition set_stored (o : option SveltosCluster) (w : SimWorld) : SimWorld :=
  w <| sim_clusters := partial_alter (λ _, o) key (sim_clusters w) |>.

Lemma stored_set o w : stored (set_stored o w) = o.
Proof. apply lookup_partial_alter_eq. Qed.

(** A part of the object after a Patch: the copy's if it differs from what was read. *)
Definition pick {X} `{EqDecision X} (part : SveltosCluster → X) (c c' cur : SveltosCluster) : X :=
  if decide (part c' = part c) then part cur else part c'.

Lemma pick_patched {X} `{EqDecision X} (part : SveltosCluster → X) c c' cur c'' :
  part c'' = pick part c c' cur → patched_part part c c' cur c''.
Proof. unfold pick, patched_part. case_decide; auto. Qed.

Definition merge (c c' cur : SveltosCluster) : SveltosCluster :=
  c' <| Meta; Finalizers := pick (λ c, Finalizers (Meta c)) c c' cur |>
     <| Meta; DeletionTimestamp := pick (λ c, DeletionTimestamp (Meta c)) c c' cur |>
     <| Spec; CleanupGracePeriod := pick (λ c, CleanupGracePeriod (Spec c)) c c' cur |>
     <| Status := pick bookkeeping c c' cur
          <| Ready := pick (λ c, Ready (Status c)) c c' cur |>
          <| Status_Version := pick (λ c, Status_Version (Status c)) c c' cur |>
          <| FailureMessage := pick (λ c, FailureMessage (Status c)) c c' cur |>
          <| AgentLastReportTime := pick (λ c, AgentLastReportTime (Status c)) c c' cur |> |>.

Lemma merge_patched c c' cur : patched c c' cur (merge c c' cur).
Proof.
  split; apply pick_patched; [done..|]. unfold merge, pick, bookkeeping. cbn.
  by repeat case_decide.
Qed.

(** An object nobody else has touched becomes the copy. *)
Lemma merge_same c c' : merge c c' c = c'.
Proof.
  assert (Hpick : ∀ {X} `{EqDecision X} (part : SveltosCluster → X), pick part c c' c = part c')
    by (intros; unfold pick; case_decide; congruence).
  unfold merge. rewrite !Hpick. by destruct c' as [[] [] []].
Qed.

(** The helper is the object as it was read; a Patch merges. *)
Definition client : ManagementClient SimWorld := {|
  Get_SveltosCluster := λ _ _ w,
    (match stored w with Some c => Ok c | None => Err not_found end, w);
  Get_ConfigMap := λ ns name w,
    (match sim_configmaps w !! (ns, name) with Some d => Ok (Some d) | None => Err not_found end,
     w);
  PatchHelper := SveltosCluster;
  patch_NewHelper := λ c w, (Ok c, w);
  Patch := λ c c' w,
    match stored w with
    | Some cur => (None, set_stored (persisted (merge c c' cur)) w)
    | None => (Some not_found, w)
    end
|}.

(** The clock of one day, an hour ahead of UTC. *)
Definition day_start : Time := Time_of_Unix (1739232000 - 3600).

Definition day_time (t : Time) : Time := day_start `max` (t `min` (day_start + 23 * Hour)).

Definition day_clock : Clock SimWorld := {|
  time_Now := λ w, (day_time (sim_now w), w <| sim_now := sim_now w + Z.abs (sim_tick w) |>);
  Local_offset := λ _, 3600
|}.

#[export] Existing Instance client.
#[export] Existing Instance day_clock.

(** A busy server: whenever the clock is read, the agent reports. *)
Definition heartbeat (w : SimWorld) : SimWorld :=
  match stored w with
  | Some c => set_stored (Some (c <| Status; AgentLastReportTime := Some (sim_now w) |>)) w
  | None => w
  end.

Definition busy_clock : Clock SimWorld := {|
  time_Now := λ w,
    (day_time (sim_now w), heartbeat (w <| sim_now := sim_now w + Z.abs (sim_tick w) |>));
  Local_offset := λ _, 3600
|}.

Lemma day_recordable (t0 : Time) : recordable (W := SimWorld) (H := busy_clock) (day_time t0).
Proof.
  set (t := day_time t0).
  assert (Ht : day_start ≤ t ≤ day_start + 23 * Hour)
    by (unfold t, day_time, Hour, Minute, Second; lia).
  assert (Hday : (Time_Unix t + 3600) / day_seconds = 20130).
  { clearbody t. unfold Time_Unix, day_seconds.
    unfold day_start, Time_of_Unix, Hour, Minute, Second in *.
    Z.to_euclidean_division_equations. lia. }
  clearbody t. unfold recordable. cbn [Local_offset busy_clock]. rewrite Hday.
  vm_compute. repeat split; congruence.
Qed.

Lemma heartbeat_edit `{Names, Finalizer} w : edited (stored w) (stored (heartbeat w)).
Proof.
  unfold heartbeat. destruct (stored w) as [c|] eqn:Hc; [|by rewrite Hc].
  rewrite stored_set. apply rtc_once, edit_update; [done|done|]. by split.
Qed.

Lemma heartbeat_tick `{Names, Finalizer} w t :
  edited (stored w) (stored (heartbeat (w <| sim_now := t |>))).
Proof. pose proof (heartbeat_edit (w <| sim_now := t |>)) as Hedit. exact Hedit. Qed.

End SimServer.

(** The cases of [terminate_provisioned] in a world that holds the deployment's status. *)
Ltac sim_terminate :=
  unfold terminate_provisioned, mbind, St_bind; cbn;
  match goal with |- context [sim_deployment ?w] => destruct (sim_deployment w) as [[[]|]|] end;
  cbn.

Section Server.
Import SimServer.
#[local] Existing Instances SimCron.cron busy_clock.

Lemma sim_proceeds (w w' : SimWorld) :
  edited (stored w) (stored w') → sim_now w ≤ sim_now w' → proceeds stored w w'.
Proof. intros Hs Hnow. split; [done|]. unfold clock. cbn. unfold day_time. lia. Qed.

Lemma sim_now_heartbeat w : sim_now (heartbeat w) = sim_now w.
Proof. unfold heartbeat. by destruct (stored w). Qed.

Lemma sim_calls : calls_along (proceeds stored).
Proof.
  split; [split| |]; intros; intros w; try (apply sim_proceeds; [reflexivity|cbn; lia]).
  2:{ sim_terminate; (apply sim_proceeds; [reflexivity|cbn; lia]). }
  apply sim_proceeds; cbn [time_Now busy_clock snd];
    [apply heartbeat_tick|].
  rewrite sim_now_heartbeat. cbn. lia.
Qed.

Lemma sim_api_server ns name : api_server ns name stored.
Proof.
  split.
  - apply sim_calls.
  - intros w. split; [apply sim_proceeds; [reflexivity|cbn; lia]|].
    intros c. cbn [Get_SveltosCluster client fst snd].
    by destruct (stored w); [intros [= ->]|].
  - intros c w. apply sim_proceeds; [reflexivity|cbn; lia].
  - intros c h w c' w2 [= <-] Hedits. cbn [Patch client].
    destruct (stored w2) as [cur|] eqn:Hcur; cbn [snd]; (split; [unfold clock; cbn; lia|]).
    + exists (Some cur), (persisted (merge c c' cur)). split; [done|].
      split; [apply patches_some, merge_patched|by rewrite stored_set].
    + exists None, None. split_and!; [done|apply patches_gone|by rewrite Hcur].
Qed.

(** A cluster that is created and reconciled. *)
Definition sim_empty : Recon SimWorld := sim_recon zero_SveltosCluster sim_init.

Definition sim_created : Recon SimWorld :=
  sim_empty <| world := set_stored (Some sim_edge) sim_init |>.

Lemma sim_created_reconciled :
  nsteps (sys_step sim_r "prod" "edge" stored) 2 sim_empty
    (Reconcile sim_r "prod" "edge" sim_created).2.
Proof.
  eapply nsteps_l; [|apply nsteps_once, step_reconcile]. apply step_others; [|reflexivity].
  cbn [world sim_empty sim_recon]. rewrite stored_set. by apply others_create.
Qed.

Lemma stored_status_well_formed_witness :
  ∃ c, stored (world (Reconcile sim_r "prod" "edge" sim_created).2) = Some c ∧
    well_formed 2 c.
Proof.
  destruct (stored (world (Reconcile sim_r "prod" "edge" sim_created).2)) as [c|] eqn:Hc.
  - exists c. split; [done|].
    exact (stored_status_well_formed sim_r "prod" "edge" stored (sim_api_server _ _)
      (λ w, day_recordable (sim_now w)) 2 sim_empty _ c eq_refl sim_created_reconciled eq_refl Hc).
  - vm_compute in Hc. discriminate.
Defined.

(** Deleted at noon, with a grace period of five minutes, and reconciled twice, at
    once and four minutes later. *)
Definition sim_noon : Time := day_start + 12 * Hour.

Definition sim_deleted_at_noon : SveltosCluster :=
  sim_deleted <| Meta; DeletionTimestamp := Some sim_noon |>.

Definition sim_at_noon : Recon SimWorld :=
  sim_recon zero_SveltosCluster
    (set_stored (Some sim_deleted_at_noon) (sim_init <| sim_now := sim_noon |>)).

Definition sim_later (s : Recon SimWorld) : Recon SimWorld :=
  s <| world := (world s) <| sim_now := sim_noon + 4 * Minute |> |>.

Definition sim_waited : Recon SimWorld :=
  (Reconcile sim_r "prod" "edge" (sim_later (Reconcile sim_r "prod" "edge" sim_at_noon).2)).2.

Lemma sim_waited_run : rtc (sys_step sim_r "prod" "edge" stored) sim_at_noon sim_waited.
Proof.
  eapply rtc_l; [apply step_reconcile|]. eapply rtc_l; [|apply rtc_once, step_reconcile].
  apply step_others; [apply others_edit, rtc_refl|vm_compute; congruence].
Qed.

Lemma held_until_grace_period_witness :
  held sim_noon (5 * Minute) (stored (world sim_waited)).
Proof.
  destruct (held_until_grace_period sim_r "prod" "edge" stored (sim_api_server _ _)
    sim_at_noon sim_waited sim_noon (5 * Minute)) as [Hheld|Hpast].
  - reflexivity.
  - unfold sim_at_noon. cbn [world sim_recon]. rewrite stored_set. by eexists.
  - apply sim_waited_run.
  - exact Hheld.
  - exfalso. revert Hpast. vm_compute. congruence.
Defined.

End Server.
