(* ===== verification/TokenRuns.v ===== *)
(** * The token of a pull-mode cluster through a reconciliation

    The agent of a pull-mode cluster lives on the kubeconfig that was last committed for
    it. In an environment that answers, a reconciliation replaces that kubeconfig while
    its token still lives for some minutes, and leaves what makes the next renewal come in
    time; and what can go wrong when a renewal fails half-way. When the agent fetches what
    was committed is the subject of AgentRuns.v. *)

From S2P Require Import Prelude GoTime Float64 GoStrings Rfc3339 Api Platform Recon Sim.
From S2P Require Import Kubeconfig TokenTiming TokenRenewal Metrics Connection ClusterChecks.
From S2P Require Import License AutoPause SimCron Reconciler Calls ReconcilerSpec.

(** What of a cluster decides when its token is renewed. *)
Definition timing (c : SveltosCluster) :=
  (Spec_TokenRequestRenewalOption (Spec c), LastReconciledTokenRequestAt (Status c),
   CreationTimestamp (Meta c)).

Lemma in_time_timing c c' E : timing c = timing c' → in_time c E → in_time c' E.
Proof.
  intros [= Hopt Hlast Hcreated]. unfold in_time, lastRenewal.
  by rewrite Hopt, Hlast, Hcreated.
Qed.

Section TokenRuns.
Context {W : Type} `{Gauge, Clock W, ClientSet W, ManagementClient W, ClusterProxy W,
  PullModeTransport W, Licenses W, Yaml, Semver, Names, Finalizer, Cron}.
Context `{!Dynamic W, !CEL W, !Lua W}.

(** [during t w]: [w] is a world in which a reconciliation that began at [t] may find
    itself; [valid_until w]: when the token of the kubeconfig last provided for the cluster
    [ns]/[name] expires: committed for its agent, or stored in its Secret. The cluster
    renews the token of one ServiceAccount. *)
Context (rc : SveltosClusterReconciler) (during : Time → W → Prop) (valid_until : W → Time).
Context (ns name saNamespace saName : string).

(** A call that provides no kubeconfig. *)
Definition quietly : relation W :=
  λ w w', ∀ t, during t w → during t w' ∧ valid_until w' = valid_until w.

#[export] Instance quietly_preorder : PreOrder quietly.
Proof.
  split; [by intros w t Hw|]. intros w1 w2 w3 H12 H23 t Hw1.
  destruct (H12 t Hw1) as [Hw2 Hv2]. destruct (H23 t Hw2) as [Hw3 Hv3]. split; [done|congruence].
Qed.

(** ** In pull mode

    The agent of [ns]/[name] takes its kubeconfig from one bundle, as a Secret of one name;
    it reaches the management cluster at [server]. *)
Context (server : string).

Definition agent_bundle : Deployment :=
  mkDeployment ns name SveltosClusterKind name FeatureTokenRenewal.

Definition agent_source (uid : string) : ObjectReference :=
  mkObjectReference GroupVersion SveltosClusterKind ns name uid.

Definition agent_secret (text : string) : Secret :=
  mkSecret "v1" "Secret" (SveltosNamespace rc) (name +:+ "-sveltos-kubeconfig")
    {["kubeconfig" := text]}.

(** In [w1] a kubeconfig that the agent can use is staged for it, with a token that
    expires at [E]; [res] is the outcome of committing it. *)
Definition commits (t : Time) (E : Time) (w1 : W) (res : option error * W) : Prop :=
  ∃ w text u key uid,
    during t w ∧ during t w1 ∧ ToUnstructured (agent_secret text) = Ok u ∧
    kubeconfig_server text = server ∧ getTokenExpiration (kubeconfig_token text) = Ok E ∧
    t + 12 * Minute ≤ E ≤ t + 2 ^ 62 ∧
    w1 = (StageResourcesForDeployment agent_bundle {[key := [u]]} true w).2 ∧
    res = CommitStagedResourcesForDeployment agent_bundle (agent_source uid) w1.

(** An environment that answers: a reconciliation takes at most a minute, the reads
    provide no kubeconfig, the ConfigMap of the endpoint is there, a token asked for
    thirteen minutes or more lives for twelve, and staging and committing for the agent
    succeed. Of any other commit nothing is said. *)
Record answering : Prop := {
  an_account : saNamespace ≠ "" ∧ saName ≠ "";
  an_clock t w : during t w →
    t ≤ (time_Now w).1 ≤ t + Minute ∧ recordable (time_Now w).1;
  an_reads : reads_along quietly;
  an_endpoint t w : during t w → ∃ ca tls,
    (getPullModeManagementClusterEndpoint saNamespace saName w).1 = Ok (server, ca, tls) ∧
    one_line tls;
  an_one_line : one_line server ∧ one_line saNamespace ∧ one_line saName;
  an_token exp t w : during t w → 13 * 60 ≤ int64_of_float64 exp → ∃ jwt E,
    (getServiceAccountTokenRequest (r_Config rc) saNamespace saName exp w).1 = Ok jwt ∧
    one_line jwt ∧ getTokenExpiration jwt = Ok E ∧ t + 12 * Minute ≤ E ≤ t + 2 ^ 62;
  an_secret text : is_Ok (ToUnstructured (agent_secret text)) = true;
  an_staged resources t w : during t w →
    (StageResourcesForDeployment agent_bundle resources true w).1 = None;
  an_committed t E w1 res : commits t E w1 res →
    res.1 = None ∧ during t res.2 ∧ valid_until res.2 = E
}.

Lemma reconcileNormal_pull (r : SveltosClusterReconciler) (s : Recon W) :
  PullMode (Spec (cluster (reconcileNormal r s).2)) = PullMode (Spec (cluster s)).
Proof. exact (f_equal (λ x, PullMode x.1.2) (reconcileNormal_fixed r s)). Qed.

(** ** What a cluster is to be *)

(** The cluster renews the token of [saName], for thirteen minutes or more. *)
Definition provided (c : SveltosCluster) : Prop :=
  ∃ opt, Spec_TokenRequestRenewalOption (Spec c) = Some opt ∧
    SANamespace opt = saNamespace ∧ SAName opt = saName ∧
    (TokenDuration opt = 0 ∨ 13 * Minute ≤ TokenDuration opt).

Lemma provided_timing c c' : timing c = timing c' → provided c → provided c'.
Proof. intros [= Hopt _ _]. unfold provided. by rewrite Hopt. Qed.

(** What is asked for is long enough to be granted. *)
Lemma request_long_enough opt :
  sane (RenewTokenRequestInterval opt) → sane (TokenDuration opt) →
  TokenDuration opt = 0 ∨ 13 * Minute ≤ TokenDuration opt →
  13 * 60 ≤ int64_of_float64 (getEffectiveTokenDurationInSecond opt).
Proof.
  intros HI HD Hlong. destruct (effective_bounds opt HI HD) as (k & -> & _ & _ & Hk).
  unfold sane, Minute, Second, secondsToAddToTokenRequest in *. cbv zeta in Hk.
  destruct (Z.eqb_spec (TokenDuration opt) 0); lia.
Qed.

Definition named (c : SveltosCluster) : Prop := Namespace (Meta c) = ns ∧ Name (Meta c) = name.

(** What decides when the token is renewed, and whose it is. *)
Definition P_renewal (s : Recon W) :=
  (timing (cluster s), Namespace (Meta (cluster s)), Name (Meta (cluster s))).

Lemma P_renewal_eq s s' : P_renewal s = P_renewal s' →
  timing (cluster s) = timing (cluster s') ∧
  Namespace (Meta (cluster s)) = Namespace (Meta (cluster s')) ∧
  Name (Meta (cluster s)) = Name (Meta (cluster s')).
Proof.
  intros Hsame. split; [exact (f_equal (λ x, x.1.1) Hsame)|].
  split; [exact (f_equal (λ x, x.1.2) Hsame)|exact (f_equal snd Hsame)].
Qed.

(** A state within a reconciliation begun at [t] whose token is renewed in time. *)
Record served (t : Time) (s : Recon W) : Prop := {
  served_during : during t (world s);
  served_named : named (cluster s);
  served_provided : provided (cluster s);
  served_in_time : in_time (cluster s) (valid_until (world s))
}.

Lemma served_same t s s' :
  P_renewal s' = P_renewal s → during t (world s') → valid_until (world s') = valid_until (world s) →
  served t s → served t s'.
Proof.
  intros Hsame Hd Hv [_ [Hns Hname] Hp Hi]. apply P_renewal_eq in Hsame as (Ht & Hns' & Hname').
  split; [done|split; congruence|by apply (provided_timing (cluster s))|].
  rewrite Hv. by apply (in_time_timing (cluster s)).
Qed.

Lemma served_calm {A} (m : St (Recon W) A) t s :
  moves quietly m → keeps P_renewal m → served t s →
  served t (m s).2 ∧ valid_until (world (m s).2) = valid_until (world s).
Proof.
  intros Hm Hk Hs. destruct (Hm s t (served_during _ _ Hs)) as [Hd Hv].
  split; [|done]. by apply (served_same t s); [apply Hk|..].
Qed.

(** ** A renewal in which nothing fails *)

Section Answering.
Context (HA : answering).

Definition pull_kubeconfig (jwt ca tls : string) : string :=
  getKubeconfigFromToken saNamespace saName jwt tls
    (mkConfig server ca (Config_other (r_Config rc))).

Definition pull_resources (u : Unstructured_t) : gmap string (list Unstructured_t) :=
  {[pullModeKubeconfigResourceKey := [u]]}.

Definition pull_renewed (s : Recon W) (interval : Duration) (w : W) : Recon W :=
  let '(now, w') := time_Now w in
  s <| cluster := set_LastReconciled (Format (Local_offset now) now)
                    (set_interval interval (cluster s)) |> <| world := w' |>.

Lemma result_step {A} (m : St W A) (a : A) w : (m w).1 = a → ∃ w', m w = (a, w').
Proof. destruct (m w) as [a' w']; cbn. intros ->. by exists w'. Qed.

Lemma agent_secret_eq text :
  getPullModeKubeconfigSecret (SveltosNamespace rc) name text = agent_secret text.
Proof. reflexivity. Qed.

Lemma endpoint_config ca :
  r_Config rc <| Host := server |> <| CAData := ca |> = mkConfig server ca (Config_other (r_Config rc)).
Proof. reflexivity. Qed.

Lemma pull_secret_eq jwt ca tls :
  getPullModeKubeconfigSecret (SveltosNamespace rc) name
    (getKubeconfigFromToken saNamespace saName jwt tls
      (r_Config rc <| Host := server |> <| CAData := ca |>)) = agent_secret (pull_kubeconfig jwt ca tls).
Proof. unfold pull_kubeconfig. by rewrite endpoint_config, agent_secret_eq. Qed.

Lemma pull_renewal_success (s : Recon W) opt ca tls jwt u w1 w2 w4 w5 :
  named (cluster s) → Spec_TokenRequestRenewalOption (Spec (cluster s)) = Some opt →
  SANamespace opt = saNamespace → SAName opt = saName →
  getPullModeManagementClusterEndpoint saNamespace saName (world s) = (Ok (server, ca, tls), w1) →
  getServiceAccountTokenRequest (r_Config rc) saNamespace saName
    (getEffectiveTokenDurationInSecond opt) w1 = (Ok jwt, w2) →
  ToUnstructured (agent_secret (pull_kubeconfig jwt ca tls)) = Ok u →
  StageResourcesForDeployment agent_bundle (pull_resources u) true
    (adjustTokenRequestRenewalOption opt jwt w2).2 = (None, w4) →
  CommitStagedResourcesForDeployment agent_bundle (agent_source (UID (Meta (cluster s)))) w4
    = (None, w5) →
  handlePullModeTokenRequestRenewal rc s =
  (None, pull_renewed s (adjustTokenRequestRenewalOption opt jwt w2).1 w5).
Proof.
  intros [Hn1 Hn2] Hopt Hns Hname Hendpoint Hjwt Hu Hstage Hcommit. destruct (an_account HA).
  unfold handlePullModeTokenRequestRenewal, record_renewal, token_deployment. run.
  rewrite Hopt, Hns, Hname, Hn1, Hn2.
  rewrite decide_False by tauto. rewrite Hendpoint; cbn. rewrite Hjwt; cbn.
  destruct (adjustTokenRequestRenewalOption opt jwt w2) as [interval w3]; cbn in *.
  rewrite pull_secret_eq, Hu; cbn. unfold pull_resources, agent_bundle in Hstage. cbn in Hstage.
  rewrite Hstage; cbn. unfold agent_bundle, agent_source in Hcommit. rewrite Hcommit; cbn.
  unfold pull_renewed. by destruct (time_Now w5) as [now w6].
Qed.

(** Recording a renewal whose kubeconfig is committed in [w5]. *)
Lemma pull_renewed_served (s : Recon W) opt jwt t w2 w5
    (s' := pull_renewed s (adjustTokenRequestRenewalOption opt jwt w2).1 w5) :
  during t w5 → named (cluster s) → Spec_TokenRequestRenewalOption (Spec (cluster s)) = Some opt →
  SANamespace opt = saNamespace → SAName opt = saName →
  TokenDuration opt = 0 ∨ 13 * Minute ≤ TokenDuration opt →
  sane (RenewTokenRequestInterval opt) → sane (TokenDuration opt) → has_margin opt →
  t ≤ (time_Now w2).1 ≤ t + Minute → getTokenExpiration jwt = Ok (valid_until w5) →
  t + 12 * Minute ≤ valid_until w5 ≤ t + 2 ^ 62 →
  served t s' ∧ t + 12 * Minute ≤ valid_until (world s').
Proof.
  intros Hw5 Hn Hopt Hns Hname Hlong HI HD Hmargin Hissued HE Hlife. subst s'.
  destruct (an_clock HA t w5 Hw5) as [Hrec Hrecordable].
  destruct (along_now quietly (an_reads HA) w5 t Hw5) as [Hw6 Hsame]. unfold pull_renewed.
  destruct (time_Now w5) as [now w6]. cbn [fst snd world cluster update] in *.
  rewrite Hsame. split; [|apply Hlife]. split; cbn [world cluster update]; [done|done| |rewrite Hsame].
  - exists (opt <| RenewTokenRequestInterval := (adjustTokenRequestRenewalOption opt jwt w2).1 |>).
    unfold set_interval. cbn. by rewrite Hopt.
  - apply (renewed_in_time _ opt jwt (time_Now w2).1 now _ w2); try done;
      [|unfold Minute in *; lia..].
    split; [|done]. unfold set_interval. cbn. by rewrite Hopt.
Qed.

(** The kubeconfig that a renewal stages is one the agent can use. *)
Lemma pull_commits t E ca tls jwt u key uid w w1 :
  during t w → during t w1 → one_line tls → one_line jwt →
  ToUnstructured (agent_secret (pull_kubeconfig jwt ca tls)) = Ok u →
  getTokenExpiration jwt = Ok E → t + 12 * Minute ≤ E ≤ t + 2 ^ 62 →
  w1 = (StageResourcesForDeployment agent_bundle {[key := [u]]} true w).2 →
  commits t E w1 (CommitStagedResourcesForDeployment agent_bundle (agent_source uid) w1).
Proof.
  intros Hw Hw1 Htls Hline Hu HE Hlife Hstaged. destruct (an_one_line HA) as (Hurl & Hns & Hname).
  destruct (kubeconfig_fields saNamespace saName jwt tls (mkConfig server ca (Config_other (r_Config rc))))
    as [Hserver Htoken]; [done..|].
  exists w, (pull_kubeconfig jwt ca tls), u, key, uid. rewrite <-HE.
  split; [done|]. split; [done|]. split; [done|]. split; [exact Hserver|].
  split; [exact (f_equal getTokenExpiration Htoken)|]. by split.
Qed.

(** A renewal commits a kubeconfig with a new token for the agent, and leaves the cluster
    such that this one is renewed in time as well. *)
Lemma pull_renewal (s : Recon W) t E (s' := (handlePullModeTokenRequestRenewal rc s).2) :
  during t (world s) → named (cluster s) → provided (cluster s) → in_time (cluster s) E →
  served t s' ∧ t + 12 * Minute ≤ valid_until (world s').
Proof.
  intros Hs Hn (opt & Hopt & Hns & Hname & Hlong) (opt' & Hopt' & HI & HD & Hmargin & _).
  rewrite Hopt in Hopt'. injection Hopt' as <-. subst s'.
  destruct (an_endpoint HA t _ Hs) as (ca & tls & Hendpoint & Htls).
  destruct (along_endpoint quietly (an_reads HA) saNamespace saName _ t Hs) as [Hw1 _].
  apply result_step in Hendpoint as (w1 & Hendpoint). rewrite Hendpoint in Hw1.
  set (exp := getEffectiveTokenDurationInSecond opt).
  destruct (an_token HA exp t w1 Hw1 (request_long_enough opt HI HD Hlong))
    as (jwt & E' & Hjwt & Hline & HE' & Hlife).
  destruct (along_token quietly (an_reads HA) (r_Config rc) saNamespace saName exp w1 t Hw1) as [Hw2 _].
  apply result_step in Hjwt as (w2 & Hjwt). rewrite Hjwt in Hw2. cbn in Hw1, Hw2.
  destruct (an_clock HA t w2 Hw2) as [Hissued _].
  destruct (along_adjust quietly (an_reads HA) opt jwt w2 t Hw2) as [Hw3 _].
  set (w3 := (adjustTokenRequestRenewalOption opt jwt w2).2) in *.
  pose proof (an_secret HA (pull_kubeconfig jwt ca tls)) as Hu.
  destruct (ToUnstructured _) as [u|] eqn:Hsecret; [|done].
  destruct (along_Stage quietly (an_reads HA) agent_bundle (pull_resources u) true w3 t Hw3) as [Hw4 _].
  pose proof (an_staged HA (pull_resources u) t w3 Hw3) as Hstaged.
  apply result_step in Hstaged as (w4 & Hstaged). rewrite Hstaged in Hw4. cbn in Hw4.
  destruct (an_committed HA t E' w4 _ (pull_commits t E' ca tls jwt u pullModeKubeconfigResourceKey
    (UID (Meta (cluster s))) w3 w4 Hw3 Hw4 Htls Hline Hsecret HE' Hlife
    (eq_sym (f_equal snd Hstaged)))) as (Hcommitted & Hw5 & Hvalid).
  apply result_step in Hcommitted as (w5 & Hcommitted).
  rewrite Hcommitted in Hw5, Hvalid. cbn in Hw5, Hvalid.
  rewrite (pull_renewal_success s opt ca tls jwt u w1 w2 w4 w5 Hn Hopt Hns Hname
    Hendpoint Hjwt Hsecret Hstaged Hcommitted).
  rewrite <-Hvalid in HE', Hlife.
  exact (pull_renewed_served s opt jwt t w2 w5 Hw5 Hn Hopt Hns Hname Hlong HI HD Hmargin Hissued HE' Hlife).
Qed.

(** ** A whole reconciliation *)

Lemma heartbeat_renewal : keeps P_renewal (check_heartbeat rc).
Proof.
  unfold check_heartbeat, updateConnectionStatus, recordConnectionTransition, recordEventf,
    report_connection, update_cluster_metrics. keeps_tac.
  all: unfold P_renewal, connection_step; cbn; repeat case_match; done.
Qed.

(** After the renewal, needed or not, the delivered token lives for more than seven
    minutes from the reconciliation's beginning. *)
Lemma renew_served t s (s' := (renew_if_due rc (handlePullModeTokenRequestRenewal rc) s).2) :
  served t s → served t s' ∧ t + 7 * Minute < valid_until (world s').
Proof.
  intros [Hd Hn Hp Hi]. subst s'. unfold renew_if_due. run.
  destruct (along_should quietly (an_reads HA) (cluster s) _ t Hd) as [Hd1 Hv1].
  pose proof (in_time_due _ _ (world s) Hi) as Hdue. destruct (an_clock HA t _ Hd) as [Hclock _].
  destruct (shouldRenewTokenRequest _ _) as [[] w1]; cbn in *.
  - destruct (pull_renewal (mkRecon (cluster s) (metrics s) (events s) w1) t _ Hd1 Hn Hp Hi)
      as [[Hd2 Hn2 Hp2 Hi2] Hlife].
    destruct (handlePullModeTokenRequestRenewal rc _) as [[err|] s2]; cbn in *;
      (split; [by split|unfold Minute in *; lia]).
  - rewrite Hv1. split; [by split; cbn; rewrite ?Hv1|].
    destruct (Z.le_gt_cases (valid_until (world s) - 8 * Minute) (time_Now (world s)).1) as [Hle|Hgt];
      [by specialize (Hdue Hle)|unfold Minute in *; lia].
Qed.

Lemma pull_served t s (s' := (reconcilePullModeCluster rc s).2) :
  served t s → served t s' ∧ t + 7 * Minute < valid_until (world s').
Proof.
  intros Hs. subst s'. unfold reconcilePullModeCluster, mbind, St_bind.
  destruct (set_failure None s) as [[] s1] eqn:E1.
  assert (Hs1 : served t s1) by (injection E1 as <-; by destruct Hs).
  destruct (served_calm _ t s1 (moves_license quietly (an_reads HA) rc)
    (updateLicenseAnnotations_keeps P_renewal rc ltac:(done) ltac:(done)) Hs1) as [Hs2 _].
  destruct (updateLicenseAnnotations rc s1) as [[] s2]. cbn in Hs2.
  destruct (renew_served t s2 Hs2) as [Hs3 Hlife].
  destruct (renew_if_due _ _ s2) as [[] s3]. cbn in Hs3, Hlife.
  destruct (served_calm _ t s3 (moves_terminate quietly (an_reads HA)) (terminate_keeps P_renewal ltac:(done)) Hs3)
    as [Hs4 Hv4].
  destruct (terminatePullModeTokenRenewalTrackingIfProvisioned s3) as [[] s4]. cbn in Hs4, Hv4.
  destruct (served_calm _ t s4 (moves_heartbeat quietly (an_reads HA) rc) heartbeat_renewal Hs4) as [Hs5 Hv5].
  split; [done|]. by rewrite Hv5, Hv4.
Qed.

Lemma normal_served t s (s' := (reconcileNormal rc s).2) :
  PullMode (Spec (cluster s)) = true → served t s →
  served t s' ∧ t + 7 * Minute < valid_until (world s').
Proof.
  intros Hpull Hs. subst s'.
  destruct (reconcileNormal_steps rc s) as (s1 & now & s2 & _ & Hs1 & Hs2 & ->).
  rewrite Hpull in Hs2.
  destruct (served_calm (outside time_Now) t (s <| cluster := update_finalizer (cluster s) |>)
    (moves_outside quietly _ (along_now _ (an_reads HA))) ltac:(keeps_tac)) as [Hserved _]; [by destruct Hs|].
  rewrite <-Hs1 in Hserved. destruct (pull_served t s1 Hserved) as [Hserved2 Hlife].
  rewrite <-Hs2 in Hserved2, Hlife. split; [|done].
  apply (served_same t s2); [|apply Hserved2|done|done].
  destruct (handle_frame (cluster s2) now) as (b & u & p & h & Hhandle).
  unfold P_renewal. cbn [cluster update]. by rewrite Hhandle.
Qed.

End Answering.

End TokenRuns.

(** ** A renewal that fails half-way *)

Section Failed.
Context {W : Type} `{Gauge, Clock W, ClientSet W, ManagementClient W, ClusterProxy W,
  PullModeTransport W, Names}.

(** A renewal that got a token and failed has changed the interval, and nothing
    else. *)
Lemma failed_renewal_interval (rc : SveltosClusterReconciler) (s : Recon W) opt url ca tls jwt
    w1 w2 :
  Spec_TokenRequestRenewalOption (Spec (cluster s)) = Some opt →
  SANamespace opt ≠ "" → SAName opt ≠ "" →
  getPullModeManagementClusterEndpoint (SANamespace opt) (SAName opt) (world s)
    = (Ok (url, ca, tls), w1) →
  getServiceAccountTokenRequest (r_Config rc) (SANamespace opt) (SAName opt)
    (getEffectiveTokenDurationInSecond opt) w1 = (Ok jwt, w2) →
  (handlePullModeTokenRequestRenewal rc s).1 ≠ None →
  cluster (handlePullModeTokenRequestRenewal rc s).2 =
  set_interval (adjustTokenRequestRenewalOption opt jwt w2).1 (cluster s).
Proof.
  intros Hopt Hns Hname Hendpoint Hjwt.
  unfold handlePullModeTokenRequestRenewal, record_renewal. run. rewrite Hopt.
  rewrite decide_False by tauto. rewrite Hendpoint; cbn. rewrite Hjwt; cbn.
  destruct (adjustTokenRequestRenewalOption opt jwt w2) as [interval w3]; cbn.
  destruct (ToUnstructured _) as [u|]; cbn; [|done].
  destruct (StageResourcesForDeployment _ _ _ w3) as [[err|] w4]; cbn; [done|].
  destruct (CommitStagedResourcesForDeployment _ _ w4) as [[err|] w5]; cbn; [done|].
  by destruct (time_Now w5).
Qed.

(** C38: a pull-mode renewal that got a token shorter than requested and then failed
    to deliver it has already made the lifetime of that token the interval, while
    the last renewal is still the one before: the next attempt is not due until that
    interval, counted from the last renewal, has nearly passed, however soon the
    token the agent holds expires. *)
Theorem failed_renewal_postpones_retry (rc : SveltosClusterReconciler) (s : Recon W)
  (opt : TokenRequestRenewalOption) (url ca tls jwt : string) (w1 w2 w' : W) (E : Time)
  (Hopt : Spec_TokenRequestRenewalOption (Spec (cluster s)) = Some opt)
  (Hns : SANamespace opt ≠ "") (Hname : SAName opt ≠ "")
  (Hendpoint : getPullModeManagementClusterEndpoint (SANamespace opt) (SAName opt) (world s)
                 = (Ok (url, ca, tls), w1))
  (Hjwt : getServiceAccountTokenRequest (r_Config rc) (SANamespace opt) (SAName opt)
            (getEffectiveTokenDurationInSecond opt) w1 = (Ok jwt, w2))
  (Hexp : getTokenExpiration jwt = Ok E) (life := E - (time_Now w2).1)
  (HI : sane (RenewTokenRequestInterval opt)) (HD : sane (TokenDuration opt))
  (Hlife : 11 * Minute ≤ life ≤ 2 ^ 62)
  (Hshorter : life + 6 * Second ≤
     (if TokenDuration opt =? 0
      then RenewTokenRequestInterval opt + secondsToAddToTokenRequest * Second
      else TokenDuration opt))
  (Hfailed : (handlePullModeTokenRequestRenewal rc s).1 ≠ None)
  (Hnow : (time_Now w').1 ≤ lastRenewal (cluster s) + life - 11 * Minute) :
  (shouldRenewTokenRequest (cluster (handlePullModeTokenRequestRenewal rc s).2) w').1 = false.
Proof.
  rewrite (failed_renewal_interval rc s opt url ca tls jwt w1 w2) by done.
  pose proof (adjusted_interval opt jwt E w2 Hexp HI HD) as Hadj. cbv zeta in Hadj.
  assert (Hsane : sane life) by (unfold sane, Minute in *; lia).
  rewrite Time_Sub_exact in Hadj
    by (unfold sane, life, in_int64, int64_min, int64_max, Minute in *; lia).
  fold life in Hadj. destruct Hadj as [[HI' _]|[_ Hreq]]; [|unfold Second in *; lia].
  set (opt' := opt <| RenewTokenRequestInterval := life |>).
  destruct (renewalThreshold_bounds opt' Hsane) as (k & Hthr & Hk & _ & Hlong & _).
  apply (shouldRenew_false _ opt' k w').
  - rewrite HI'. unfold set_interval. cbn. by rewrite Hopt.
  - done.
  - lia.
  - change (lastRenewal (set_interval _ (cluster s))) with (lastRenewal (cluster s)).
    change (RenewTokenRequestInterval opt') with life in Hlong.
    unfold Minute, tenMinutes, Second in *. lia.
Qed.

End Failed.

(** ** Instances *)

#[local] Existing Instance SimCron.cron.

(** The time of a reconciliation, and when a token granted by then expires, in Unix
    seconds. *)
Definition sim_poll (poll : Z * Z) (w : SimWorld) : SimWorld :=
  w <| sim_now := Time_of_Unix poll.1 |> <| sim_token := λ _ _ _, Ok (sim_jwt poll.2) |>.

(** A transport that cannot stage anything. *)
Definition failing_transport : PullModeTransport SimWorld := {|
  Unstructured_t := Secret;
  ToUnstructured := Ok;
  StageResourcesForDeployment := λ _ _ _ w, (Some (errors_New "conflict"), w);
  CommitStagedResourcesForDeployment := λ _ _ w, (None, w);
  GetDeploymentStatus := λ _ w, (Ok None, w);
  TerminateDeploymentTracking := λ _ w, (None, w);
  AgentHeartbeatTimeoutError := "agent heartbeat timeout";
  IsAgentTimeoutError := λ _, false
|}.

(** A token is renewed every hour, a day is asked for, twelve hours are given; the
    renewal fails fifty minutes after the last one: nine hours later no other one is
    due. *)
Lemma failed_renewal_postpones_retry_witness :
  let opt := sim_option Hour (24 * Hour) in
  let c := sim_renewing opt (Format 3600 sim_time) in
  let w := sim_poll (1739172424 + 3000, 1739172424 + 3000 + 43200) sim_registered in
  (shouldRenewTokenRequest
     (cluster (handlePullModeTokenRequestRenewal (H4 := failing_transport) sim_r
                 (sim_recon c w)).2) (sim_at (sim_time + 10 * Hour))).1 = false.
Proof.
  intros opt c w.
  apply (failed_renewal_postpones_retry (H4 := failing_transport) sim_r (sim_recon c w) opt
    "https://api.example.com" "external-ca" "" (sim_jwt (1739172424 + 3000 + 43200)) w
    (w <| sim_requests := [("projectsveltos", "manager", 86400)] |>)
    (sim_at (sim_time + 10 * Hour)) (Time_of_Unix (1739172424 + 3000 + 43200)));
    vm_compute; repeat split; congruence.
Defined.
