(* ===== verification/StatusSpec.v ===== *)
(** * The Status of a cluster after a reconciliation

    Ready, the failure message, the connection status and the metrics as functions
    of what the reconciliation found, in push and in pull mode, and what of it is
    persisted. *)

From S2P Require Import Prelude GoTime Float64 GoStrings Api Platform Recon Sim.
From S2P Require Import Kubeconfig TokenTiming TokenRenewal Metrics Connection ClusterChecks.
From S2P Require Import License AutoPause SimCron Reconciler ReconcilerSpec.

(** The connection fields that follow from a failure message, or from none. *)
Definition connection_follows (before after : SveltosCluster) : Prop :=
  match FailureMessage (Status after) with
  | None =>
    ConnectionStatus (Status after) = ConnectionHealthy ∧ ConnectionFailures (Status after) = 0
  | Some _ =>
    ConnectionFailures (Status after) = wrap64 (ConnectionFailures (Status before) + 1) ∧
    ConnectionStatus (Status after) =
      if ConsecutiveFailureThreshold (Spec before) <=? ConnectionFailures (Status after)
      then ConnectionDown else ConnectionStatus (Status before)
  end.

Section StatusSpec.
Context {W : Type} `{Gauge, Clock W, ClientSet W, ManagementClient W, ClusterProxy W,
  PullModeTransport W, Licenses W, Yaml, Semver, Names, Finalizer, Cron}.
Context `{!Dynamic W, !CEL W, !Lua W}.

(** ** What the steps leave of the Status *)

Definition readiness (c : SveltosCluster) :=
  (Ready (Status c), ConnectionFailures (Status c), ConnectionStatus (Status c),
   ConsecutiveFailureThreshold (Spec c), ReadinessChecks (Spec c), LivenessChecks (Spec c),
   Namespace (Meta c), Name (Meta c)).

Definition P_readiness (s : Recon W) := readiness (cluster s).

Lemma readiness_keeps {A} (m : St (Recon W) A) : keeps frame m → keeps P_readiness m.
Proof. intros Hm. by apply (keeps_through frame P_readiness (λ f, readiness (f.1.1))). Qed.

Lemma renew_if_due_readiness r renew :
  keeps P_readiness renew → keeps P_readiness (renew_if_due r renew).
Proof. intros Hr. unfold renew_if_due. keeps_tac. Qed.

Lemma connection_step_follows c :
  connection_follows c (connection_step c) ∧
  FailureMessage (Status (connection_step c)) = FailureMessage (Status c) ∧
  Ready (Status (connection_step c)) = Ready (Status c).
Proof.
  unfold connection_follows, connection_step.
  destruct c as [m sp [ready v st f msg l np nu h a]]. destruct msg as [msg|]; cbn; [|done].
  destruct (ConsecutiveFailureThreshold sp <=? wrap64 (f + 1)) eqn:Hle; cbn; by rewrite Hle.
Qed.

(** ** Push mode *)

(** The state in which the version was read. *)
Definition probed (s : Recon W) (w : W) : Recon W :=
  s <| cluster := cluster s <| Status; FailureMessage := None |> |> <| world := w |>.

(** What a reconciliation in push mode found: its failure message, and Ready. *)
Inductive push_outcome (r : SveltosClusterReconciler) (s : Recon W)
  : option string → bool → Prop :=
  | push_no_config err w1 :
      GetSveltosKubernetesRestConfig (Namespace (Meta (cluster s))) (Name (Meta (cluster s)))
        (world s) = (Err err, w1) →
      push_outcome r s (Some (Error err)) (Ready (Status (cluster s)))
  | push_no_version config err w1 w2 :
      GetSveltosKubernetesRestConfig (Namespace (Meta (cluster s))) (Name (Meta (cluster s)))
        (world s) = (Ok config, w1) →
      GetKubernetesVersion config w1 = (Err err, w2) →
      push_outcome r s (Some (Error err)) (Ready (Status (cluster s)))
  | push_probed config version w1 w2 s3 err w4 :
      GetSveltosKubernetesRestConfig (Namespace (Meta (cluster s))) (Name (Meta (cluster s)))
        (world s) = (Ok config, w1) →
      GetKubernetesVersion config w1 = (Ok version, w2) →
      s3 = (renew_if_due r (handleTokenRequestRenewal config) (probed s w2)).2 →
      runChecks config
        (elems (if Ready (Status (cluster s)) then LivenessChecks (Spec (cluster s))
                else ReadinessChecks (Spec (cluster s)))) (world s3) = (err, w4) →
      push_outcome r s
        (match err with
         | Some err => Some (Error err)
         | None => FailureMessage (Status (cluster s3))
         end)
        (Ready (Status (cluster s)) || bool_decide (err = None)).

Lemma record_version_Status v (s : Recon W) :
  Status (cluster (record_version v s).2) = Status (cluster s) ∧
  Spec (cluster (record_version v s).2) = Spec (cluster s).
Proof.
  unfold record_version, update_cluster_metrics. run.
  by destruct (semver_NewVersion v) as [[[a b] c]|].
Qed.

Lemma check_cluster_spec config v (s : Recon W) :
  let '(err, w) := r_runChecks config (cluster s) (world s) in
  let c' := cluster (check_cluster config v s).2 in
  FailureMessage (Status c') =
    match err with Some err => Some (Error err) | None => FailureMessage (Status (cluster s)) end ∧
  Ready (Status c') = Ready (Status (cluster s)) || bool_decide (err = None) ∧
  ConnectionFailures (Status c') = ConnectionFailures (Status (cluster s)) ∧
  ConnectionStatus (Status c') = ConnectionStatus (Status (cluster s)) ∧
  Spec c' = Spec (cluster s).
Proof.
  unfold check_cluster, mbind, St_bind, get_cluster, gets, outside.
  destruct (r_runChecks config (cluster s) (world s)) as [[err|] w]; cbn.
  - by rewrite orb_false_r.
  - rewrite orb_true_r. match goal with |- context [record_version v ?x] => set (s1 := x) end.
    destruct (record_version_Status v s1) as [Hst Hsp].
    destruct (record_version v s1) as [[] s2]. cbn in *. rewrite Hst, Hsp. done.
Qed.

Lemma report_connection_cluster (s : Recon W) : cluster (report_connection s).2 = cluster s.
Proof. done. Qed.

Definition settle (r : SveltosClusterReconciler) : St (Recon W) () :=
  updateConnectionStatus r;; report_connection.

Definition fail_with (msg : string) (s : Recon W) : Recon W :=
  s <| cluster := cluster s <| Status; FailureMessage := Some msg |> |>.

Lemma settle_cluster r (s : Recon W) :
  cluster (settle r s).2 = connection_step (cluster s).
Proof.
  unfold settle, mbind, St_bind. pose proof (updateConnectionStatus_cluster r s) as Hstep.
  destruct (updateConnectionStatus r s) as [[] s1]. by rewrite report_connection_cluster.
Qed.

(** The three ways a reconciliation in push mode takes. *)
Lemma push_eq r (s : Recon W) :
  reconcilePushModeCluster r s =
  match GetSveltosKubernetesRestConfig (Namespace (Meta (cluster s))) (Name (Meta (cluster s)))
          (world s) with
  | (Err err, w1) => updateConnectionStatus r (fail_with (Error err) (s <| world := w1 |>))
  | (Ok config, w1) =>
    match GetKubernetesVersion config w1 with
    | (Err err, w2) => settle r (fail_with (Error err) (probed s w2))
    | (Ok version, w2) =>
      settle r (check_cluster config version
                  (renew_if_due r (handleTokenRequestRenewal config) (probed s w2)).2).2
    end
  end.
Proof.
  unfold reconcilePushModeCluster, settle.
  unfold mbind at 1, St_bind at 1. unfold get_cluster at 1, gets at 1.
  unfold mbind at 1, St_bind at 1. unfold outside at 1.
  destruct (GetSveltosKubernetesRestConfig _ _ _) as [[config|err] w1]; [|reflexivity].
  unfold mbind at 1, St_bind at 1. unfold set_failure at 1, update_cluster at 1, modify at 1.
  unfold mbind at 1, St_bind at 1. unfold outside at 1. cbn [world update].
  destruct (GetKubernetesVersion config w1) as [[version|err] w2]; [|reflexivity].
  unfold mbind, St_bind. change (_ <| world := w2 |>) with (probed s w2).
  destruct (renew_if_due _ _ (probed s w2)) as [[] s3]. cbn.
  by destruct (check_cluster config version s3) as [[] s4].
Qed.

(** The Status after [connection_step], seen from a cluster with the same counts. *)
Lemma connection_step_from c c2 msg ready :
  (ConnectionFailures (Status c2), ConnectionStatus (Status c2),
   ConsecutiveFailureThreshold (Spec c2)) =
  (ConnectionFailures (Status c), ConnectionStatus (Status c),
   ConsecutiveFailureThreshold (Spec c)) →
  FailureMessage (Status c2) = msg → Ready (Status c2) = ready →
  FailureMessage (Status (connection_step c2)) = msg ∧
  Ready (Status (connection_step c2)) = ready ∧ connection_follows c (connection_step c2).
Proof.
  intros [= Hf Hs Ht] Hmsg Hready. destruct (connection_step_follows c2) as (Hc & Hm & Hr).
  split; [congruence|]. split; [congruence|].
  unfold connection_follows in *. by rewrite Hf, Hs, Ht in Hc.
Qed.

(** C9: the Status after a reconciliation in push mode. The failure message tells
    what failed: reaching for the configuration, the version, a check, or, when
    none of these did, the renewal of the token; there is none when nothing failed.
    Ready becomes true only when the checks passed (readiness checks while it is
    false, liveness checks once it is true) and never becomes false. Without a
    failure the connection is healthy and the count of failures zero; with one the
    count goes up by one and the connection is down from the threshold on. *)
Theorem push_status (r : SveltosClusterReconciler) (s : Recon W)
  (c' := cluster (reconcilePushModeCluster r s).2) :
  push_outcome r s (FailureMessage (Status c')) (Ready (Status c')) ∧
  connection_follows (cluster s) c'.
Proof.
  enough (∃ msg ready, push_outcome r s msg ready ∧ FailureMessage (Status c') = msg ∧
    Ready (Status c') = ready ∧ connection_follows (cluster s) c')
    as (msg & ready & Hout & -> & -> & Hc) by done.
  subst c'. rewrite push_eq.
  destruct (GetSveltosKubernetesRestConfig _ _ _) as [[config|err] w1] eqn:Hconfig.
  2:{ eexists _, _. split; [by eapply push_no_config|].
      rewrite updateConnectionStatus_cluster. by apply connection_step_from. }
  destruct (GetKubernetesVersion config w1) as [[version|err] w2] eqn:Hversion;
    rewrite settle_cluster.
  2:{ eexists _, _. split; [by eapply push_no_version|]. by apply connection_step_from. }
  set (s3 := (renew_if_due r (handleTokenRequestRenewal config) (probed s w2)).2).
  assert (Hs3 : P_readiness s3 = P_readiness (probed s w2))
    by apply renew_if_due_readiness, readiness_keeps, handleTokenRequestRenewal_keeps.
  injection Hs3 as Hr Hf Hs Ht Hrc Hlc _ _. cbn in Hr, Hf, Hs, Ht, Hrc, Hlc.
  pose proof (check_cluster_spec config version s3) as Hcheck.
  destruct (r_runChecks config (cluster s3) (world s3)) as [err w4] eqn:Hrun.
  destruct Hcheck as (Hm & Hready & Hf' & Hs' & Hspec).
  eexists _, _. split; [eapply (push_probed r s config version w1 w2 s3 err w4)|]; try done.
  - unfold r_runChecks in Hrun. rewrite Hr, Hrc, Hlc in Hrun.
    by destruct (Ready (Status (cluster s))).
  - apply connection_step_from; [|done|by rewrite Hready, Hr].
    by rewrite Hf', Hs', Hspec, Hf, Hs, Ht.
Qed.

(** ** The metrics and the Status *)

Context `{!GaugeLaws}.

(** The rows of a cluster say what its Status says. *)
Definition mirrors (c : SveltosCluster) (m : Metrics) : Prop :=
  let l := cluster_labels ClusterTypeSveltos (Namespace (Meta c)) (Name (Meta c)) in
  gauge_row (clusterConnectivityGauge m) l =
    Some (if decide (ConnectionStatus (Status c) = ConnectionHealthy)
          then StatusHealthy else StatusDisconnected) ∧
  gauge_row (connectionFailuresGauge m) l =
    Some (float64_of_int (ConnectionFailures (Status c))).

Lemma report_connection_mirrors (s : Recon W) :
  mirrors (cluster (report_connection s).2) (metrics (report_connection s).2).
Proof.
  unfold mirrors, report_connection, update_cluster_metrics. run.
  rewrite !row_Set. repeat case_decide; done.
Qed.

Lemma settle_mirrors r (s : Recon W) :
  mirrors (cluster (settle r s).2) (metrics (settle r s).2).
Proof.
  unfold settle, mbind, St_bind. destruct (updateConnectionStatus r s) as [[] s1].
  apply report_connection_mirrors.
Qed.

(** C27: when the configuration of a push-mode cluster can be had, its rows for
    connectivity and failures agree with its Status after the reconciliation. *)
Theorem metrics_mirror_status (r : SveltosClusterReconciler) (s : Recon W) (config : Config)
  (w1 : W)
  (Hconfig : GetSveltosKubernetesRestConfig (Namespace (Meta (cluster s)))
               (Name (Meta (cluster s))) (world s) = (Ok config, w1))
  (s' := (reconcilePushModeCluster r s).2) :
  mirrors (cluster s') (metrics s').
Proof.
  subst s'. rewrite push_eq, Hconfig.
  destruct (GetKubernetesVersion config w1) as [[version|err] w2]; apply settle_mirrors.
Qed.

(** When it cannot be had, the failure counts in the Status and may take the
    connection down, but no metric changes: the rows keep telling what they told
    before. *)
Lemma metrics_stale_without_config (r : SveltosClusterReconciler) (s : Recon W) (err : error)
  (w1 : W)
  (Hconfig : GetSveltosKubernetesRestConfig (Namespace (Meta (cluster s)))
               (Name (Meta (cluster s))) (world s) = (Err err, w1))
  (Hreached : ConsecutiveFailureThreshold (Spec (cluster s)) ≤
              wrap64 (ConnectionFailures (Status (cluster s)) + 1))
  (s' := (reconcilePushModeCluster r s).2) :
  metrics s' = metrics s ∧ ConnectionStatus (Status (cluster s')) = ConnectionDown.
Proof.
  subst s'. rewrite push_eq, Hconfig. split.
  - by rewrite (updateConnectionStatus_keeps metrics r).
  - rewrite updateConnectionStatus_cluster. unfold connection_step. cbn.
    by rewrite (proj2 (Z.leb_le _ _) Hreached).
Qed.

(** ** Pull mode: the heartbeat *)

Definition P_heartbeat (s : Recon W) :=
  (readiness (cluster s), AgentLastReportTime (Status (cluster s))).

(** What a reconciliation in pull mode does before it looks at the heartbeat. *)
Definition pull_prepared (r : SveltosClusterReconciler) (s : Recon W) : Recon W :=
  snd ((set_failure None;;
        updateLicenseAnnotations r;;
        renew_if_due r (handlePullModeTokenRequestRenewal r);;
        terminatePullModeTokenRenewalTrackingIfProvisioned) s).

Lemma pull_eq r (s : Recon W) :
  reconcilePullModeCluster r s = check_heartbeat r (pull_prepared r s).
Proof.
  unfold reconcilePullModeCluster, pull_prepared, mbind, St_bind.
  destruct (set_failure None s) as [[] s1].
  destruct (updateLicenseAnnotations r s1) as [[] s2].
  destruct (renew_if_due _ _ s2) as [[] s3].
  by destruct (terminatePullModeTokenRenewalTrackingIfProvisioned s3) as [[] s4].
Qed.

Lemma pull_prepared_heartbeat r (s : Recon W) : P_heartbeat (pull_prepared r s) = P_heartbeat s.
Proof.
  unfold pull_prepared. revert s. change (keeps P_heartbeat
    (set_failure None;; updateLicenseAnnotations r;;
     renew_if_due r (handlePullModeTokenRequestRenewal r);;
     terminatePullModeTokenRenewalTrackingIfProvisioned)).
  assert (keeps P_heartbeat (handlePullModeTokenRequestRenewal r)).
  { apply (keeps_through frame P_heartbeat
      (λ f, (readiness (f.1.1), AgentLastReportTime (Status (f.1.1))))); [|done].
    apply handlePullModeTokenRequestRenewal_keeps. }
  pose proof (updateLicenseAnnotations_keeps P_heartbeat r ltac:(done) ltac:(done)).
  pose proof (terminate_keeps P_heartbeat ltac:(done)).
  unfold renew_if_due. keeps_tac.
Qed.

(** The end of a reconciliation in pull mode, once the agent has reported. *)
Lemma check_heartbeat_eq r (s : Recon W) last now w :
  Ready (Status (cluster s)) = true → AgentLastReportTime (Status (cluster s)) = Some last →
  time_Now (world s) = (now, w) →
  check_heartbeat r s =
  settle r (snd (update_cluster_metrics
    (λ t ns n _, updateAgentLastHeartbeatMetric t ns n last)
    (if maxAllowedAge <? Time_Sub now last
     then fail_with AgentHeartbeatTimeoutError (s <| world := w |>) else s <| world := w |>))).
Proof.
  intros Hready Hlast Hnow. unfold check_heartbeat, settle.
  unfold mbind, St_bind, get_cluster, gets. rewrite Hready, Hlast. cbn [negb].
  unfold outside, time_Since, mbind, St_bind. rewrite Hnow.
  cbn.
  by destruct (maxAllowedAge <? Time_Sub now last).
Qed.

Lemma check_heartbeat_unreported r (s : Recon W) :
  (if Ready (Status (cluster s)) then AgentLastReportTime (Status (cluster s)) else None) = None →
  (check_heartbeat r s).2 = s.
Proof.
  intros Hnone. unfold check_heartbeat. run. destruct (Ready (Status (cluster s))); [|done].
  cbn. by rewrite Hnone.
Qed.

Lemma pull_prepared_metrics r (s : Recon W) : metrics (pull_prepared r s) = metrics s.
Proof.
  unfold pull_prepared. revert s. change (keeps metrics
    (set_failure None;; updateLicenseAnnotations r;;
     renew_if_due r (handlePullModeTokenRequestRenewal r);;
     terminatePullModeTokenRenewalTrackingIfProvisioned)).
  assert (keeps metrics (handlePullModeTokenRequestRenewal r)).
  { apply (keeps_through frame metrics (λ f, f.1.2)); [|done].
    apply handlePullModeTokenRequestRenewal_keeps. }
  pose proof (updateLicenseAnnotations_keeps metrics r ltac:(done) ltac:(done)).
  pose proof (terminate_keeps metrics ltac:(done)).
  unfold renew_if_due. keeps_tac.
Qed.

(** The report of an agent, in the metrics. *)
Definition heartbeat_row (c : SveltosCluster) (m : Metrics) : option float64 :=
  gauge_row (agentLastHeartbeatTimestampGauge m)
    (cluster_labels ClusterTypeSveltos (Namespace (Meta c)) (Name (Meta c))).

Lemma settle_heartbeat_row r (s : Recon W) c :
  heartbeat_row c (metrics (settle r s).2) = heartbeat_row c (metrics s).
Proof.
  unfold settle, mbind, St_bind. pose proof (updateConnectionStatus_keeps metrics r) as Hkeep.
  rewrite <-(Hkeep ltac:(done) ltac:(done) s).
  by destruct (updateConnectionStatus r s) as [[] s1].
Qed.

(** What becomes of a report, from a state with the counts of [c]. *)
Lemma check_heartbeat_reported r (s : Recon W) last c (now := (time_Now (world s)).1)
    (s' := (check_heartbeat r s).2) :
  Ready (Status (cluster s)) = true → AgentLastReportTime (Status (cluster s)) = Some last →
  (ConnectionFailures (Status (cluster s)), ConnectionStatus (Status (cluster s)),
   ConsecutiveFailureThreshold (Spec (cluster s))) =
  (ConnectionFailures (Status c), ConnectionStatus (Status c),
   ConsecutiveFailureThreshold (Spec c)) →
  FailureMessage (Status (cluster s')) =
    (if 10 * Minute <? Time_Sub now last then Some AgentHeartbeatTimeoutError
     else FailureMessage (Status (cluster s))) ∧
  connection_follows c (cluster s') ∧ mirrors (cluster s') (metrics s') ∧
  heartbeat_row (cluster s) (metrics s') = Some (float64_of_int (Time_Unix last)).
Proof.
  intros Hready Hlast Hcounts. subst now s'.
  destruct (time_Now (world s)) as [now w] eqn:Hnow. cbn [fst].
  rewrite (check_heartbeat_eq r s last now w Hready Hlast Hnow).
  change (10 * Minute) with maxAllowedAge.
  match goal with |- context [settle r ?x] => set (s3 := x) end.
  assert (Hs3 : (ConnectionFailures (Status (cluster s3)), ConnectionStatus (Status (cluster s3)),
     ConsecutiveFailureThreshold (Spec (cluster s3))) =
    (ConnectionFailures (Status c), ConnectionStatus (Status c),
     ConsecutiveFailureThreshold (Spec c)) ∧
    FailureMessage (Status (cluster s3)) =
      if maxAllowedAge <? Time_Sub now last then Some AgentHeartbeatTimeoutError
      else FailureMessage (Status (cluster s))).
  { subst s3. unfold update_cluster_metrics, fail_with.
    destruct (maxAllowedAge <? Time_Sub now last); run; (split; [congruence|done]). }
  destruct Hs3 as [Hs3 Hm]. rewrite settle_cluster, <-Hm.
  destruct (connection_step_from _ _ _ _ Hs3 eq_refl eq_refl) as (Hmsg & _ & Hc).
  split_and!; [done|done|rewrite <-(settle_cluster r); apply settle_mirrors|].
  rewrite settle_heartbeat_row. subst s3. unfold heartbeat_row, update_cluster_metrics. run.
  destruct (maxAllowedAge <? Time_Sub now last); cbn; by rewrite row_Set, decide_True.
Qed.

(** C18: the heartbeat of a pull-mode cluster counts once the cluster is ready and its
    agent has reported. Then it fails with the heartbeat error when the report is more
    than ten minutes old, and with what the renewal of the token left otherwise; the
    connection fields follow from that as from any failure; and the metrics tell the
    connection, the failures and the time of the report. Before that a reconciliation
    ends with what the renewal left: connection, failures and metrics stay as they
    were. *)
Theorem heartbeat_decides (r : SveltosClusterReconciler) (s : Recon W)
  (s1 := pull_prepared r s) (now := (time_Now (world s1)).1)
  (s' := (reconcilePullModeCluster r s).2) :
  match (if Ready (Status (cluster s)) then AgentLastReportTime (Status (cluster s)) else None) with
  | Some last =>
    FailureMessage (Status (cluster s')) =
      (if 10 * Minute <? Time_Sub now last then Some AgentHeartbeatTimeoutError
       else FailureMessage (Status (cluster s1))) ∧
    connection_follows (cluster s) (cluster s') ∧
    mirrors (cluster s') (metrics s') ∧
    heartbeat_row (cluster s) (metrics s') = Some (float64_of_int (Time_Unix last))
  | None =>
    s' = s1 ∧ readiness (cluster s') = readiness (cluster s) ∧ metrics s' = metrics s
  end.
Proof.
  subst s' now. rewrite pull_eq. fold s1.
  pose proof (pull_prepared_heartbeat r s) as Hkeep. fold s1 in Hkeep.
  injection Hkeep as Hr Hf Hs Ht Hrc Hlc Hns Hn Hl. rewrite <-Hr, <-Hl.
  destruct (if Ready _ then _ else _) as [last|] eqn:Hlast.
  - assert (Hready : Ready (Status (cluster s1)) = true) by by destruct (Ready _).
    rewrite Hready in Hlast. unfold heartbeat_row. rewrite <-Hns, <-Hn.
    apply check_heartbeat_reported; [done|done|congruence].
  - rewrite check_heartbeat_unreported by done.
    split_and!; [done|unfold readiness; congruence|apply pull_prepared_metrics].
Qed.

(** ** What is persisted *)

Lemma reconcile_in_scope_live r helper name (s : Recon W) (s1 := (reconcileNormal r s).2) :
  IsZero_ptr (DeletionTimestamp (Meta (cluster s))) = true →
  reconcile_in_scope r (mkScope helper name) s =
  let '(err, w) := Patch helper (cluster s1) (world s1) in
  ((mkResult Minute, err), s1 <| world := w |>).
Proof.
  intros Hlive. unfold reconcile_in_scope, Close, PatchObject, mbind, St_bind, get_cluster, gets.
  rewrite Hlive. cbn [negb]. subst s1. destruct (reconcileNormal r s) as [[] s1]. cbn.
  unfold outside. by destruct (Patch helper (cluster s1) (world s1)).
Qed.

(** C24: a reconciliation of a live cluster of this shard hands the cluster as the
    reconciliation left it to the patch helper that was made when it was read,
    returns the error of that, if any, and asks for the next reconciliation in a
    minute, whatever failed. *)
Theorem reconciled_is_persisted (r : SveltosClusterReconciler) (ns n : string) (s : Recon W)
  (c : SveltosCluster) (helper : PatchHelper) (w1 w2 w3 : W)
  (Hget : Get_SveltosCluster ns n (world s) = (Ok c, w1))
  (Hlive : IsZero_ptr (DeletionTimestamp (Meta c)) = true)
  (Hhelper : patch_NewHelper c w1 = (Ok helper, w2))
  (Hshard : isClusterAShardMatch r c w2 = (Ok true, w3))
  (s1 := (reconcileNormal r (s <| cluster := c |> <| world := w3 |>)).2) :
  (Reconcile r ns n s).1 = (mkResult Minute, (Patch helper (cluster s1) (world s1)).1) ∧
  cluster (Reconcile r ns n s).2 = cluster s1 ∧
  world (Reconcile r ns n s).2 = (Patch helper (cluster s1) (world s1)).2.
Proof.
  assert (Hrun : Reconcile r ns n s =
    reconcile_in_scope r (mkScope helper "sveltoscluster")
      (s <| cluster := c |> <| world := w3 |>)).
  { unfold Reconcile. run. rewrite Hget. cbn. unfold NewSveltosClusterScope, mbind, St_bind.
    cbn. rewrite Hhelper. cbn. by rewrite Hshard. }
  rewrite Hrun, (reconcile_in_scope_live r helper) by done.
  subst s1. by destruct (Patch _ _ _).
Qed.

(** A cluster of another shard is read and otherwise left alone. *)
Lemma other_shard_left_alone (r : SveltosClusterReconciler) (ns n : string) (s : Recon W)
  (c : SveltosCluster) (helper : PatchHelper) (w1 w2 w3 : W)
  (Hget : Get_SveltosCluster ns n (world s) = (Ok c, w1))
  (Hhelper : patch_NewHelper c w1 = (Ok helper, w2))
  (Hshard : isClusterAShardMatch r c w2 = (Ok false, w3)) :
  Reconcile r ns n s = ((no_requeue, None), s <| cluster := c |> <| world := w3 |>).
Proof.
  unfold Reconcile. run. rewrite Hget. cbn. unfold NewSveltosClusterScope, mbind, St_bind.
  cbn. rewrite Hhelper. cbn. by rewrite Hshard.
Qed.

End StatusSpec.

(** An update is reconciled exactly when the old object is missing, the
    cluster enters deletion, or its Spec changed: changes of Status, labels and
    annotations, those the controller makes itself included, are not. *)
Lemma update_predicate (old : option SveltosCluster) (new : SveltosCluster) :
  UpdateFunc old new = true ↔
  match old with
  | None => True
  | Some old =>
    (IsZero_ptr (DeletionTimestamp (Meta old)) = true ∧
     IsZero_ptr (DeletionTimestamp (Meta new)) = false) ∨ Spec old ≠ Spec new
  end.
Proof.
  unfold UpdateFunc. destruct old as [old|]; [|done].
  destruct (IsZero_ptr (DeletionTimestamp (Meta old))),
    (IsZero_ptr (DeletionTimestamp (Meta new))); cbn [negb andb];
    try case_bool_decide; intuition congruence.
Qed.

(** ** Instances *)

#[local] Existing Instance SimCron.cron.

Definition sim_ok_config : Config := mkConfig "https://10.0.0.1" "ca" "".

(** The managed cluster answers, its version is 1.3.0. *)
Lemma metrics_mirror_status_witness :
  let s' := (reconcilePushModeCluster sim_r (sim_recon sim_edge sim_init)).2 in
  gauge_row (clusterConnectivityGauge (metrics s'))
    (cluster_labels "Sveltos" "prod" "edge") = Some StatusHealthy.
Proof.
  intros s'.
  pose proof (metrics_mirror_status sim_r (sim_recon sim_edge sim_init) sim_ok_config sim_init
    eq_refl) as [Hrow _].
  refine (eq_trans Hrow _). vm_compute. reflexivity.
Defined.

(** The third failure to get the configuration. *)
Lemma metrics_stale_without_config_witness :
  let s := sim_recon (sim_edge <| Status; ConnectionFailures := 2 |>)
             (sim_init <| sim_restconfig := Err (errors_New "no Secret") |>) in
  metrics (reconcilePushModeCluster sim_r s).2 = sim_metrics ∧
  ConnectionStatus (Status (cluster (reconcilePushModeCluster sim_r s).2)) = ConnectionDown.
Proof.
  intros s. apply (metrics_stale_without_config sim_r s (errors_New "no Secret")
    (sim_init <| sim_restconfig := Err (errors_New "no Secret") |>));
    [reflexivity|vm_compute; congruence].
Defined.

(** A report eleven minutes old. *)
Lemma heartbeat_decides_witness :
  let c := sim_edge <| Spec; PullMode := true |> <| Status; Ready := true |>
             <| Status; AgentLastReportTime := Some (Time_of_Unix 1000) |> in
  FailureMessage (Status (cluster
    (reconcilePullModeCluster sim_r (sim_recon c (sim_clock_at 1660))).2)) =
  Some "agent heartbeat timeout".
Proof.
  intros c.
  rewrite (proj1 (heartbeat_decides sim_r (sim_recon c (sim_clock_at 1660)))).
  vm_compute. reflexivity.
Defined.

Definition sim_helper : PatchHelper (W := SimWorld) := ().

Definition sim_serving (c : SveltosCluster) : SimWorld :=
  sim_init <| sim_clusters := {[("prod", "edge") := c]} |>.

Lemma reconciled_is_persisted_witness :
  (Reconcile sim_r "prod" "edge" (sim_recon zero_SveltosCluster (sim_serving sim_edge))).1 =
  (mkResult Minute, None).
Proof.
  destruct (reconciled_is_persisted sim_r "prod" "edge"
    (sim_recon zero_SveltosCluster (sim_serving sim_edge)) sim_edge sim_helper
    (sim_serving sim_edge) (sim_serving sim_edge) (sim_serving sim_edge)) as [Hres _];
    [reflexivity..|]. rewrite Hres. reflexivity.
Defined.

Lemma other_shard_left_alone_witness :
  let w := sim_serving sim_edge <| sim_shard := "shard-1" |> in
  (Reconcile sim_r "prod" "edge" (sim_recon zero_SveltosCluster w)).1 = (no_requeue, None).
Proof.
  intros w.
  rewrite (other_shard_left_alone sim_r "prod" "edge" (sim_recon zero_SveltosCluster w)
    sim_edge sim_helper w w w); reflexivity.
Defined.
