(* ===== verification/Rounds.v ===== *)
(** * Reconciliations in a row

    An API server that answers and persists, and what a reconciliation of a live
    cluster then does to the stored object: it becomes what [reconcileNormal] makes of
    it. *)

From S2P Require Import Prelude GoTime Float64 Api Platform Recon Sim.
From S2P Require Import Kubeconfig TokenTiming TokenRenewal Metrics Connection ClusterChecks.
From S2P Require Import License AutoPause SimCron Reconciler ReconcilerSpec StatusSpec.
From S2P Require Import Calls System.

Section Rounds.
Context {W : Type} `{Gauge, Clock W, ClientSet W, ManagementClient W, ClusterProxy W,
  PullModeTransport W, Licenses W, Yaml, Semver, Names, Finalizer, Cron}.
Context `{!Dynamic W, !CEL W, !Lua W}.
Context (r : SveltosClusterReconciler) (ns name : string).
Context (stored : W → option SveltosCluster) (up : W → Prop).

(** A call that leaves an [up] world up, and the object alone. *)
Definition calmly : relation W := λ w w', up w → up w' ∧ stored w' = stored w.

#[export] Instance calmly_preorder : PreOrder calmly.
Proof.
  split; [by intros w|]. intros w1 w2 w3 H12 H23 Hw1.
  destruct (H12 Hw1) as [Hw2 Hs2]. destruct (H23 Hw2) as [Hw3 Hs3]. split; [done|congruence].
Qed.

(** In a world that is [up], the API server answers and persists, the cluster belongs to
    this shard, and while the controller works on it nobody else changes it. *)
Record serves : Prop := {
  serves_calls : calls_along calmly;
  serves_get w c : up w → stored w = Some c →
    ∃ w', Get_SveltosCluster ns name w = (Ok c, w') ∧ up w' ∧ stored w' = stored w;
  serves_helper w c : up w →
    ∃ h w', patch_NewHelper c w = (Ok h, w') ∧ up w' ∧ stored w' = stored w;
  serves_shard w c : up w → (isClusterAShardMatch r c w).1 = Ok true;
  serves_patch c0 w0 h c w : (patch_NewHelper c0 w0).1 = Ok h → up w → stored w = Some c0 →
    (Patch h c w).1 = None ∧ up (Patch h c w).2 ∧ stored (Patch h c w).2 = persisted c
}.

Context (Hserves : serves).

(** The state in which [reconcileNormal] begins, after the reads before it. *)
Definition begin (s : Recon W) (c : SveltosCluster) : Recon W :=
  mkRecon c (metrics s) (events s)
    (isClusterAShardMatch r c (patch_NewHelper c (Get_SveltosCluster ns name (world s)).2).2).2.

Lemma reconcileNormal_live (s : Recon W) :
  DeletionTimestamp (Meta (cluster (reconcileNormal r s).2)) = DeletionTimestamp (Meta (cluster s)).
Proof. exact (f_equal (λ x, x.1.1.2) (reconcileNormal_fixed r s)). Qed.

Lemma reconcile_body_calm (s : Recon W) : calmly (world s) (world (reconcile_body r s)).
Proof.
  unfold reconcile_body.
  case_match; [apply (moves_normal calmly)|apply (moves_delete calmly)]; apply Hserves.
Qed.

(** A reconciliation gets as far as working on the copy. *)
Lemma round_scope (s : Recon W) (c : SveltosCluster) (s1 := begin s c) :
  up (world s) → stored (world s) = Some c →
  (up (world s1) ∧ stored (world s1) = Some c) ∧
  ∃ h w, (patch_NewHelper c w).1 = Ok h ∧
    Reconcile r ns name s = reconcile_in_scope r (mkScope h "sveltoscluster") s1.
Proof.
  intros Hs Hstored. destruct (serves_get Hserves _ _ Hs Hstored) as (w1 & Hget & Hw1 & Hs1).
  destruct (serves_helper Hserves w1 c Hw1) as (h & w2 & Hh & Hw2 & Hs2).
  pose proof (serves_shard Hserves w2 c Hw2) as Hshard.
  destruct (along_shard _ (serves_calls Hserves) r c w2 Hw2) as [Hw3 Hs3].
  assert (Hworld : world s1 = (isClusterAShardMatch r c w2).2)
    by (subst s1; cbn; by rewrite Hget; cbn; rewrite Hh).
  rewrite <-Hworld in Hw3, Hs3. split; [split; [done|congruence]|].
  exists h, w1. split; [by rewrite Hh|].
  subst s1. unfold begin, Reconcile. run. rewrite Hget. cbn. unfold NewSveltosClusterScope, mbind,
    St_bind. cbn. rewrite Hh. cbn.
  destruct (isClusterAShardMatch r c w2) as [isMatch w3]. cbn in Hshard |- *. by subst isMatch.
Qed.

(** A reconciliation stores what became of the copy. *)
Lemma round_persists (s : Recon W) (c : SveltosCluster) (s1 := begin s c)
    (s' := (Reconcile r ns name s).2) :
  up (world s) → stored (world s) = Some c →
  (up (world s1) ∧ stored (world s1) = Some c) ∧
  (Reconcile r ns name s).1 = (reconcile_result s1, None) ∧
  stored (world s') = persisted (cluster (reconcile_body r s1)) ∧
  metrics s' = metrics (reconcile_body r s1).
Proof.
  intros Hs Hstored. subst s'.
  destruct (round_scope s c Hs Hstored) as ([Hw3 Hs3] & h & w1 & Hh & Hrun).
  split; [done|]. fold s1 in Hrun, Hw3, Hs3. rewrite Hrun, reconcile_in_scope_eq.
  cbn [fst snd patchHelper world metrics update].
  destruct (reconcile_body_calm s1 Hw3) as [Hup Hsame].
  destruct (serves_patch Hserves c w1 h (cluster (reconcile_body r s1))
    (world (reconcile_body r s1))) as (Hok & _ & Hpatch); [done|done|congruence|]. by rewrite Hok, Hpatch.
Qed.

Lemma round_up (s : Recon W) (c : SveltosCluster) :
  up (world s) → stored (world s) = Some c → up (world (Reconcile r ns name s).2).
Proof.
  intros Hs Hstored. destruct (round_scope s c Hs Hstored) as ([Hup Hc] & h & w & Hh & ->).
  rewrite reconcile_in_scope_eq. cbn [fst snd patchHelper world update].
  destruct (reconcile_body_calm (begin s c) Hup) as [Hup2 Hsame].
  eapply serves_patch; [exact Hserves|exact Hh|done|congruence].
Qed.

(** If it is live, that is what [reconcileNormal] makes of it. *)
Lemma round_serves (s : Recon W) (c : SveltosCluster) (s1 := begin s c) :
  up (world s) → stored (world s) = Some c →
  IsZero_ptr (DeletionTimestamp (Meta c)) = true →
  up (world s1) ∧
  stored (world (Reconcile r ns name s).2) = Some (cluster (reconcileNormal r s1).2).
Proof.
  intros Hs Hstored Hlive. destruct (round_persists s c Hs Hstored) as ((Hup & _) & _ & Hround & _).
  split; [done|]. rewrite Hround. unfold reconcile_body.
  change (cluster (begin s c)) with c. rewrite Hlive. unfold persisted.
  rewrite reconcileNormal_live. change (cluster (begin s c)) with c. by rewrite Hlive.
Qed.

End Rounds.

Arguments serves_calls {_ _ _ _ _ _ _ _ _ _ _ _ _ _ _} _.

(** ** The server of one cluster *)

Section Server.
Import SimServer.
#[local] Existing Instance SimCron.cron.

Lemma client_serves `{C : Clock SimWorld, P : ClusterProxy SimWorld, T : PullModeTransport SimWorld}
  ns name (up : SimWorld → Prop) :
  calls_along (calmly stored up) → (∀ w o, up w → up (set_stored o w)) →
  (∀ w c, up w → (isClusterAShardMatch sim_r c w).1 = Ok true) →
  serves sim_r ns name stored up.
Proof.
  intros Hcalls Hup Hshard. split.
  - exact Hcalls.
  - intros w c Hw Hc. exists w. split; [|done]. cbn [Get_SveltosCluster client]. by rewrite Hc.
  - intros w c Hw. by exists c, w.
  - exact Hshard.
  - intros c0 w0 h c w [= <-] Hw Hc. cbn [Patch client]. rewrite Hc, merge_same. cbn [fst snd].
    split; [done|]. split; [by apply Hup|apply stored_set].
Qed.

Lemma sim_serves ns name (up : SimWorld → Prop) :
  (∀ w w', sim_restconfig w' = sim_restconfig w → sim_shard w' = sim_shard w →
     sim_license w' = sim_license w → up w → up w') →
  (∀ w, up w → sim_shard w = "") →
  serves sim_r ns name stored up.
Proof.
  intros Hup Hshard. apply client_serves.
  - split; [split| |]; intros; intros w Hw;
      try (split; [by apply (Hup w)|reflexivity]).
    sim_terminate; (split; [by apply (Hup w)|reflexivity]).
  - intros w o Hw. by apply (Hup w).
  - intros w c Hw. unfold isClusterAShardMatch, mbind, St_bind. cbn. by rewrite (Hshard w Hw).
Qed.

End Server.
