(* ===== verification/RoundSpec.v ===== *)
(** * What a reconciliation stores

    The release of a deleted cluster and the relay of the license, from the object that
    the API server holds before a reconciliation to the one it holds after. *)

From S2P Require Import Prelude GoTime Float64 Base64 Api Platform Recon Sim.
From S2P Require Import Kubeconfig TokenTiming TokenRenewal Metrics Connection ClusterChecks.
From S2P Require Import License AutoPause SimCron Reconciler ReconcilerSpec StatusSpec.
From S2P Require Import Calls System Rounds.

Section RoundSpec.
Context {W : Type} `{Gauge, Clock W, ClientSet W, ManagementClient W, ClusterProxy W,
  PullModeTransport W, Licenses W, Yaml, Semver, Names, Finalizer, Cron}.
Context `{!Dynamic W, !CEL W, !Lua W}.
Context (r : SveltosClusterReconciler) (ns name : string).
Context (stored : W → option SveltosCluster) (up : W → Prop).

(** ** The release of a deleted cluster *)

(** The cluster without the controller's finalizer. *)
Definition without_finalizer (c : SveltosCluster) : SveltosCluster :=
  set_finalizers (λ l, RemoveFinalizer l SveltosClusterFinalizer) c.

Lemma reconcileDelete_cluster (s : Recon W) :
  (reconcileDelete s).1 = no_requeue →
  ContainsFinalizer (Finalizers (Meta (cluster s))) SveltosClusterFinalizer = true →
  cluster (reconcileDelete s).2 = without_finalizer (cluster s).
Proof.
  unfold reconcileDelete, evict_and_release. run. intros Hres Hfinalizer. revert Hres.
  rewrite Hfinalizer. cbn [negb]. destruct (CleanupGracePeriod _) as [g|]; cbn.
  - destruct (time_Now (world s)) as [now w]; cbn. destruct (Before _ _); cbn; [done|].
    by destruct (EvictWorkloadIdentityCache _ _ w).
  - by destruct (EvictWorkloadIdentityCache _ _ (world s)).
Qed.

(** C11: a deleted cluster that carries the controller's finalizer is released exactly
    when its grace period is over, or when it has none. Before that a reconciliation
    leaves the stored object and the metrics as they are and asks for another look in a
    minute. From then on it stores the cluster without the controller's finalizer, which
    the API server drops if it was the last one, removes the cluster's rows from every
    gauge and no others, and asks for no other look. *)
Theorem deleted_cluster_is_released `{!GaugeLaws, !FinalizerLaws} (s : Recon W) (c : SveltosCluster)
  (Hserves : serves r ns name stored up)
  (Hup : up (world s)) (Hstored : stored (world s) = Some c)
  (Hdeleted : IsZero_ptr (DeletionTimestamp (Meta c)) = false)
  (Hfinalizer : ContainsFinalizer (Finalizers (Meta c)) SveltosClusterFinalizer = true)
  (waiting := match release_deadline c with
              | Some deadline => Before (clock (world (begin r ns name s c))) deadline
              | None => false
              end) :
  let '(res, s') := Reconcile r ns name s in
  if waiting
  then res = (mkResult Minute, None) ∧ stored (world s') = Some c ∧ metrics s' = metrics s
  else
    res = (no_requeue, None) ∧ stored (world s') = persisted (without_finalizer c) ∧
    no_rows ClusterTypeSveltos (Namespace (Meta c)) (Name (Meta c)) (metrics s') ∧
    same_other_rows ClusterTypeSveltos (Namespace (Meta c)) (Name (Meta c))
      (metrics s) (metrics s').
Proof.
  destruct (round_persists r ns name stored up Hserves s c Hup Hstored)
    as (_ & Hres & Hround & Hmetrics).
  pose proof (reconcileDelete_release (begin r ns name s c) Hfinalizer) as Hrelease.
  pose proof (reconcileDelete_cluster (begin r ns name s c)) as Hcluster.
  cbv zeta in Hrelease. change (cluster (begin r ns name s c)) with c in *.
  change (metrics (begin r ns name s c)) with (metrics s) in *.
  unfold reconcile_result, reconcile_body in *.
  change (cluster (begin r ns name s c)) with c in *. rewrite Hdeleted in *.
  destruct (Reconcile r ns name s) as [res s']. cbn [fst snd] in *.
  fold (clock (world (begin r ns name s c))) in Hrelease. fold waiting in Hrelease.
  destruct (reconcileDelete (begin r ns name s c)) as [res1 s1]. cbn [fst snd] in *.
  rewrite Hround, Hres, Hmetrics. destruct waiting.
  - destruct Hrelease as (-> & -> & ->). split_and!; [done| |done].
    unfold persisted. rewrite (bool_decide_eq_false_2 (Finalizers (Meta c) = []));
      [by rewrite andb_false_r|]. intros Hnil. by rewrite Hnil, Contains_nil in Hfinalizer.
  - destruct Hrelease as (-> & [Hrows Hothers _ _]). by rewrite Hcluster.
Qed.

(** ** The license *)

Definition P_annotations (s : Recon W) := Annotations (Meta (cluster s)).

(** After the license only the relay's own annotations may differ. *)
Lemma pull_annotations (s : Recon W) (s1 := (updateLicenseAnnotations r (set_failure None s).2).2) :
  P_annotations (reconcilePullModeCluster r s).2 = P_annotations s1.
Proof.
  assert (Hframe : ∀ {A} (m : St (Recon W) A), keeps frame m → keeps P_annotations m)
    by (intros A m Hm; by apply (keeps_through frame P_annotations (λ f, Annotations (Meta f.1.1)))).
  pose proof (Hframe _ _ (handlePullModeTokenRequestRenewal_keeps r)).
  assert (Hrest : keeps P_annotations
    (renew_if_due r (handlePullModeTokenRequestRenewal r);;
     terminatePullModeTokenRenewalTrackingIfProvisioned;; check_heartbeat r)).
  { pose proof (terminate_keeps P_annotations ltac:(done)).
    unfold renew_if_due, check_heartbeat, updateConnectionStatus, recordConnectionTransition,
      recordEventf, report_connection, update_cluster_metrics. keeps_tac.
    all: unfold P_annotations, connection_step; cbn; repeat case_match; done. }
  rewrite <-(Hrest s1). subst s1. unfold reconcilePullModeCluster, mbind, St_bind.
  destruct (set_failure None s) as [[] s1]. cbn [snd].
  by destruct (updateLicenseAnnotations r s1) as [[] s2].
Qed.

Lemma license_annotations (s : Recon W) (key : PublicKey) (result : LicenseVerificationResult) :
  serves r ns name stored up → (∀ w, up w → (GetPublicKey w).1 = Ok key) →
  (∀ w, up w → (VerifyLicenseSecret (SveltosNamespace r) key w).1 = result) → up (world s) →
  P_annotations (updateLicenseAnnotations r s).2 = relay_annotations result (P_annotations s).
Proof.
  intros Hserves Hkey Hresult Hs. unfold updateLicenseAnnotations. run.
  specialize (Hkey (world s) Hs).
  destruct (along_GetPublicKey _ (serves_calls Hserves) (world s) Hs) as [Hup _].
  destruct (GetPublicKey (world s)) as [res w]. cbn in Hkey, Hup. subst res. cbn.
  specialize (Hresult w Hup). destruct (VerifyLicenseSecret _ key w) as [res w'].
  cbn in Hresult. by subst res.
Qed.

(** C20: in pull mode a reconciliation hands the license on. When the license Secret
    verifies to [result], the agent that reads the stored object afterwards decodes the
    signed payload and its signature from the two annotations; without a payload neither
    annotation is stored, whatever an earlier license had left there; and the
    annotations of others are as they were. *)
Theorem agent_gets_license (s : Recon W) (c : SveltosCluster) (key : PublicKey)
  (result : LicenseVerificationResult)
  (Hkeys : LicensePayloadAnnotation ≠ LicenseSignatureAnnotation)
  (Hserves : serves r ns name stored up)
  (Hkey : ∀ w, up w → (GetPublicKey w).1 = Ok key)
  (Hresult : ∀ w, up w → (VerifyLicenseSecret (SveltosNamespace r) key w).1 = result)
  (Hup : up (world s)) (Hstored : stored (world s) = Some c)
  (Hlive : IsZero_ptr (DeletionTimestamp (Meta c)) = true) (Hpull : PullMode (Spec c) = true) :
  ∃ c', stored (world (Reconcile r ns name s).2) = Some c' ∧
    relayed result (Annotations (Meta c)) (Annotations (Meta c')).
Proof.
  destruct (round_serves r ns name stored up Hserves s c Hup Hstored Hlive) as [Hup1 Hround].
  eexists. split; [exact Hround|]. clear Hround.
  set (s1 := begin r ns name s c) in *.
  destruct (reconcileNormal_steps r s1) as (s2 & now & s3 & _ & Hs2 & Hs3 & ->).
  change (PullMode (Spec (cluster s1))) with (PullMode (Spec c)) in Hs3. rewrite Hpull in Hs3.
  cbn [cluster update].
  assert (Hhandle : ∀ c now, Annotations (Meta (handleAutomaticPauseUnPause c now)) =
    Annotations (Meta c)) by (intros c0 t; by destruct (handle_frame c0 t) as (? & ? & ? & ? & ->)).
  rewrite Hhandle. change (Annotations (Meta (cluster s3))) with (P_annotations s3).
  destruct (along_now _ (serves_calls Hserves) (world s1) Hup1) as [Hup2 _].
  rewrite Hs3, pull_annotations, (license_annotations _ key result) by
    (done || (rewrite Hs2; unfold outside; cbn [world update]; by destruct (time_Now (world s1)))).
  assert (Hannotations : P_annotations (set_failure None s2).2 = Annotations (Meta c))
    by (rewrite Hs2; unfold outside; cbn [world update]; by destruct (time_Now (world s1))).
  rewrite Hannotations. by apply relay_annotations_relayed.
Qed.

End RoundSpec.

(** ** Instances *)

Section Server.
Import SimServer.
#[local] Existing Instance SimCron.cron.

Definition sim_licensed (w : SimWorld) : Prop :=
  sim_shard w = "" ∧ sim_license w = sim_valid_license.

Lemma sim_licensed_serves : serves sim_r "prod" "edge" stored sim_licensed.
Proof.
  apply sim_serves; [|by intros w [Hshard _]].
  intros w w' _ Hshard Hlicense [Hw1 Hw2]. split; congruence.
Qed.

Definition sim_holding (t : Time) (c : SveltosCluster) : Recon SimWorld :=
  sim_recon zero_SveltosCluster (set_stored (Some c)
    (sim_init <| sim_now := t |> <| sim_license := sim_valid_license |>)).

(** Deleted at noon with a grace period of five minutes, and no other finalizer. *)
Definition sim_leaving : SveltosCluster :=
  sim_deleted <| Meta; DeletionTimestamp := Some sim_noon |>
    <| Meta; Finalizers := ["sveltosclusterfinalizer.projectsveltos.io"] |>.

Lemma deleted_cluster_is_released_witness :
  (Reconcile sim_r "prod" "edge" (sim_holding (sim_noon + 4 * Minute) sim_leaving)).1 =
    (mkResult Minute, None) ∧
  stored (world (Reconcile sim_r "prod" "edge"
    (sim_holding (sim_noon + 5 * Minute) sim_leaving)).2) = None.
Proof.
  pose proof (λ t, deleted_cluster_is_released sim_r "prod" "edge" stored sim_licensed
    (sim_holding t sim_leaving) sim_leaving sim_licensed_serves (conj eq_refl eq_refl)
    (stored_set _ _) eq_refl eq_refl) as Hrelease. split.
  - specialize (Hrelease (sim_noon + 4 * Minute)).
    destruct (Reconcile _ _ _ _) as [res s']. exact (proj1 Hrelease).
  - specialize (Hrelease (sim_noon + 5 * Minute)).
    destruct (Reconcile _ _ _ _) as [res s']. exact (proj1 (proj2 Hrelease)).
Defined.

Definition sim_pulled : SveltosCluster :=
  sim_edge <| Spec; PullMode := true |> <| Meta; Annotations := Some {["team" := "edge"]} |>.

Definition sim_key : PublicKey (W := SimWorld) := ().

Lemma agent_gets_license_witness :
  ∃ c, stored (world (Reconcile sim_r "prod" "edge" (sim_holding sim_noon sim_pulled)).2) = Some c ∧
    DecodeString StdEncoding (annotation "license-payload" (Annotations (Meta c))) =
      Some "payload bytes" ∧
    Annotations (Meta c) ≫= lookup "team" = Some "edge".
Proof.
  destruct (agent_gets_license sim_r "prod" "edge" stored sim_licensed
    (sim_holding sim_noon sim_pulled) sim_pulled sim_key sim_valid_license) as (c & Hc & Hpayload & Hothers);
    [done|apply sim_licensed_serves|done|by intros w [_ Hw]|done|apply stored_set|done|done|].
  exists c. split; [done|]. split; [exact (proj1 Hpayload)|by rewrite Hothers].
Defined.

End Server.
