(* ===== verification/Outage.v ===== *)
(** * A cluster that stays out of reach

    Reconciliations of a push-mode cluster whose configuration cannot be had, one after
    the other, each persisted in the API server before the next one reads it. *)

From S2P Require Import Prelude GoTime Float64 GoStrings Rfc3339 Api Platform Recon Sim.
From S2P Require Import Kubeconfig TokenTiming TokenRenewal Metrics Connection ClusterChecks.
From S2P Require Import License AutoPause SimCron Reconciler ReconcilerSpec StatusSpec.
From S2P Require Import Calls System Rounds.

Section Outage.
Context {W : Type} `{Gauge, Clock W, ClientSet W, ManagementClient W, ClusterProxy W,
  PullModeTransport W, Licenses W, Yaml, Semver, Names, Finalizer, Cron}.
Context `{!Dynamic W, !CEL W, !Lua W}.
Context (r : SveltosClusterReconciler) (ns name : string).
Context (stored : W → option SveltosCluster) (cut : W → Prop).

(** In a world that is cut off the API server answers and persists, but the cluster's
    configuration cannot be had. *)
Record cut_off : Prop := {
  cut_serves : serves r ns name stored cut;
  cut_config w : cut w → ∃ err, (GetSveltosKubernetesRestConfig ns name w).1 = Err err
}.

(** A live cluster in push mode, by its name. *)
Definition watched (c : SveltosCluster) : Prop :=
  Namespace (Meta c) = ns ∧ Name (Meta c) = name ∧ PullMode (Spec c) = false ∧
  IsZero_ptr (DeletionTimestamp (Meta c)) = true.

Definition connection (c : SveltosCluster) :=
  (ConsecutiveFailureThreshold (Spec c), ConnectionFailures (Status c),
   ConnectionStatus (Status c)).

(** [outage n s s']: [n] reconciliations lead from [s] to [s'], in worlds that are cut
    off, where the stored cluster changes in between, but not its connection and the
    threshold. *)
Inductive outage : nat → Recon W → Recon W → Prop :=
  | outage_begin s : outage 0 s s
  | outage_on n s w c c' s' :
    stored (world s) = Some c → stored w = Some c' → connection c' = connection c →
    watched c' → cut w → outage n (Reconcile r ns name (s <| world := w |>)).2 s' →
    outage (S n) s s'.

Context (Hcut : cut_off).

(** The connection after a failure. *)
Definition one_failure (k : Z * Z * ConnectionStatus_t) : Z * Z * ConnectionStatus_t :=
  let '(threshold, failures, status) := k in
  (threshold, wrap64 (failures + 1),
   if threshold <=? wrap64 (failures + 1) then ConnectionDown else status).

Lemma connection_one_failure c msg :
  connection (connection_step (c <| Status; FailureMessage := Some msg |>)) =
  one_failure (connection c).
Proof. unfold connection, connection_step. cbn. by case_match. Qed.

(** A reconciliation in a world that is cut off. *)
Lemma normal_cut_off (s : Recon W) (s' := (reconcileNormal r s).2) :
  cut (world s) → watched (cluster s) →
  connection (cluster s') = one_failure (connection (cluster s)).
Proof.
  intros Hs Hw. destruct Hw as (Hns & Hname & Hpull & _). subst s'.
  destruct (along_now _ (serves_calls (cut_serves Hcut)) (world s) Hs) as [Hnow _].
  destruct (reconcileNormal_steps r s) as (s1 & now & s2 & _ & Hs1 & Hs2 & ->).
  rewrite Hpull, push_eq in Hs2. unfold outside in Hs1. cbn in Hs1.
  destruct (time_Now (world s)) as [t w1]. cbn in Hs1, Hnow. subst s1. cbn in Hs2.
  rewrite Hns, Hname in Hs2. destruct (cut_config Hcut w1 Hnow) as [err Herr].
  destruct (GetSveltosKubernetesRestConfig ns name w1) as [config w2]. cbn in Herr. subst config.
  cbn [cluster update]. destruct (handle_frame (cluster s2) now) as (b & u & p & h & ->).
  rewrite Hs2, updateConnectionStatus_cluster.
  exact (connection_one_failure (update_finalizer (cluster s)) (Error err)).
Qed.

Lemma round_cut_off (s : Recon W) (c : SveltosCluster) (s' := (Reconcile r ns name s).2) :
  cut (world s) → stored (world s) = Some c → watched c →
  ∃ c', stored (world s') = Some c' ∧ connection c' = one_failure (connection c).
Proof.
  intros Hs Hstored Hw. pose proof Hw as (_ & _ & _ & Hlive).
  destruct (round_serves r ns name stored cut (cut_serves Hcut) s c Hs Hstored Hlive)
    as [Hbegun Hround].
  pose proof (normal_cut_off (begin r ns name s c) Hbegun Hw). by eexists.
Qed.

(** C7: a cluster that stays out of reach is reported down: after [n] reconciliations
    in a row that could not get its configuration, each persisted before the next, the
    stored Status counts [n] failures more, and the connection is Down from the
    threshold on, and what it was before until then. *)
Theorem unreachable_cluster_goes_down (n : nat) (s s' : Recon W) (c : SveltosCluster)
  (Hc : stored (world s) = Some c) (Hrun : outage n s s') (Hn : (0 < n)%nat)
  (Hfailures : 0 ≤ ConnectionFailures (Status c))
  (Hbound : ConnectionFailures (Status c) + Z.of_nat n < 2 ^ 63) :
  ∃ c', stored (world s') = Some c' ∧
    ConnectionFailures (Status c') = ConnectionFailures (Status c) + Z.of_nat n ∧
    ConnectionStatus (Status c') =
      if ConsecutiveFailureThreshold (Spec c) <=? ConnectionFailures (Status c) + Z.of_nat n
      then ConnectionDown else ConnectionStatus (Status c).
Proof.
  assert (Hinv : ∃ c', stored (world s') = Some c' ∧
    ConsecutiveFailureThreshold (Spec c') = ConsecutiveFailureThreshold (Spec c) ∧
    ConnectionFailures (Status c') = ConnectionFailures (Status c) + Z.of_nat n ∧
    ConnectionStatus (Status c') =
      if (0 <? n)%nat && (ConsecutiveFailureThreshold (Spec c) <=?
           ConnectionFailures (Status c) + Z.of_nat n)
      then ConnectionDown else ConnectionStatus (Status c)).
  { clear Hn. revert c Hc Hfailures Hbound.
    induction Hrun as [s|n s w c1 c2 s' Hc1 Hc2 Hsame Hw Hcutw _ IH];
      intros c Hc Hfailures Hbound.
    - exists c. by rewrite Z.add_0_r.
    - rewrite Hc in Hc1. injection Hc1 as <-.
      destruct (round_cut_off (s <| world := w |>) c2) as (c3 & Hc3 & Hconnection); [done..|].
      rewrite Hsame in Hconnection. unfold connection, one_failure in Hconnection.
      rewrite wrap64_id in Hconnection by (unfold in_int64, int64_min, int64_max; lia).
      injection Hconnection as Hthr Hf Hst.
      destruct (IH c3 Hc3) as (c' & Hc' & Hthr' & Hf' & Hst'); [lia..|].
      exists c'. split_and!; [done|congruence|lia|]. rewrite Hst', Hthr, Hf, Hst.
      replace (Z.of_nat (S n)) with (1 + Z.of_nat n) by lia. rewrite Z.add_assoc.
      change (0 <? S n)%nat with true. cbn [andb].
      destruct (Nat.ltb_spec 0 n); cbn [andb];
        repeat match goal with |- context [?a <=? ?b] => destruct (Z.leb_spec a b) end;
        done || lia. }
  destruct Hinv as (c' & Hc' & _ & Hf & Hst). exists c'.
  destruct n as [|n]; [lia|]. by split_and!.
Qed.

End Outage.

(** ** Two reconciliations of a cluster whose threshold is two *)

Section Server.
Import SimServer.
#[local] Existing Instance SimCron.cron.

Definition sim_cut (w : SimWorld) : Prop :=
  sim_restconfig w = Err not_found ∧ sim_shard w = "".

Lemma sim_cut_off ns name : cut_off sim_r ns name stored sim_cut.
Proof.
  split; [|intros w [Hconfig _]; by exists not_found].
  apply sim_serves; [|by intros w [_ Hshard]].
  intros w w' Hconfig Hshard _ [Hw1 Hw2]. split; congruence.
Qed.

Definition sim_lost (failures : Z) : SveltosCluster :=
  sim_edge <| Spec; ConsecutiveFailureThreshold := 2 |>
    <| Status; ConnectionFailures := failures |> <| Status; ConnectionStatus := ConnectionHealthy |>.

Definition sim_cut_world (c : SveltosCluster) : SimWorld :=
  set_stored (Some c) (sim_init <| sim_restconfig := Err not_found |>).

Definition sim_round (c : SveltosCluster) (s : Recon SimWorld) : Recon SimWorld :=
  (Reconcile sim_r "prod" "edge" (s <| world := sim_cut_world c |>)).2.

Definition sim_lost_recon : Recon SimWorld :=
  sim_recon zero_SveltosCluster (sim_cut_world (sim_lost 0)).

Lemma sim_cut_round n c c' s s' :
  stored (world s) = Some c → connection c' = connection c → watched "prod" "edge" c' →
  outage sim_r "prod" "edge" stored sim_cut n (sim_round c' s) s' →
  outage sim_r "prod" "edge" stored sim_cut (S n) s s'.
Proof.
  intros Hc Hsame Hw. apply (outage_on _ _ _ _ _ n s (sim_cut_world c') c c'); done || apply stored_set.
Qed.

Lemma sim_lost_twice : outage sim_r "prod" "edge" stored sim_cut 2 sim_lost_recon
  (sim_round (sim_lost 1) (sim_round (sim_lost 0) sim_lost_recon)).
Proof.
  apply (sim_cut_round _ (sim_lost 0) (sim_lost 0)); [apply stored_set|done|by split_and!|].
  destruct (round_cut_off sim_r "prod" "edge" stored sim_cut (sim_cut_off _ _)
    (sim_lost_recon <| world := sim_cut_world (sim_lost 0) |>) (sim_lost 0))
    as (c & Hc & Hconnection); [done|apply stored_set|by split_and!|].
  apply (sim_cut_round _ c (sim_lost 1)); [exact Hc|by rewrite Hconnection|by split_and!|].
  apply outage_begin.
Qed.

Lemma unreachable_cluster_goes_down_witness :
  ∃ c, stored (world (sim_round (sim_lost 1) (sim_round (sim_lost 0) sim_lost_recon))) = Some c ∧
    ConnectionFailures (Status c) = 2 ∧ ConnectionStatus (Status c) = ConnectionDown.
Proof.
  exact (unreachable_cluster_goes_down sim_r "prod" "edge" stored sim_cut (sim_cut_off _ _) 2
    sim_lost_recon _ (sim_lost 0) (stored_set _ _) sim_lost_twice ltac:(lia) ltac:(done)
    ltac:(reflexivity)).
Defined.

End Server.
