(* ===== verification/WindowRuns.v ===== *)
(** * The active window, from the API server

    [AutoPauseRuns] and [AutoPauseSpec] follow the Paused field over calls of
    [handleAutomaticPauseUnPause]. Here the calls are those of whole reconciliations,
    each of which reads the cluster from the API server and persists it, and what is
    paused is the stored object. *)

From S2P Require Import Prelude GoTime Float64 Api Platform Recon Sim.
From S2P Require Import Kubeconfig TokenTiming TokenRenewal Metrics Connection ClusterChecks.
From S2P Require Import License AutoPause AutoPauseRuns SimCron Reconciler AutoPauseSpec.
From S2P Require Import ReconcilerSpec StatusSpec Calls System Rounds.

(** ** What the window depends on *)

(** A cluster of which only what concerns the active window is kept. *)
Definition only_window (c : SveltosCluster) : SveltosCluster :=
  zero_SveltosCluster
    <| Meta; CreationTimestamp := CreationTimestamp (Meta c) |>
    <| Spec; Spec_ActiveWindow := Spec_ActiveWindow (Spec c) |>
    <| Spec; Paused := Paused (Spec c) |>
    <| Status; NextUnpause := NextUnpause (Status c) |>
    <| Status; NextPause := NextPause (Status c) |>
    <| Status; ActiveWindowHash := ActiveWindowHash (Status c) |>.

Lemma observed_by {A B} (f : A → B) (l : list (A * B)) :
  f <$> l.*1 = l.*2 → Forall (λ o, o.2 = f o.1) l.
Proof.
  induction l as [|o l IH]; [by constructor|]. intros Hl. injection Hl as Ho Hl.
  constructor; [done|by apply IH].
Qed.

Section Window.
Context `{Cron}.

#[local] Arguments calculateActiveWindowHash : simpl never.

Lemma recalculate_only_window c w h now :
  only_window (recalculateWindow c w h now) = recalculateWindow (only_window c) w h now.
Proof.
  unfold recalculateWindow, recalculateNextUnpause, recalculateNextPause.
  destruct c as [m sp st]. cbn. repeat (case_match; cbn in *; simplify_eq); done.
Qed.

(** The handler reads and writes nothing else. *)
Lemma handle_only_window c now :
  only_window (handleAutomaticPauseUnPause c now) =
  handleAutomaticPauseUnPause (only_window c) now.
Proof.
  unfold handleAutomaticPauseUnPause. cbn [only_window Spec_ActiveWindow Spec Status
    ActiveWindowHash update].
  destruct (Spec_ActiveWindow (Spec c)) as [w|]; [|done].
  destruct (bytes_Equal _ _); cbn [negb NextPause NextUnpause Status update]; cbn;
    repeat case_match; by rewrite ?recalculate_only_window.
Qed.

Lemma pollPaused_only_window c ts : pollPaused (only_window c) ts = pollPaused c ts.
Proof.
  revert c. induction ts as [|t ts IH]; intros c; [done|]. cbn [pollPaused].
  by rewrite <-handle_only_window, IH.
Qed.

End Window.

Section WindowRuns.
Context {W : Type} `{Gauge, Clock W, ClientSet W, ManagementClient W, ClusterProxy W,
  PullModeTransport W, Licenses W, Yaml, Semver, Names, Finalizer, Cron}.
Context `{!Dynamic W, !CEL W, !Lua W}.
Context (r : SveltosClusterReconciler) (ns name : string).
Context (stored : W → option SveltosCluster) (up : W → Prop).

Lemma only_window_steady : steady (λ s : Recon W, only_window (cluster s)).
Proof.
  split; try done.
  - by exists (λ f, only_window (f.1.1)).
  - intros [c m e w]. cbn. unfold connection_step. repeat case_match; done.
Qed.

(** A reconciliation is one call of the handler, at the time it reads. *)
Lemma reconcileNormal_window (s : Recon W) :
  only_window (cluster (reconcileNormal r s).2) =
  handleAutomaticPauseUnPause (only_window (cluster s)) (clock (world s)).
Proof.
  destruct (reconcileNormal_steps r s) as (s1 & now & s2 & -> & Hs1 & Hs2 & ->).
  cbn [cluster update]. rewrite handle_only_window. f_equal.
  transitivity (only_window (cluster s1)).
  - subst s2. destruct (PullMode _);
      [apply (pull_steady _ only_window_steady)|apply (push_steady _ only_window_steady)].
  - subst s1. unfold outside. by destruct (time_Now _).
Qed.

(** [window_run s seen]: reconciliations of the live cluster in worlds that are [up];
    in between the stored cluster changes, but not in what concerns its window. [seen]
    is the time each of them reads, with the Paused field it leaves stored. *)
Inductive window_run : Recon W → list (Time * bool) → Prop :=
  | window_run_end s : window_run s []
  | window_run_next s w c c' c2 seen (s1 := s <| world := w |>) (s2 := (Reconcile r ns name s1).2) :
    stored (world s) = Some c → stored w = Some c' → only_window c' = only_window c →
    IsZero_ptr (DeletionTimestamp (Meta c')) = true → up w →
    stored (world s2) = Some c2 → window_run s2 seen →
    window_run s ((clock (world (begin r ns name s1 c')), Paused (Spec c2)) :: seen).

(** The stored Paused field is what calls of the handler at these times make of it. *)
Lemma window_run_polls s seen c :
  serves r ns name stored up → window_run s seen → stored (world s) = Some c →
  pollPaused c seen.*1 = seen.*2.
Proof.
  intros Hserves Hrun. revert c.
  induction Hrun as [s|s w c1 c' c2 seen s1 s2 Hc1 Hc' Hsame Hlive Hup Hc2 _ IH]; [done|].
  intros c Hc. rewrite Hc in Hc1. injection Hc1 as <-.
  destruct (round_serves r ns name stored up Hserves s1 c' Hup Hc' Hlive) as [_ Hround].
  fold s2 in Hround. rewrite Hc2 in Hround. injection Hround as Hc2'.
  assert (Hstep : only_window c2 = handleAutomaticPauseUnPause (only_window c)
    (clock (world (begin r ns name s1 c'))))
    by (rewrite Hc2', reconcileNormal_window, <-Hsame; done).
  rewrite <-pollPaused_only_window. cbn [pollPaused fmap list_fmap fst snd].
  rewrite <-Hstep, pollPaused_only_window, (IH c2 Hc2). done.
Qed.

(** C1: the API server holds a cluster that is paused exactly while its window is
    closed: for a window first seen while closed, after every one of a series of
    reconciliations at most [gap] apart, in push mode or pull mode and whatever the
    cluster itself answers, the stored Paused field is the negation of "the window was
    open when the reconciliation began", provided the two schedules take turns, the time
    between windows is longer than [gap], and no more than 100 activations lie between the
    cluster's creation and the first of them. *)
Theorem stored_paused_outside_window (c : SveltosCluster) (w : ActiveWindow)
  (sf st : Schedule) (gap : Duration) (s : Recon W) (t0 : Time) (b0 : bool)
  (seen : list (Time * bool))
  (Hserves : serves r ns name stored up)
  (Hc : stored (world s) = Some c) (Hrun : window_run s ((t0, b0) :: seen))
  (Hfrom : cron_ParseStandard (From w) = Ok sf) (Hto : cron_ParseStandard (To w) = Ok st)
  (Hok : schedules_ok sf st) (Hlong : closed_long sf st gap)
  (Hw : Spec_ActiveWindow (Spec c) = Some w) (Hhash : hash_current c w = false)
  (Hff : few_missed sf Local (CreationTimestamp (Meta c)) t0)
  (Hft : few_missed st Local (CreationTimestamp (Meta c)) t0)
  (Hclosed : Schedule_Next sf UTC t0 < Schedule_Next st UTC t0)
  (Hpolled : polled sf st gap t0 seen.*1) :
  Forall (λ o, o.2 = negb (active sf st o.1)) ((t0, b0) :: seen).
Proof.
  pose proof (window_run_polls s _ c Hserves Hrun Hc) as Hpolls.
  cbn [fmap list_fmap fst] in Hpolls.
  rewrite (polled_paused c w sf st gap t0 seen.*1) in Hpolls by done.
  exact (observed_by (λ t, negb (active sf st t)) ((t0, b0) :: seen) Hpolls).
Qed.

End WindowRuns.

(** ** A day with one reconciliation before the window and one inside *)

Section Server.
Import SimServer.
#[local] Existing Instance SimCron.cron.

Definition sim_up (w : SimWorld) : Prop :=
  sim_restconfig w = sim_restconfig sim_init ∧ sim_shard w = "".

Lemma sim_up_serves : serves sim_r "prod" "edge" stored sim_up.
Proof.
  apply sim_serves; [|by intros w [_ Hshard]].
  intros w w' Hconfig Hshard _ [Hw1 Hw2]. split; congruence.
Qed.

Definition sim_world_at (t : Time) (c : SveltosCluster) : SimWorld :=
  set_stored (Some c) (sim_init <| sim_now := t |>).

(** The reconciliation of [c] at [t], as it begins, and what it stores. *)
Definition sim_begin (s : Recon SimWorld) (t : Time) (c : SveltosCluster) : Recon SimWorld :=
  begin sim_r "prod" "edge" (s <| world := sim_world_at t c |>) c.

Definition sim_left (s : Recon SimWorld) (t : Time) (c : SveltosCluster) : SveltosCluster :=
  cluster (reconcileNormal sim_r (sim_begin s t c)).2.

Lemma sim_stores s t c :
  IsZero_ptr (DeletionTimestamp (Meta c)) = true →
  stored (world (Reconcile sim_r "prod" "edge" (s <| world := sim_world_at t c |>)).2) =
  Some (sim_left s t c).
Proof.
  intros Hlive. apply (round_serves sim_r "prod" "edge" stored sim_up sim_up_serves);
    [by split|apply stored_set|done].
Qed.

Lemma sim_begins s t c : clock (world (sim_begin s t c)) = day_time t.
Proof. reflexivity. Qed.

Lemma sim_window_round s c t seen :
  stored (world s) = Some c → IsZero_ptr (DeletionTimestamp (Meta c)) = true →
  window_run sim_r "prod" "edge" stored sim_up
    (Reconcile sim_r "prod" "edge" (s <| world := sim_world_at t c |>)).2 seen →
  window_run sim_r "prod" "edge" stored sim_up s
    ((day_time t, Paused (Spec (sim_left s t c))) :: seen).
Proof.
  intros Hc Hlive Hrun. rewrite <-(sim_begins s t c).
  apply (window_run_next sim_r "prod" "edge" stored sim_up s (sim_world_at t c) c c (sim_left s t c));
    [done|apply stored_set|done|done|by split|by apply sim_stores|done].
Qed.

(** Created at 11:00 UTC, with the window from 20:00 to 07:00. *)
Definition sim_noon_utc : Time := day_start + 13 * Hour.

Definition sim_night : SveltosCluster :=
  sim_edge <| Meta; CreationTimestamp := sim_noon_utc - Hour |>
    <| Spec; Spec_ActiveWindow := Some SimCron.night |>.

Definition sim_night_recon : Recon SimWorld :=
  sim_recon zero_SveltosCluster (sim_world_at 0 sim_night).

Definition sim_night_second : Recon SimWorld :=
  (Reconcile sim_r "prod" "edge"
     (sim_night_recon <| world := sim_world_at sim_noon_utc sim_night |>)).2.

Definition sim_night_paused : SveltosCluster := sim_left sim_night_recon sim_noon_utc sim_night.

(** At noon UTC the cluster is stored as paused, at 20:30 it is not. *)
Lemma stored_paused_outside_window_witness :
  Paused (Spec sim_night_paused) = true ∧
  Paused (Spec (sim_left sim_night_second (sim_noon_utc + 8 * Hour + 30 * Minute)
                  sim_night_paused)) = false.
Proof.
  assert (Hrun : window_run sim_r "prod" "edge" stored sim_up sim_night_recon
    [(sim_noon_utc, Paused (Spec sim_night_paused));
     (sim_noon_utc + 8 * Hour + 30 * Minute,
      Paused (Spec (sim_left sim_night_second (sim_noon_utc + 8 * Hour + 30 * Minute)
                      sim_night_paused)))]).
  { apply (sim_window_round sim_night_recon sim_night sim_noon_utc); [apply stored_set|done|].
    apply (sim_window_round sim_night_second sim_night_paused
      (sim_noon_utc + 8 * Hour + 30 * Minute)); [by apply sim_stores| |apply window_run_end].
    unfold sim_night_paused, sim_left. by rewrite reconcileNormal_live. }
  pose proof (stored_paused_outside_window sim_r "prod" "edge" stored sim_up sim_night SimCron.night
    SimCron.s20 SimCron.s7 (9 * Hour) sim_night_recon sim_noon_utc _ _ sim_up_serves
    (stored_set _ _) Hrun eq_refl eq_refl SimCron.night_ok SimCron.night_closed_long eq_refl
    night_hash_not_current) as Hall.
  destruct (Forall_cons_1 _ _ _ (Hall ltac:(apply sim_few_missed; sim_time)
    ltac:(apply sim_few_missed; sim_time) ltac:(sim_time) ltac:(sim_polled)))
    as [Hfirst Hsecond].
  apply Forall_cons_1 in Hsecond as [Hsecond _]. split.
  - cbn [fst snd] in Hfirst. rewrite Hfirst. vm_compute. reflexivity.
  - cbn [fst snd] in Hsecond. rewrite Hsecond. vm_compute. reflexivity.
Defined.

End Server.
