(* ===== verification/PushRuns.v ===== *)
(** * The token of a push-mode cluster through a reconciliation

    The controller itself lives on the kubeconfig in a push-mode cluster's Secret: when
    its token expires, no renewal can get another one. In an environment that answers, a
    reconciliation replaces the kubeconfig in time, as in pull mode. *)

From S2P Require Import Prelude GoTime Float64 GoStrings Rfc3339 Api Platform Recon Sim.
From S2P Require Import ServiceAccount Kubeconfig TokenTiming TokenRenewal Metrics Connection.
From S2P Require Import ClusterChecks License AutoPause SimCron Reconciler Calls.
From S2P Require Import ReconcilerSpec TokenRuns StatusSpec.

Section PushRuns.
Context {W : Type} `{Gauge, Clock W, ClientSet W, ManagementClient W, ClusterProxy W,
  PullModeTransport W, Licenses W, Yaml, Semver, Names, Finalizer, Cron}.
Context `{!Dynamic W, !CEL W, !Lua W}.

(** [during t w]: [w] is a world in which a reconciliation that began at [t] may find
    itself; [valid_until w]: when the token of the kubeconfig last stored for the cluster
    [ns]/[name] expires. Its option names the ServiceAccount [saName]. *)
Context (rc : SveltosClusterReconciler) (during : Time → W → Prop) (valid_until : W → Time).
Context (ns name saNamespace saName : string).

Abbreviation quietly := (quietly during valid_until).
Abbreviation served := (served during valid_until ns name saNamespace saName).
Abbreviation named := (named ns name).
Abbreviation served_same := (served_same during valid_until ns name saNamespace saName).
Abbreviation served_calm := (served_calm during valid_until ns name saNamespace saName).

(** An environment that answers: a reconciliation takes at most a minute, the cluster can
    be reached, its Secret holds a kubeconfig with a context, a token asked for
    thirteen minutes or more lives for twelve, and storing a kubeconfig succeeds. *)
Record push_answering : Prop := {
  pu_account : saNamespace ≠ "" ∧ saName ≠ "";
  pu_clock t w : during t w → t ≤ (time_Now w).1 ≤ t + Minute ∧ recordable (time_Now w).1;
  pu_reads : reads_along quietly;
  pu_config t w : during t w →
    ∃ config, (GetSveltosKubernetesRestConfig ns name w).1 = Ok config ∧ one_line (Host config);
  pu_version config t w : during t w → ∃ version, (GetKubernetesVersion config w).1 = Ok version;
  pu_secret t w : during t w → ∃ data contexts,
    (GetSveltosSecretData ns name w).1 = Ok data ∧
    yaml_Unmarshal_Config data = Ok contexts ∧ contexts ≠ [];
  pu_token config exp t w : during t w → 13 * 60 ≤ int64_of_float64 exp → ∃ jwt E,
    (getServiceAccountTokenRequest config saNamespace saName exp w).1 = Ok jwt ∧
    one_line jwt ∧ getTokenExpiration jwt = Ok E ∧ t + 12 * Minute ≤ E ≤ t + 2 ^ 62;
  pu_update config jwt key E t w (data := getKubeconfigFromToken saNamespace saName jwt "" config) :
    during t w → one_line jwt → one_line (Host config) → getTokenExpiration jwt = Ok E →
    (UpdateSveltosSecretData ns name data key w).1 = None ∧
    during t (UpdateSveltosSecretData ns name data key w).2 ∧
    valid_until (UpdateSveltosSecretData ns name data key w).2 = E
}.

Context (HA : push_answering).

(** A state whose token can be renewed: [in_time] for some token, if not the stored one. *)
Record renewable (t : Time) (s : Recon W) : Prop := {
  rn_during : during t (world s);
  rn_named : named (cluster s);
  rn_provided : provided saNamespace saName (cluster s);
  rn_in_time : ∃ E, in_time (cluster s) E
}.

(** A state in which it was: the stored one lives for twelve minutes from the
    reconciliation's beginning, and will be renewed in time. *)
Record secured (t : Time) (s : Recon W) : Prop := {
  fr_served : served t s;
  fr_life : t + 12 * Minute ≤ valid_until (world s)
}.

Lemma secured_renewable t s : secured t s → renewable t s.
Proof. intros [[Hd Hn Hp Hi] _]. split; [done..|by eexists]. Qed.

#[local] Arguments Format : simpl never.

Lemma renewContext_secured config exp t (s : Recon W) :
  renewable t s → 13 * 60 ≤ int64_of_float64 exp → one_line (Host config) →
  secured t (renewContext config exp saNamespace saName s).2.
Proof.
  intros [Hs [Hns Hname] Hprovided (E & opt & Hopt & HI & HD & Hmargin & _)] Hexp Hhost.
  destruct (pu_token HA config exp t _ Hs Hexp) as (jwt & E' & Hjwt & Hline & HE' & Hlife).
  destruct (along_token quietly (pu_reads HA) config saNamespace saName exp _ t Hs) as [Hw1 _].
  apply result_step in Hjwt as (w1 & Hjwt). rewrite Hjwt in Hw1. cbn in Hw1.
  destruct (pu_clock HA t w1 Hw1) as [Hissued _].
  destruct (along_adjust quietly (pu_reads HA) opt jwt w1 t Hw1) as [Hw2 _].
  unfold renewContext, record_renewal. run. rewrite Hjwt; cbn. rewrite Hopt; cbn.
  destruct (adjustTokenRequestRenewalOption opt jwt w1) as [interval w2] eqn:Hadj. cbn in Hw2 |- *.
  change (Meta (set_interval interval (cluster s))) with (Meta (cluster s)). rewrite Hns, Hname.
  set (key := getKubeconfigKey _).
  destruct (pu_update HA config jwt key E' t w2 Hw2 Hline Hhost HE') as (Hstored & Hw3 & Hvalid).
  destruct (UpdateSveltosSecretData ns name _ key w2) as [err w3]. cbn in Hstored, Hw3, Hvalid |- *.
  subst err. cbn. destruct (pu_clock HA t w3 Hw3) as [Hrec Hrecordable].
  destruct (along_now quietly (pu_reads HA) w3 t Hw3) as [Hw4 Hsame].
  destruct (time_Now w3) as [now w4]. cbn in *. rewrite Hvalid in Hsame.
  assert (Hinterval : interval = (adjustTokenRequestRenewalOption opt jwt w1).1) by by rewrite Hadj.
  set (c := set_LastReconciled (Format (Local_offset now) now) (set_interval interval (cluster s))).
  match goal with |- secured _ ?s' => assert (Htiming : timing c = timing (cluster s'))
    by (cbn; unfold set_KubeconfigKeyName; by case_decide) end.
  assert (Hopt' : Spec_TokenRequestRenewalOption (Spec c) =
    Some (opt <| RenewTokenRequestInterval := interval |>))
    by (subst c; unfold set_interval; cbn; by rewrite Hopt).
  split; [split|]; cbn [world cluster update].
  - done.
  - unfold TokenRuns.named; cbn. unfold set_KubeconfigKeyName. by case_decide.
  - apply (provided_timing saNamespace saName c); [done|].
    destruct Hprovided as (opt' & Hsome & Hprovided). rewrite Hopt in Hsome.
    injection Hsome as <-. by exists (opt <| RenewTokenRequestInterval := interval |>).
  - rewrite Hsame. apply (in_time_timing c); [done|].
    apply (renewed_in_time c opt jwt (time_Now w1).1 now E' w1); try done;
      [split; [by rewrite <-Hinterval|done]|unfold Minute in *; lia..].
  - rewrite Hsame. lia.
Qed.

(** The loop renews once per context, and once is enough. *)
Lemma renewContexts_secured config exp t contexts (s : Recon W) :
  renewable t s → 13 * 60 ≤ int64_of_float64 exp → one_line (Host config) →
  secured t s ∨ contexts ≠ [] →
  secured t (renewContexts config exp saNamespace saName contexts s).2.
Proof.
  intros Hs Hexp Hhost. destruct (pu_account HA) as [Hns Hname]. revert s Hs.
  induction contexts as [|cc contexts IH]; intros s Hs Hor; [by destruct Hor|].
  cbn [renewContexts]. rewrite (decide_False (P := saName = "")) by done.
  rewrite decide_False by tauto. unfold mbind, St_bind.
  pose proof (renewContext_secured config exp t s Hs Hexp Hhost) as Hone.
  destruct (renewContext config exp saNamespace saName s) as [[] s1].
  apply IH; [by apply secured_renewable|by left].
Qed.

Lemma push_renewal config t (s : Recon W) :
  renewable t s → one_line (Host config) →
  secured t (handleTokenRequestRenewal config s).2 ∧
  (handleTokenRequestRenewal config s).1 = None.
Proof.
  intros Hs Hhost. pose proof Hs as [Hd [Hns Hname] Hprovided Hin_time].
  destruct Hprovided as (opt & Hopt & Hsans & Hsaname & Hlong).
  destruct Hin_time as (E & opt' & Hopt' & HI & HD & _). rewrite Hopt in Hopt'.
  injection Hopt' as <-. destruct (pu_account HA) as [Haccount1 Haccount2].
  destruct (pu_secret HA t _ Hd) as (data & contexts & Hdata & Hyaml & Hcontexts).
  destruct (along_SecretData quietly (pu_reads HA) ns name _ t Hd) as [Hd1 _].
  unfold handleTokenRequestRenewal. run. rewrite Hopt, Hns, Hname.
  destruct (GetSveltosSecretData ns name (world s)) as [res w1]. cbn in Hdata, Hd1. subst res. cbn.
  rewrite Hyaml; cbn.
  rewrite (configured_account (cluster s) opt config w1) by congruence. rewrite Hsans, Hsaname; cbn.
  match goal with |- context [renewContexts _ _ _ _ _ ?x] => set (s1 := x) end.
  assert (Hs1 : renewable t s1).
  { split; [exact Hd1|exact (rn_named _ _ Hs)|exact (rn_provided _ _ Hs)|exact (rn_in_time _ _ Hs)]. }
  pose proof (renewContexts_secured config _ t contexts s1 Hs1
    (request_long_enough opt HI HD Hlong) Hhost (or_intror Hcontexts)) as Hdone.
  by destruct (renewContexts _ _ _ _ _ s1).
Qed.

(** ** A whole reconciliation *)

Lemma settle_calm : moves quietly (settle rc) ∧ keeps P_renewal (settle rc).
Proof.
  split.
  - apply (moves_bind quietly); [apply (moves_connection quietly)|intros _].
    apply (moves_report quietly).
  - unfold settle, updateConnectionStatus, recordConnectionTransition, recordEventf,
      report_connection, update_cluster_metrics. keeps_tac.
    all: unfold P_renewal, connection_step; cbn; repeat case_match; done.
Qed.

Lemma check_calm config v :
  moves quietly (check_cluster config v) ∧ keeps P_renewal (check_cluster config v).
Proof.
  split; [apply (moves_check quietly), (pu_reads HA)|].
  unfold check_cluster, record_version, update_cluster_metrics. keeps_tac.
Qed.

(** After the renewal, needed or not, the stored token lives for more than seven minutes
    from the reconciliation's beginning. *)
Lemma push_renew_served config t s (s' := (renew_if_due rc (handleTokenRequestRenewal config) s).2) :
  served t s → one_line (Host config) →
  served t s' ∧ t + 7 * Minute < valid_until (world s').
Proof.
  intros [Hd Hn Hp Hi] Hhost. subst s'. unfold renew_if_due. run.
  destruct (along_should quietly (pu_reads HA) (cluster s) _ t Hd) as [Hd1 Hv1].
  pose proof (in_time_due _ _ (world s) Hi) as Hdue. destruct (pu_clock HA t _ Hd) as [Hclock _].
  destruct (shouldRenewTokenRequest _ _) as [[] w1]; cbn in *.
  - destruct (push_renewal config t (mkRecon (cluster s) (metrics s) (events s) w1)) as
      [[Hs2 Hlife] Hnone]; [by split; [..|by eexists]|done|].
    destruct (handleTokenRequestRenewal config _) as [err s2]; cbn in *. subst err.
    split; [exact Hs2|cbn; unfold Minute in *; lia].
  - rewrite Hv1. split; [split; cbn; rewrite ?Hv1; done|].
    destruct (Z.le_gt_cases (valid_until (world s) - 8 * Minute) (time_Now (world s)).1) as [Hle|Hgt];
      [by specialize (Hdue Hle)|unfold Minute in *; lia].
Qed.

Lemma push_mode_served t s (s' := (reconcilePushModeCluster rc s).2) :
  served t s → served t s' ∧ t + 7 * Minute < valid_until (world s').
Proof.
  intros Hs. subst s'. pose proof Hs as [Hd [Hns Hname] _ _]. rewrite push_eq, Hns, Hname.
  destruct (pu_config HA t _ Hd) as (config & Hconfig & Hhost).
  destruct (along_RestConfig quietly (pu_reads HA) ns name _ t Hd) as [Hd1 Hv1].
  destruct (GetSveltosKubernetesRestConfig ns name (world s)) as [res w1].
  cbn in Hconfig, Hd1, Hv1. subst res.
  destruct (pu_version HA config t w1 Hd1) as [version Hversion].
  destruct (along_KubernetesVersion quietly (pu_reads HA) config _ t Hd1) as [Hd2 Hv2].
  destruct (GetKubernetesVersion config w1) as [res w2]. cbn in Hversion, Hd2, Hv2. subst res.
  assert (Hprobed : served t (probed s w2))
    by (apply (served_same t s); [done|done|cbn; congruence|done]).
  destruct (push_renew_served config t _ Hprobed Hhost) as [Hs3 Hlife].
  destruct (renew_if_due _ _ (probed s w2)) as [[] s3]. cbn in Hs3, Hlife |- *.
  destruct (check_calm config version) as [Hmoves Hkeeps].
  destruct (served_calm _ t s3 Hmoves Hkeeps Hs3) as [Hs4 Hv4].
  destruct (check_cluster config version s3) as [[] s4]. cbn in Hs4, Hv4 |- *.
  destruct settle_calm as [Hmoves' Hkeeps'].
  destruct (served_calm _ t s4 Hmoves' Hkeeps' Hs4) as [Hs5 Hv5].
  split; [done|]. by rewrite Hv5, Hv4.
Qed.

Lemma push_normal_served t s (s' := (reconcileNormal rc s).2) :
  PullMode (Spec (cluster s)) = false → served t s →
  served t s' ∧ t + 7 * Minute < valid_until (world s').
Proof.
  intros Hpull Hs. subst s'.
  destruct (reconcileNormal_steps rc s) as (s1 & now & s2 & _ & Hs1 & Hs2 & ->).
  rewrite Hpull in Hs2.
  destruct (served_calm (outside time_Now) t (s <| cluster := update_finalizer (cluster s) |>))
    as [Hserved _]; [apply (moves_outside quietly), (along_now _ (pu_reads HA))|keeps_tac|by destruct Hs|].
  rewrite <-Hs1 in Hserved. destruct (push_mode_served t s1 Hserved) as [Hserved2 Hlife].
  rewrite <-Hs2 in Hserved2, Hlife. split; [|done].
  apply (served_same t s2); [|apply Hserved2|done|done].
  destruct (handle_frame (cluster s2) now) as (b & u & p & h & Hhandle).
  unfold P_renewal. cbn [cluster update]. by rewrite Hhandle.
Qed.

End PushRuns.
