(* ===== verification/TokenRounds.v ===== *)
(** * The tokens, from the API server

    [TokenRuns] and [PushRuns] follow a token through [reconcileNormal]. Here the
    reconciliations are whole: each reads the cluster from the API server, and what the
    next one decides on is what it stored. Series of them are followed here for push mode;
    AgentRuns.v does it for pull mode. *)

From S2P Require Import Prelude GoTime Float64 GoStrings Rfc3339 Api Platform Recon Sim.
From S2P Require Import Kubeconfig TokenTiming TokenRenewal Metrics Connection ClusterChecks.
From S2P Require Import License AutoPause SimCron Reconciler Calls ReconcilerSpec StatusSpec.
From S2P Require Import System Rounds TokenRuns PushRuns.

(** What others do not change of a cluster whose token is renewed. *)
Definition same_renewal (c c' : SveltosCluster) : Prop :=
  timing c' = timing c ∧ identity c' = identity c ∧ PullMode (Spec c') = PullMode (Spec c).

Section TokenRounds.
Context {W : Type} `{Gauge, Clock W, ClientSet W, ManagementClient W, ClusterProxy W,
  PullModeTransport W, Licenses W, Yaml, Semver, Names, Finalizer, Cron}.
Context `{!Dynamic W, !CEL W, !Lua W}.
Context (rc : SveltosClusterReconciler) (ns name : string).
Context (stored : W → option SveltosCluster) (up : W → Prop).
Context (during : Time → W → Prop) (valid_until : W → Time).

Abbreviation quietly := (quietly during valid_until).

(** Reading and persisting the object, and looking for its shard, moves the world
    along [R]. *)
Record object_calls_along (R : relation W) : Prop := {
  oc_get : along R (Get_SveltosCluster ns name);
  oc_helper c : along R (patch_NewHelper c);
  oc_patch h c : along R (Patch h c);
  oc_shard c : along R (isClusterAShardMatch rc c)
}.

(** It provides no kubeconfig. *)
Definition object_calls_quiet : Prop := object_calls_along quietly.

(** ** Series of reconciliations

    [stored_run t s seen]: after the reconciliation begun at [t], which left [s], others
    follow, each begun at most seven minutes after the one before. In between anything
    may change but what the renewal is decided on, the cluster's identity and mode, and
    the kubeconfig that is in use. [seen] are the times they began, each with the
    expiration of the token that was in use then. *)
Inductive stored_run : Time → Recon W → list (Time * Time) → Prop :=
  | stored_run_end t s : stored_run t s []
  | stored_run_next t s t' w c c' seen :
    t' ≤ t + 7 * Minute → stored (world s) = Some c → stored w = Some c' →
    same_renewal c c' → up w → during t' w → valid_until w = valid_until (world s) →
    stored_run t' (Reconcile rc ns name (s <| world := w |>)).2 seen →
    stored_run t s ((t', valid_until w) :: seen).

Context (Hserves : serves rc ns name stored up) (Hquiet : object_calls_quiet).

Lemma begin_quiet (s : Recon W) (c : SveltosCluster) :
  quietly (world s) (world (begin rc ns name s c)).
Proof.
  unfold begin. cbn [world]. etransitivity; [apply (oc_get _ Hquiet)|].
  etransitivity; [apply (oc_helper _ Hquiet)|apply (oc_shard _ Hquiet)].
Qed.

Lemma close_quiet (s : Recon W) (c : SveltosCluster) :
  up (world s) → stored (world s) = Some c → IsZero_ptr (DeletionTimestamp (Meta c)) = true →
  quietly (world (reconcileNormal rc (begin rc ns name s c)).2)
          (world (Reconcile rc ns name s).2).
Proof.
  intros Hup Hc Hlive.
  destruct (round_scope rc ns name stored up Hserves s c Hup Hc) as (_ & h & w & _ & ->).
  rewrite reconcile_in_scope_eq. unfold reconcile_body.
  change (cluster (begin rc ns name s c)) with c. rewrite Hlive. apply (oc_patch _ Hquiet).
Qed.

(** [Q c E]: the cluster [c] is renewed in time for a token that expires at [E]. *)
Section Lift.
Context (pull : bool) (Q : SveltosCluster → Time → Prop).
Context (HQ_same : ∀ c c' E, same_renewal c c' → Q c E → Q c' E).
Context (HQ_normal : ∀ t s (s' := (reconcileNormal rc s).2),
  PullMode (Spec (cluster s)) = pull → during t (world s) →
  Q (cluster s) (valid_until (world s)) →
  during t (world s') ∧ Q (cluster s') (valid_until (world s')) ∧
  t + 7 * Minute < valid_until (world s')).

(** What holds between two reconciliations. *)
Record assured (t : Time) (s : Recon W) (c : SveltosCluster) : Prop := {
  as_stored : stored (world s) = Some c;
  as_live : IsZero_ptr (DeletionTimestamp (Meta c)) = true;
  as_mode : PullMode (Spec c) = pull;
  as_kept : Q c (valid_until (world s));
  as_valid : t + 7 * Minute < valid_until (world s)
}.

Lemma round_assured (t : Time) (s : Recon W) (c : SveltosCluster)
    (s' := (Reconcile rc ns name s).2) :
  up (world s) → during t (world s) → stored (world s) = Some c →
  IsZero_ptr (DeletionTimestamp (Meta c)) = true → PullMode (Spec c) = pull →
  Q c (valid_until (world s)) → during t (world s') ∧ ∃ c', assured t s' c'.
Proof.
  intros Hup Hduring Hc Hlive Hpull HQ.
  destruct (round_serves rc ns name stored up Hserves s c Hup Hc Hlive) as [_ Hround].
  destruct (begin_quiet s c t Hduring) as [Hduring1 Hvalid1].
  destruct (HQ_normal t (begin rc ns name s c) Hpull Hduring1) as (Hduring2 & HQ2 & Hlife);
    [by rewrite Hvalid1|].
  destruct (close_quiet s c Hup Hc Hlive t Hduring2) as [Hduring3 Hvalid3]. split; [done|].
  eexists. split; [exact Hround| | |by subst s'; rewrite Hvalid3|by subst s'; rewrite Hvalid3].
  - by rewrite reconcileNormal_live.
  - by rewrite reconcileNormal_pull.
Qed.

Lemma stored_run_valid (t : Time) (s : Recon W) (c : SveltosCluster) seen :
  assured t s c → stored_run t s seen → Forall (λ o, o.1 < o.2) seen.
Proof.
  intros Hs Hrun. revert c Hs.
  induction Hrun as [|t s t' w c1 c' seen Hgap Hc1 Hc' Hsame Hup Hduring Hheld _ IH];
    intros c [Hc Hlive Hpull HQ Hvalid]; [apply Forall_nil_2|].
  rewrite Hc1 in Hc. injection Hc as ->. apply Forall_cons_2; [cbn; lia|].
  destruct (round_assured t' (s <| world := w |>) c') as [_ [c2 Hc2]]; [done..| | | |].
  - destruct Hsame as (_ & Hid & _). apply (f_equal snd) in Hid. cbn in Hid. by rewrite Hid.
  - destruct Hsame as (_ & _ & Hmode). by rewrite Hmode.
  - cbn. rewrite Hheld. by apply (HQ_same c).
  - by apply (IH c2).
Qed.

(** One more reconciliation, right after nothing but the time has changed. *)
Lemma stored_run_step (t : Time) (s : Recon W) (t' : Time) (w : W) (c : SveltosCluster) seen
    (s' := (Reconcile rc ns name (s <| world := w |>)).2) :
  assured t s c → t' ≤ t + 7 * Minute → up w → stored w = stored (world s) → during t' w →
  valid_until w = valid_until (world s) →
  (∀ c', assured t' s' c' → during t' (world s') → up (world s') → stored_run t' s' seen) →
  stored_run t s ((t', valid_until w) :: seen).
Proof.
  intros [Hc Hlive Hmode HQ Hvalid] Hgap Hup Hsame Hduring Hheld Hrest.
  rewrite Hc in Hsame. apply (stored_run_next t s t' w c c); [done..|].
  destruct (round_assured t' (s <| world := w |>) c) as [Hduring2 [c2 Hc2]];
    [done..|cbn; congruence|].
  apply (Hrest c2); [done..|]. by apply (round_up rc ns name stored up Hserves _ c).
Qed.

End Lift.

Context (saNamespace saName : string).

(** What the renewal of a cluster's token depends on. *)
Definition kept (c : SveltosCluster) (E : Time) : Prop :=
  named ns name c ∧ provided saNamespace saName c ∧ in_time c E.

Lemma kept_same c c' E : same_renewal c c' → kept c E → kept c' E.
Proof.
  intros (Htiming & Hid & _) ([Hns Hname] & Hp & Hi). apply (f_equal (λ x, x.1.1.1)) in Hid.
  injection Hid as Hns' Hname'. split; [split; congruence|].
  split; [by apply (provided_timing _ _ c)|by apply (in_time_timing c)].
Qed.

Lemma pull_normal_kept server
    (HA : answering rc during valid_until ns name saNamespace saName server) t s
    (s' := (reconcileNormal rc s).2) :
  PullMode (Spec (cluster s)) = true → during t (world s) →
  kept (cluster s) (valid_until (world s)) →
  during t (world s') ∧ kept (cluster s') (valid_until (world s')) ∧
  t + 7 * Minute < valid_until (world s').
Proof.
  intros Hmode Hd (Hn & Hp & Hi).
  by destruct (normal_served rc during valid_until ns name saNamespace saName server HA t s Hmode)
    as [[] Hlife].
Qed.

Lemma push_normal_kept (HA : push_answering during valid_until ns name saNamespace saName) t s
    (s' := (reconcileNormal rc s).2) :
  PullMode (Spec (cluster s)) = false → during t (world s) →
  kept (cluster s) (valid_until (world s)) →
  during t (world s') ∧ kept (cluster s') (valid_until (world s')) ∧
  t + 7 * Minute < valid_until (world s').
Proof.
  intros Hmode Hd (Hn & Hp & Hi).
  by destruct (push_normal_served rc during valid_until ns name saNamespace saName HA t s Hmode)
    as [[] Hlife].
Qed.

(** C3: over any series of reconciliations of a push-mode cluster, each begun at most
    seven minutes after the one before, in an environment that answers, the token of the
    kubeconfig in the cluster's Secret has never expired: whatever the number of contexts
    of that kubeconfig, and whatever the outcome of the checks, it is replaced in time. The
    option asks for thirteen minutes or more and leaves a margin ([has_margin]). *)
Theorem push_token_never_expires (t0 : Time) (s0 : Recon W) (c0 : SveltosCluster)
  (seen : list (Time * Time))
  (HA : push_answering during valid_until ns name saNamespace saName)
  (Hstored : stored (world s0) = Some c0)
  (Hlive : IsZero_ptr (DeletionTimestamp (Meta c0)) = true) (Hpush : PullMode (Spec c0) = false)
  (Hnamed : named ns name c0)
  (Hprovided : provided saNamespace saName c0) (Hin_time : in_time c0 (valid_until (world s0)))
  (Hvalid : t0 + 7 * Minute < valid_until (world s0)) (Hrun : stored_run t0 s0 seen) :
  Forall (λ o, o.1 < o.2) seen.
Proof.
  apply (stored_run_valid false kept kept_same (push_normal_kept HA)) with t0 s0 c0;
    [by split|done].
Qed.

End TokenRounds.

(** ** Instances *)

(** When the token of a kubeconfig expires; of the one that was stored. *)
Definition sim_expiry (text : string) : Time :=
  match getTokenExpiration (kubeconfig_token text) with Ok E => E | Err _ => 0 end.

Definition sim_valid_until (w : SimWorld) : Time :=
  match sim_updates w with [(_, data)] => sim_expiry data | _ => 0 end.

(** Two reconciliations: when they begin, and when a token granted by then expires,
    in Unix seconds. *)
Definition sim_polls : list (Z * Z) :=
  [(1739215084, 1739258284); (1739215324, 1739258524)].

Definition sim_during (t : Time) (w : SimWorld) : Prop :=
  sim_tick w = 0 ∧ sim_now w = t ∧ sim_configmaps w = sim_configmaps sim_registered ∧
  ∃ poll, poll ∈ sim_polls ∧ t = Time_of_Unix poll.1 ∧
    ∀ ns name exp, sim_token w ns name exp = Ok (sim_jwt poll.2).

Definition sim_poll_ok (poll : Z * Z) : Prop :=
  recordable (W := SimWorld) (Time_of_Unix poll.1) ∧ one_line (sim_jwt poll.2) ∧
  getTokenExpiration (sim_jwt poll.2) = Ok (Time_of_Unix poll.2) ∧
  Time_of_Unix poll.1 + 12 * Minute ≤ Time_of_Unix poll.2 ≤ Time_of_Unix poll.1 + 2 ^ 62.

Lemma sim_polls_ok poll : poll ∈ sim_polls → sim_poll_ok poll.
Proof.
  intros [-> | [-> | []%not_elem_of_nil]%elem_of_cons]%elem_of_cons;
    vm_compute; repeat split; congruence.
Qed.

(** A client that keeps the kubeconfig it stored last in [sim_updates]. *)
Definition secret_proxy : ClusterProxy SimWorld := {|
  GetSveltosKubernetesRestConfig := λ _ _ w, (sim_restconfig w, w);
  GetSveltosSecretData := λ _ _ w, (sim_secret w, w);
  UpdateSveltosSecretData := λ _ _ data key w, (None, w <| sim_updates := [(key, data)] |>);
  EvictWorkloadIdentityCache := λ ns name w, ((), w);
  ClusterObject := string;
  GetCluster := λ _ _ w, (Ok (sim_shard w), w);
  IsShardAMatch := λ key shard, bool_decide (key = shard);
  GetKubernetesVersion := λ _ w, (sim_version w, w)
|}.

Section Server.
Import SimServer.
#[local] Existing Instances SimCron.cron sim_clock.

Definition sim_unsharded (w : SimWorld) : Prop := sim_shard w = "".

(** Renewed twelve hours ago but for nine minutes, and for twelve hours. *)
Definition sim_agent_cluster : SveltosCluster :=
  sim_renewing (sim_option (12 * Hour) 0) (Format 3600 sim_time)
    <| Spec; PullMode := true |> <| Meta; Namespace := "prod" |> <| Meta; Name := "edge" |>.

(** The kubeconfig in use then. *)
Definition sim_kubeconfig : string :=
  getKubeconfigFromToken "projectsveltos" "manager" (sim_jwt (1739172424 + 43200)) ""
    (mkConfig "https://api.example.com" "external-ca" "").

Definition sim_held : SimWorld :=
  sim_registered <| sim_updates := [("kubeconfig", sim_kubeconfig)] |>
                 <| sim_agent := (sim_kubeconfig, None) |>.

(** Before the first reconciliation of [c]. *)
Definition sim_start (c : SveltosCluster) : Recon SimWorld :=
  sim_recon zero_SveltosCluster (set_stored (Some c) sim_held).

Lemma sim_held_until : sim_valid_until sim_held = Time_of_Unix (1739172424 + 43200).
Proof. vm_compute. reflexivity. Qed.

Lemma sim_start_until c : sim_valid_until (world (sim_start c)) = Time_of_Unix (1739172424 + 43200).
Proof.
  rewrite <-sim_held_until. unfold sim_valid_until.
  by assert (sim_updates (world (sim_start c)) = sim_updates sim_held) as -> by reflexivity.
Qed.

Lemma sim_agent_in_time : in_time sim_agent_cluster (Time_of_Unix (1739172424 + 43200)).
Proof.
  exists (sim_option (12 * Hour) 0).
  split_and!; [reflexivity|vm_compute; split; congruence..|by left|].
  vm_compute. congruence.
Qed.

Lemma sim_poll_during poll t w :
  poll ∈ sim_polls → sim_during t w → sim_during (Time_of_Unix poll.1) (sim_poll poll w).
Proof. intros Hpoll (Htick & _ & Hmaps & _). split_and!; [done..|]. by exists poll. Qed.

Lemma sim_start_during poll c :
  poll ∈ sim_polls → sim_during (Time_of_Unix poll.1) (sim_poll poll (world (sim_start c))).
Proof.
  intros Hpoll. split; [reflexivity|]. split; [reflexivity|]. split; [reflexivity|].
  exists poll. split; [exact Hpoll|]. split; [reflexivity|]. intros ns name exp. reflexivity.
Qed.

(** In push mode the kubeconfig is replaced in place. *)
Section Secret.
#[local] Existing Instance secret_proxy.

Definition sim_push_during (t : Time) (w : SimWorld) : Prop :=
  sim_during t w ∧ sim_secret w = sim_secret sim_registered ∧
  sim_restconfig w = sim_restconfig sim_init ∧ sim_version w = sim_version sim_init.

Lemma sim_push_reads : reads_along (quietly sim_push_during sim_valid_until).
Proof.
  split; intros; intros w0 t0 Hw; try (sim_terminate; by split);
    (split; [|reflexivity]); try exact Hw.
  destruct Hw as [(Htick & Hnow & Hrest) Hworld]. split; [|exact Hworld].
  split; [exact Htick|]. split; [|exact Hrest]. cbn. by rewrite Htick, Z.add_0_r.
Qed.

Lemma sim_push_answering :
  push_answering sim_push_during sim_valid_until "prod" "edge" "projectsveltos" "manager".
Proof.
  split.
  - done.
  - intros t w [(Htick & <- & _ & poll & Hpoll & Ht & _) _].
    destruct (sim_polls_ok poll Hpoll) as [Hrec _]. cbn. rewrite Ht.
    split; [unfold Minute; lia|done].
  - apply sim_push_reads.
  - intros t w (_ & _ & Hconfig & _). eexists. split; [exact Hconfig|reflexivity].
  - intros config t w (_ & _ & _ & Hversion). eexists. exact Hversion.
  - intros t w (_ & Hsecret & _). exists "kube-system/admin", [mkContext "kube-system" "admin"].
    split; [exact Hsecret|]. split; [reflexivity|discriminate].
  - intros config exp t w [(_ & _ & _ & poll & Hpoll & -> & Htoken) _] _.
    destruct (sim_polls_ok poll Hpoll) as (_ & Hline & HE & Hlife).
    exists (sim_jwt poll.2), (Time_of_Unix poll.2). split_and!; try done; [|apply Hlife..].
    unfold getServiceAccountTokenRequest, mbind, St_bind. cbn. apply Htoken.
  - intros config jwt key E t w data Hw Hjwt Hhost HE. split; [reflexivity|].
    split; [exact Hw|]. unfold sim_valid_until. cbn [UpdateSveltosSecretData secret_proxy snd
      sim_updates update]. subst data.
    destruct (kubeconfig_fields "projectsveltos" "manager" jwt "" config) as [_ Htoken]; [done..|].
    unfold sim_expiry. by rewrite Htoken, HE.
Qed.

Definition sim_push_cluster : SveltosCluster := sim_agent_cluster <| Spec; PullMode := false |>.

Lemma sim_push_poll_during poll t w :
  poll ∈ sim_polls → sim_push_during t w →
  sim_push_during (Time_of_Unix poll.1) (sim_poll poll w).
Proof. intros Hpoll [Hw Hrest]. split; [by apply (sim_poll_during _ t)|exact Hrest]. Qed.

Definition sim_push_round (poll : Z * Z) (s : Recon SimWorld) : Recon SimWorld :=
  (Reconcile sim_r "prod" "edge" (s <| world := sim_poll poll (world s) |>)).2.

Lemma sim_push_start_during poll :
  poll ∈ sim_polls →
  sim_push_during (Time_of_Unix poll.1) (sim_poll poll (world (sim_start sim_push_cluster))).
Proof.
  intros Hpoll. split; [by apply sim_start_during|]. split; [reflexivity|]. split; reflexivity.
Qed.

Lemma sim_push_serving : serves sim_r "prod" "edge" stored sim_unsharded.
Proof.
  apply client_serves.
  - split; [split| |]; intros; intros w Hw;
      try (sim_terminate; (split; [exact Hw|reflexivity])); (split; [exact Hw|reflexivity]).
  - done.
  - intros w c Hw. unfold isClusterAShardMatch, mbind, St_bind. cbn. by rewrite Hw.
Qed.

Lemma sim_push_object_quiet :
  object_calls_quiet sim_r "prod" "edge" sim_push_during sim_valid_until.
Proof.
  split; intros; intros w t Hw; try by split.
  cbn [Patch client]. destruct (stored w); by split.
Qed.

Lemma sim_push_assured :
  assured stored sim_valid_until false (kept "prod" "edge" "projectsveltos" "manager")
    (Time_of_Unix 1739214724) (sim_start sim_push_cluster) sim_push_cluster.
Proof.
  split; [apply stored_set|done|done|rewrite sim_start_until|rewrite sim_start_until];
    [|vm_compute; reflexivity].
  split; [by split|].
  split; [exists (sim_option (12 * Hour) 0); split_and!; [reflexivity..|by left]|].
  apply (in_time_timing sim_agent_cluster); [reflexivity|apply sim_agent_in_time].
Qed.

Lemma sim_push_step poll t s c seen :
  assured stored sim_valid_until false (kept "prod" "edge" "projectsveltos" "manager") t s c →
  Time_of_Unix poll.1 ≤ t + 7 * Minute → sim_unsharded (world s) →
  sim_push_during (Time_of_Unix poll.1) (sim_poll poll (world s)) →
  (∀ c', assured stored sim_valid_until false
           (kept "prod" "edge" "projectsveltos" "manager")
           (Time_of_Unix poll.1) (sim_push_round poll s) c' →
     sim_push_during (Time_of_Unix poll.1) (world (sim_push_round poll s)) →
     sim_unsharded (world (sim_push_round poll s)) →
     stored_run sim_r "prod" "edge" stored sim_unsharded sim_push_during sim_valid_until
       (Time_of_Unix poll.1) (sim_push_round poll s) seen) →
  stored_run sim_r "prod" "edge" stored sim_unsharded sim_push_during sim_valid_until t s
    ((Time_of_Unix poll.1, sim_valid_until (world s)) :: seen).
Proof.
  intros Hs Hgap Hup Hduring Hrest.
  apply (stored_run_step sim_r "prod" "edge" stored sim_unsharded sim_push_during sim_valid_until
    sim_push_serving sim_push_object_quiet false
    (kept "prod" "edge" "projectsveltos" "manager")
    (push_normal_kept sim_r "prod" "edge" sim_push_during sim_valid_until _ _ sim_push_answering)
    t s (Time_of_Unix poll.1) (sim_poll poll (world s)) c); done.
Qed.

Lemma push_token_never_expires_witness :
  Forall (λ o, o.1 < o.2)
    [(Time_of_Unix 1739215084, sim_valid_until (world (sim_start sim_push_cluster)));
     (Time_of_Unix 1739215324,
      sim_valid_until (world (sim_push_round (1739215084, 1739258284)
                                (sim_start sim_push_cluster))))].
Proof.
  destruct sim_push_assured as [Hc Hlive Hpush (Hnamed & Hprovided & Hin_time) Hvalid].
  apply (push_token_never_expires sim_r "prod" "edge" stored sim_unsharded sim_push_during
    sim_valid_until sim_push_serving sim_push_object_quiet "projectsveltos" "manager"
    (Time_of_Unix 1739214724) (sim_start sim_push_cluster) sim_push_cluster);
    [apply sim_push_answering|done..|].
  apply (sim_push_step (1739215084, 1739258284) _ _ sim_push_cluster);
    [apply sim_push_assured|vm_compute; congruence|done| |intros c' Hc' Hduring Hup].
  - apply sim_push_start_during. by left.
  - apply (sim_push_step (1739215324, 1739258524) _ _ c'); [done|vm_compute; congruence|done| |].
    + apply (sim_push_poll_during _ (Time_of_Unix 1739215084)); [by right; left|done].
    + intros. apply stored_run_end.
Defined.

End Secret.
End Server.
