(* ===== verification/AgentRuns.v ===== *)
(** * The token a pull-mode agent holds

    A renewal leaves the new kubeconfig for the agent: the agent fetches it later, and
    until then goes on with the one it holds. Over any series of reconciliations, the
    token it holds does not expire. *)

From S2P Require Import Prelude GoTime Float64 GoStrings Rfc3339 Api Platform Recon Sim.
From S2P Require Import Kubeconfig TokenTiming TokenRenewal Metrics Connection ClusterChecks.
From S2P Require Import License AutoPause SimCron Reconciler Calls ReconcilerSpec StatusSpec.
From S2P Require Import System Rounds TokenRuns TokenRounds.

Section AgentRuns.
Context {W : Type} `{Gauge, Clock W, ClientSet W, ManagementClient W, ClusterProxy W,
  PullModeTransport W, Licenses W, Yaml, Semver, Names, Finalizer, Cron}.
Context `{!Dynamic W, !CEL W, !Lua W}.
Context (rc : SveltosClusterReconciler) (ns name : string).
Context (stored : W → option SveltosCluster) (up : W → Prop) (during : Time → W → Prop).
Context (saNamespace saName server : string) (gap lag : Duration).

(** [held w] and [committed w]: when the tokens of the kubeconfig that the agent holds, and
    of the one last committed for it, expire. [pending w] is the time by which the agent
    will have fetched what is committed, if it has not yet. *)
Context (committed held : W → Time) (pending : W → option Time).

(** The agent fetches what is committed, or goes on with what it holds. *)
Definition fetches (w w' : W) : Prop :=
  pending w' = None ∨ (pending w' = pending w ∧ held w' = held w).

Definition goes_on (w w' : W) : Prop := committed w' = committed w ∧ fetches w w'.

(** A call during which the agent may do so. *)
Definition fetching : relation W := λ w w', ∀ t, during t w → during t w' ∧ fetches w w'.

(** The agent of [ns]/[name]: it may fetch at any time what is committed; once something
    is, it fetches it, or what has replaced it since, within [lag]. *)
Record agent : Prop := {
  ag_reads : reads_along fetching;
  ag_object : object_calls_along rc ns name fetching;
  ag_held w : pending w = None → held w = committed w;
  ag_prompt w d : pending w = Some d → clock w ≤ d;
  ag_commit t E w res : commits rc during ns name server t E w res →
    pending res.2 = None ∨
    (held res.2 = held w ∧
     ∃ d, pending res.2 = Some d ∧ d ≤ default (clock w + lag) (pending w))
}.

Context (HA : answering rc during committed ns name saNamespace saName server) (Hagent : agent).
Context (Hgap : 0 ≤ gap) (Hlag : 0 ≤ lag) (Hmargin : gap + lag ≤ 6 * Minute).

(** A world of a reconciliation begun at [t] in which the agent has fetched what is
    committed before its token expires, also if it waits as long as it may. *)
Record alive (t : Time) (w : W) : Prop := {
  al_during : during t w;
  al_pending d : pending w = Some d → d < held w;
  al_committed : t + Minute + lag < committed w
}.

Lemma goes_on_pending w w' :
  fetches w w' → (∀ d, pending w = Some d → d < held w) → ∀ d, pending w' = Some d → d < held w'.
Proof. intros [Hnone|[Hp Hh]] Hw d Hd; [congruence|]. rewrite Hh. apply Hw. congruence. Qed.

Lemma fetching_alive w w' :
  quietly during committed w w' → fetching w w' → quietly alive committed w w'.
Proof.
  intros Hq Hf t [Hd Hp Hc]. destruct (Hq t Hd) as [Hd' Hsame]. destruct (Hf t Hd) as [_ Hfetch].
  split; [|done]. split; [done|by apply (goes_on_pending w)|by rewrite Hsame].
Qed.

Lemma alive_commits t E w res :
  commits rc alive ns name server t E w res → commits rc during ns name server t E w res.
Proof.
  intros (w0 & text & u & key & uid & [Hw0 _ _] & [Hw _ _] & Hrest). by exists w0, text, u, key, uid.
Qed.

(** A commit leaves the agent the time to fetch. *)
Lemma commit_alive t E w res :
  commits rc alive ns name server t E w res →
  res.1 = None ∧ alive t res.2 ∧ committed res.2 = E.
Proof.
  intros Hcommits.
  pose proof Hcommits as (w0 & _ & _ & _ & _ & _ & [Hd Hp Hc] & _ & _ & _ & Hlife & _).
  apply alive_commits in Hcommits.
  destruct (an_committed _ _ _ _ _ _ _ _ HA t E w res Hcommits) as (Hok & Hd' & Hvalid).
  split; [done|]. split; [|done].
  pose proof (ag_commit Hagent t E w res Hcommits) as Hfetch. clear Hcommits Hok.
  destruct (an_clock _ _ _ _ _ _ _ _ HA t w Hd) as [Hclock _]. fold (clock w) in Hclock.
  split; [done| |unfold Minute in *; lia].
  intros d Hpending. destruct Hfetch as [Hnone|(Hheld & d' & Hd1 & Hle)]; [congruence|].
  rewrite Hheld. rewrite Hpending in Hd1. injection Hd1 as <-.
  pose proof (ag_held Hagent w) as Hsame. destruct (pending w) as [d1|]; cbn in Hle.
  - specialize (Hp d1 eq_refl). lia.
  - rewrite Hsame by done. lia.
Qed.

Lemma alive_answering : answering rc alive committed ns name saNamespace saName server.
Proof.
  destruct HA as [? Hnow Hreads Hendpoint ? Htoken ? Hstaged _]. split; [done|..].
  - intros t w [Hd]. exact (Hnow t w Hd).
  - apply (reads_along_and (quietly during committed) fetching);
      [apply fetching_alive|done|apply Hagent].
  - intros t w [Hd]. exact (Hendpoint t w Hd).
  - done.
  - intros exp t w [Hd]. exact (Htoken exp t w Hd).
  - done.
  - intros resources t w [Hd]. exact (Hstaged resources t w Hd).
  - apply commit_alive.
Qed.

Lemma alive_object (Hquiet : object_calls_quiet rc ns name during committed) :
  object_calls_quiet rc ns name alive committed.
Proof.
  destruct Hquiet, (ag_object Hagent). unfold along in *.
  split; intros; intros w; apply fetching_alive; auto.
Qed.

(** ** Series of reconciliations *)

Context (Hserves : serves rc ns name stored up).
Context (Hquiet : object_calls_quiet rc ns name during committed).

(** [rounds t0 s0 t s]: the reconciliation begun at [t] left [s]. Each is begun at most
    [gap] after the one before. In between anything may change but what the renewal is
    decided on, the cluster's identity and mode, and what is committed for the agent; the
    agent may fetch that. *)
Inductive rounds (t0 : Time) (s0 : Recon W) : Time → Recon W → Prop :=
  | rounds_start : rounds t0 s0 t0 s0
  | rounds_next t s t' w c c' :
    rounds t0 s0 t s → t' ≤ t + gap → stored (world s) = Some c → stored w = Some c' →
    same_renewal c c' → up w → during t' w → goes_on (world s) w →
    rounds t0 s0 t' (Reconcile rc ns name (s <| world := w |>)).2.

(** What holds after each of them. *)
Record secure (t : Time) (s : Recon W) : Prop := {
  se_assured : ∃ c, assured stored committed true (kept ns name saNamespace saName) t s c;
  se_pending d : pending (world s) = Some d → d < held (world s)
}.

Lemma secure_alive t s t' w :
  secure t s → t' ≤ t + gap → goes_on (world s) w → during t' w → alive t' w.
Proof.
  intros [[c [_ _ _ _ Hvalid]] Hp] Ht' [Hsame Hfetch] Hd.
  split; [done|by apply (goes_on_pending (world s))|]. rewrite Hsame. unfold Minute in *. lia.
Qed.

Lemma secure_round t s t' w c c' (s' := (Reconcile rc ns name (s <| world := w |>)).2) :
  secure t s → t' ≤ t + gap → stored (world s) = Some c → stored w = Some c' →
  same_renewal c c' → up w → during t' w → goes_on (world s) w →
  secure t' s' ∧ during t' (world s') ∧ up (world s').
Proof.
  intros Hs Ht' Hc Hc' Hsame Hup Hd Hgo.
  pose proof (secure_alive t s t' w Hs Ht' Hgo Hd) as Halive.
  destruct Hs as [[c1 [Hc1 Hlive Hmode Hkept _]] _]. rewrite Hc in Hc1. injection Hc1 as <-.
  destruct (round_assured rc ns name stored up alive committed Hserves (alive_object Hquiet)
    true (kept ns name saNamespace saName)
    (pull_normal_kept rc ns name alive committed saNamespace saName server alive_answering)
    t' (s <| world := w |>) c') as [[Hd' Hp' _] Hassured]; [done..| | | |].
  - destruct Hsame as (_ & Hid & _). apply (f_equal snd) in Hid. cbn in Hid. by rewrite Hid.
  - destruct Hsame as (_ & _ & Hsame). by rewrite Hsame.
  - cbn. rewrite (proj1 Hgo). by apply (kept_same ns name saNamespace saName c).
  - split; [by split|]. split; [done|]. by apply (round_up rc ns name stored up Hserves _ c').
Qed.

Lemma rounds_secure t0 s0 t s : secure t0 s0 → rounds t0 s0 t s → secure t s.
Proof.
  intros Hs0 Hrounds. induction Hrounds as [|t s t' w c c' Hrounds IH]; [done|].
  by apply (secure_round t s t' w c c').
Qed.

Lemma secure_held t s w :
  secure t s → goes_on (world s) w → clock w ≤ t + gap → clock w < held w.
Proof.
  intros [[c [_ _ _ _ Hvalid]] Hp] [Hsame Hfetch] Hclock.
  pose proof (goes_on_pending _ _ Hfetch Hp) as Hp'.
  pose proof (ag_held Hagent w) as Hheld. pose proof (ag_prompt Hagent w) as Hprompt.
  destruct (pending w) as [d|].
  - specialize (Hp' d eq_refl). specialize (Hprompt d eq_refl). lia.
  - rewrite Hheld, Hsame by done. unfold Minute in *. lia.
Qed.

(** C2: over any series of reconciliations of a pull-mode cluster, each begun at most
    [gap] after the one before (the program asks for one a minute), the token of the
    kubeconfig that the agent holds has not expired at any time up to [gap] after the last
    one, although the agent fetches a kubeconfig only some time after it was committed for
    it, at most [lag]; [gap] and [lag] together are at most six minutes. Only what is
    committed for this cluster's agent, under the name and the key it looks for, reaches
    it. At the start the token that is committed lives for more than seven minutes, and
    the one that is held for as long as the agent may wait. The environment answers, the
    option asks for thirteen minutes or more, and it leaves a margin ([has_margin]): the
    duration is left to the controller, or is ten minutes longer than the interval, or no
    shorter than an interval of more than ten minutes. *)
Theorem pull_token_never_expires (t0 : Time) (s0 : Recon W) (c0 : SveltosCluster)
  (Hstored : stored (world s0) = Some c0)
  (Hlive : IsZero_ptr (DeletionTimestamp (Meta c0)) = true) (Hpull : PullMode (Spec c0) = true)
  (Hnamed : named ns name c0) (Hprovided : provided saNamespace saName c0)
  (Hin_time : in_time c0 (committed (world s0)))
  (Hvalid : t0 + 7 * Minute < committed (world s0))
  (Hpending : ∀ d, pending (world s0) = Some d → d < held (world s0))
  (t : Time) (s : Recon W) (w : W) (Hrounds : rounds t0 s0 t s)
  (Hgo : goes_on (world s) w) (Hclock : clock w ≤ t + gap) :
  clock w < held w.
Proof.
  apply (secure_held t s w); [|done..]. apply (rounds_secure t0 s0); [|done].
  split; [exists c0; by split|done].
Qed.

End AgentRuns.

(** ** Instances *)

(** A transport whose agent fetches what is committed two minutes later: [sim_agent] is
    the kubeconfig it holds, and the one that waits for it with the time it fetches it. *)
Definition sim_pending (w : SimWorld) : option Time :=
  match (sim_agent w).2 with
  | Some (_, d) => if sim_now w <=? d then Some d else None
  | None => None
  end.

Definition sim_latest (w : SimWorld) : string :=
  match (sim_agent w).2 with Some (text, _) => text | None => (sim_agent w).1 end.

Definition sim_in_use (w : SimWorld) : string :=
  match sim_pending w with Some _ => (sim_agent w).1 | None => sim_latest w end.

(** The kubeconfig that was staged last, if that was for the cluster of [d]. *)
Definition sim_applied (d : Deployment) (w : SimWorld) : string :=
  match reverse (sim_staged w) with
  | (d', resources) :: _ =>
    match map_to_list resources with
    | [(_, [secret])] =>
      if decide (Deployment_Namespace d' = Deployment_Namespace d ∧
                 Deployment_Cluster d' = Deployment_Cluster d)
      then default "" (Secret_Data secret !! "kubeconfig") else ""
    | _ => ""
    end
  | [] => ""
  end.

Definition agent_transport : PullModeTransport SimWorld := {|
  Unstructured_t := Secret;
  ToUnstructured := Ok;
  StageResourcesForDeployment := λ d resources _ w,
    (None, w <| sim_staged := sim_staged w ++ [(d, resources)] |>);
  CommitStagedResourcesForDeployment := λ d _ w,
    (None, w <| sim_agent := (sim_in_use w,
       Some (sim_applied d w, default (sim_now w + 2 * Minute) (sim_pending w))) |>);
  GetDeploymentStatus := λ _ w, (Ok (sim_deployment w), w);
  TerminateDeploymentTracking := λ _ w, (None, w <| sim_deployment := None |>);
  AgentHeartbeatTimeoutError := "agent heartbeat timeout";
  IsAgentTimeoutError := λ c,
    bool_decide (FailureMessage (Status c) = Some "agent heartbeat timeout")
|}.

Definition sim_holds (w : SimWorld) : Time := sim_expiry (sim_in_use w).
Definition sim_provided (w : SimWorld) : Time := sim_expiry (sim_latest w).

(** Time passes, and the agent may fetch. *)
Lemma sim_fetches w w' :
  sim_agent w' = sim_agent w → sim_now w ≤ sim_now w' → fetches sim_holds sim_pending w w'.
Proof.
  intros Hagent Hnow. unfold fetches, sim_holds, sim_in_use, sim_pending. rewrite Hagent.
  destruct (sim_agent w) as [text [[text' d]|]]; cbn; [|by left].
  destruct (Z.leb_spec (sim_now w') d) as [Hle|]; [|by left].
  rewrite (proj2 (Z.leb_le (sim_now w) d)) by lia. by right.
Qed.

Lemma sim_goes_on w w' :
  sim_agent w' = sim_agent w → sim_now w ≤ sim_now w' →
  goes_on sim_provided sim_holds sim_pending w w'.
Proof.
  intros Hagent Hnow. split; [|by apply sim_fetches].
  unfold sim_provided, sim_latest. by rewrite Hagent.
Qed.

Lemma sim_applied_staged (w : SimWorld) d key (secret : Secret) :
  sim_applied d (w <| sim_staged := sim_staged w ++ [(d, {[key := [secret]]})] |>) =
  default "" (Secret_Data secret !! "kubeconfig").
Proof.
  unfold sim_applied. cbn [sim_staged update]. rewrite reverse_app. cbn [reverse rev_append app].
  rewrite map_to_list_singleton. by rewrite decide_True.
Qed.

Section Server.
Import SimServer.
#[local] Existing Instances SimCron.cron sim_clock agent_transport.

(** A call that takes no time and leaves the agent alone. *)
Definition sim_still (w w' : SimWorld) : Prop :=
  ∀ t, sim_during t w → sim_during t w' ∧ sim_agent w' = sim_agent w ∧ sim_now w' = sim_now w.

Lemma sim_still_reads : reads_along sim_still.
Proof.
  split; intros; intros w0 t0 Hw; try (sim_terminate; (split; [exact Hw|done]));
    try (split; [exact Hw|done]).
  destruct Hw as (Htick & Hnow & Hrest). unfold sim_during. cbn. rewrite Htick, Z.add_0_r. done.
Qed.

Lemma sim_still_object : object_calls_along sim_r "prod" "edge" sim_still.
Proof.
  split; intros; intros w t Hw; try (split; [exact Hw|done]).
  cbn [Patch client]. destruct (stored w); (split; [exact Hw|done]).
Qed.

Lemma sim_still_quiet w w' : sim_still w w' → quietly sim_during sim_provided w w'.
Proof.
  intros Hstill t Hw. destruct (Hstill t Hw) as (Hw' & Hagent & _). split; [done|].
  unfold sim_provided, sim_latest. by rewrite Hagent.
Qed.

Lemma sim_still_fetching w w' : sim_still w w' → fetching sim_during sim_holds sim_pending w w'.
Proof.
  intros Hstill t Hw. destruct (Hstill t Hw) as (Hw' & Hagent & Hnow). split; [done|].
  apply sim_fetches; [done|lia].
Qed.

Lemma sim_commit t E w res :
  commits sim_r sim_during "prod" "edge" "https://api.example.com" t E w res →
  sim_expiry (sim_latest res.2) = E ∧ sim_now res.2 = sim_now w ∧
  (sim_agent res.2).1 = sim_in_use w ∧
  ∃ text, (sim_agent res.2).2 = Some (text, default (sim_now w + 2 * Minute) (sim_pending w)).
Proof.
  intros (w0 & text & u & key & uid & _ & _ & Hu & _ & HE & _ & -> & ->).
  injection Hu as <-. cbn [StageResourcesForDeployment CommitStagedResourcesForDeployment
    agent_transport snd fst]. unfold sim_latest. cbn [sim_agent update snd fst].
  rewrite sim_applied_staged. cbn [Secret_Data agent_secret]. rewrite lookup_singleton_eq.
  cbn [from_option id]. unfold sim_expiry. rewrite HE. split_and!; try done. by eexists.
Qed.

Lemma sim_answering :
  answering sim_r sim_during sim_provided "prod" "edge" "projectsveltos" "manager"
    "https://api.example.com".
Proof.
  split.
  - done.
  - intros t w (Htick & <- & _ & poll & Hpoll & Ht & _).
    destruct (sim_polls_ok poll Hpoll) as [Hrec _]. cbn. rewrite Ht.
    split; [unfold Minute; lia|done].
  - apply (reads_along_and sim_still sim_still); [|apply sim_still_reads..].
    intros w w' Hstill _. by apply sim_still_quiet.
  - intros t w (_ & _ & Hmaps & _). exists "external-ca", "".
    unfold getPullModeManagementClusterEndpoint, mbind, St_bind. cbn. rewrite Hmaps.
    split; reflexivity.
  - done.
  - intros exp t w (_ & _ & _ & poll & Hpoll & -> & Htoken) _.
    destruct (sim_polls_ok poll Hpoll) as (_ & Hline & HE & Hlife).
    exists (sim_jwt poll.2), (Time_of_Unix poll.2). split_and!; try done; [|apply Hlife..].
    unfold getServiceAccountTokenRequest, mbind, St_bind. cbn. apply Htoken.
  - done.
  - done.
  - intros t E w res Hcommits. destruct (sim_commit t E w res Hcommits) as (HE & _).
    destruct Hcommits as (w0 & text & u & key & uid & _ & Hw & _ & _ & _ & _ & _ & ->).
    split; [done|]. split; [exact Hw|exact HE].
Qed.

Lemma sim_agent_laws :
  agent sim_r "prod" "edge" sim_during "https://api.example.com" (2 * Minute)
    sim_provided sim_holds sim_pending.
Proof.
  split.
  - apply (reads_along_and sim_still sim_still); [|apply sim_still_reads..].
    intros w w' Hstill _. by apply sim_still_fetching.
  - destruct sim_still_object. unfold along in *.
    split; intros; intros w; apply sim_still_fetching; auto.
  - intros w Hnone. unfold sim_holds, sim_in_use. by rewrite Hnone.
  - intros w d. unfold sim_pending. destruct (sim_agent w) as [text [[text' d']|]]; cbn; [|done].
    destruct (Z.leb_spec (sim_now w) d'); [|done]. by intros [= <-].
  - intros t E w res Hcommits. destruct (sim_commit t E w res Hcommits) as (_ & Hnow & Hfst & text & Hsnd).
    set (d := default (sim_now w + 2 * Minute) (sim_pending w)) in *.
    assert (Hle : sim_now w ≤ d).
    { subst d. unfold sim_pending. destruct (sim_agent w) as [? [[? d]|]]; cbn; [|unfold Minute; lia].
      destruct (Z.leb_spec (sim_now w) d); cbn; [done|unfold Minute; lia]. }
    assert (Hpending : sim_pending res.2 = Some d)
      by (unfold sim_pending; rewrite Hsnd, Hnow; by rewrite (proj2 (Z.leb_le _ _) Hle)).
    right. split; [|by exists d].
    unfold sim_holds, sim_in_use at 1. by rewrite Hpending, Hfst.
Qed.

Lemma sim_serving : serves sim_r "prod" "edge" stored sim_unsharded.
Proof.
  apply client_serves.
  - split; [split| |]; intros; intros w Hw;
      try (sim_terminate; (split; [exact Hw|reflexivity])); (split; [exact Hw|reflexivity]).
  - done.
  - intros w c Hw. unfold isClusterAShardMatch, mbind, St_bind. cbn. by rewrite Hw.
Qed.

Lemma sim_object_quiet : object_calls_quiet sim_r "prod" "edge" sim_during sim_provided.
Proof.
  destruct sim_still_object. unfold along in *.
  split; intros; intros w; apply sim_still_quiet; auto.
Qed.

(** ** Two reconciliations, four minutes apart *)

Definition sim_round (poll : Z * Z) (s : Recon SimWorld) : Recon SimWorld :=
  (Reconcile sim_r "prod" "edge" (s <| world := sim_poll poll (world s) |>)).2.

Abbreviation sim_secure :=
  (secure "prod" "edge" stored "projectsveltos" "manager" sim_provided sim_holds sim_pending).

Abbreviation sim_rounds :=
  (rounds sim_r "prod" "edge" stored sim_unsharded sim_during (4 * Minute) sim_provided
     sim_holds sim_pending (Time_of_Unix 1739214844) (sim_start sim_agent_cluster)).

Lemma sim_gaps : 4 * Minute + 2 * Minute ≤ 6 * Minute.
Proof. vm_compute. congruence. Qed.

Lemma sim_start_holds c : sim_provided (world (sim_start c)) = Time_of_Unix (1739172424 + 43200).
Proof.
  unfold sim_provided, sim_latest.
  assert (sim_agent (world (sim_start c)) = (sim_kubeconfig, None)) as -> by reflexivity.
  vm_compute. reflexivity.
Qed.

Lemma sim_secure_start : sim_secure (Time_of_Unix 1739214844) (sim_start sim_agent_cluster).
Proof.
  split.
  - exists sim_agent_cluster. split; [apply stored_set|done|done| |];
      rewrite sim_start_holds; [|vm_compute; reflexivity].
    split; [by split|]. split; [|apply sim_agent_in_time].
    exists (sim_option (12 * Hour) 0). split_and!; [reflexivity..|by left].
  - intros d Hd. assert (sim_pending (world (sim_start sim_agent_cluster)) = None) by reflexivity.
    congruence.
Qed.

Lemma sim_step poll t s :
  sim_secure t s → sim_rounds t s → sim_unsharded (world s) →
  sim_now (world s) ≤ Time_of_Unix poll.1 ≤ t + 4 * Minute →
  sim_during (Time_of_Unix poll.1) (sim_poll poll (world s)) →
  sim_secure (Time_of_Unix poll.1) (sim_round poll s) ∧
  sim_rounds (Time_of_Unix poll.1) (sim_round poll s) ∧
  sim_unsharded (world (sim_round poll s)) ∧
  sim_during (Time_of_Unix poll.1) (world (sim_round poll s)).
Proof.
  intros Hs Hrounds Hup [Hnow Hgap] Hduring. pose proof Hs as [[c Hc] _].
  assert (Hsame : same_renewal c c) by done.
  assert (Hgo : goes_on sim_provided sim_holds sim_pending (world s) (sim_poll poll (world s)))
    by by apply sim_goes_on.
  destruct (secure_round sim_r "prod" "edge" stored sim_unsharded sim_during "projectsveltos"
    "manager" "https://api.example.com" (4 * Minute) (2 * Minute) sim_provided sim_holds
    sim_pending sim_answering sim_agent_laws ltac:(done) sim_gaps sim_serving
    sim_object_quiet t s (Time_of_Unix poll.1) (sim_poll poll (world s)) c c)
    as (Hs' & Hduring' & Hup');
    [exact Hs|exact Hgap|apply Hc|apply Hc|exact Hsame|exact Hup|exact Hduring|exact Hgo|].
  split; [exact Hs'|]. split; [|by split].
  apply (rounds_next _ _ _ _ _ _ _ _ _ _ _ _ t s _ (sim_poll poll (world s)) c c); try done; apply Hc.
Qed.

(** Three minutes after the second one. *)
Definition sim_later (w : SimWorld) : SimWorld := w <| sim_now := Time_of_Unix 1739215504 |>.

Lemma sim_later_clock w : clock (sim_later w) ≤ Time_of_Unix 1739215324 + 4 * Minute.
Proof. vm_compute. congruence. Qed.

Lemma sim_later_goes_on w :
  sim_now w = Time_of_Unix 1739215324 →
  goes_on sim_provided sim_holds sim_pending w (sim_later w).
Proof. intros Hnow. apply sim_goes_on; [done|]. rewrite Hnow. vm_compute. congruence. Qed.

Definition sim_first : Recon SimWorld :=
  sim_round (1739215084, 1739258284) (sim_start sim_agent_cluster).

Definition sim_second : Recon SimWorld := sim_round (1739215324, 1739258524) sim_first.

Lemma sim_first_round :
  sim_secure (Time_of_Unix 1739215084) sim_first ∧ sim_rounds (Time_of_Unix 1739215084) sim_first ∧
  sim_unsharded (world sim_first) ∧ sim_during (Time_of_Unix 1739215084) (world sim_first).
Proof.
  apply (sim_step (1739215084, 1739258284) (Time_of_Unix 1739214844));
    [apply sim_secure_start|apply rounds_start|reflexivity|split; vm_compute; congruence|].
  apply sim_start_during. by left.
Qed.

Lemma sim_second_round :
  sim_rounds (Time_of_Unix 1739215324) sim_second ∧
  sim_now (world sim_second) = Time_of_Unix 1739215324.
Proof.
  destruct sim_first_round as (Hs1 & Hrounds1 & Hup1 & Hduring1).
  pose proof Hduring1 as (_ & Hnow1 & _).
  destruct (sim_step (1739215324, 1739258524) (Time_of_Unix 1739215084) sim_first Hs1 Hrounds1 Hup1)
    as (_ & Hrounds2 & _ & (_ & Hnow2 & _)).
  - rewrite Hnow1. split; vm_compute; congruence.
  - apply (sim_poll_during _ (Time_of_Unix 1739215084)); [by right; left|exact Hduring1].
  - split; [exact Hrounds2|exact Hnow2].
Qed.

Lemma pull_token_never_expires_witness :
  clock (sim_later (world sim_second)) < sim_holds (sim_later (world sim_second)).
Proof.
  destruct sim_second_round as [Hrounds Hnow].
  destruct sim_secure_start as [[c [Hc Hlive Hpull Hkept Hvalid]] Hpending].
  destruct Hkept as (Hnamed & Hprovided & Hin_time).
  exact (pull_token_never_expires sim_r "prod" "edge" stored sim_unsharded sim_during
    "projectsveltos" "manager" "https://api.example.com" (4 * Minute) (2 * Minute) sim_provided
    sim_holds sim_pending sim_answering sim_agent_laws ltac:(done) ltac:(done) sim_gaps
    sim_serving sim_object_quiet (Time_of_Unix 1739214844) (sim_start sim_agent_cluster) c
    Hc Hlive Hpull Hnamed Hprovided Hin_time Hvalid Hpending (Time_of_Unix 1739215324) sim_second
    (sim_later (world sim_second)) Hrounds (sim_later_goes_on _ Hnow) (sim_later_clock _)).
Defined.

End Server.
