(* ===== verification/Isolation.v ===== *)
(** * Reconciliations of different clusters

    The reconciliations of all clusters share one set of metrics and one event recorder.
    A reconciliation of a cluster writes the rows of that cluster and records events
    about it; what the others left there stays. *)

From stdpp Require Import relations.
From S2P Require Import Prelude GoTime Float64 Api Platform Recon Sim.
From S2P Require Import Kubeconfig TokenTiming TokenRenewal Metrics Connection ClusterChecks.
From S2P Require Import License AutoPause SimCron Reconciler ReconcilerSpec.

Section Isolation.
Context {W : Type} `{Gauge, Clock W, ClientSet W, ManagementClient W, ClusterProxy W,
  PullModeTransport W, Licenses W, Yaml, Semver, Names, Finalizer, Cron}.
Context `{!Dynamic W, !CEL W, !Lua W, !GaugeLaws}.

Definition event_about (ns name : string) (e : Event) : Prop :=
  Event_Namespace e = ns ∧ Event_Name e = name.

Section Own.
Context (ns name : string).

Definition is_cluster (c : SveltosCluster) : Prop := Namespace (Meta c) = ns ∧ Name (Meta c) = name.

(** From [s] to [s'] only the rows of this cluster changed, and events about it were
    added. *)
Definition touches_own (s s' : Recon W) : Prop :=
  same_other_rows ClusterTypeSveltos ns name (metrics s) (metrics s') ∧
  ∃ es, events s' = events s ++ es ∧ Forall (event_about ns name) es.

#[export] Instance touches_own_preorder : PreOrder touches_own.
Proof.
  split.
  - intros s. split; [by intros l|]. exists []. by rewrite app_nil_r.
  - intros s1 s2 s3 [Hrows1 (es1 & He1 & Hes1)] [Hrows2 (es2 & He2 & Hes2)]. split.
    + intros l Hl. destruct (Hrows1 l Hl) as (? & ? & ? & ?).
      destruct (Hrows2 l Hl) as (? & ? & ? & ?). split_and!; congruence.
    + exists (es1 ++ es2). rewrite He2, He1, app_assoc. split; [done|by apply Forall_app].
Qed.

Lemma touches_nothing s s' : metrics s' = metrics s → events s' = events s → touches_own s s'.
Proof.
  intros Hm He. split; [by rewrite Hm|]. exists []. by rewrite app_nil_r.
Qed.

(** Code that, run for this cluster, touches only what is its own. *)
Definition own {A} (m : St (Recon W) A) : Prop :=
  ∀ s, is_cluster (cluster s) → is_cluster (cluster (m s).2) ∧ touches_own s (m s).2.

Lemma own_ret {A} (a : A) : own (mret a).
Proof. by intros s Hs; split; [|apply touches_nothing]. Qed.

Lemma own_bind {A B} (m : St (Recon W) A) (f : A → St (Recon W) B) :
  own m → (∀ a, own (f a)) → own (m ≫= f).
Proof.
  intros Hm Hf s Hs. destruct (Hm s Hs) as [Hs1 Hown1]. unfold mbind, St_bind.
  destruct (m s) as [a s1]; cbn in *. destruct (Hf a s1 Hs1) as [Hs2 Hown2].
  split; [done|by transitivity s1].
Qed.

(** Code that begins by looking at the cluster knows whose it is. *)
Lemma own_get {A} (f : SveltosCluster → St (Recon W) A) :
  (∀ c, is_cluster c → own (f c)) → own (get_cluster ≫= f).
Proof. intros Hf s Hs. by apply Hf. Qed.

Lemma own_outside {A} (m : St W A) : own (outside m).
Proof.
  intros s Hs. unfold outside. destruct (m (world s)). split; [done|by apply touches_nothing].
Qed.

Lemma own_update_cluster f : (∀ c, is_cluster c → is_cluster (f c)) → own (update_cluster f).
Proof. intros Hf s Hs. split; [by apply Hf|by apply touches_nothing]. Qed.

Lemma own_update_metrics f :
  (∀ m, same_other_rows ClusterTypeSveltos ns name m (f m)) → own (update_metrics f).
Proof. intros Hf s Hs. split; [done|]. split; [apply Hf|]. exists []. by rewrite app_nil_r. Qed.

(** Code that changes neither the metrics nor the events. *)
Lemma own_frame {A} (m : St (Recon W) A) : keeps frame m → own m.
Proof.
  intros Hm s [Hns Hname]. specialize (Hm s).
  assert (Hmeta : Meta (cluster (m s).2) = Meta (cluster s))
    by exact (f_equal (λ f, Meta f.1.1) Hm).
  assert (Hmetrics : metrics (m s).2 = metrics s) by exact (f_equal (λ f, f.1.2) Hm).
  assert (Hevents : events (m s).2 = events s) by exact (f_equal snd Hm).
  split; [split; congruence|by apply touches_nothing].
Qed.

(** [own_tac] walks through a function of the program. *)
Ltac own_step :=
  first
  [ solve [eauto with own nocore]
  | apply own_ret
  | apply own_outside
  | lazymatch goal with
    | |- own (mbind _ get_cluster) => apply own_get; intros ? ?
    | |- own (mbind _ _) => apply own_bind; [|intros ?]
    | |- own (set_failure _) => by apply own_update_cluster
    | |- own (update_cluster _) => apply own_update_cluster
    | |- own (match ?x with _ => _ end) => destruct x
    end ].
Ltac own_tac := repeat own_step.

Create HintDb own.

(** ** The functions of the program *)

Lemma own_cluster_metrics f :
  (∀ c m, same_other_rows ClusterTypeSveltos ns name m (f ClusterTypeSveltos ns name c m)) →
  own (update_cluster_metrics f).
Proof.
  intros Hf. unfold update_cluster_metrics. apply own_get. intros c [-> ->].
  apply own_update_metrics. intros m. apply Hf.
Qed.

Lemma own_report : own report_connection.
Proof.
  unfold report_connection. apply own_bind; [|intros _]; apply own_cluster_metrics; intros c m;
    [apply updateClusterConnectionStatusMetric_others|apply updateConnectionFailuresMetric_others].
Qed.

Lemma own_event r c eventType reason action format args :
  is_cluster c → own (recordEventf r c eventType reason action format args).
Proof.
  intros [Hns Hname]. unfold recordEventf. destruct (EventRecorder r); [|apply own_ret].
  intros s Hs. split; [done|]. split; [by intros l|].
  eexists. split; [done|]. by apply Forall_singleton.
Qed.

Lemma is_cluster_connection c : is_cluster c → is_cluster (connection_step c).
Proof. unfold connection_step. repeat case_match; done. Qed.
#[local] Hint Resolve own_report own_event is_cluster_connection : own.

Lemma own_connection r : own (updateConnectionStatus r).
Proof. unfold updateConnectionStatus, recordConnectionTransition. own_tac. Qed.
#[local] Hint Resolve own_connection : own.

Lemma own_renew_if_due r renew : own renew → own (renew_if_due r renew).
Proof. intros Hrenew. unfold renew_if_due. own_tac. Qed.

Lemma own_check config version : own (check_cluster config version).
Proof.
  unfold check_cluster, record_version. own_tac; try done.
  apply own_cluster_metrics. intros ? ?. apply updateKubernetesVersionMetric_others.
Qed.

Lemma own_renewal config : own (handleTokenRequestRenewal config).
Proof. apply own_frame, handleTokenRequestRenewal_keeps. Qed.

Lemma own_pull_renewal r : own (handlePullModeTokenRequestRenewal r).
Proof. apply own_frame, handlePullModeTokenRequestRenewal_keeps. Qed.

Lemma own_terminate : own terminatePullModeTokenRenewalTrackingIfProvisioned.
Proof. by apply own_frame, terminate_keeps. Qed.

Lemma own_license r : own (updateLicenseAnnotations r).
Proof. unfold updateLicenseAnnotations. own_tac; done. Qed.

Lemma own_heartbeat r : own (check_heartbeat r).
Proof.
  unfold check_heartbeat. own_tac. apply own_cluster_metrics. intros ? ?.
  apply updateAgentLastHeartbeatMetric_others.
Qed.
#[local] Hint Resolve own_renew_if_due own_check own_renewal own_pull_renewal own_terminate
  own_license own_heartbeat : own.

Lemma own_push r : own (reconcilePushModeCluster r).
Proof. unfold reconcilePushModeCluster. own_tac. Qed.

Lemma own_pull r : own (reconcilePullModeCluster r).
Proof. unfold reconcilePullModeCluster. own_tac. Qed.
#[local] Hint Resolve own_push own_pull : own.

Lemma own_normal r : own (reconcileNormal r).
Proof.
  unfold reconcileNormal. own_tac. intros c' Hc.
  by edestruct (handle_frame c') as (b & u & p & h & ->).
Qed.

Lemma own_delete : own reconcileDelete.
Proof.
  unfold reconcileDelete, evict_and_release. own_tac; try done.
  all: lazymatch goal with Hc : is_cluster ?c |- own (update_metrics _) => destruct Hc as [-> ->] end;
    apply own_update_metrics; intros m; apply delete_same_other_rows.
Qed.

(** The API server returns the object that was asked for. *)
Context (Hget : ∀ w c, (Get_SveltosCluster ns name w).1 = Ok c → is_cluster c).

Lemma own_scope r scope : own (reconcile_in_scope r scope).
Proof.
  pose proof own_delete. pose proof (own_normal r).
  unfold reconcile_in_scope, Close, PatchObject. own_tac.
Qed.

Lemma update_cluster_then {A} f (k : () → St (Recon W) A) s :
  (update_cluster f ≫= k) s = k () (s <| cluster := f (cluster s) |>).
Proof. reflexivity. Qed.

Lemma Reconcile_own r (s : Recon W) : touches_own s (Reconcile r ns name s).2.
Proof.
  unfold Reconcile. rewrite update_cluster_then. unfold mbind at 1, St_bind at 1.
  unfold outside at 1. cbn [world update]. specialize (Hget (world s)).
  destruct (Get_SveltosCluster ns name (world s)) as [[c|err] w1]; cbn [fst snd] in Hget |- *.
  2:{ destruct (apierrors_IsNotFound err); by apply touches_nothing. }
  rewrite update_cluster_then.
  match goal with |- touches_own s (?m ?x).2 => assert (Hown : own m); [|set (s1 := x)] end.
  { pose proof (own_scope r). own_tac. }
  transitivity s1; [by apply touches_nothing|]. apply Hown. by apply Hget.
Qed.

End Own.

(** ** Many clusters *)

Lemma row_of_labels t ns name l :
  row_of t ns name l → l !! labelClusterNamespace = Some ns ∧ l !! labelClusterName = Some name.
Proof. intros Hl. by split; eapply lookup_weaken; [|exact Hl| |exact Hl]. Qed.

(** A row has one owner. *)
Lemma row_of_unique t ns name ns' name' l :
  row_of t ns name l → row_of t ns' name' l → (ns', name') = (ns, name).
Proof. intros [Hns Hname]%row_of_labels [Hns' Hname']%row_of_labels. congruence. Qed.

(** A reconciliation of another cluster, in any world. *)
Definition reconcile_other (r : SveltosClusterReconciler) (ns name : string) : relation (Recon W) :=
  λ s s', ∃ ns' name' w, (ns', name') ≠ (ns, name) ∧
    s' = (Reconcile r ns' name' (s <| world := w |>)).2.

(** The rows of a cluster, all of them. *)
Definition same_own_rows (ns name : string) (m m' : Metrics) : Prop :=
  ∀ l, row_of ClusterTypeSveltos ns name l →
    gauge_row (clusterConnectivityGauge m') l = gauge_row (clusterConnectivityGauge m) l ∧
    gauge_row (kubernetesVersionGauge m') l = gauge_row (kubernetesVersionGauge m) l ∧
    gauge_row (connectionFailuresGauge m') l = gauge_row (connectionFailuresGauge m) l ∧
    gauge_row (agentLastHeartbeatTimestampGauge m') l =
      gauge_row (agentLastHeartbeatTimestampGauge m) l.

(** C15: reconciliations of other clusters, any number of them in any worlds, leave every
    row of a cluster in the four gauges as it was and record no event about it, whatever
    the calls return: what the controller reports of a cluster comes from the
    reconciliations of that cluster only. *)
Theorem reconciliations_are_isolated (r : SveltosClusterReconciler) (ns name : string)
  (s s' : Recon W)
  (Hget : ∀ ns name w c, (Get_SveltosCluster ns name w).1 = Ok c → is_cluster ns name c)
  (Hrun : rtc (reconcile_other r ns name) s s') :
  same_own_rows ns name (metrics s) (metrics s') ∧
  ∃ es, events s' = events s ++ es ∧ Forall (λ e, ¬ event_about ns name e) es.
Proof.
  induction Hrun as [s|s1 s2 s3 (ns' & name' & w & Hne & ->) _ [IHrows (es2 & IHevents & Hes2)]].
  - split; [by intros l|]. exists []. by rewrite app_nil_r.
  - destruct (Reconcile_own ns' name' (Hget ns' name') r (s1 <| world := w |>))
      as [Hrows (es1 & Hevents & Hes1)]. cbn in Hrows, Hevents. split.
    + intros l Hl. destruct (IHrows l Hl) as (? & ? & ? & ?).
      destruct (Hrows l) as (? & ? & ? & ?); [|split_and!; congruence].
      intros Hl'. by apply Hne, (row_of_unique ClusterTypeSveltos _ _ _ _ l).
    + exists (es1 ++ es2). rewrite IHevents, Hevents, app_assoc. split; [done|].
      apply Forall_app. split; [|done]. eapply Forall_impl; [|exact Hes1].
      intros e [Hns' Hname'] [Hns Hname]. apply Hne. congruence.
Qed.

End Isolation.

(** ** Two reconciliations of a cluster in staging *)

#[local] Existing Instance SimCron.cron.

(** Objects are what is stored under their name. *)
Definition named_client : ManagementClient SimWorld := {|
  Get_SveltosCluster := λ ns name w,
    (match sim_clusters w !! (ns, name) with
     | Some c => Ok (c <| Meta; Namespace := ns |> <| Meta; Name := name |>)
     | None => Err not_found
     end, w);
  Get_ConfigMap := λ _ _ w, (Err not_found, w);
  PatchHelper := ();
  patch_NewHelper := λ _ w, (Ok (), w);
  Patch := λ _ c w, (None, w <| sim_patched := sim_patched w ++ [c] |>)
|}.

Section Staging.
#[local] Existing Instance named_client.

Definition sim_staging : SimWorld :=
  sim_init <| sim_clusters := {[("staging", "test") := sim_edge]} |>.

Definition sim_reconcile_staging (s : Recon SimWorld) : Recon SimWorld :=
  (Reconcile sim_r "staging" "test" (s <| world := sim_staging |>)).2.

Definition sim_edge_reported : Recon SimWorld :=
  mkRecon zero_SveltosCluster sim_metrics_edge [] sim_staging.

Lemma reconciliations_are_isolated_witness :
  gauge_row (connectionFailuresGauge
    (metrics (sim_reconcile_staging (sim_reconcile_staging sim_edge_reported))))
    (cluster_labels "Sveltos" "prod" "edge") = Some (float64_of_int 2).
Proof.
  assert (Hstep : ∀ s, reconcile_other sim_r "prod" "edge" s (sim_reconcile_staging s))
    by (intros s; by exists "staging", "test", sim_staging).
  destruct (reconciliations_are_isolated sim_r "prod" "edge" sim_edge_reported
    (sim_reconcile_staging (sim_reconcile_staging sim_edge_reported))) as [Hrows _].
  - intros ns name w c. cbn [Get_SveltosCluster named_client fst].
    by destruct (sim_clusters w !! (ns, name)); [intros [= <-]|].
  - eapply rtc_l; [apply Hstep|]. apply rtc_once, Hstep.
  - destruct (Hrows (cluster_labels "Sveltos" "prod" "edge") (cluster_labels_row_of _ _ _))
      as (_ & _ & -> & _). vm_compute. reflexivity.
Defined.

End Staging.
