(* ===== verification/Settle.v ===== *)
(** * A reconciliation does not wake itself

    The controller writes to the Spec of the cluster it watches: Paused, and what a token
    renewal changes. A change of the Spec is reconciled ([SveltosClusterPredicates]).
    Here: what one reconciliation wrote, the next one leaves, so that this ends. *)

From S2P Require Import Prelude GoTime Float64 Api Platform Recon Sim.
From S2P Require Import Kubeconfig TokenTiming TokenRenewal Metrics Connection ClusterChecks.
From S2P Require Import License AutoPause AutoPauseRuns SimCron Reconciler AutoPauseSpec.
From S2P Require Import ReconcilerSpec TokenRuns StatusSpec Calls System Rounds WindowRuns.

(** ** The active window *)

(** None of the stored times of the window lies between [t1] and [t2]. *)
Definition no_edge (c : SveltosCluster) (t1 t2 : Time) : Prop :=
  (∀ u, NextUnpause (Status c) = Some u → ¬ t1 ≤ u ≤ t2) ∧
  (∀ p, NextPause (Status c) = Some p → ¬ t1 ≤ p ≤ t2).

Section Window.
Context `{Cron}.

(** The schedule of the window's beginning has a next activation at any time. *)
Definition recurs (w : ActiveWindow) : Prop :=
  ∀ sched t, cron_ParseStandard (From w) = Ok sched → t < Schedule_Next sched UTC t.

Context (w : ActiveWindow) (Hrecurs : recurs w).

#[local] Arguments calculateActiveWindowHash : simpl never.

(** A cluster outside of its window is paused. *)
Lemma handle_pauses c t :
  Spec_ActiveWindow (Spec c) = Some w →
  (∀ u p, hash_current c w = true → NextUnpause (Status c) = Some u →
     NextPause (Status c) = Some p → t < u ∨ p < t) →
  Paused (Spec (handleAutomaticPauseUnPause c t)) = true.
Proof.
  intros Hw Hout. destruct (hash_current c w) eqn:Hhash.
  2:{ by rewrite (handle_changed w c t Hw Hhash), recalculateWindow_Paused. }
  destruct (NextUnpause (Status c)) as [u|] eqn:Hu, (NextPause (Status c)) as [p|] eqn:Hp.
  1:{ rewrite (handle_known w c u p t Hw Hhash Hu Hp).
    specialize (Hout u p eq_refl eq_refl eq_refl).
    destruct (Z.lt_ge_cases t u).
    - by time_goal.
    - time_goal. rewrite andb_false_r. by rewrite recalculateWindow_Paused. }
  all: unfold hash_current in Hhash; unfold handleAutomaticPauseUnPause; rewrite Hw, Hhash;
    cbn [negb]; by rewrite Hu, ?Hp, recalculateWindow_Paused.
Qed.

Lemma getNextScheduleTime_later last now t :
  getNextScheduleTime (From w) last now = Ok t → now < t.
Proof.
  unfold getNextScheduleTime. repeat (case_match; try done). intros [= <-]. by apply Hrecurs.
Qed.

(** What a recalculation leaves of the two times. *)
Lemma recalculateNextUnpause_cases c now :
  match recalculateNextUnpause c w now with
  | (c1, Some _) => c1 = c
  | (c1, None) => ∃ u, NextUnpause (Status c1) = Some u ∧ now ≤ u
  end.
Proof.
  unfold recalculateNextUnpause, is_due.
  destruct (NextUnpause (Status c)) as [u|] eqn:Hu; [destruct (After now u) eqn:Hdue|].
  2:{ exists u. time_cases. by split. }
  all: destruct (getNextScheduleTime _ _ now) as [u'|] eqn:Hget; [|done];
    exists u'; apply getNextScheduleTime_later in Hget; split; [done|lia].
Qed.

Lemma recalculateWindow_times c h now (c' := recalculateWindow c w h now) :
  (∃ u, NextUnpause (Status c') = Some u ∧ now ≤ u) ∨ c' = c.
Proof.
  subst c'. unfold recalculateWindow. pose proof (recalculateNextUnpause_cases c now) as Hcases.
  destruct (recalculateNextUnpause c w now) as [c1 [err|]]; [by right|left].
  destruct Hcases as (u & Hu & Hlate). exists u. split; [|done]. rewrite <-Hu.
  unfold recalculateNextPause. repeat (case_match; simplify_eq); done.
Qed.

(** A recalculation of a paused cluster whose pause was due, or had no pair. *)
Lemma recalculateWindow_pauses c t1 t2 (c' := recalculateWindow c w
    (calculateActiveWindowHash (Some w)) t1) :
  Spec_ActiveWindow (Spec c) = Some w → t1 ≤ t2 →
  (∀ u p, NextUnpause (Status c) = Some u → NextPause (Status c) = Some p → p < t1) →
  no_edge c' t1 t2 → Paused (Spec (handleAutomaticPauseUnPause c' t2)) = true.
Proof.
  intros Hw Hle Hdue [Hedge _]. apply (handle_pauses c').
  { subst c'. by destruct (recalculateWindow_frame c w
      (calculateActiveWindowHash (Some w)) t1) as (? & ? & ? & ->). }
  intros u p _ Hu Hp. destruct (recalculateWindow_times c
    (calculateActiveWindowHash (Some w)) t1) as [(u' & Hu' & Hlate)|Hsame].
  - fold c' in Hu'. rewrite Hu in Hu'. injection Hu' as <-. specialize (Hedge u Hu). lia.
  - fold c' in Hsame. rewrite Hsame in Hu, Hp. right. specialize (Hdue u p Hu Hp). lia.
Qed.

Lemma recalculateWindow_keeps_pause c h now p :
  NextPause (Status c) = Some p → p = now →
  NextPause (Status (recalculateWindow c w h now)) = Some now.
Proof.
  intros Hp ->. assert (Hlate : After now now = false) by (apply After_false; lia).
  unfold recalculateWindow, recalculateNextUnpause, recalculateNextPause, is_due.
  repeat (case_match; simplify_eq; cbn in *; simplify_eq); congruence.
Qed.

Lemma handle_settles_known c u p t1 t2 (c1 := handleAutomaticPauseUnPause c t1) :
  Spec_ActiveWindow (Spec c) = Some w → hash_current c w = true →
  NextUnpause (Status c) = Some u → NextPause (Status c) = Some p →
  t1 ≤ t2 → no_edge c1 t1 t2 →
  Paused (Spec (handleAutomaticPauseUnPause c1 t2)) = Paused (Spec c1).
Proof.
  intros Hw Hhash Hu Hp Hle. subst c1. rewrite (handle_known w c u p t1 Hw Hhash Hu Hp).
  destruct (Z.lt_total u t1) as [Hu1|[Hu1|Hu1]], (Z.lt_total p t1) as [Hp1|[Hp1|Hp1]];
    time_goal; cbn [andb]; intros Hedge; pose proof Hedge as [Hedge_u Hedge_p].
  - rewrite recalculateWindow_Paused, (recalculateWindow_pauses _ t1 t2); try done.
    cbn. rewrite Hu, Hp. by intros ? ? [= <-] [= <-].
  - rewrite (recalculateWindow_keeps_pause _ _ _ p) in Hedge_p by done.
    by destruct (Hedge_p t1 eq_refl).
  - specialize (Hedge_u u Hu). specialize (Hedge_p p Hp).
    rewrite (handle_known w _ u p t2) by done. by time_goal.
  - rewrite recalculateWindow_Paused, (recalculateWindow_pauses _ t1 t2); try done.
    cbn. rewrite Hu, Hp. by intros ? ? [= <-] [= <-].
  - rewrite (recalculateWindow_keeps_pause _ _ _ p) in Hedge_p by done.
    by destruct (Hedge_p t1 eq_refl).
  - destruct (Hedge_u u Hu). lia.
  - specialize (Hedge_u u Hu).
    rewrite (handle_known w _ u p t2) by done. by time_goal.
  - destruct (Hedge_p p Hp). lia.
  - specialize (Hedge_u u Hu).
    rewrite (handle_known w _ u p t2) by done. by time_goal.
Qed.

(** Between two edges of the window the cluster stays as a call has left it. *)
Lemma handle_settles_window c t1 t2 (c1 := handleAutomaticPauseUnPause c t1) :
  Spec_ActiveWindow (Spec c) = Some w → t1 ≤ t2 → no_edge c1 t1 t2 →
  Paused (Spec (handleAutomaticPauseUnPause c1 t2)) = Paused (Spec c1).
Proof.
  intros Hw Hle Hedge. subst c1. destruct (hash_current c w) eqn:Hhash.
  2:{ rewrite (handle_changed w c t1 Hw Hhash) in *. rewrite recalculateWindow_Paused.
    by rewrite (recalculateWindow_pauses _ t1 t2). }
  destruct (NextUnpause (Status c)) as [u|] eqn:Hu, (NextPause (Status c)) as [p|] eqn:Hp.
  1:{ by apply (handle_settles_known c u p). }
  all: assert (Hcall : handleAutomaticPauseUnPause c t1 =
         recalculateWindow (c <| Spec; Paused := true |>) w
           (calculateActiveWindowHash (Some w)) t1)
       by (unfold hash_current in Hhash; unfold handleAutomaticPauseUnPause; rewrite Hw, Hhash;
           cbn [negb]; by rewrite Hu, ?Hp);
    rewrite Hcall in *; rewrite recalculateWindow_Paused;
    rewrite (recalculateWindow_pauses _ t1 t2); try done; cbn; rewrite Hu, ?Hp; by intros ? ? [=].
Qed.

End Window.

Lemma handle_settles `{Cron} c t1 t2 (c1 := handleAutomaticPauseUnPause c t1) :
  (∀ w, Spec_ActiveWindow (Spec c) = Some w → recurs w) → t1 ≤ t2 → no_edge c1 t1 t2 →
  Spec (handleAutomaticPauseUnPause c1 t2) = Spec c1.
Proof.
  intros Hrecurs Hle Hedge. subst c1.
  enough (Paused (Spec (handleAutomaticPauseUnPause (handleAutomaticPauseUnPause c t1) t2)) =
    Paused (Spec (handleAutomaticPauseUnPause c t1))) as Hpaused.
  { destruct (handle_frame (handleAutomaticPauseUnPause c t1) t2) as (b & u & p & h & Hframe).
    rewrite Hframe in Hpaused |- *. cbn in Hpaused |- *. rewrite Hpaused.
    by destruct (Spec (handleAutomaticPauseUnPause c t1)). }
  destruct (Spec_ActiveWindow (Spec c)) as [w|] eqn:Hw.
  - by apply (handle_settles_window w); [apply Hrecurs|..].
  - unfold handleAutomaticPauseUnPause at 2 3. rewrite Hw. unfold handleAutomaticPauseUnPause.
    cbn. by rewrite Hw.
Qed.

(** ** The rest of a reconciliation *)

Section Settle.
Context {W : Type} `{Gauge, Clock W, ClientSet W, ManagementClient W, ClusterProxy W,
  PullModeTransport W, Licenses W, Yaml, Semver, Names, Finalizer, Cron}.
Context `{!Dynamic W, !CEL W, !Lua W}.
Context (r : SveltosClusterReconciler) (ns name : string).
Context (stored : W → option SveltosCluster) (up : W → Prop).
Context (Hserves : serves r ns name stored up).

(** The Spec, and the rest of what decides when the token is renewed. *)
Definition P_spec (s : Recon W) := (Spec (cluster s), timing (cluster s)).

(** In an [up] world the token of a cluster with this timing is not due. *)
Definition idle (c : SveltosCluster) : Prop :=
  ∀ w, up w → (shouldRenewTokenRequest c w).1 = false.

Lemma idle_timing c c' : timing c = timing c' → idle c → idle c'.
Proof.
  intros Htiming Hc w Hw. rewrite <-(Hc w Hw). unfold timing in Htiming.
  injection Htiming as Hopt Hlast Hcreated. unfold shouldRenewTokenRequest, lastRenewal.
  by rewrite Hopt, Hlast, Hcreated.
Qed.

(** A state in which nothing is due, and steps that keep it. *)
Definition resting (x : SveltosClusterSpec * _) (s : Recon W) : Prop :=
  up (world s) ∧ idle (cluster s) ∧ P_spec s = x.

Definition rests {A} (m : St (Recon W) A) : Prop := ∀ x s, resting x s → resting x (m s).2.

Lemma rests_calm {A} (m : St (Recon W) A) : moves (calmly stored up) m → keeps P_spec m → rests m.
Proof.
  intros Hm Hk x s (Hup & Hidle & Hx). destruct (Hm s Hup) as [Hup' _]. specialize (Hk s).
  split; [done|]. split; [|congruence]. apply (idle_timing (cluster s)); [|done].
  exact (eq_sym (f_equal snd Hk)).
Qed.

Lemma rests_bind {A B} (m : St (Recon W) A) (f : A → St (Recon W) B) :
  rests m → (∀ a, rests (f a)) → rests (m ≫= f).
Proof.
  intros Hm Hf x s Hs. specialize (Hm x s Hs). unfold mbind, St_bind.
  destruct (m s) as [a s']. by apply Hf.
Qed.

Lemma rests_renew renew : rests (renew_if_due r renew).
Proof.
  intros x s (Hup & Hidle & Hx). unfold renew_if_due. run. specialize (Hidle (world s) Hup) as Hdue.
  destruct (along_should (calmly stored up) (serves_calls Hserves) (cluster s) _ Hup) as [Hup' _].
  by destruct (shouldRenewTokenRequest _ _) as [[] w].
Qed.

(** What may happen next to the renewal in a reconciliation keeps Spec and timing. *)
Lemma heartbeat_spec : keeps P_spec (check_heartbeat r).
Proof.
  unfold check_heartbeat, updateConnectionStatus, recordConnectionTransition, recordEventf,
    report_connection, update_cluster_metrics. keeps_tac.
  all: unfold P_spec, timing, connection_step; cbn; repeat case_match; done.
Qed.

Lemma check_spec config v : keeps P_spec (check_cluster config v).
Proof. unfold check_cluster, record_version, update_cluster_metrics. keeps_tac. Qed.

Lemma rests_pull : rests (reconcilePullModeCluster r).
Proof.
  pose proof (serves_calls Hserves) as Hcalls. unfold reconcilePullModeCluster.
  apply rests_bind; [|intros _; apply rests_bind; [|intros _; apply rests_bind;
    [apply rests_renew|intros _; apply rests_bind; [|intros _]]]]; apply rests_calm.
  - by apply (moves_same (calmly stored up)).
  - by unfold set_failure; keeps_tac.
  - apply (moves_license (calmly stored up)), Hcalls.
  - by apply updateLicenseAnnotations_keeps.
  - apply (moves_terminate (calmly stored up)), Hcalls.
  - by apply terminate_keeps.
  - apply (moves_heartbeat (calmly stored up)), Hcalls.
  - apply heartbeat_spec.
Qed.

Lemma rests_push : rests (reconcilePushModeCluster r).
Proof.
  pose proof (serves_calls Hserves) as Hcalls.
  assert (Hsettle : rests (updateConnectionStatus r)).
  { apply rests_calm; [apply (moves_connection (calmly stored up))|].
    unfold updateConnectionStatus, recordConnectionTransition, recordEventf. keeps_tac.
    all: unfold P_spec, timing, connection_step; cbn; repeat case_match; done. }
  assert (Hset : ∀ msg, rests (set_failure msg)).
  { intros msg. apply rests_calm;
      [by apply (moves_same (calmly stored up))|by unfold set_failure; keeps_tac]. }
  assert (Hout : ∀ A (m : St W A), along (calmly stored up) m → rests (outside m)).
  { intros A m Hm. apply rests_calm; [by apply moves_outside|keeps_tac]. }
  unfold reconcilePushModeCluster. apply rests_bind; [by intros x s|intros c].
  apply rests_bind; [apply Hout, Hcalls|intros [config|err]]; apply rests_bind;
    try intros _; try done.
  apply rests_bind; [apply Hout, Hcalls|intros version].
  apply rests_bind; [|intros _; apply rests_bind; [done|intros _]].
  - destruct version as [version|err]; [|done]. apply rests_bind; [apply rests_renew|intros _].
    apply rests_calm; [apply (moves_check (calmly stored up)), Hcalls|apply check_spec].
  - apply rests_calm; [apply (moves_report (calmly stored up))|].
    unfold report_connection, update_cluster_metrics. keeps_tac.
Qed.

(** A reconciliation in which no renewal is due changes nothing of the Spec but what
    the handler does. *)
Lemma normal_rests (s : Recon W) :
  up (world s) → idle (cluster s) →
  Spec (cluster (reconcileNormal r s).2) =
  Spec (cluster s) <| Paused :=
    Paused (Spec (handleAutomaticPauseUnPause (cluster s) (clock (world s)))) |>.
Proof.
  intros Hup Hidle.
  pose proof (reconcileNormal_window r s) as Hwindow.
  apply (f_equal (λ c, Paused (Spec c))) in Hwindow.
  cbn [Paused Spec only_window update] in Hwindow.
  rewrite <-handle_only_window in Hwindow.
  destruct (reconcileNormal_steps r s) as (s1 & now & s2 & _ & Hs1 & Hs2 & Hrun).
  assert (Hrest : resting (P_spec s) s1).
  { rewrite Hs1. apply (rests_calm (outside time_Now));
      [by apply moves_outside, (serves_calls Hserves)|keeps_tac|done]. }
  assert (Hspec : Spec (cluster s2) = Spec (cluster s)).
  { apply (f_equal (λ x : _ * _, x.1) (x := P_spec s2) (y := P_spec s)). rewrite Hs2.
    destruct (PullMode _); [by apply rests_pull|by apply rests_push]. }
  rewrite Hrun in Hwindow |- *. cbn [cluster update] in Hwindow |- *.
  destruct (handle_frame (cluster s2) now) as (b & u & p & h & Hframe).
  rewrite Hframe in Hwindow |- *. cbn in Hwindow |- *. rewrite Hwindow, Hspec. done.
Qed.

(** C8: the controller does not keep itself busy. Let a reconciliation of a live
    cluster have stored [c1], and another one follow after nothing but reports of the
    agent. If no token is due for renewal and no stored time of the window lies between
    the two, then the second one stores the Spec it found, so that its own update is not
    reconciled again. *)
Theorem reconciliation_settles (s : Recon W) (w : W) (c c1 : SveltosCluster)
  (report : option Time) (t1 := clock (world (begin r ns name s c)))
  (c2 := c1 <| Status; AgentLastReportTime := report |>)
  (s2 := (Reconcile r ns name s).2 <| world := w |>)
  (t2 := clock (world (begin r ns name s2 c2)))
  (Hrecurs : ∀ window, Spec_ActiveWindow (Spec c) = Some window → recurs window)
  (Hup : up (world s)) (Hc : stored (world s) = Some c)
  (Hlive : IsZero_ptr (DeletionTimestamp (Meta c)) = true)
  (Hc1 : stored (world (Reconcile r ns name s).2) = Some c1)
  (Hup2 : up w) (Hc2 : stored w = Some c2) (Hidle : idle c1)
  (Hle : t1 ≤ t2) (Hedge : no_edge c1 t1 t2) :
  ∃ c3, stored (world (Reconcile r ns name s2).2) = Some c3 ∧ Spec c3 = Spec c1 ∧
    SveltosClusterPredicates (UpdateEvent (Some c2) c3) = false.
Proof.
  destruct (round_serves r ns name stored up Hserves s c Hup Hc Hlive) as [_ Hround].
  rewrite Hc1 in Hround. injection Hround as Hround.
  assert (Hlive2 : IsZero_ptr (DeletionTimestamp (Meta c2)) = true).
  { subst c2. cbn. rewrite Hround, reconcileNormal_live. done. }
  destruct (round_serves r ns name stored up Hserves s2 c2 Hup2 Hc2 Hlive2) as [Hbegun Hround2].
  eexists. split; [exact Hround2|].
  pose proof (normal_rests (begin r ns name s2 c2) Hbegun Hidle) as Hspec.
  change (cluster (begin r ns name s2 c2)) with c2 in Hspec. fold t2 in Hspec.
  assert (Hwindow : only_window c2 = handleAutomaticPauseUnPause (only_window c) t1)
    by (change (only_window c2) with (only_window c1); by rewrite Hround, reconcileNormal_window).
  assert (Hpaused : Paused (Spec (handleAutomaticPauseUnPause c2 t2)) = Paused (Spec c2)).
  { change (Paused (Spec (only_window (handleAutomaticPauseUnPause c2 t2))) =
      Paused (Spec (only_window c2))).
    rewrite handle_only_window, Hwindow, handle_settles; [done|done|done|].
    by rewrite <-Hwindow. }
  rewrite Hpaused in Hspec.
  assert (Hsame : Spec (cluster (reconcileNormal r (begin r ns name s2 c2)).2) = Spec c2)
    by (rewrite Hspec; by destruct (Spec c2)).
  split; [done|]. unfold SveltosClusterPredicates, UpdateFunc. rewrite reconcileNormal_live.
  change (cluster (begin r ns name s2 c2)) with c2. rewrite Hlive2, Hsame. cbn [negb andb].
  by rewrite bool_decide_eq_false_2 by tauto.
Qed.

End Settle.

(** ** Two reconciliations of a noon *)

Section Server.
Import SimServer.
#[local] Existing Instance SimCron.cron.

Definition sim_night_later : SimWorld :=
  sim_world_at (sim_noon_utc + Hour)
    (sim_night_paused <| Status; AgentLastReportTime := Some sim_noon_utc |>).

Lemma sim_night_window :
  NextUnpause (Status sim_night_paused) = Some (SimCron.next SimCron.s20 (day_time sim_noon_utc)) ∧
  NextPause (Status sim_night_paused) = Some (SimCron.next SimCron.s7 (day_time sim_noon_utc)).
Proof.
  assert (Hwindow : only_window sim_night_paused =
    handleAutomaticPauseUnPause (only_window sim_night) (day_time sim_noon_utc))
    by (unfold sim_night_paused, sim_left; by rewrite reconcileNormal_window, sim_begins).
  rewrite (handle_first (H := SimCron.cron) SimCron.night SimCron.s20 SimCron.s7) in Hwindow;
    [|done|done|done|exact night_hash_not_current|apply sim_few_missed; sim_time..].
  split; [exact (f_equal (λ c, NextUnpause (Status c)) Hwindow)
         |exact (f_equal (λ c, NextPause (Status c)) Hwindow)].
Qed.

Lemma night_recurs : recurs SimCron.night.
Proof.
  intros sched t Hsched. assert (sched = SimCron.s20) as -> by by injection Hsched.
  by apply (SimCron.next_next_activation SimCron.s20).
Qed.

Lemma sim_night_no_edge :
  no_edge sim_night_paused (day_time sim_noon_utc) (day_time (sim_noon_utc + Hour)).
Proof.
  destruct sim_night_window as [Hunpause Hpause].
  split; intros t; rewrite ?Hunpause, ?Hpause; intros Ht%Some_inj; rewrite <-Ht;
    intros [_ Hle]; revert Hle; apply Z.lt_nge; vm_compute; reflexivity.
Qed.

Lemma sim_night_idle : idle sim_up sim_night_paused.
Proof.
  intros w _. unfold shouldRenewTokenRequest.
  assert (Hopt : Spec_TokenRequestRenewalOption (Spec sim_night_paused) = None); [|by rewrite Hopt].
  pose proof (reconcileNormal_fixed sim_r (sim_begin sim_night_recon sim_noon_utc sim_night))
    as Hfixed.
  apply (f_equal (λ x, Spec_TokenRequestRenewalOption x.1.2)) in Hfixed. cbn in Hfixed.
  by apply fmap_None in Hfixed.
Qed.

(** At noon the cluster is paused, and the next reconciliation leaves it so. *)
Lemma reconciliation_settles_witness :
  ∃ c3, stored (world (Reconcile sim_r "prod" "edge"
      (sim_night_second <| world := sim_night_later |>)).2) = Some c3 ∧
    Paused (Spec c3) = Paused (Spec sim_night_paused) ∧
    SveltosClusterPredicates (UpdateEvent (stored sim_night_later) c3) = false.
Proof.
  destruct (reconciliation_settles sim_r "prod" "edge" stored sim_up sim_up_serves
    (sim_night_recon <| world := sim_world_at sim_noon_utc sim_night |>) sim_night_later
    sim_night sim_night_paused (Some sim_noon_utc)) as (c3 & Hstored & Hspec & Hupdate).
  - intros window Hwindow%Some_inj. rewrite <-Hwindow. exact night_recurs.
  - done.
  - apply stored_set.
  - done.
  - by apply sim_stores.
  - done.
  - apply stored_set.
  - exact sim_night_idle.
  - vm_compute. congruence.
  - exact sim_night_no_edge.
  - exists c3. split; [exact Hstored|]. rewrite Hspec. split; [done|exact Hupdate].
Defined.

End Server.
